(** * Flight Record Store: a shallow embedding of the data-analysis module

    The development follows the Go sources of the operator station:
    - the main-database file of package data_analysis ([InitMainDatabase],
      [ImportFlightsFromDatabase], [DeleteFlight]): importer and deletion;
    - [data_analysis.go]: markers, full duplicate, trim and their handlers;
    - [statistics.go]: descriptive statistics and CSV header detection.

    SQL tables are lists of typed rows in insertion order, a transaction is a
    small state-and-error monad over the in-transaction view of the store, and
    every [Exec] asks a fault oracle whether the driver reports an error
    (constraint violation, I/O error).  The calls that only read or prepare
    ([Begin], [Prepare], [Query], [rows.Scan] of a non-NULL column) are taken
    to succeed: their error paths return before any further write, as the
    path of a failed [Exec] does.  float64 is Rocq's primitive binary64
    float, int64 is [Z] with its wrap-around written out. *)

From Stdlib Require Import ZArith List String Ascii Bool Lia Floats Permutation Sorted DecimalString.
From stdpp Require Import base option gmap strings.
Import ListNotations.

#[local] Open Scope string_scope.
#[local] Open Scope list_scope.
#[local] Open Scope Z_scope.

(* ===================================================================== *)
(** ** Machine integers and float64 conversion *)
(* ===================================================================== *)

Module Int64.

Definition modulus : Z := 2 ^ 64.
Definition min_signed : Z := - 2 ^ 63.
Definition max_signed : Z := 2 ^ 63 - 1.

(** Two's complement wrap-around of Go's int64 arithmetic. *)
Definition wrap (z : Z) : Z := (z + 2 ^ 63) mod modulus - 2 ^ 63.

Definition add (a b : Z) : Z := wrap (a + b).
Definition sub (a b : Z) : Z := wrap (a - b).

Definition in_range (z : Z) : Prop := min_signed <= z <= max_signed.

(** The real number denoted by a finite float, truncated toward zero. *)
Definition trunc (f : float) : option Z :=
  match Prim2SF f with
  | S754_zero _ => Some 0
  | S754_finite s m e =>
      let v := if 0 <=? e then Z.pos m * 2 ^ e else Z.pos m / 2 ^ (- e) in
      Some (if s then - v else v)
  | S754_infinity _ | S754_nan => None
  end.

(** Go's conversion [int64(f)].  Where the value does not fit (NaN, an
    infinity, magnitude of 2^63 or more) the language leaves the result to
    the implementation; the amd64 result (the integer indefinite value,
    [min_signed]) is taken here. *)
Definition of_float (f : float) : Z :=
  match trunc f with
  | Some z => if (min_signed <=? z) && (z <=? max_signed) then z else min_signed
  | None => min_signed
  end.

End Int64.

(* ===================================================================== *)
(** ** The relational store *)
(* ===================================================================== *)

(** A nullable SQL value, for the columns the code copies without looking
    at them ([sql.NullString], [sql.NullInt64], [sql.NullFloat64]). *)
Inductive SqlValue : Type :=
| VNull
| VInt (z : Z)
| VReal (f : float)
| VText (s : string).

(** [flight]: the key, the columns the code reads by name, and the
    seventeen remaining nullable columns ([description] ... [in_clouds]) in
    the order of the SELECT list.  [creation_time] is filled by its DEFAULT
    and never read: it is not represented. *)
Record FlightRow : Type := mkFlightRow {
  flight_id : Z;
  flight_title : option string;
  flight_number : option string;
  start_zulu_sim_time : string;
  end_zulu_sim_time : string;
  start_local_sim_time : string;
  end_local_sim_time : string;
  flight_cols : list SqlValue
}.

(** [aircraft]: [seq_nr] and [type] are NOT NULL; [aircraft_cols] holds
    [time_offset], [initial_airspeed], [altitude_above_ground] and
    [start_on_ground]. *)
Record AircraftRow : Type := mkAircraftRow {
  aircraft_id : Z;
  aircraft_flight_id : Z;
  seq_nr : Z;
  aircraft_type : string;
  tail_number : option string;
  airline : option string;
  aircraft_cols : list SqlValue
}.

(** The per-aircraft time series all have the key (aircraft_id, timestamp). *)
Inductive SeriesTable : Type :=
| position | attitude | engine
| handle | light | primary_flight_control | secondary_flight_control | waypoint.

Record SeriesRow : Type := mkSeriesRow {
  row_aircraft_id : Z;
  timestamp : Z;
  row_cols : list SqlValue
}.

(** [markers]: [type] is TEXT NOT NULL DEFAULT 'regular'. *)
Record MarkerRow : Type := mkMarkerRow {
  marker_id : Z;
  marker_flight_id : Z;
  time_seconds : float;
  label : string;
  marker_type : string;
  created_at : string
}.

(** The store: one list of rows per table, in insertion order.
    [markers_seq] is the AUTOINCREMENT counter of [markers]
    (sqlite_sequence); [now] is CURRENT_TIMESTAMP as the engine reports it. *)
Record DB : Type := mkDB {
  flight : list FlightRow;
  aircraft : list AircraftRow;
  position_rows : list SeriesRow;
  attitude_rows : list SeriesRow;
  engine_rows : list SeriesRow;
  handle_rows : list SeriesRow;
  light_rows : list SeriesRow;
  primary_flight_control_rows : list SeriesRow;
  secondary_flight_control_rows : list SeriesRow;
  waypoint_rows : list SeriesRow;
  markers : list MarkerRow;
  markers_seq : Z;
  now : string
}.

Definition series (db : DB) (t : SeriesTable) : list SeriesRow :=
  match t with
  | position => position_rows db
  | attitude => attitude_rows db
  | engine => engine_rows db
  | handle => handle_rows db
  | light => light_rows db
  | primary_flight_control => primary_flight_control_rows db
  | secondary_flight_control => secondary_flight_control_rows db
  | waypoint => waypoint_rows db
  end.

Definition set_flight (f : list FlightRow -> list FlightRow) (db : DB) : DB :=
  mkDB (f (flight db)) (aircraft db) (position_rows db) (attitude_rows db)
    (engine_rows db) (handle_rows db) (light_rows db)
    (primary_flight_control_rows db) (secondary_flight_control_rows db)
    (waypoint_rows db) (markers db) (markers_seq db) (now db).

Definition set_aircraft (f : list AircraftRow -> list AircraftRow) (db : DB) : DB :=
  mkDB (flight db) (f (aircraft db)) (position_rows db) (attitude_rows db)
    (engine_rows db) (handle_rows db) (light_rows db)
    (primary_flight_control_rows db) (secondary_flight_control_rows db)
    (waypoint_rows db) (markers db) (markers_seq db) (now db).

Definition set_series (t : SeriesTable) (f : list SeriesRow -> list SeriesRow) (db : DB) : DB :=
  let on (t' : SeriesTable) (rows : list SeriesRow) : list SeriesRow :=
    match t, t' with
    | position, position | attitude, attitude | engine, engine
    | handle, handle | light, light
    | primary_flight_control, primary_flight_control
    | secondary_flight_control, secondary_flight_control
    | waypoint, waypoint => f rows
    | _, _ => rows
    end in
  mkDB (flight db) (aircraft db)
    (on position (position_rows db)) (on attitude (attitude_rows db))
    (on engine (engine_rows db)) (on handle (handle_rows db))
    (on light (light_rows db))
    (on primary_flight_control (primary_flight_control_rows db))
    (on secondary_flight_control (secondary_flight_control_rows db))
    (on waypoint (waypoint_rows db))
    (markers db) (markers_seq db) (now db).

(** A write to [markers] also moves the AUTOINCREMENT counter. *)
Definition set_markers (f : list MarkerRow -> list MarkerRow) (seq : Z) (db : DB) : DB :=
  mkDB (flight db) (aircraft db) (position_rows db) (attitude_rows db)
    (engine_rows db) (handle_rows db) (light_rows db)
    (primary_flight_control_rows db) (secondary_flight_control_rows db)
    (waypoint_rows db) (f (markers db)) seq (now db).

(** *** Row identifiers *)

Definition max_list (l : list Z) : Z := fold_right Z.max 0 l.

(** The rowid SQLite gives a new row of an INTEGER PRIMARY KEY table: 1 in
    an empty table, otherwise one more than the largest in use.  (At the
    largest 64-bit rowid the engine draws random candidates; the model stops
    short of that.) *)
Definition next_rowid (ids : list Z) : Z :=
  match ids with
  | [] => 1
  | i :: rest => fold_right Z.max i rest + 1
  end.

(** With AUTOINCREMENT the new rowid also exceeds every rowid ever used. *)
Definition next_autoincrement (seq : Z) (ids : list Z) : Z :=
  Z.max seq (max_list ids) + 1.

(** *** ORDER BY *)

Fixpoint insert_sorted {A : Type} (le : A -> A -> bool) (x : A) (l : list A) : list A :=
  match l with
  | [] => [x]
  | y :: l' => if le x y then x :: l else y :: insert_sorted le x l'
  end.

(** A stable sort: rows with equal keys keep their table order. *)
Definition order_by {A : Type} (le : A -> A -> bool) (l : list A) : list A :=
  fold_right (insert_sorted le) [] l.

Definition by_timestamp (a b : SeriesRow) : bool := timestamp a <=? timestamp b.

Definition by_time_seconds (a b : MarkerRow) : bool :=
  PrimFloat.leb (time_seconds a) (time_seconds b).

Definition by_start_zulu_desc (a b : FlightRow) : bool :=
  String.leb (start_zulu_sim_time b) (start_zulu_sim_time a).

Definition by_seq_nr (a b : AircraftRow) : bool := seq_nr a <=? seq_nr b.

(** SELECT ... FROM aircraft WHERE flight_id = ?, a query the program
    writes without ORDER BY.  The engine answers it from the unique index
    aircraft_idx1 on (flight_id, seq_nr) of structure.sql: the aircraft of
    the flight come in the order of seq_nr, and rows with the same seq_nr
    (which the index excludes) in the order of the table. *)
Definition select_aircraft (flightID : Z) (db : DB) : list AircraftRow :=
  order_by by_seq_nr
    (List.filter (fun a => aircraft_flight_id a =? flightID) (aircraft db)).

(** SELECT MIN(col): NULL (here [None]) over no rows. *)
Definition min_of (l : list Z) : option Z :=
  match l with
  | [] => None
  | x :: rest => Some (fold_right Z.min x rest)
  end.

(* ===================================================================== *)
(** ** Errors and transactions *)
(* ===================================================================== *)

Inductive error : Type :=
| ErrNoRows                              (* sql.ErrNoRows *)
| ErrDriver (n : nat)                    (* the driver's error for statement n *)
| ErrScanNull                            (* converting NULL to int64 is unsupported *)
| ErrInvalidFlightID (id : Z)            (* "invalid flight ID: %d" *)
| ErrFlightNotFound (id : Z)             (* "flight with ID %d not found" *)
| ErrInvalidTrimMarkerType (t : string)  (* "invalid trim marker type: %s" *)
| ErrWrap (context : string) (e : error) (* fmt.Errorf("context: %w", err) *).

Inductive result (A : Type) : Type :=
| Ok (a : A)
| Err (e : error).
Arguments Ok {A} a.
Arguments Err {A} e.

(** The table a data-changing statement writes to. *)
Inductive Table : Type :=
| TFlight
| TAircraft
| TSeries (t : SeriesTable)
| TMarkers.

(** The in-transaction view of the store, the number of statements executed
    so far on the connection, and the tables they wrote to, oldest first. *)
Record TxState : Type := mkTxState {
  tx_db : DB;
  tx_n : nat;
  tx_log : list Table
}.

Definition tx_begin (mainDB : DB) : TxState := mkTxState mainDB 0 [].

(** A step of a transaction: an error ends it (the state is dropped: the
    deferred [tx.Rollback()] discards it). *)
Definition Tx (A : Type) : Type := TxState -> result (A * TxState).

Definition tx_ret {A : Type} (a : A) : Tx A := fun s => Ok (a, s).

Definition tx_bind {A B : Type} (m : Tx A) (f : A -> Tx B) : Tx B :=
  fun s => match m s with
           | Ok (a, s') => f a s'
           | Err e => Err e
           end.

Definition tx_fail {A : Type} (e : error) : Tx A := fun _ => Err e.

(** [fmt.Errorf("context: %w", err)] around a step. *)
Definition tx_wrap {A : Type} (context : string) (m : Tx A) : Tx A :=
  fun s => match m s with
           | Ok r => Ok r
           | Err e => Err (ErrWrap context e)
           end.

(** [tx.Query] / [tx.QueryRow]: reads the in-transaction view. *)
Definition tx_query {A : Type} (q : DB -> A) : Tx A := fun s => Ok (q (tx_db s), s).

Declare Scope tx_scope.
Delimit Scope tx_scope with tx.
Notation "'let*' x ':=' m 'in' k" := (tx_bind m (fun x => k))
  (at level 10, x name, m at level 100, k at level 200) : tx_scope.
Notation "m ;; k" := (tx_bind m (fun _ => k))
  (at level 100, k at level 200, right associativity) : tx_scope.

#[local] Open Scope tx_scope.

(** A loop [for rows.Next() { body }]. *)
Fixpoint tx_for {A : Type} (l : list A) (body : A -> Tx unit) : Tx unit :=
  match l with
  | [] => tx_ret tt
  | x :: l' => body x ;; tx_for l' body
  end.

Fixpoint tx_map {A B : Type} (l : list A) (body : A -> Tx B) : Tx (list B) :=
  match l with
  | [] => tx_ret []
  | x :: l' => let* y := body x in let* ys := tx_map l' body in tx_ret (y :: ys)
  end.

(** *** Statements *)

(** INSERT INTO flight (...): the new row takes the next rowid, which is
    what [result.LastInsertId()] returns. *)
Definition insert_flight (row : Z -> FlightRow) (db : DB) : Z * DB :=
  let id := next_rowid (map flight_id (flight db)) in
  (id, set_flight (fun rows => rows ++ [row id]) db).

Definition insert_aircraft (row : Z -> AircraftRow) (db : DB) : Z * DB :=
  let id := next_rowid (map aircraft_id (aircraft db)) in
  (id, set_aircraft (fun rows => rows ++ [row id]) db).

Definition insert_series (t : SeriesTable) (row : SeriesRow) (db : DB) : unit * DB :=
  (tt, set_series t (fun rows => rows ++ [row]) db).

(** What a column of REAL affinity keeps of a float64 written to it.  The
    engine stores a float without fractional part as an integer and
    converts it back when the column is read, so the negative zero comes
    back as +0.0; every other value comes back as it was written.  A value
    read from such a column is therefore never the negative zero, and
    writing it to such a column again leaves it as it is. *)
Definition real_column (f : float) : float :=
  if PrimFloat.eqb f 0 then 0%float else f.

(** INSERT INTO markers (...): AUTOINCREMENT key, created_at by DEFAULT. *)
Definition insert_marker (row : Z -> string -> MarkerRow) (db : DB) : Z * DB :=
  let id := next_autoincrement (markers_seq db) (map marker_id (markers db)) in
  (id, set_markers (fun rows => rows ++ [row id (now db)]) id db).

(** DELETE FROM t WHERE p: the rows affected and the remaining table. *)
Definition delete_where {A : Type} (p : A -> bool) (rows : list A) : Z * list A :=
  (Z.of_nat (length (List.filter p rows)), List.filter (fun r => negb (p r)) rows).

Definition select_series (t : SeriesTable) (aircraftID : Z) (db : DB) : list SeriesRow :=
  order_by by_timestamp
    (List.filter (fun r => row_aircraft_id r =? aircraftID) (series db t)).

(* ===================================================================== *)
(** ** The driver *)
(* ===================================================================== *)

(** What go-sqlite3 and database/sql make of a datetime on its way into a
    Go string.  The driver parses a TEXT value [s] of a column declared
    datetime as a time (the zero time when it does not parse) and
    [rows.Scan] into a string formats that time as RFC3339Nano:
    [datetime_text s] is the string received.  A string written to such a
    column is stored as it is, and ORDER BY compares the stored text. *)
Class Driver : Type := { datetime_text : string -> string }.

Section WithDriver.

Context {driver : Driver}.

(* ===================================================================== *)
(** ** Operations on the canonical store *)
(* ===================================================================== *)

(** [Flight], [Aircraft] and [Marker] of types.go. *)
Record Flight : Type := mkFlight {
  ID : Z;
  SourceID : Z;
  Title : string;
  FlightNumber : string;
  StartTime : string;
  EndTime : string
}.

Record Aircraft : Type := mkAircraft {
  Aircraft_ID : Z;
  Aircraft_FlightID : Z;
  Aircraft_SeqNr : Z;
  Aircraft_Type : string;
  Aircraft_TailNumber : string;
  Aircraft_Airline : string
}.

Record Marker : Type := mkMarker {
  Marker_ID : Z;
  Marker_FlightID : Z;
  Marker_Time : float;
  Marker_Label : string;
  Marker_Type : string;
  Marker_CreatedAt : string
}.

(** [sql.NullString.String]: the empty string when NULL. *)
Definition NullString_String (s : option string) : string :=
  match s with
  | Some v => v
  | None => ""
  end.

Section Store.

(** [faults n] says that the driver fails the [n]-th statement executed on
    the connection (counted from 0 within one operation). *)
Variable faults : nat -> bool.

(** [tx.Exec] / [stmt.Exec] / [mainDB.Exec]. *)
Definition tx_exec {A : Type} (table : Table) (stmt : DB -> A * DB) : Tx A :=
  fun s =>
    if faults (tx_n s) then Err (ErrDriver (tx_n s))
    else let (a, db') := stmt (tx_db s) in
         Ok (a, mkTxState db' (S (tx_n s)) (tx_log s ++ [table])).

(** [mainDB.Begin()] ... [defer tx.Rollback()] ... [tx.Commit()]: the store
    takes the transaction's view only when the body and the commit succeed;
    on every other path it is left as it was. *)
Definition transaction {A : Type} (commit_context : string) (body : Tx A)
    (mainDB : DB) : result A * DB :=
  match body (tx_begin mainDB) with
  | Err e => (Err e, mainDB)
  | Ok (a, s) =>
      if faults (tx_n s)
      then (Err (ErrWrap commit_context (ErrDriver (tx_n s))), mainDB)
      else (Ok a, tx_db s)
  end.

(** A statement on [mainDB] outside any transaction (autocommit). *)
Definition autocommit {A : Type} (body : Tx A) (mainDB : DB) : result A * DB :=
  match body (tx_begin mainDB) with
  | Err e => (Err e, mainDB)
  | Ok (a, s) => (Ok a, tx_db s)
  end.

(* --------------------------------------------------------------------- *)
(** *** Importer *)
(* --------------------------------------------------------------------- *)

(** One turn of the loop of [importFlights].  The four times are scanned
    into Go strings, and it is those strings that are inserted and
    reported. *)
Definition import_flight_row (r : FlightRow) : Tx Flight :=
  let startZulu := datetime_text (start_zulu_sim_time r) in
  let endZulu := datetime_text (end_zulu_sim_time r) in
  let startLocal := datetime_text (start_local_sim_time r) in
  let endLocal := datetime_text (end_local_sim_time r) in
  let* newID := tx_exec TFlight (insert_flight (fun id =>
    mkFlightRow id (flight_title r) (flight_number r)
      startZulu endZulu startLocal endLocal (flight_cols r))) in
  let title := NullString_String (flight_title r) in
  let flightNumber := NullString_String (flight_number r) in
  tx_ret (mkFlight newID (flight_id r)
            (if String.eqb title "" then "Untitled" else title)
            (if String.eqb flightNumber "" then "No Number" else flightNumber)
            startZulu endZulu).

Definition importFlights (sourceDB : DB) : Tx (list Flight) :=
  tx_map (order_by by_start_zulu_desc (flight sourceDB)) import_flight_row.

(** The foreign [position] table has six data columns; the canonical one
    has [indicated_airspeed] after them, which the INSERT leaves NULL. *)
Definition importPositionData (sourceDB : DB) (sourceAircraftID newAircraftID : Z) : Tx unit :=
  tx_for (select_series position sourceAircraftID sourceDB) (fun r =>
    tx_exec (TSeries position) (insert_series position
      (mkSeriesRow newAircraftID (timestamp r) (firstn 6 (row_cols r) ++ [VNull])))).

Definition importAttitudeData (sourceDB : DB) (sourceAircraftID newAircraftID : Z) : Tx unit :=
  tx_for (select_series attitude sourceAircraftID sourceDB) (fun r =>
    tx_exec (TSeries attitude) (insert_series attitude
      (mkSeriesRow newAircraftID (timestamp r) (row_cols r)))).

Definition importEngineData (sourceDB : DB) (sourceAircraftID newAircraftID : Z) : Tx unit :=
  tx_for (select_series engine sourceAircraftID sourceDB) (fun r =>
    tx_exec (TSeries engine) (insert_series engine
      (mkSeriesRow newAircraftID (timestamp r) (row_cols r)))).

(** One turn of the loop of [importAircraftForFlight]. *)
Definition import_aircraft_row (sourceDB : DB) (newFlightID : Z) (a : AircraftRow) : Tx unit :=
  let* newAircraftID := tx_exec TAircraft (insert_aircraft (fun id =>
    mkAircraftRow id newFlightID (seq_nr a) (aircraft_type a)
      (tail_number a) (airline a) (aircraft_cols a))) in
  tx_wrap "failed to import position data"
    (importPositionData sourceDB (aircraft_id a) newAircraftID) ;;
  tx_wrap "failed to import attitude data"
    (importAttitudeData sourceDB (aircraft_id a) newAircraftID) ;;
  tx_wrap "failed to import engine data"
    (importEngineData sourceDB (aircraft_id a) newAircraftID).

Definition importAircraftForFlight (sourceDB : DB) (sourceFlightID newFlightID : Z) : Tx unit :=
  tx_for (select_aircraft sourceFlightID sourceDB)
    (import_aircraft_row sourceDB newFlightID).

(** The body of [ImportFlightsFromDatabase] between Begin and Commit.  The
    source has passed [verifyDatabaseSchema]: it is a store with the five
    required tables. *)
Definition import_body (sourceDB : DB) : Tx (list Flight) :=
  let* flights := tx_wrap "failed to import flights" (importFlights sourceDB) in
  tx_for flights (fun f =>
    tx_wrap "failed to import aircraft for flight"
      (importAircraftForFlight sourceDB (SourceID f) (ID f))) ;;
  tx_ret flights.

Definition ImportFlightsFromDatabase (sourceDB mainDB : DB) : result (list Flight) * DB :=
  transaction "failed to commit transaction" (import_body sourceDB) mainDB.

(* --------------------------------------------------------------------- *)
(** *** DeleteFlight *)
(* --------------------------------------------------------------------- *)

Definition getAircraftIDsForFlight (flightID : Z) : Tx (list Z) :=
  tx_query (fun db => map aircraft_id (select_aircraft flightID db)).

(** DELETE FROM <t> WHERE aircraft_id = ? *)
Definition delete_series (t : SeriesTable) (aircraftID : Z) (db : DB) : Z * DB :=
  let (n, rows) := delete_where (fun r => row_aircraft_id r =? aircraftID) (series db t) in
  (n, set_series t (fun _ => rows) db).

(** DELETE FROM markers WHERE flight_id = ? *)
Definition delete_markers (flightID : Z) (db : DB) : Z * DB :=
  let (n, rows) := delete_where (fun m => marker_flight_id m =? flightID) (markers db) in
  (n, set_markers (fun _ => rows) (markers_seq db) db).

(** DELETE FROM aircraft WHERE flight_id = ? *)
Definition delete_aircraft (flightID : Z) (db : DB) : Z * DB :=
  let (n, rows) := delete_where (fun a => aircraft_flight_id a =? flightID) (aircraft db) in
  (n, set_aircraft (fun _ => rows) db).

(** DELETE FROM flight WHERE id = ? *)
Definition delete_flight (flightID : Z) (db : DB) : Z * DB :=
  let (n, rows) := delete_where (fun f => flight_id f =? flightID) (flight db) in
  (n, set_flight (fun _ => rows) db).

Definition delete_aircraft_data (aircraftID : Z) : Tx unit :=
  tx_wrap "failed to delete position data for aircraft"
    (tx_exec (TSeries position) (delete_series position aircraftID)) ;;
  tx_wrap "failed to delete attitude data for aircraft"
    (tx_exec (TSeries attitude) (delete_series attitude aircraftID)) ;;
  tx_wrap "failed to delete engine data for aircraft"
    (tx_exec (TSeries engine) (delete_series engine aircraftID)) ;;
  tx_wrap "failed to delete handle data for aircraft"
    (tx_exec (TSeries handle) (delete_series handle aircraftID)) ;;
  tx_wrap "failed to delete light data for aircraft"
    (tx_exec (TSeries light) (delete_series light aircraftID)) ;;
  tx_wrap "failed to delete primary flight control data for aircraft"
    (tx_exec (TSeries primary_flight_control)
       (delete_series primary_flight_control aircraftID)) ;;
  tx_wrap "failed to delete secondary flight control data for aircraft"
    (tx_exec (TSeries secondary_flight_control)
       (delete_series secondary_flight_control aircraftID)) ;;
  tx_wrap "failed to delete waypoint data for aircraft"
    (tx_exec (TSeries waypoint) (delete_series waypoint aircraftID)) ;;
  tx_ret tt.

(** The body of [DeleteFlight] between Begin and Commit. *)
Definition delete_body (flightID : Z) : Tx unit :=
  let* aircraftIDs :=
    tx_wrap "failed to get aircraft IDs" (getAircraftIDsForFlight flightID) in
  tx_for aircraftIDs delete_aircraft_data ;;
  tx_wrap "failed to delete markers for flight"
    (tx_exec TMarkers (delete_markers flightID)) ;;
  tx_wrap "failed to delete aircraft for flight"
    (tx_exec TAircraft (delete_aircraft flightID)) ;;
  let* rowsAffected :=
    tx_wrap "failed to delete flight" (tx_exec TFlight (delete_flight flightID)) in
  if rowsAffected =? 0 then tx_fail (ErrFlightNotFound flightID) else tx_ret tt.

Definition DeleteFlight (flightID : Z) (mainDB : DB) : result unit * DB :=
  if flightID <=? 0 then (Err (ErrInvalidFlightID flightID), mainDB)
  else transaction "failed to commit deletion transaction" (delete_body flightID) mainDB.

(* --------------------------------------------------------------------- *)
(** *** Markers (data_analysis.go) *)
(* --------------------------------------------------------------------- *)

(** A row of [markers] scanned into a [Marker]: [created_at] is a
    datetime column. *)
Definition marker_of_row (m : MarkerRow) : Marker :=
  mkMarker (marker_id m) (marker_flight_id m) (time_seconds m) (label m)
    (marker_type m) (datetime_text (created_at m)).

Definition getMarkersForFlight (flightID : Z) (mainDB : DB) : result (list Marker) :=
  Ok (map marker_of_row
        (order_by by_time_seconds
           (List.filter (fun m => marker_flight_id m =? flightID) (markers mainDB)))).

Definition createMarker (marker : Marker) (mainDB : DB) : result Marker * DB :=
  let type := if String.eqb (Marker_Type marker) "" then "regular" else Marker_Type marker in
  autocommit
    (let* id := tx_exec TMarkers (insert_marker (fun id created =>
        mkMarkerRow id (Marker_FlightID marker) (real_column (Marker_Time marker))
          (Marker_Label marker) type created)) in
     tx_ret (mkMarker id (Marker_FlightID marker) (Marker_Time marker)
               (Marker_Label marker) type ""))
    mainDB.

Definition deleteMarker (markerID : Z) (mainDB : DB) : result unit * DB :=
  autocommit
    (tx_exec TMarkers (fun db =>
       (tt, set_markers (List.filter (fun m => negb (marker_id m =? markerID)))
              (markers_seq db) db)))
    mainDB.

(** [QueryRow(...).Scan(...)]: the first matching row, [sql.ErrNoRows] if
    there is none. *)
Definition getTrimMarker (flightID : Z) (markerType : string) (mainDB : DB) : result Marker :=
  match List.filter
          (fun m => (marker_flight_id m =? flightID) && String.eqb (marker_type m) markerType)
          (markers mainDB) with
  | [] => Err ErrNoRows
  | m :: _ => Ok (marker_of_row m)
  end.

(** UPDATE markers SET time_seconds = ?, label = ? WHERE id = ? *)
Definition update_marker (id : Z) (time : float) (lbl : string) (db : DB) : unit * DB :=
  (tt, set_markers
         (map (fun m => if marker_id m =? id
                        then mkMarkerRow (marker_id m) (marker_flight_id m)
                               (real_column time) lbl
                               (marker_type m) (created_at m)
                        else m)) (markers_seq db) db).

Definition createOrUpdateTrimMarker (flightID : Z) (markerType : string) (time : float)
    (lbl : string) (mainDB : DB) : result Marker * DB :=
  if negb (String.eqb markerType "trim_start") && negb (String.eqb markerType "trim_end")
  then (Err (ErrInvalidTrimMarkerType markerType), mainDB)
  else
    match getTrimMarker flightID markerType mainDB with
    | Ok existingMarker =>
        autocommit
          (tx_exec TMarkers (update_marker (Marker_ID existingMarker) time lbl) ;;
           tx_ret (mkMarker (Marker_ID existingMarker) (Marker_FlightID existingMarker)
                     time lbl (Marker_Type existingMarker)
                     (Marker_CreatedAt existingMarker)))
          mainDB
    | Err ErrNoRows =>
        createMarker (mkMarker 0 flightID time lbl markerType "") mainDB
    | Err e => (Err e, mainDB)
    end.

(** DELETE FROM markers WHERE flight_id = ? AND type IN ('trim_start', 'trim_end') *)
Definition deleteTrimMarkers (flightID : Z) (mainDB : DB) : result unit * DB :=
  autocommit
    (tx_exec TMarkers (fun db =>
       (tt, set_markers
              (List.filter (fun m =>
                 negb ((marker_flight_id m =? flightID)
                       && (String.eqb (marker_type m) "trim_start"
                           || String.eqb (marker_type m) "trim_end"))))
              (markers_seq db) db)))
    mainDB.

(** HTTP status codes. *)
Definition StatusOK : Z := 200.
Definition StatusBadRequest : Z := 400.
Definition StatusNotFound : Z := 404.
Definition StatusMethodNotAllowed : Z := 405.
Definition StatusConflict : Z := 409.
Definition StatusInternalServerError : Z := 500.

(** POST /data-analysis/markers.  [body] is the decoded JSON object, [None]
    when decoding fails; a missing field has Go's zero value. *)
Definition handleCreateMarker (body : option Marker) (mainDB : DB) : Z * DB :=
  match body with
  | None => (StatusBadRequest, mainDB)
  | Some marker =>
      if (Marker_FlightID marker =? 0) || String.eqb (Marker_Label marker) ""
      then (StatusBadRequest, mainDB)
      else
        match createMarker marker mainDB with
        | (Err _, db) => (StatusInternalServerError, db)
        | (Ok _, db) => (StatusOK, db)
        end
  end.

(** POST /data-analysis/trim-markers. *)
Record TrimMarkerRequest : Type := mkTrimMarkerRequest {
  tm_FlightID : Z;
  tm_Type : string;
  tm_Time : float;
  tm_Label : string
}.

Definition handleCreateTrimMarker (body : option TrimMarkerRequest) (mainDB : DB) : Z * DB :=
  match body with
  | None => (StatusBadRequest, mainDB)
  | Some request =>
      if (tm_FlightID request =? 0) || String.eqb (tm_Type request) ""
      then (StatusBadRequest, mainDB)
      else
        match createOrUpdateTrimMarker (tm_FlightID request) (tm_Type request)
                (tm_Time request) (tm_Label request) mainDB with
        | (Err _, db) => (StatusInternalServerError, db)
        | (Ok _, db) => (StatusOK, db)
        end
  end.

(* --------------------------------------------------------------------- *)
(** *** Full duplicate (data_analysis.go) *)
(* --------------------------------------------------------------------- *)

(** SELECT COUNT( * ) FROM flight WHERE title = ?  (BINARY collation: an
    exact, case-sensitive match; a NULL title matches nothing).  The query
    runs outside a transaction and is taken to succeed: the error that the
    source passes on when the driver fails it is not a result here. *)
Definition flightTitleExists (title : string) (mainDB : DB) : result bool :=
  let count :=
    Z.of_nat (length (List.filter
      (fun f => match flight_title f with
                | Some t => String.eqb t title
                | None => false
                end) (flight mainDB))) in
  Ok (0 <? count).

(** Reads [mainDB], not the open transaction: the committed store. *)
Definition getAircraftByFlightIDFromMainDB (flightID : Z) (mainDB : DB) : result (list Aircraft) :=
  Ok (map (fun a => mkAircraft (aircraft_id a) (aircraft_flight_id a) (seq_nr a)
                      (aircraft_type a) (NullString_String (tail_number a))
                      (NullString_String (airline a)))
        (select_aircraft flightID mainDB)).

Definition tx_lift {A : Type} (r : result A) : Tx A :=
  fun s => match r with
           | Ok a => Ok (a, s)
           | Err e => Err e
           end.

(** The four times of the original are scanned into Go strings, and it is
    those strings that are inserted. *)
Definition duplicateFlightRecord (originalFlightID : Z) (newTitle : string) : Tx Z :=
  let* original := tx_query (fun db =>
    List.find (fun f => flight_id f =? originalFlightID) (flight db)) in
  match original with
  | None => tx_fail ErrNoRows
  | Some r =>
      tx_exec TFlight (insert_flight (fun id =>
        mkFlightRow id (Some newTitle) (flight_number r)
          (datetime_text (start_zulu_sim_time r)) (datetime_text (end_zulu_sim_time r))
          (datetime_text (start_local_sim_time r)) (datetime_text (end_local_sim_time r))
          (flight_cols r)))
  end.

Definition duplicateAircraftRecord (ac : Aircraft) (newFlightID : Z) : Tx Z :=
  let* original := tx_query (fun db =>
    List.find (fun a => aircraft_id a =? Aircraft_ID ac) (aircraft db)) in
  match original with
  | None => tx_fail ErrNoRows
  | Some a =>
      tx_exec TAircraft (insert_aircraft (fun id =>
        mkAircraftRow id newFlightID (seq_nr a) (aircraft_type a)
          (tail_number a) (airline a) (aircraft_cols a)))
  end.

(** [duplicatePositionData], [duplicateAttitudeData], [duplicateEngineData]
    differ only in the table and its column list, all of which they copy. *)
Definition duplicateSeriesData (t : SeriesTable) (originalAircraftID newAircraftID : Z) : Tx unit :=
  let* rows := tx_query (select_series t originalAircraftID) in
  tx_for rows (fun r =>
    tx_exec (TSeries t) (insert_series t
      (mkSeriesRow newAircraftID (timestamp r) (row_cols r)))).

Definition duplicatePositionData := duplicateSeriesData position.
Definition duplicateAttitudeData := duplicateSeriesData attitude.
Definition duplicateEngineData := duplicateSeriesData engine.

(** The INSERT names flight_id, time_seconds and label only: [type] takes
    the column's DEFAULT 'regular'.  The time written is the one read from
    the same column of the original, a value that the column holds and so
    keeps. *)
Definition duplicateMarkers (originalFlightID newFlightID : Z) : Tx unit :=
  let* rows := tx_query (fun db =>
    order_by by_time_seconds
      (List.filter (fun m => marker_flight_id m =? originalFlightID) (markers db))) in
  tx_for rows (fun m =>
    tx_exec TMarkers (insert_marker (fun id created =>
      mkMarkerRow id newFlightID (time_seconds m) (label m) "regular" created)) ;;
    tx_ret tt).

(** One turn of the loop over the aircraft in [duplicateFlight]. *)
Definition duplicate_aircraft (newFlightID : Z) (ac : Aircraft) : Tx unit :=
  let* newAircraftID :=
    tx_wrap "failed to duplicate aircraft" (duplicateAircraftRecord ac newFlightID) in
  tx_wrap "failed to duplicate position data for aircraft"
    (duplicatePositionData (Aircraft_ID ac) newAircraftID) ;;
  tx_wrap "failed to duplicate attitude data for aircraft"
    (duplicateAttitudeData (Aircraft_ID ac) newAircraftID) ;;
  tx_wrap "failed to duplicate engine data for aircraft"
    (duplicateEngineData (Aircraft_ID ac) newAircraftID).

Definition duplicate_body (mainDB : DB) (originalFlightID : Z) (newTitle : string) : Tx Z :=
  let* newFlightID :=
    tx_wrap "failed to duplicate flight record"
      (duplicateFlightRecord originalFlightID newTitle) in
  let* aircraft :=
    tx_wrap "failed to get aircraft"
      (tx_lift (getAircraftByFlightIDFromMainDB originalFlightID mainDB)) in
  tx_for aircraft (duplicate_aircraft newFlightID) ;;
  tx_wrap "failed to duplicate markers" (duplicateMarkers originalFlightID newFlightID) ;;
  tx_ret newFlightID.

Definition duplicateFlight (originalFlightID : Z) (newTitle : string) (mainDB : DB)
    : result Z * DB :=
  transaction "failed to commit transaction"
    (duplicate_body mainDB originalFlightID newTitle) mainDB.

Record DuplicateRequest : Type := mkDuplicateRequest {
  dup_FlightID : Z;
  dup_NewTitle : string
}.

Definition handleDuplicateFlight (method : string) (body : option DuplicateRequest)
    (mainDB : DB) : Z * DB :=
  if negb (String.eqb method "POST") then (StatusMethodNotAllowed, mainDB)
  else
    match body with
    | None => (StatusBadRequest, mainDB)
    | Some request =>
        if (dup_FlightID request =? 0) || String.eqb (dup_NewTitle request) ""
        then (StatusBadRequest, mainDB)
        else
          match flightTitleExists (dup_NewTitle request) mainDB with
          | Err _ => (StatusInternalServerError, mainDB)
          | Ok true => (StatusConflict, mainDB)
          | Ok false =>
              match duplicateFlight (dup_FlightID request) (dup_NewTitle request) mainDB with
              | (Err _, db) => (StatusInternalServerError, db)
              | (Ok _, db) => (StatusOK, db)
              end
          end
    end.

(* --------------------------------------------------------------------- *)
(** *** Trim (data_analysis.go) *)
(* --------------------------------------------------------------------- *)

(** [duplicatePositionDataTrimmed], [duplicateAttitudeDataTrimmed] and
    [duplicateEngineDataTrimmed], which differ only in the table.  MIN over
    no rows is NULL, and scanning NULL into an int64 is an error other than
    [sql.ErrNoRows]: it is returned. *)
Definition duplicateSeriesDataTrimmed (t : SeriesTable) (originalAircraftID newAircraftID : Z)
    (startTime endTime : float) : Tx unit :=
  let* minimum := tx_query (fun db =>
    min_of (map timestamp
      (List.filter (fun r => row_aircraft_id r =? originalAircraftID) (series db t)))) in
  match minimum with
  | None => tx_fail ErrScanNull
  | Some minTimestamp =>
      let startTimestamp :=
        Int64.add minTimestamp (Int64.of_float (PrimFloat.mul startTime 1000)) in
      let endTimestamp :=
        Int64.add minTimestamp (Int64.of_float (PrimFloat.mul endTime 1000)) in
      let* rows := tx_query (fun db =>
        order_by by_timestamp
          (List.filter (fun r => (row_aircraft_id r =? originalAircraftID)
                                 && (startTimestamp <=? timestamp r)
                                 && (timestamp r <=? endTimestamp))
             (series db t))) in
      tx_for rows (fun r =>
        let adjustedTimestamp :=
          Int64.add minTimestamp (Int64.sub (timestamp r) startTimestamp) in
        tx_exec (TSeries t) (insert_series t
          (mkSeriesRow newAircraftID adjustedTimestamp (row_cols r))))
  end.

Definition duplicatePositionDataTrimmed := duplicateSeriesDataTrimmed position.
Definition duplicateAttitudeDataTrimmed := duplicateSeriesDataTrimmed attitude.
Definition duplicateEngineDataTrimmed := duplicateSeriesDataTrimmed engine.

Definition duplicateMarkersTrimmed (originalFlightID newFlightID : Z)
    (startTime endTime : float) : Tx unit :=
  let* rows := tx_query (fun db =>
    order_by by_time_seconds
      (List.filter (fun m => (marker_flight_id m =? originalFlightID)
                             && PrimFloat.leb startTime (time_seconds m)
                             && PrimFloat.leb (time_seconds m) endTime)
         (markers db))) in
  tx_for rows (fun m =>
    let adjustedTime := PrimFloat.sub (time_seconds m) startTime in
    tx_exec TMarkers (insert_marker (fun id created =>
      mkMarkerRow id newFlightID (real_column adjustedTime) (label m) (marker_type m)
        created)) ;;
    tx_ret tt).

(** One turn of the loop over the aircraft in [trimFlight]. *)
Definition trim_aircraft (newFlightID : Z) (startTime endTime : float) (ac : Aircraft)
    : Tx unit :=
  let* newAircraftID :=
    tx_wrap "failed to duplicate aircraft" (duplicateAircraftRecord ac newFlightID) in
  tx_wrap "failed to duplicate position data for aircraft"
    (duplicatePositionDataTrimmed (Aircraft_ID ac) newAircraftID startTime endTime) ;;
  tx_wrap "failed to duplicate attitude data for aircraft"
    (duplicateAttitudeDataTrimmed (Aircraft_ID ac) newAircraftID startTime endTime) ;;
  tx_wrap "failed to duplicate engine data for aircraft"
    (duplicateEngineDataTrimmed (Aircraft_ID ac) newAircraftID startTime endTime).

Definition trim_body (mainDB : DB) (originalFlightID : Z) (newTitle : string)
    (startTime endTime : float) : Tx Z :=
  let* newFlightID :=
    tx_wrap "failed to duplicate flight record"
      (duplicateFlightRecord originalFlightID newTitle) in
  let* aircraft :=
    tx_wrap "failed to get aircraft"
      (tx_lift (getAircraftByFlightIDFromMainDB originalFlightID mainDB)) in
  tx_for aircraft (trim_aircraft newFlightID startTime endTime) ;;
  tx_wrap "failed to duplicate markers"
    (duplicateMarkersTrimmed originalFlightID newFlightID startTime endTime) ;;
  tx_ret newFlightID.

Definition trimFlight (originalFlightID : Z) (newTitle : string) (startTime endTime : float)
    (mainDB : DB) : result Z * DB :=
  transaction "failed to commit transaction"
    (trim_body mainDB originalFlightID newTitle startTime endTime) mainDB.

Record TrimRequest : Type := mkTrimRequest {
  trim_FlightID : Z;
  trim_NewTitle : string;
  trim_StartTime : float;
  trim_EndTime : float
}.

Definition handleTrimFlight (method : string) (body : option TrimRequest) (mainDB : DB)
    : Z * DB :=
  if negb (String.eqb method "POST") then (StatusMethodNotAllowed, mainDB)
  else
    match body with
    | None => (StatusBadRequest, mainDB)
    | Some request =>
        if (trim_FlightID request =? 0) || String.eqb (trim_NewTitle request) ""
        then (StatusBadRequest, mainDB)
        else if PrimFloat.leb (trim_EndTime request) (trim_StartTime request)
        then (StatusBadRequest, mainDB)
        else if PrimFloat.ltb (PrimFloat.sub (trim_EndTime request) (trim_StartTime request)) 1
        then (StatusBadRequest, mainDB)
        else
          match flightTitleExists (trim_NewTitle request) mainDB with
          | Err _ => (StatusInternalServerError, mainDB)
          | Ok true => (StatusConflict, mainDB)
          | Ok false =>
              match trimFlight (trim_FlightID request) (trim_NewTitle request)
                      (trim_StartTime request) (trim_EndTime request) mainDB with
              | (Err _, db) => (StatusInternalServerError, db)
              | (Ok _, db) => (StatusOK, db)
              end
          end
    end.

End Store.

(* ===================================================================== *)
(** ** Statistics (statistics.go) *)
(* ===================================================================== *)

Record PositionPoint : Type := mkPositionPoint {
  Timestamp : Z;
  TimestampSeconds : float;
  Altitude : float;
  Latitude : float;
  Longitude : float;
  IndicatedAltitude : float;
  PressureAltitude : float;
  Airspeed : float
}.

Record DataStatistics : Type := mkDataStatistics {
  Count : Z;
  Mean : float;
  Variance : float;
  StdDev : float;
  Min : float;
  Max : float;
  Range : float;
  Median : float
}.

(** A nil pointer is [None]. *)
Record FlightStatistics : Type := mkFlightStatistics {
  AirspeedStats : option DataStatistics;
  IndicatedAltitudeStats : option DataStatistics;
  AltitudeStats : option DataStatistics;
  PressureAltitudeStats : option DataStatistics
}.

(** Slices of float64, indexed by Go ints.  Every index the callers below
    use is in range; out of range (a panic in Go) reads give 0 and writes
    do nothing. *)
Definition at_index (arr : list float) (i : Z) : float :=
  nth (Z.to_nat i) arr 0%float.

Definition set_index (arr : list float) (i : Z) (v : float) : list float :=
  <[Z.to_nat i := v]> arr.

(** [arr[i], arr[j] = arr[j], arr[i]] *)
Definition swap (arr : list float) (i j : Z) : list float :=
  let x := at_index arr i in
  let y := at_index arr j in
  set_index (set_index arr i y) j x.

(** The loop [for j := low; j < high; j++] of [partition], with [n]
    iterations left. *)
Fixpoint partition_loop (n : nat) (pivot : float) (arr : list float) (i j : Z)
    : list float * Z :=
  match n with
  | O => (arr, i)
  | S n' =>
      if PrimFloat.ltb (at_index arr j) pivot
      then partition_loop n' pivot (swap arr (i + 1) j) (i + 1) (j + 1)
      else partition_loop n' pivot arr i (j + 1)
  end.

Definition partition (arr : list float) (low high : Z) : list float * Z :=
  let pivot := at_index arr high in
  let (arr', i) := partition_loop (Z.to_nat (high - low)) pivot arr (low - 1) low in
  (swap arr' (i + 1) high, i + 1).

(** [quickSort] recurses on strictly shorter ranges; [fuel] bounds the
    depth and the length of the range is always enough. *)
Fixpoint quickSort_rec (fuel : nat) (arr : list float) (low high : Z) : list float :=
  match fuel with
  | O => arr
  | S fuel' =>
      if low <? high
      then let (arr1, pi) := partition arr low high in
           quickSort_rec fuel' (quickSort_rec fuel' arr1 low (pi - 1)) (pi + 1) high
      else arr
  end.

Definition quickSort (arr : list float) (low high : Z) : list float :=
  quickSort_rec (Z.to_nat (high - low + 1)) arr low high.

(** [float64(n)] for a slice length. *)
Definition float64_of_int (n : Z) : float := PrimFloat.of_uint63 (Uint63.of_Z n).

Definition calculateDataStatistics (data : list float) : option DataStatistics :=
  match data with
  | [] => None
  | _ :: _ =>
      let count := Z.of_nat (length data) in
      let sortedData := quickSort data 0 (count - 1) in
      let min := at_index sortedData 0 in
      let max := at_index sortedData (count - 1) in
      let sum := fold_left PrimFloat.add data 0%float in
      let mean := PrimFloat.div sum (float64_of_int count) in
      let sumSquaredDiff :=
        fold_left (fun acc value =>
                     let diff := PrimFloat.sub value mean in
                     PrimFloat.add acc (PrimFloat.mul diff diff)) data 0%float in
      let variance := PrimFloat.div sumSquaredDiff (float64_of_int count) in
      let stdDev := PrimFloat.sqrt variance in
      let median :=
        if count mod 2 =? 0
        then PrimFloat.div
               (PrimFloat.add (at_index sortedData (count / 2 - 1))
                              (at_index sortedData (count / 2))) 2
        else at_index sortedData (count / 2) in
      Some (mkDataStatistics count mean variance stdDev min max
              (PrimFloat.sub max min) median)
  end.

(** The four series gathered by the loop over the points of one aircraft. *)
Record Series : Type := mkSeries {
  airspeeds : list float;
  indicatedAltitudes : list float;
  altitudes : list float;
  pressureAltitudes : list float
}.

Definition extract_point (acc : Series) (point : PositionPoint) : Series :=
  mkSeries
    (if PrimFloat.ltb 0 (Airspeed point)
     then airspeeds acc ++ [Airspeed point] else airspeeds acc)
    (if negb (PrimFloat.eqb (IndicatedAltitude point) 0)
     then indicatedAltitudes acc ++ [IndicatedAltitude point] else indicatedAltitudes acc)
    (if negb (PrimFloat.eqb (Altitude point) 0)
     then altitudes acc ++ [Altitude point] else altitudes acc)
    (if negb (PrimFloat.eqb (PressureAltitude point) 0)
     then pressureAltitudes acc ++ [PressureAltitude point] else pressureAltitudes acc).

Definition extract_series (positionData : list PositionPoint) : Series :=
  fold_left extract_point positionData (mkSeries [] [] [] []).

(** [if len(xs) > 0 { stats.X = calculateDataStatistics(xs) }] *)
Definition stats_if_any (xs : list float) : option DataStatistics :=
  if (0 <? Z.of_nat (length xs)) then calculateDataStatistics xs else None.

Definition aircraft_statistics (positionData : list PositionPoint) : option FlightStatistics :=
  match positionData with
  | [] => None
  | _ :: _ =>
      let s := extract_series positionData in
      Some (mkFlightStatistics
              (stats_if_any (airspeeds s))
              (stats_if_any (indicatedAltitudes s))
              (stats_if_any (altitudes s))
              (stats_if_any (pressureAltitudes s)))
  end.

(** [flightData.PositionData] maps an aircraft label to its points; an
    aircraft without points gets no entry in the result. *)
Definition CalculateFlightStatistics (PositionData : gmap string (list PositionPoint))
    : gmap string FlightStatistics :=
  omap aircraft_statistics PositionData.

(* ===================================================================== *)
(** ** CSV header detection (statistics.go) *)
(* ===================================================================== *)

(** [strings.ToLower] on the ASCII range, where it maps A-Z to a-z and
    keeps every other byte.  Column names are taken to be ASCII. *)
Definition lower_byte (c : ascii) : ascii :=
  let n := nat_of_ascii c in
  if (65 <=? n)%nat && (n <=? 90)%nat then ascii_of_nat (n + 32) else c.

Fixpoint ToLower (s : string) : string :=
  match s with
  | EmptyString => EmptyString
  | String c s' => String (lower_byte c) (ToLower s')
  end.

(** [strings.Contains]: [substr] occurs at some offset of [s]. *)
Fixpoint Contains (s substr : string) : bool :=
  String.prefix substr s
  || match s with
     | EmptyString => false
     | String _ s' => Contains s' substr
     end.

Definition expectedHeaders : list string := ["Time"; "Altitude"; "Latitude"; "Longitude"].

(** The inner loop with its [break]: does the column name contain one of
    the expected headers? *)
Definition matches_expected (header : string) : bool :=
  let headerLower := ToLower header in
  existsb (fun expected => Contains headerLower (ToLower expected)) expectedHeaders.

Definition containsFlightDataHeaders (record : list string) : bool :=
  let foundCount :=
    fold_left (fun n header => if matches_expected header then n + 1 else n) record 0 in
  3 <=? foundCount.

(** The header rule as the specification words it: at least three of the
    four keywords occur in some column name. *)
Definition keyword_appears (record : list string) (keyword : string) : bool :=
  existsb (fun header => Contains (ToLower header) (ToLower keyword)) record.

Definition spec_header_rule (record : list string) : bool :=
  (3 <=? length (List.filter (keyword_appears record) expectedHeaders))%nat.

(** The row of the specification's CSV example. *)
Definition example_header_row : list string :=
  ["Time"; "Altitude (feet)"; "Latitude (degrees)"; "Longitude (degrees)"; "Custom"].

(* ===================================================================== *)
(** ** Variance over a sliding window (statistics.go) *)
(* ===================================================================== *)

(** [data[i:j]] for [0 <= i <= j <= len(data)]; other bounds panic in Go
    and are not reached from [CalculateVarianceOverTime]. *)
Definition slice (data : list float) (i j : Z) : list float :=
  firstn (Z.to_nat (j - i)) (skipn (Z.to_nat i) data).

(** The loop [for i := 0; i <= len(data)-windowSize; i++], with [n]
    iterations left. *)
Fixpoint variance_loop (n : nat) (data : list float) (windowSize i : Z)
    (variances : list float) : list float :=
  match n with
  | O => variances
  | S n' =>
      let window := slice data i (i + windowSize) in
      let variances' :=
        match calculateDataStatistics window with
        | Some stats => variances ++ [Variance stats]
        | None => variances
        end in
      variance_loop n' data windowSize (i + 1) variances'
  end.

Definition CalculateVarianceOverTime (data : list float) (windowSize : Z) : list float :=
  if (Z.of_nat (length data) <? windowSize) || (windowSize <=? 1) then []
  else variance_loop (Z.to_nat (Z.of_nat (length data) - windowSize + 1))
         data windowSize 0 [].

(* ===================================================================== *)
(** ** Reading the canonical store (data_analysis.go) *)
(* ===================================================================== *)

(** The [Flight] that [getFlightsFromMainDB] and [getFlightByIDFromMainDB]
    build from a row; the two times are scanned from datetime columns into
    Go strings; [SourceID] keeps Go's zero value. *)
Definition flight_of_row (r : FlightRow) : Flight :=
  let title := NullString_String (flight_title r) in
  let flightNumber := NullString_String (flight_number r) in
  mkFlight (flight_id r) 0
    (if String.eqb title "" then "Untitled" else title)
    (if String.eqb flightNumber "" then "No Number" else flightNumber)
    (datetime_text (start_zulu_sim_time r)) (datetime_text (end_zulu_sim_time r)).


Definition getFlightByIDFromMainDB (flightID : Z) (mainDB : DB) : result Flight :=
  match List.find (fun f => flight_id f =? flightID) (flight mainDB) with
  | None => Err ErrNoRows
  | Some r => Ok (flight_of_row r)
  end.

(** *** Helper functions *)

(** The loop [for i := 0; i < 10; i++ { z = (z + x/z) / 2 }]. *)
Fixpoint sqrt_loop (n : nat) (x z : float) : float :=
  match n with
  | O => z
  | S n' => sqrt_loop n' x (PrimFloat.div (PrimFloat.add z (PrimFloat.div x z)) 2)
  end.

Definition sqrt (x : float) : float :=
  if PrimFloat.eqb x 0 then 0%float else sqrt_loop 10 x x.

Definition calculateMagnitude (x y z : float) : float :=
  sqrt (PrimFloat.add (PrimFloat.add (PrimFloat.mul x x) (PrimFloat.mul y y))
          (PrimFloat.mul z z)).

Definition abs (x : float) : float :=
  if PrimFloat.ltb x 0 then PrimFloat.opp x else x.

(** [float64(n)] for an int64 [n]: the nearest float64, ties to even. *)
Definition float64_of_int64 (n : Z) : float :=
  if n =? Int64.min_signed then (-9223372036854775808)%float
  else if n <? 0 then PrimFloat.opp (PrimFloat.of_uint63 (Uint63.of_Z (- n)))
  else PrimFloat.of_uint63 (Uint63.of_Z n).

(** *** Telemetry of one aircraft *)

(** [sql.NullFloat64] *)
Record NullFloat64 : Type := mkNullFloat64 {
  Float64 : float;
  Valid : bool
}.

Record EnginePoint : Type := mkEnginePoint {
  Engine_Timestamp : Z;
  Engine_TimestampSeconds : float;
  ThrottlePosition1 : float;
  ThrottlePosition2 : float;
  ThrottlePosition3 : float;
  ThrottlePosition4 : float
}.

(** The local type [AttitudePoint] of [getPositionDataWithAirspeedFromMainDB]. *)
Record AttitudePoint : Type := mkAttitudePoint {
  Attitude_Timestamp : Z;
  Attitude_TimestampSeconds : float;
  VelocityX : float;
  VelocityY : float;
  VelocityZ : float;
  Attitude_Airspeed : float
}.

Record FlightData : Type := mkFlightData {
  FlightData_Flight : Flight;
  PositionData : gmap string (list PositionPoint);
  EngineData : gmap string (list EnginePoint)
}.

(** [float64(^uint(0) >> 1)]: the largest int64 as a float64, 2^63. *)
Definition maxTimeDiff : float := 9223372036854775808%float.

Section Reads.

(** [strconv.ParseFloat(s, 64)], which [database/sql] applies to a TEXT
    value scanned into a float64; [None] is its error. *)
Variable ParseFloat : string -> option float.

(** [rows.Scan] into a [sql.NullFloat64]: NULL is valid = false, a REAL is
    itself, an INTEGER is converted, a TEXT is parsed; [None] is the error
    of [Scan]. *)
Definition scan_NullFloat64 (v : SqlValue) : option NullFloat64 :=
  match v with
  | VNull => Some (mkNullFloat64 0 false)
  | VReal f => Some (mkNullFloat64 f true)
  | VInt n => Some (mkNullFloat64 (float64_of_int64 n) true)
  | VText s =>
      match ParseFloat s with
      | Some f => Some (mkNullFloat64 f true)
      | None => None
      end
  end.

(** Column [k] of the data columns of a row, in the order of the INSERT
    lists of [duplicatePositionData], [duplicateAttitudeData] and
    [duplicateEngineData]. *)
Definition column (r : SeriesRow) (k : nat) : SqlValue := nth k (row_cols r) VNull.

(** One turn of the first loop of [getPositionDataWithAirspeedFromMainDB]:
    the columns of [position] are latitude, longitude, altitude,
    indicated_altitude, calibrated_indicated_altitude, pressure_altitude
    and indicated_airspeed. *)
Definition scan_position (minTimestamp : Z) (r : SeriesRow) : option PositionPoint :=
  match scan_NullFloat64 (column r 2), scan_NullFloat64 (column r 0),
        scan_NullFloat64 (column r 1), scan_NullFloat64 (column r 3),
        scan_NullFloat64 (column r 5), scan_NullFloat64 (column r 6) with
  | Some altitude, Some latitude, Some longitude, Some indicatedAltitude,
    Some pressureAltitude, Some indicatedAirspeed =>
      Some (mkPositionPoint (timestamp r)
              (PrimFloat.div (float64_of_int64 (Int64.sub (timestamp r) minTimestamp)) 1000)
              (Float64 altitude) (Float64 latitude) (Float64 longitude)
              (Float64 indicatedAltitude) (Float64 pressureAltitude)
              (if Valid indicatedAirspeed && PrimFloat.ltb 0 (Float64 indicatedAirspeed)
               then Float64 indicatedAirspeed else 0%float))
  | _, _, _, _, _, _ => None
  end.

(** A loop that returns the error of the first turn that fails. *)
Fixpoint scan_all {A B : Type} (scan : A -> option B) (rows : list A) : option (list B) :=
  match rows with
  | [] => Some []
  | r :: rest =>
      match scan r with
      | None => None
      | Some p =>
          match scan_all scan rest with
          | None => None
          | Some ps => Some (p :: ps)
          end
      end
  end.

(** One turn of the second loop: the columns of [attitude] are pitch, bank,
    true_heading, velocity_x, velocity_y, velocity_z and on_ground; a row
    that does not scan is skipped. *)
Definition scan_attitude (minTimestamp : Z) (r : SeriesRow) : option AttitudePoint :=
  match scan_NullFloat64 (column r 3), scan_NullFloat64 (column r 4),
        scan_NullFloat64 (column r 5) with
  | Some velocityX, Some velocityY, Some velocityZ =>
      Some (mkAttitudePoint (timestamp r)
              (PrimFloat.div (float64_of_int64 (Int64.sub (timestamp r) minTimestamp)) 1000)
              (Float64 velocityX) (Float64 velocityY) (Float64 velocityZ)
              (calculateMagnitude (Float64 velocityX) (Float64 velocityY)
                 (Float64 velocityZ)))
  | _, _, _ => None
  end.

(** The inner loop over the attitude points for one position: the airspeed
    of the first point at the smallest time difference. *)
Definition closest_step (positionSeconds : float) (acc : float * float)
    (att : AttitudePoint) : float * float :=
  let (minTimeDiff, closestAirspeed) := acc in
  let timeDiff := abs (PrimFloat.sub (Attitude_TimestampSeconds att) positionSeconds) in
  if PrimFloat.ltb timeDiff minTimeDiff then (timeDiff, Attitude_Airspeed att)
  else (minTimeDiff, closestAirspeed).

Definition closestAirspeed (attitudes : list AttitudePoint) (positionSeconds : float)
    : float :=
  snd (fold_left (closest_step positionSeconds) attitudes (maxTimeDiff, 0%float)).

(** One turn of the third loop. *)
Definition match_airspeed (attitudes : list AttitudePoint) (pos : PositionPoint)
    : PositionPoint :=
  if PrimFloat.ltb 0 (Airspeed pos) then pos
  else mkPositionPoint (Timestamp pos) (TimestampSeconds pos) (Altitude pos)
         (Latitude pos) (Longitude pos) (IndicatedAltitude pos) (PressureAltitude pos)
         (closestAirspeed attitudes (TimestampSeconds pos)).

Definition getPositionDataWithAirspeedFromMainDB (aircraftID : Z) (mainDB : DB)
    : option (list PositionPoint) :=
  let rows := select_series position aircraftID mainDB in
  match rows with
  | [] => Some []
  | first :: _ =>
      let minTimestamp := timestamp first in
      match scan_all (scan_position minTimestamp) rows with
      | None => None
      | Some positions =>
          let attitudes :=
            omap (scan_attitude minTimestamp) (select_series attitude aircraftID mainDB) in
          Some (map (match_airspeed attitudes) positions)
      end
  end.

(** The columns of [engine] start with the four throttle lever positions. *)
Definition scan_engine (minTimestamp : Z) (r : SeriesRow) : option EnginePoint :=
  match scan_NullFloat64 (column r 0), scan_NullFloat64 (column r 1),
        scan_NullFloat64 (column r 2), scan_NullFloat64 (column r 3) with
  | Some throttle1, Some throttle2, Some throttle3, Some throttle4 =>
      Some (mkEnginePoint (timestamp r)
              (PrimFloat.div (float64_of_int64 (Int64.sub (timestamp r) minTimestamp)) 1000)
              (Float64 throttle1) (Float64 throttle2) (Float64 throttle3)
              (Float64 throttle4))
  | _, _, _, _ => None
  end.

Definition getEngineDataFromMainDB (aircraftID : Z) (mainDB : DB)
    : option (list EnginePoint) :=
  let rows := select_series engine aircraftID mainDB in
  match rows with
  | [] => Some []
  | first :: _ => scan_all (scan_engine (timestamp first)) rows
  end.

(** *** All data of a flight *)

Definition aircraftLabel (ac : Aircraft) : string :=
  if String.eqb (Aircraft_TailNumber ac) "" then Aircraft_Type ac
  else String.append (Aircraft_Type ac)
         (String.append " (" (String.append (Aircraft_TailNumber ac) ")")).

(** One turn of the loop over the aircraft: an aircraft whose position data
    cannot be read is skipped, engine data that cannot be read counts as
    none, and empty series get no entry. *)
Definition add_aircraft_data (mainDB : DB) (flightData : FlightData) (ac : Aircraft)
    : FlightData :=
  match getPositionDataWithAirspeedFromMainDB (Aircraft_ID ac) mainDB with
  | None => flightData
  | Some positionData =>
      let engineData :=
        match getEngineDataFromMainDB (Aircraft_ID ac) mainDB with
        | Some e => e
        | None => []
        end in
      let label := aircraftLabel ac in
      let positions :=
        if (0 <? Z.of_nat (length positionData))
        then <[label := positionData]> (PositionData flightData)
        else PositionData flightData in
      let engines :=
        if (0 <? Z.of_nat (length engineData))
        then <[label := engineData]> (EngineData flightData)
        else EngineData flightData in
      mkFlightData (FlightData_Flight flightData) positions engines
  end.

Definition getFlightDataFromMainDB (flightID : Z) (mainDB : DB) : result FlightData :=
  match getFlightByIDFromMainDB flightID mainDB with
  | Err e => Err e
  | Ok flight =>
      match getAircraftByFlightIDFromMainDB flightID mainDB with
      | Err e => Err e
      | Ok aircraft =>
          Ok (fold_left (add_aircraft_data mainDB) aircraft
                (mkFlightData flight ∅ ∅))
      end
  end.

End Reads.

(* ===================================================================== *)
(** ** Handlers that take the flight from the query string *)
(* ===================================================================== *)

(** [strconv.Atoi] on a 64-bit platform: an optional sign and one or more
    decimal digits, within the range of int64; [None] is its error. *)
Definition digit_value (c : ascii) : option Z :=
  let n := Z.of_nat (nat_of_ascii c) in
  if (48 <=? n) && (n <=? 57) then Some (n - 48) else None.

Fixpoint parse_digits (s : string) (acc : Z) : option Z :=
  match s with
  | EmptyString => Some acc
  | String c s' =>
      match digit_value c with
      | Some d => parse_digits s' (acc * 10 + d)
      | None => None
      end
  end.

Definition Atoi (s : string) : option Z :=
  let (negative, digits) :=
    match s with
    | String "-" s' => (true, s')
    | String "+" s' => (false, s')
    | _ => (false, s)
    end in
  match digits with
  | EmptyString => None
  | String _ _ =>
      match parse_digits digits 0 with
      | None => None
      | Some n =>
          let v := if negative then - n else n in
          if (Int64.min_signed <=? v) && (v <=? Int64.max_signed) then Some v else None
      end
  end.

Section Handlers.

Variable faults : nat -> bool.
Variable ParseFloat : string -> option float.

(** DELETE /data-analysis/delete-flight?id=...  [idStr] is
    [r.URL.Query().Get("id")], empty when the parameter is absent. *)
Definition handleDeleteFlight (method idStr : string) (mainDB : DB) : Z * DB :=
  if negb (String.eqb method "DELETE") then (StatusMethodNotAllowed, mainDB)
  else if String.eqb idStr "" then (StatusBadRequest, mainDB)
  else
    match Atoi idStr with
    | None => (StatusBadRequest, mainDB)
    | Some flightId =>
        match getFlightByIDFromMainDB flightId mainDB with
        | Err _ => (StatusNotFound, mainDB)
        | Ok _ =>
            match DeleteFlight faults flightId mainDB with
            | (Err _, db) => (StatusInternalServerError, db)
            | (Ok _, db) => (StatusOK, db)
            end
        end
    end.

(** [json.NewEncoder(w).Encode(statistics)].  The encoder refuses a
    float64 that is NaN or infinite: it returns an error and writes
    nothing.  A nil pointer is encoded as null. *)
Definition json_float64 (f : float) : bool := PrimFloat.is_finite f.

Definition json_DataStatistics (d : option DataStatistics) : bool :=
  match d with
  | None => true
  | Some d =>
      json_float64 (Mean d) && json_float64 (Variance d) && json_float64 (StdDev d)
      && json_float64 (Min d) && json_float64 (Max d) && json_float64 (Range d)
      && json_float64 (Median d)
  end.

Definition json_FlightStatistics (s : FlightStatistics) : bool :=
  json_DataStatistics (AirspeedStats s)
  && json_DataStatistics (IndicatedAltitudeStats s)
  && json_DataStatistics (AltitudeStats s)
  && json_DataStatistics (PressureAltitudeStats s).

Definition json_Encode (statistics : gmap string FlightStatistics)
    : option (gmap string FlightStatistics) :=
  if forallb (fun entry => json_FlightStatistics (snd entry)) (map_to_list statistics)
  then Some statistics else None.

(** GET /data-analysis/statistics?flightId=...: the status and the
    statistics that are encoded as the body.  The handler ignores the
    error of [Encode]: statistics that the encoder refuses leave the
    answer 200 without a body. *)
Definition handleGetStatistics (method flightIdStr : string) (mainDB : DB)
    : Z * option (gmap string FlightStatistics) :=
  if negb (String.eqb method "GET") then (StatusMethodNotAllowed, None)
  else if String.eqb flightIdStr "" then (StatusBadRequest, None)
  else
    match Atoi flightIdStr with
    | None => (StatusBadRequest, None)
    | Some flightId =>
        match getFlightDataFromMainDB ParseFloat flightId mainDB with
        | Err _ => (StatusInternalServerError, None)
        | Ok flightData =>
            let statistics := CalculateFlightStatistics (PositionData flightData) in
            (StatusOK, json_Encode statistics)
        end
    end.

End Handlers.

(* ===================================================================== *)
(** ** Flight titles from file names (data_analysis.go) *)
(* ===================================================================== *)

(** [strings.HasPrefix], [strings.TrimPrefix], [strings.HasSuffix] and
    [strings.TrimSuffix], on the bytes of the strings. *)
Fixpoint drop (n : nat) (s : string) : string :=
  match n, s with
  | S n', String _ s' => drop n' s'
  | _, _ => s
  end.

Definition TrimPrefix (s prefix : string) : string :=
  if String.prefix prefix s then drop (String.length prefix) s else s.

Definition HasSuffix (s suffix : string) : bool :=
  (String.length suffix <=? String.length s)%nat
  && String.eqb (drop (String.length s - String.length suffix) s) suffix.

Definition TrimSuffix (s suffix : string) : string :=
  if HasSuffix s suffix
  then String.substring 0 (String.length s - String.length suffix) s
  else s.

(** [strings.ReplaceAll(s, "_", " ")] *)
Fixpoint underscores_to_spaces (s : string) : string :=
  match s with
  | EmptyString => EmptyString
  | String c s' => String (if Ascii.eqb c "_" then " "%char else c) (underscores_to_spaces s')
  end.

(** [filepath.Ext]: the loop runs from the last byte towards the first,
    stops at a path separator and returns the rest of the path from the
    first dot it meets. *)
Fixpoint ext_scan (reversed : list ascii) (suffix : string) : string :=
  match reversed with
  | [] => ""
  | c :: before =>
      if Ascii.eqb c "/" then ""
      else if Ascii.eqb c "." then String c suffix
      else ext_scan before (String c suffix)
  end.

Definition Ext (path : string) : string :=
  ext_scan (rev (list_ascii_of_string path)) "".

Definition upper_byte (c : ascii) : ascii :=
  let n := nat_of_ascii c in
  if (97 <=? n)%nat && (n <=? 122)%nat then ascii_of_nat (n - 32) else c.

Section Titles.

(** [strings.ToUpper] of a string of one byte that is not ASCII (a
    fragment of a UTF-8 sequence). *)
Variable ToUpper_fragment : ascii -> string.

(** [strings.ToUpper(name[:1])] *)
Definition ToUpper_first (c : ascii) : string :=
  if (nat_of_ascii c <? 128)%nat then String (upper_byte c) EmptyString
  else ToUpper_fragment c.

Definition extractFlightTitle (filename : string) : string :=
  let name := TrimSuffix filename (Ext filename) in
  let name := TrimPrefix name "uploaded_" in
  let name := underscores_to_spaces name in
  let name :=
    match name with
    | EmptyString => name
    | String c rest => String.append (ToUpper_first c) rest
    end in
  if String.eqb name "" then "CSV Flight Data" else name.

End Titles.

(* ===================================================================== *)
(** ** Distance markers (data_analysis.go) *)
(* ===================================================================== *)

(** Currock Hill, the target distance in nautical miles and the tolerance
    of [findDistanceMarkers]; the decimal constants of the source as the
    float64 values the compiler gives them. *)
Definition currockHillLat : float := 0x1.b76b851eb851fp+5%float.     (* 54.9275 *)
Definition currockHillLon : float := (-0x1.d58e219652bd4p+0)%float.  (* -1.8342 *)
Definition targetDistanceNM : float := 9%float.
Definition tolerance : float := 0x1.999999999999ap-5%float.          (* 0.05 *)
Definition earthRadiusNM : float := 0x1.ae02147ae147bp+11%float.     (* R = 3440.065 *)
Definition Pi : float := 0x1.921fb54442d18p+1%float.                 (* math.Pi *)

(** The state of the loop of [findDistanceMarkers]. *)
Record MarkerSearch : Type := mkMarkerSearch {
  markerTimes : list float;
  prevDistance : float;
  prevTime : float;
  markerFound : bool
}.

Section Distance.

(** [math.Sin], [math.Cos] and [math.Atan2]. *)
Variables Sin Cos : float -> float.
Variable Atan2 : float -> float -> float.

Definition calculateDistanceNM (lat1 lon1 lat2 lon2 : float) : float :=
  let lat1Rad := PrimFloat.div (PrimFloat.mul lat1 Pi) 180 in
  let lon1Rad := PrimFloat.div (PrimFloat.mul lon1 Pi) 180 in
  let lat2Rad := PrimFloat.div (PrimFloat.mul lat2 Pi) 180 in
  let lon2Rad := PrimFloat.div (PrimFloat.mul lon2 Pi) 180 in
  let dlat := PrimFloat.sub lat2Rad lat1Rad in
  let dlon := PrimFloat.sub lon2Rad lon1Rad in
  let a :=
    PrimFloat.add
      (PrimFloat.mul (Sin (PrimFloat.div dlat 2)) (Sin (PrimFloat.div dlat 2)))
      (PrimFloat.mul
         (PrimFloat.mul (PrimFloat.mul (Cos lat1Rad) (Cos lat2Rad))
            (Sin (PrimFloat.div dlon 2)))
         (Sin (PrimFloat.div dlon 2))) in
  let c := PrimFloat.mul 2 (Atan2 (PrimFloat.sqrt a) (PrimFloat.sqrt (PrimFloat.sub 1 a))) in
  PrimFloat.mul earthRadiusNM c.

(** One turn of the loop [for i, pos := range positionData]. *)
Definition marker_step (i : Z) (st : MarkerSearch) (pos : PositionPoint) : MarkerSearch :=
  if PrimFloat.eqb (Latitude pos) 0 && PrimFloat.eqb (Longitude pos) 0 then st
  else
    let distance :=
      calculateDistanceNM (Latitude pos) (Longitude pos) currockHillLat currockHillLon in
    let st1 :=
      if (0 <? i) && negb (markerFound st) then
        let crossed :=
          (PrimFloat.ltb targetDistanceNM (prevDistance st)
           && PrimFloat.leb distance targetDistanceNM)
          || (PrimFloat.ltb (prevDistance st) targetDistanceNM
              && PrimFloat.leb targetDistanceNM distance) in
        let st0 :=
          if crossed && negb (PrimFloat.eqb (prevDistance st) distance) then
            let ratio :=
              PrimFloat.div (PrimFloat.sub targetDistanceNM (prevDistance st))
                (PrimFloat.sub distance (prevDistance st)) in
            let crossingTime :=
              PrimFloat.add (prevTime st)
                (PrimFloat.mul ratio
                   (PrimFloat.sub (TimestampSeconds pos) (prevTime st))) in
            mkMarkerSearch (markerTimes st ++ [crossingTime]) (prevDistance st)
              (prevTime st) true
          else st in
        if PrimFloat.leb (PrimFloat.abs (PrimFloat.sub distance targetDistanceNM)) tolerance
        then mkMarkerSearch (markerTimes st0 ++ [TimestampSeconds pos]) (prevDistance st0)
               (prevTime st0) true
        else st0
      else st in
    mkMarkerSearch (markerTimes st1) distance (TimestampSeconds pos) (markerFound st1).

Fixpoint marker_loop (i : Z) (st : MarkerSearch) (positionData : list PositionPoint)
    : MarkerSearch :=
  match positionData with
  | [] => st
  | pos :: rest => marker_loop (i + 1) (marker_step i st pos) rest
  end.

Definition findDistanceMarkers (positionData : list PositionPoint) : list float :=
  markerTimes (marker_loop 0 (mkMarkerSearch [] 0 0 false) positionData).

End Distance.

(* ===================================================================== *)
(** ** CSV flights: the types (types.go) *)
(* ===================================================================== *)

Record CSVMetadata : Type := mkCSVMetadata {
  Source : string;
  RecordedAt : string;
  FlightTitle : string;
  AircraftType : string;
  TotalRecords : Z
}.

Record CSVFlightRecord : Type := mkCSVFlightRecord {
  CSV_Time : string;
  CSV_TimestampSeconds : float;
  AirspeedIndicated : float;
  AirspeedTrue : float;
  GroundSpeed : float;
  CSV_Altitude : float;
  GroundElevation : float;
  CSV_Latitude : float;
  CSV_Longitude : float;
  BankAngle : float;
  PitchAngle : float;
  HeadingMagnetic : float;
  HeadingTrue : float;
  AmbientTemperature : float;
  AmbientWindDirection : float;
  AmbientWindVelocity : float;
  FlapsHandlePosition : float;
  FuelTotalQuantity : float;
  GearDown : bool;
  OnGround : bool;
  GForce : float;
  VerticalSpeed : float;
  OverspeedWarning : bool;
  StallWarning : bool
}.

Record CSVFlightData : Type := mkCSVFlightData {
  Metadata : CSVMetadata;
  Headers : list string;
  Records : list CSVFlightRecord
}.

Record CSVImportOptions : Type := mkCSVImportOptions {
  Options_FlightTitle : string;
  Options_AircraftType : string;
  SkipRows : Z
}.

(** The errors of the CSV path that are made with [fmt.Errorf] from a
    message, and the errors of the store below them. *)
Inductive csv_error : Type :=
| ErrReadCSV                       (* "failed to read CSV: ..." *)
| ErrTooShort                      (* "CSV file too short, expected at least 3 rows
                                      (metadata, header, data)" *)
| ErrTooShortStructure             (* "CSV file too short, expected at least 3 rows" *)
| ErrNoHeaderRow                   (* "could not find header row with flight data columns" *)
| ErrNoValidRecords                (* "no valid flight data records found" *)
| ErrNoValidHeaders                (* "no valid flight data headers found in CSV" *)
| ErrNoRecordsToImport             (* "no flight data records to import" *)
| ErrStore (e : error)
| ErrContext (context : string) (e : csv_error).

(* ===================================================================== *)
(** ** Importing a CSV flight into the canonical store *)
(* ===================================================================== *)

(** [strconv.Itoa] / the verb %d. *)
Definition Itoa (n : Z) : string := NilZero.string_of_int (Z.to_int n).

(** A float64 bound to a statement: SQLite stores NaN as NULL. *)
Definition bind_float64 (f : float) : SqlValue :=
  if PrimFloat.is_nan f then VNull else VReal (real_column f).

(** The constants of the source as the float64 values the compiler gives
    them. *)
Definition feet_to_meters : float := 0x1.381d7dbf487fdp-2%float.        (* 0.3048 *)
Definition knots_to_ms : float := 0x1.076534373f317p-1%float.           (* 0.514444 *)
Definition pi_5 : float := 0x1.921f9f01b866ep+1%float.                  (* 3.14159 *)
Definition two_pi_5 : float := 0x1.921f9f01b866ep+2%float.              (* 2*3.14159 *)
Definition half_pi_5 : float := 0x1.921f9f01b866ep+0%float.             (* 3.14159/2 *)
Definition fpm_to_ms : float := 0x1.4cec41dd1a21fp-8%float.             (* 0.00508 *)
Definition baseTimestamp : Z := 1690000000000.

(** [sin] and [cos] of the source: a reduction by multiples of 2*3.14159
    and the Taylor polynomial of degree five. *)
Definition sin (x : float) : float :=
  let x :=
    PrimFloat.sub x
      (PrimFloat.mul two_pi_5
         (float64_of_int64 (Int64.of_float (PrimFloat.div x two_pi_5)))) in
  PrimFloat.add
    (PrimFloat.sub x
       (PrimFloat.div (PrimFloat.mul (PrimFloat.mul x x) x) 6))
    (PrimFloat.div
       (PrimFloat.mul (PrimFloat.mul (PrimFloat.mul (PrimFloat.mul x x) x) x) x) 120).

Definition cos (x : float) : float := sin (PrimFloat.add x half_pi_5).

(** [baseTimestamp + int64(record.TimestampSeconds*1000)] *)
Definition csv_timestamp (record : CSVFlightRecord) : Z :=
  Int64.add baseTimestamp
    (Int64.of_float (PrimFloat.mul (CSV_TimestampSeconds record) 1000)).

Definition csv_position_row (aircraftID : Z) (record : CSVFlightRecord) : SeriesRow :=
  let altitudeMeters := PrimFloat.mul (CSV_Altitude record) feet_to_meters in
  mkSeriesRow aircraftID (csv_timestamp record)
    [bind_float64 (CSV_Latitude record); bind_float64 (CSV_Longitude record);
     bind_float64 altitudeMeters; bind_float64 (CSV_Altitude record); VNull;
     bind_float64 (CSV_Altitude record); bind_float64 (AirspeedIndicated record)].

Definition csv_attitude_row (aircraftID : Z) (record : CSVFlightRecord) : SeriesRow :=
  let groundSpeedMS := PrimFloat.mul (GroundSpeed record) knots_to_ms in
  let headingRad := PrimFloat.div (PrimFloat.mul (HeadingTrue record) pi_5) 180 in
  let velocityX := PrimFloat.mul groundSpeedMS (sin headingRad) in
  let velocityY := PrimFloat.mul groundSpeedMS (cos headingRad) in
  let velocityZ := PrimFloat.mul (VerticalSpeed record) fpm_to_ms in
  let onGround := if OnGround record then 1 else 0 in
  mkSeriesRow aircraftID (csv_timestamp record)
    [bind_float64 (PitchAngle record); bind_float64 (BankAngle record);
     bind_float64 (HeadingTrue record); bind_float64 velocityX; bind_float64 velocityY;
     bind_float64 velocityZ; VInt onGround].

(** The INSERT names throttle_lever_position1 only: the other 27 data
    columns of [engine] are NULL. *)
Definition csv_engine_row (aircraftID : Z) (record : CSVFlightRecord) : SeriesRow :=
  let throttlePosition := PrimFloat.div (FlapsHandlePosition record) 100 in
  mkSeriesRow aircraftID (csv_timestamp record)
    (bind_float64 throttlePosition :: repeat VNull 27).

(** The row of [createFlightFromCSV]: the INSERT names title,
    flight_number, the two zulu times, description and
    user_aircraft_seq_nr; the two local times take their DEFAULT, the local
    time [localtime] of the engine at the insert, and the fifteen other
    columns are NULL. *)
Definition csv_flight_row (localtime : string) (csvData : CSVFlightData) (id : Z)
    : FlightRow :=
  let startTime :=
    match Records csvData with
    | [] => ""
    | first :: _ => CSV_Time first
    end in
  let endTime :=
    match Records csvData with
    | [] => ""
    | first :: _ => CSV_Time (List.last (Records csvData) first)
    end in
  let description :=
    String.append "Imported from CSV ("
      (String.append (Source (Metadata csvData))
         (String.append ") - "
            (String.append (Itoa (TotalRecords (Metadata csvData))) " data points"))) in
  mkFlightRow id (Some (FlightTitle (Metadata csvData))) (Some "CSV Import")
    startTime endTime localtime localtime
    (VText description :: VInt 1 :: repeat VNull 15).

(** The row of [createAircraftFromCSV]: flight_id, seq_nr, type and
    tail_number are given, the other columns are NULL. *)
Definition csv_aircraft_row (flightID : Z) (csvData : CSVFlightData) (id : Z)
    : AircraftRow :=
  mkAircraftRow id flightID 1 (AircraftType (Metadata csvData)) (Some "CSV-IMPORT")
    None [VNull; VNull; VNull; VNull].

Section CSVImport.

Variable faults : nat -> bool.

(** The local time of the engine when the flight row is inserted. *)
Variable localtime : string.

Definition createFlightFromCSV (csvData : CSVFlightData) : Tx Z :=
  tx_exec faults TFlight (insert_flight (csv_flight_row localtime csvData)).

Definition createAircraftFromCSV (flightID : Z) (csvData : CSVFlightData) : Tx Z :=
  tx_exec faults TAircraft (insert_aircraft (csv_aircraft_row flightID csvData)).

Definition importPositionDataFromCSV (aircraftID : Z) (csvData : CSVFlightData) : Tx unit :=
  tx_for (Records csvData) (fun record =>
    tx_exec faults (TSeries position)
      (insert_series position (csv_position_row aircraftID record))).

Definition importAttitudeDataFromCSV (aircraftID : Z) (csvData : CSVFlightData) : Tx unit :=
  tx_for (Records csvData) (fun record =>
    tx_exec faults (TSeries attitude)
      (insert_series attitude (csv_attitude_row aircraftID record))).

Definition importEngineDataFromCSV (aircraftID : Z) (csvData : CSVFlightData) : Tx unit :=
  tx_for (Records csvData) (fun record =>
    tx_exec faults (TSeries engine)
      (insert_series engine (csv_engine_row aircraftID record))).

(** The body of [ImportFlightFromCSV] between Begin and Commit. *)
Definition csv_import_body (csvData : CSVFlightData) : Tx Z :=
  let* flightID := tx_wrap "failed to create flight" (createFlightFromCSV csvData) in
  let* aircraftID :=
    tx_wrap "failed to create aircraft" (createAircraftFromCSV flightID csvData) in
  tx_wrap "failed to import position data"
    (importPositionDataFromCSV aircraftID csvData) ;;
  tx_wrap "failed to import attitude data"
    (importAttitudeDataFromCSV aircraftID csvData) ;;
  tx_wrap "failed to import engine data"
    (importEngineDataFromCSV aircraftID csvData) ;;
  tx_ret flightID.

Definition ImportFlightFromCSV (csvData : CSVFlightData) (mainDB : DB)
    : (csv_error + Flight) * DB :=
  match Records csvData with
  | [] => (inl ErrNoRecordsToImport, mainDB)
  | _ :: _ =>
      match transaction faults "failed to commit transaction"
              (csv_import_body csvData) mainDB with
      | (Err e, db) => (inl (ErrStore e), db)
      | (Ok flightID, db) =>
          (inr (mkFlight flightID 0 (FlightTitle (Metadata csvData)) "CSV Import"
                  (RecordedAt (Metadata csvData)) (RecordedAt (Metadata csvData))), db)
      end
  end.

End CSVImport.

(* ===================================================================== *)
(** ** Parsing a CSV export (statistics.go) *)
(* ===================================================================== *)

(** The zero value of [CSVFlightRecord] and the assignment to each field. *)
Definition zero_CSVFlightRecord : CSVFlightRecord :=
  mkCSVFlightRecord "" 0 0 0 0 0 0 0 0 0 0 0 0 0 0 0 0 0 false false 0 0 false false.

Definition set_CSV_Time (v : string) (r : CSVFlightRecord) : CSVFlightRecord :=
  mkCSVFlightRecord v (CSV_TimestampSeconds r) (AirspeedIndicated r) (AirspeedTrue r)
    (GroundSpeed r) (CSV_Altitude r) (GroundElevation r) (CSV_Latitude r)
    (CSV_Longitude r) (BankAngle r) (PitchAngle r) (HeadingMagnetic r) (HeadingTrue r)
    (AmbientTemperature r) (AmbientWindDirection r) (AmbientWindVelocity r)
    (FlapsHandlePosition r) (FuelTotalQuantity r) (GearDown r) (OnGround r) (GForce r)
    (VerticalSpeed r) (OverspeedWarning r) (StallWarning r).

Definition set_CSV_TimestampSeconds (v : float) (r : CSVFlightRecord) : CSVFlightRecord :=
  mkCSVFlightRecord (CSV_Time r) v (AirspeedIndicated r) (AirspeedTrue r)
    (GroundSpeed r) (CSV_Altitude r) (GroundElevation r) (CSV_Latitude r)
    (CSV_Longitude r) (BankAngle r) (PitchAngle r) (HeadingMagnetic r) (HeadingTrue r)
    (AmbientTemperature r) (AmbientWindDirection r) (AmbientWindVelocity r)
    (FlapsHandlePosition r) (FuelTotalQuantity r) (GearDown r) (OnGround r) (GForce r)
    (VerticalSpeed r) (OverspeedWarning r) (StallWarning r).

Definition set_AirspeedIndicated (v : float) (r : CSVFlightRecord) : CSVFlightRecord :=
  mkCSVFlightRecord (CSV_Time r) (CSV_TimestampSeconds r) v (AirspeedTrue r)
    (GroundSpeed r) (CSV_Altitude r) (GroundElevation r) (CSV_Latitude r)
    (CSV_Longitude r) (BankAngle r) (PitchAngle r) (HeadingMagnetic r) (HeadingTrue r)
    (AmbientTemperature r) (AmbientWindDirection r) (AmbientWindVelocity r)
    (FlapsHandlePosition r) (FuelTotalQuantity r) (GearDown r) (OnGround r) (GForce r)
    (VerticalSpeed r) (OverspeedWarning r) (StallWarning r).

Definition set_AirspeedTrue (v : float) (r : CSVFlightRecord) : CSVFlightRecord :=
  mkCSVFlightRecord (CSV_Time r) (CSV_TimestampSeconds r) (AirspeedIndicated r) v
    (GroundSpeed r) (CSV_Altitude r) (GroundElevation r) (CSV_Latitude r)
    (CSV_Longitude r) (BankAngle r) (PitchAngle r) (HeadingMagnetic r) (HeadingTrue r)
    (AmbientTemperature r) (AmbientWindDirection r) (AmbientWindVelocity r)
    (FlapsHandlePosition r) (FuelTotalQuantity r) (GearDown r) (OnGround r) (GForce r)
    (VerticalSpeed r) (OverspeedWarning r) (StallWarning r).

Definition set_GroundSpeed (v : float) (r : CSVFlightRecord) : CSVFlightRecord :=
  mkCSVFlightRecord (CSV_Time r) (CSV_TimestampSeconds r) (AirspeedIndicated r)
    (AirspeedTrue r) v (CSV_Altitude r) (GroundElevation r) (CSV_Latitude r)
    (CSV_Longitude r) (BankAngle r) (PitchAngle r) (HeadingMagnetic r) (HeadingTrue r)
    (AmbientTemperature r) (AmbientWindDirection r) (AmbientWindVelocity r)
    (FlapsHandlePosition r) (FuelTotalQuantity r) (GearDown r) (OnGround r) (GForce r)
    (VerticalSpeed r) (OverspeedWarning r) (StallWarning r).

Definition set_CSV_Altitude (v : float) (r : CSVFlightRecord) : CSVFlightRecord :=
  mkCSVFlightRecord (CSV_Time r) (CSV_TimestampSeconds r) (AirspeedIndicated r)
    (AirspeedTrue r) (GroundSpeed r) v (GroundElevation r) (CSV_Latitude r)
    (CSV_Longitude r) (BankAngle r) (PitchAngle r) (HeadingMagnetic r) (HeadingTrue r)
    (AmbientTemperature r) (AmbientWindDirection r) (AmbientWindVelocity r)
    (FlapsHandlePosition r) (FuelTotalQuantity r) (GearDown r) (OnGround r) (GForce r)
    (VerticalSpeed r) (OverspeedWarning r) (StallWarning r).

Definition set_GroundElevation (v : float) (r : CSVFlightRecord) : CSVFlightRecord :=
  mkCSVFlightRecord (CSV_Time r) (CSV_TimestampSeconds r) (AirspeedIndicated r)
    (AirspeedTrue r) (GroundSpeed r) (CSV_Altitude r) v (CSV_Latitude r)
    (CSV_Longitude r) (BankAngle r) (PitchAngle r) (HeadingMagnetic r) (HeadingTrue r)
    (AmbientTemperature r) (AmbientWindDirection r) (AmbientWindVelocity r)
    (FlapsHandlePosition r) (FuelTotalQuantity r) (GearDown r) (OnGround r) (GForce r)
    (VerticalSpeed r) (OverspeedWarning r) (StallWarning r).

Definition set_CSV_Latitude (v : float) (r : CSVFlightRecord) : CSVFlightRecord :=
  mkCSVFlightRecord (CSV_Time r) (CSV_TimestampSeconds r) (AirspeedIndicated r)
    (AirspeedTrue r) (GroundSpeed r) (CSV_Altitude r) (GroundElevation r) v
    (CSV_Longitude r) (BankAngle r) (PitchAngle r) (HeadingMagnetic r) (HeadingTrue r)
    (AmbientTemperature r) (AmbientWindDirection r) (AmbientWindVelocity r)
    (FlapsHandlePosition r) (FuelTotalQuantity r) (GearDown r) (OnGround r) (GForce r)
    (VerticalSpeed r) (OverspeedWarning r) (StallWarning r).

Definition set_CSV_Longitude (v : float) (r : CSVFlightRecord) : CSVFlightRecord :=
  mkCSVFlightRecord (CSV_Time r) (CSV_TimestampSeconds r) (AirspeedIndicated r)
    (AirspeedTrue r) (GroundSpeed r) (CSV_Altitude r) (GroundElevation r)
    (CSV_Latitude r) v (BankAngle r) (PitchAngle r) (HeadingMagnetic r) (HeadingTrue r)
    (AmbientTemperature r) (AmbientWindDirection r) (AmbientWindVelocity r)
    (FlapsHandlePosition r) (FuelTotalQuantity r) (GearDown r) (OnGround r) (GForce r)
    (VerticalSpeed r) (OverspeedWarning r) (StallWarning r).

Definition set_BankAngle (v : float) (r : CSVFlightRecord) : CSVFlightRecord :=
  mkCSVFlightRecord (CSV_Time r) (CSV_TimestampSeconds r) (AirspeedIndicated r)
    (AirspeedTrue r) (GroundSpeed r) (CSV_Altitude r) (GroundElevation r)
    (CSV_Latitude r) (CSV_Longitude r) v (PitchAngle r) (HeadingMagnetic r)
    (HeadingTrue r) (AmbientTemperature r) (AmbientWindDirection r)
    (AmbientWindVelocity r) (FlapsHandlePosition r) (FuelTotalQuantity r) (GearDown r)
    (OnGround r) (GForce r) (VerticalSpeed r) (OverspeedWarning r) (StallWarning r).

Definition set_PitchAngle (v : float) (r : CSVFlightRecord) : CSVFlightRecord :=
  mkCSVFlightRecord (CSV_Time r) (CSV_TimestampSeconds r) (AirspeedIndicated r)
    (AirspeedTrue r) (GroundSpeed r) (CSV_Altitude r) (GroundElevation r)
    (CSV_Latitude r) (CSV_Longitude r) (BankAngle r) v (HeadingMagnetic r)
    (HeadingTrue r) (AmbientTemperature r) (AmbientWindDirection r)
    (AmbientWindVelocity r) (FlapsHandlePosition r) (FuelTotalQuantity r) (GearDown r)
    (OnGround r) (GForce r) (VerticalSpeed r) (OverspeedWarning r) (StallWarning r).

Definition set_HeadingMagnetic (v : float) (r : CSVFlightRecord) : CSVFlightRecord :=
  mkCSVFlightRecord (CSV_Time r) (CSV_TimestampSeconds r) (AirspeedIndicated r)
    (AirspeedTrue r) (GroundSpeed r) (CSV_Altitude r) (GroundElevation r)
    (CSV_Latitude r) (CSV_Longitude r) (BankAngle r) (PitchAngle r) v (HeadingTrue r)
    (AmbientTemperature r) (AmbientWindDirection r) (AmbientWindVelocity r)
    (FlapsHandlePosition r) (FuelTotalQuantity r) (GearDown r) (OnGround r) (GForce r)
    (VerticalSpeed r) (OverspeedWarning r) (StallWarning r).

Definition set_HeadingTrue (v : float) (r : CSVFlightRecord) : CSVFlightRecord :=
  mkCSVFlightRecord (CSV_Time r) (CSV_TimestampSeconds r) (AirspeedIndicated r)
    (AirspeedTrue r) (GroundSpeed r) (CSV_Altitude r) (GroundElevation r)
    (CSV_Latitude r) (CSV_Longitude r) (BankAngle r) (PitchAngle r) (HeadingMagnetic r)
    v (AmbientTemperature r) (AmbientWindDirection r) (AmbientWindVelocity r)
    (FlapsHandlePosition r) (FuelTotalQuantity r) (GearDown r) (OnGround r) (GForce r)
    (VerticalSpeed r) (OverspeedWarning r) (StallWarning r).

Definition set_AmbientTemperature (v : float) (r : CSVFlightRecord) : CSVFlightRecord :=
  mkCSVFlightRecord (CSV_Time r) (CSV_TimestampSeconds r) (AirspeedIndicated r)
    (AirspeedTrue r) (GroundSpeed r) (CSV_Altitude r) (GroundElevation r)
    (CSV_Latitude r) (CSV_Longitude r) (BankAngle r) (PitchAngle r) (HeadingMagnetic r)
    (HeadingTrue r) v (AmbientWindDirection r) (AmbientWindVelocity r)
    (FlapsHandlePosition r) (FuelTotalQuantity r) (GearDown r) (OnGround r) (GForce r)
    (VerticalSpeed r) (OverspeedWarning r) (StallWarning r).

Definition set_AmbientWindDirection (v : float) (r : CSVFlightRecord) : CSVFlightRecord :=
  mkCSVFlightRecord (CSV_Time r) (CSV_TimestampSeconds r) (AirspeedIndicated r)
    (AirspeedTrue r) (GroundSpeed r) (CSV_Altitude r) (GroundElevation r)
    (CSV_Latitude r) (CSV_Longitude r) (BankAngle r) (PitchAngle r) (HeadingMagnetic r)
    (HeadingTrue r) (AmbientTemperature r) v (AmbientWindVelocity r)
    (FlapsHandlePosition r) (FuelTotalQuantity r) (GearDown r) (OnGround r) (GForce r)
    (VerticalSpeed r) (OverspeedWarning r) (StallWarning r).

Definition set_AmbientWindVelocity (v : float) (r : CSVFlightRecord) : CSVFlightRecord :=
  mkCSVFlightRecord (CSV_Time r) (CSV_TimestampSeconds r) (AirspeedIndicated r)
    (AirspeedTrue r) (GroundSpeed r) (CSV_Altitude r) (GroundElevation r)
    (CSV_Latitude r) (CSV_Longitude r) (BankAngle r) (PitchAngle r) (HeadingMagnetic r)
    (HeadingTrue r) (AmbientTemperature r) (AmbientWindDirection r) v
    (FlapsHandlePosition r) (FuelTotalQuantity r) (GearDown r) (OnGround r) (GForce r)
    (VerticalSpeed r) (OverspeedWarning r) (StallWarning r).

Definition set_FlapsHandlePosition (v : float) (r : CSVFlightRecord) : CSVFlightRecord :=
  mkCSVFlightRecord (CSV_Time r) (CSV_TimestampSeconds r) (AirspeedIndicated r)
    (AirspeedTrue r) (GroundSpeed r) (CSV_Altitude r) (GroundElevation r)
    (CSV_Latitude r) (CSV_Longitude r) (BankAngle r) (PitchAngle r) (HeadingMagnetic r)
    (HeadingTrue r) (AmbientTemperature r) (AmbientWindDirection r)
    (AmbientWindVelocity r) v (FuelTotalQuantity r) (GearDown r) (OnGround r) (GForce r)
    (VerticalSpeed r) (OverspeedWarning r) (StallWarning r).

Definition set_FuelTotalQuantity (v : float) (r : CSVFlightRecord) : CSVFlightRecord :=
  mkCSVFlightRecord (CSV_Time r) (CSV_TimestampSeconds r) (AirspeedIndicated r)
    (AirspeedTrue r) (GroundSpeed r) (CSV_Altitude r) (GroundElevation r)
    (CSV_Latitude r) (CSV_Longitude r) (BankAngle r) (PitchAngle r) (HeadingMagnetic r)
    (HeadingTrue r) (AmbientTemperature r) (AmbientWindDirection r)
    (AmbientWindVelocity r) (FlapsHandlePosition r) v (GearDown r) (OnGround r)
    (GForce r) (VerticalSpeed r) (OverspeedWarning r) (StallWarning r).

Definition set_GearDown (v : bool) (r : CSVFlightRecord) : CSVFlightRecord :=
  mkCSVFlightRecord (CSV_Time r) (CSV_TimestampSeconds r) (AirspeedIndicated r)
    (AirspeedTrue r) (GroundSpeed r) (CSV_Altitude r) (GroundElevation r)
    (CSV_Latitude r) (CSV_Longitude r) (BankAngle r) (PitchAngle r) (HeadingMagnetic r)
    (HeadingTrue r) (AmbientTemperature r) (AmbientWindDirection r)
    (AmbientWindVelocity r) (FlapsHandlePosition r) (FuelTotalQuantity r) v (OnGround r)
    (GForce r) (VerticalSpeed r) (OverspeedWarning r) (StallWarning r).

Definition set_OnGround (v : bool) (r : CSVFlightRecord) : CSVFlightRecord :=
  mkCSVFlightRecord (CSV_Time r) (CSV_TimestampSeconds r) (AirspeedIndicated r)
    (AirspeedTrue r) (GroundSpeed r) (CSV_Altitude r) (GroundElevation r)
    (CSV_Latitude r) (CSV_Longitude r) (BankAngle r) (PitchAngle r) (HeadingMagnetic r)
    (HeadingTrue r) (AmbientTemperature r) (AmbientWindDirection r)
    (AmbientWindVelocity r) (FlapsHandlePosition r) (FuelTotalQuantity r) (GearDown r) v
    (GForce r) (VerticalSpeed r) (OverspeedWarning r) (StallWarning r).

Definition set_GForce (v : float) (r : CSVFlightRecord) : CSVFlightRecord :=
  mkCSVFlightRecord (CSV_Time r) (CSV_TimestampSeconds r) (AirspeedIndicated r)
    (AirspeedTrue r) (GroundSpeed r) (CSV_Altitude r) (GroundElevation r)
    (CSV_Latitude r) (CSV_Longitude r) (BankAngle r) (PitchAngle r) (HeadingMagnetic r)
    (HeadingTrue r) (AmbientTemperature r) (AmbientWindDirection r)
    (AmbientWindVelocity r) (FlapsHandlePosition r) (FuelTotalQuantity r) (GearDown r)
    (OnGround r) v (VerticalSpeed r) (OverspeedWarning r) (StallWarning r).

Definition set_VerticalSpeed (v : float) (r : CSVFlightRecord) : CSVFlightRecord :=
  mkCSVFlightRecord (CSV_Time r) (CSV_TimestampSeconds r) (AirspeedIndicated r)
    (AirspeedTrue r) (GroundSpeed r) (CSV_Altitude r) (GroundElevation r)
    (CSV_Latitude r) (CSV_Longitude r) (BankAngle r) (PitchAngle r) (HeadingMagnetic r)
    (HeadingTrue r) (AmbientTemperature r) (AmbientWindDirection r)
    (AmbientWindVelocity r) (FlapsHandlePosition r) (FuelTotalQuantity r) (GearDown r)
    (OnGround r) (GForce r) v (OverspeedWarning r) (StallWarning r).

Definition set_OverspeedWarning (v : bool) (r : CSVFlightRecord) : CSVFlightRecord :=
  mkCSVFlightRecord (CSV_Time r) (CSV_TimestampSeconds r) (AirspeedIndicated r)
    (AirspeedTrue r) (GroundSpeed r) (CSV_Altitude r) (GroundElevation r)
    (CSV_Latitude r) (CSV_Longitude r) (BankAngle r) (PitchAngle r) (HeadingMagnetic r)
    (HeadingTrue r) (AmbientTemperature r) (AmbientWindDirection r)
    (AmbientWindVelocity r) (FlapsHandlePosition r) (FuelTotalQuantity r) (GearDown r)
    (OnGround r) (GForce r) (VerticalSpeed r) v (StallWarning r).

Definition set_StallWarning (v : bool) (r : CSVFlightRecord) : CSVFlightRecord :=
  mkCSVFlightRecord (CSV_Time r) (CSV_TimestampSeconds r) (AirspeedIndicated r)
    (AirspeedTrue r) (GroundSpeed r) (CSV_Altitude r) (GroundElevation r)
    (CSV_Latitude r) (CSV_Longitude r) (BankAngle r) (PitchAngle r) (HeadingMagnetic r)
    (HeadingTrue r) (AmbientTemperature r) (AmbientWindDirection r)
    (AmbientWindVelocity r) (FlapsHandlePosition r) (FuelTotalQuantity r) (GearDown r)
    (OnGround r) (GForce r) (VerticalSpeed r) (OverspeedWarning r) v.

(** [strings.Join]. *)
Fixpoint Join (elems : list string) (sep : string) : string :=
  match elems with
  | [] => ""
  | x :: rest =>
      match rest with
      | [] => x
      | _ :: _ => String.append x (String.append sep (Join rest sep))
      end
  end.

(** [strings.Split] for a separator that is not empty: the pieces between
    the occurrences of [sep] found from left to right without overlap.
    [cur] is the piece read so far, reversed; [skip] is what is left to pass
    of the separator just found. *)
Fixpoint split_from (sep : string) (skip : nat) (cur : list ascii) (s : string)
    : list string :=
  match s with
  | EmptyString => [string_of_list_ascii (rev cur)]
  | String c s' =>
      match skip with
      | S k => split_from sep k cur s'
      | O =>
          if String.prefix sep s
          then string_of_list_ascii (rev cur)
               :: split_from sep (String.length sep - 1) [] s'
          else split_from sep 0 (c :: cur) s'
      end
  end.

Definition Split (s sep : string) : list string := split_from sep 0 [] s.

(** [ValidateCSVStructure], from the rows that [csvReader.ReadAll] gives
    ([None]: its error); [None] is the nil error. *)
Definition ValidateCSVStructure (ReadAll : option (list (list string)))
    : option csv_error :=
  match ReadAll with
  | None => Some ErrReadCSV
  | Some records =>
      if (length records <? 3)%nat then Some ErrTooShortStructure
      else if existsb containsFlightDataHeaders records then None
      else Some ErrNoValidHeaders
  end.

Section CSVParse.

(** Of the libraries: [strings.TrimSpace], [strconv.ParseFloat(s, 64)]
    ([None]: its error), and of package time the type [time.Time], its zero
    value, [IsZero], [time.Parse] with the layout
    2006-01-02T15:04:05.9999999-07:00 ([None]: its error) and
    [t.Sub(u).Seconds()]. *)
Variable TrimSpace : string -> string.
Variable ParseFloat : string -> option float.
Variable time_Time : Type.
Variable zero_Time : time_Time.
Variable IsZero : time_Time -> bool.
Variable time_Parse : string -> option time_Time.
Variable Sub_Seconds : time_Time -> time_Time -> float.

Definition parseBool (value : string) : bool :=
  let value := ToLower (TrimSpace value) in
  String.eqb value "true" || String.eqb value "1" || String.eqb value "yes".

(** The switch of [parseCSVRecord] for one column whose trimmed cell
    [value] is not empty: the first case that matches the header decides. *)
Definition parse_cell (header value : string) (flightRecord : CSVFlightRecord)
    : CSVFlightRecord :=
  let headerLower := ToLower header in
  let parsed_float (set : float -> CSVFlightRecord -> CSVFlightRecord) :=
    match ParseFloat value with
    | Some val => set val flightRecord
    | None => flightRecord
    end in
  if Contains header "Time" then set_CSV_Time value flightRecord
  else if Contains headerLower "airspeedindicated"
    then parsed_float set_AirspeedIndicated
  else if Contains headerLower "airspeedtrue"
    then parsed_float set_AirspeedTrue
  else if Contains headerLower "groundspeed"
    then parsed_float set_GroundSpeed
  else if Contains headerLower "altitude" && Contains headerLower "feet"
    then parsed_float set_CSV_Altitude
  else if Contains headerLower "groundelevation"
    then parsed_float set_GroundElevation
  else if Contains headerLower "latitude"
    then parsed_float set_CSV_Latitude
  else if Contains headerLower "longitude"
    then parsed_float set_CSV_Longitude
  else if Contains headerLower "bankangle"
    then parsed_float set_BankAngle
  else if Contains headerLower "pitchangle"
    then parsed_float set_PitchAngle
  else if Contains headerLower "headingmagnetic"
    then parsed_float set_HeadingMagnetic
  else if Contains headerLower "headingtrue"
    then parsed_float set_HeadingTrue
  else if Contains headerLower "ambienttemperature" && negb (Contains headerLower "total")
    then parsed_float set_AmbientTemperature
  else if Contains headerLower "ambientwinddirection"
    then parsed_float set_AmbientWindDirection
  else if Contains headerLower "ambientwindvelocity"
    then parsed_float set_AmbientWindVelocity
  else if Contains headerLower "flapshandleposition"
    then parsed_float set_FlapsHandlePosition
  else if Contains headerLower "fueltotalquantity"
    then parsed_float set_FuelTotalQuantity
  else if Contains headerLower "geardown"
    then set_GearDown (parseBool value) flightRecord
  else if Contains headerLower "onground"
    then set_OnGround (parseBool value) flightRecord
  else if Contains headerLower "gforce"
    then parsed_float set_GForce
  else if Contains headerLower "verticalspeed"
    then parsed_float set_VerticalSpeed
  else if Contains headerLower "overspeedwarning"
    then set_OverspeedWarning (parseBool value) flightRecord
  else if Contains headerLower "stallwarning"
    then set_StallWarning (parseBool value) flightRecord
  else flightRecord.

(** One turn of the loop over the headers. *)
Definition parse_column (flightRecord : CSVFlightRecord) (column : string * string)
    : CSVFlightRecord :=
  let (header, cell) := column in
  let value := TrimSpace cell in
  if String.eqb value "" then flightRecord else parse_cell header value flightRecord.

(** [None] is the error "header/record length mismatch". *)
Definition parseCSVRecord (headers record : list string) : option CSVFlightRecord :=
  if negb (length headers =? length record)%nat then None
  else Some (fold_left parse_column (combine headers record) zero_CSVFlightRecord).

(** One turn of the metadata loop over the first rows. *)
Definition metadata_row (metadata : CSVMetadata) (record : list string) : CSVMetadata :=
  match record with
  | [] => metadata
  | _ :: _ =>
      let row := Join record " " in
      let metadata :=
        if Contains row "FS-FlightControl"
        then mkCSVMetadata "FS-FlightControl" (RecordedAt metadata) (FlightTitle metadata)
               (AircraftType metadata) (TotalRecords metadata)
        else metadata in
      if Contains row "Recorded at:"
      then
        let parts := Split row "Recorded at:" in
        if (1 <? length parts)%nat
        then
          let timeStr := TrimSpace (nth 1 parts "") in
          let timeStr := hd "" (Split timeStr " (more info") in
          mkCSVMetadata (Source metadata) timeStr (FlightTitle metadata)
            (AircraftType metadata) (TotalRecords metadata)
        else metadata
      else metadata
  end.

Definition parseCSVMetadata (records : list (list string)) (options : CSVImportOptions)
    : CSVMetadata :=
  let metadata :=
    fold_left metadata_row (firstn 5 records)
      (mkCSVMetadata "" "" (Options_FlightTitle options) (Options_AircraftType options) 0) in
  let flightTitle :=
    if String.eqb (FlightTitle metadata) ""
    then if negb (String.eqb (RecordedAt metadata) "")
         then String.append "Flight " (RecordedAt metadata)
         else "Imported CSV Flight"
    else FlightTitle metadata in
  let aircraftType :=
    if String.eqb (AircraftType metadata) "" then "Unknown" else AircraftType metadata in
  mkCSVMetadata (Source metadata) (RecordedAt metadata) flightTitle aircraftType
    (TotalRecords metadata).

(** The search for the header row: the first row at index [SkipRows] or
    later that has the flight data headers, with its index. *)
Fixpoint find_header (i SkipRows : Z) (records : list (list string))
    : option (Z * list string) :=
  match records with
  | [] => None
  | record :: rest =>
      if i <? SkipRows then find_header (i + 1) SkipRows rest
      else if containsFlightDataHeaders record then Some (i, record)
      else find_header (i + 1) SkipRows rest
  end.

(** One turn of the loop over the rows below the header; the state is
    [flightRecords] and [startTime]. *)
Definition parse_row (headers : list string)
    (state : list CSVFlightRecord * time_Time) (record : list string)
    : list CSVFlightRecord * time_Time :=
  let (flightRecords, startTime) := state in
  if negb (length record =? length headers)%nat then state
  else
    match parseCSVRecord headers record with
    | None => state
    | Some flightRecord =>
        match time_Parse (CSV_Time flightRecord) with
        | Some recordTime =>
            if IsZero startTime
            then (flightRecords ++ [set_CSV_TimestampSeconds 0 flightRecord], recordTime)
            else (flightRecords
                    ++ [set_CSV_TimestampSeconds (Sub_Seconds recordTime startTime)
                          flightRecord],
                  startTime)
        | None => (flightRecords ++ [flightRecord], startTime)
        end
    end.

(** [ParseCSVFlightData], from the rows that [csvReader.ReadAll] gives. *)
Definition ParseCSVFlightData (ReadAll : option (list (list string)))
    (options : CSVImportOptions) : csv_error + CSVFlightData :=
  match ReadAll with
  | None => inl ErrReadCSV
  | Some records =>
      if (length records <? 3)%nat then inl ErrTooShort
      else
        let metadata := parseCSVMetadata records options in
        match find_header 0 (SkipRows options) records with
        | None => inl ErrNoHeaderRow
        | Some (headerRowIndex, headers) =>
            let flightRecords :=
              fst (fold_left (parse_row headers)
                     (skipn (Z.to_nat (headerRowIndex + 1)) records) ([], zero_Time)) in
            match flightRecords with
            | [] => inl ErrNoValidRecords
            | _ :: _ =>
                inr (mkCSVFlightData
                       (mkCSVMetadata (Source metadata) (RecordedAt metadata)
                          (FlightTitle metadata) (AircraftType metadata)
                          (Z.of_nat (length flightRecords)))
                       headers flightRecords)
            end
        end
  end.

End CSVParse.

(* ===================================================================== *)
(** ** Importing an uploaded CSV file (data_analysis.go) *)
(* ===================================================================== *)

Section CSVUpload.

Variable faults : nat -> bool.
Variable localtime : string.
Variable ToUpper_fragment : ascii -> string.
Variable TrimSpace : string -> string.
Variable ParseFloat : string -> option float.
Variable time_Time : Type.
Variable zero_Time : time_Time.
Variable IsZero : time_Time -> bool.
Variable time_Parse : string -> option time_Time.
Variable Sub_Seconds : time_Time -> time_Time -> float.

(** [importCSVFile] for a file that opens: [ReadAll] is what the CSV reader
    gives for the file, which is read twice, by [ValidateCSVStructure] and,
    from the start again, by [ParseCSVFlightData]. *)
Definition importCSVFile (ReadAll : option (list (list string))) (filename : string)
    (mainDB : DB) : (csv_error + Flight) * DB :=
  match ValidateCSVStructure ReadAll with
  | Some e => (inl (ErrContext "invalid CSV structure" e), mainDB)
  | None =>
      let options :=
        mkCSVImportOptions (extractFlightTitle ToUpper_fragment filename) "Unknown" 2 in
      match ParseCSVFlightData TrimSpace ParseFloat time_Time zero_Time IsZero time_Parse
              Sub_Seconds ReadAll options with
      | inl e => (inl (ErrContext "failed to parse CSV data" e), mainDB)
      | inr csvData =>
          match ImportFlightFromCSV faults localtime csvData mainDB with
          | (inl e, db) => (inl (ErrContext "failed to import CSV to database" e), db)
          | (inr flight, db) => (inr flight, db)
          end
      end
  end.

End CSVUpload.

(* ===================================================================== *)
(** ** Vocabulary of the properties *)
(* ===================================================================== *)

Definition positive (x : float) : bool := PrimFloat.ltb 0 x.

Definition nonzero (x : float) : bool := negb (PrimFloat.eqb x 0).

(** What it means for a reported statistic to be computed over a series:
    it is the result of [calculateDataStatistics] on exactly that series,
    absent when the series is empty and with [Count] its length otherwise. *)
Definition computed_over (xs : list float) (reported : option DataStatistics) : Prop :=
  reported = calculateDataStatistics xs /\
  (xs = [] -> reported = None) /\
  (xs <> [] -> exists ds, reported = Some ds /\ Count ds = Z.of_nat (length xs)).

(** The position series of the specification's example: altitudes 0, 100
    and -50, every other field zero. *)
Definition example_point (altitude : float) : PositionPoint :=
  mkPositionPoint 0 0 altitude 0 0 0 0 0.

Definition example_points : list PositionPoint :=
  [example_point 0; example_point 100; example_point (-50)].

(** The specification's rejected request: a span of 0.5 s. *)
Definition example_trim_request : TrimRequest := mkTrimRequest 1 "F2" 5 5.5.

Definition empty_store : DB := mkDB [] [] [] [] [] [] [] [] [] [] [] 0 "".

(** The oracle of a driver that never fails. *)
Definition no_faults : nat -> bool := fun _ => false.

(** A driver for the worked examples.  It covers the layouts the examples
    use: a trailing Z is dropped; a text of the layout
    [YYYY-MM-DD hh:mm:ss] or [YYYY-MM-DDThh:mm:ss] is a UTC time and is
    rendered [YYYY-MM-DDThh:mm:ssZ]; the same with a fraction of three
    digits keeps the fraction without its trailing zeros; the same with a
    zone [+hh:mm] keeps its zone (Z for a zero offset); every other text
    gives the zero time.  The digits are not checked for being a date of
    the calendar. *)
Definition is_decimal_digit (c : ascii) : bool :=
  ((48 <=? nat_of_ascii c) && (nat_of_ascii c <=? 57))%nat.

Fixpoint has_layout (layout s : string) : bool :=
  match layout, s with
  | EmptyString, EmptyString => true
  | String l layout', String c s' =>
      (if Ascii.eqb l "0" then is_decimal_digit c
       else if Ascii.eqb l "T" then Ascii.eqb c " " || Ascii.eqb c "T"
       else if Ascii.eqb l "+" then Ascii.eqb c "+" || Ascii.eqb c "-"
       else Ascii.eqb l c)
      && has_layout layout' s'
  | _, _ => false
  end.

Definition trim_suffix_Z (s : string) : string :=
  let n := String.length s in
  if String.eqb (substring (n - 1) 1 s) "Z" then substring 0 (n - 1) s else s.

Fixpoint trim_zeros (digits : string) : string :=
  match digits with
  | EmptyString => EmptyString
  | String c rest =>
      let rest := trim_zeros rest in
      if String.eqb rest "" && Ascii.eqb c "0" then EmptyString else String c rest
  end.

Definition example_datetime_text (s : string) : string :=
  let s := trim_suffix_Z s in
  if has_layout "0000-00-00T00:00:00" s then
    (substring 0 10 s ++ "T" ++ substring 11 8 s ++ "Z")%string
  else if has_layout "0000-00-00T00:00:00.000" s then
    let fraction := trim_zeros (substring 20 3 s) in
    (substring 0 10 s ++ "T" ++ substring 11 8 s
     ++ (if String.eqb fraction "" then "" else "." ++ fraction) ++ "Z")%string
  else if has_layout "0000-00-00T00:00:00+00:00" s then
    let zone := substring 19 6 s in
    (substring 0 10 s ++ "T" ++ substring 11 8 s
     ++ (if String.eqb zone "+00:00" || String.eqb zone "-00:00" then "Z" else zone))%string
  else "0001-01-01T00:00:00Z".

Definition example_driver : Driver := {| datetime_text := example_datetime_text |}.

(** [m], run against the oracle [faults], is matched by [m0], the same step
    run against a driver that never fails: when [m] succeeds, [m0] gives
    the same result and state, and no statement in between was failed. *)
Definition fault_sound (faults : nat -> bool) {A : Type} (m0 m : Tx A) : Prop :=
  forall s a s',
    m s = Ok (a, s') ->
    m0 s = Ok (a, s') /\
    (tx_n s <= tx_n s')%nat /\
    forall k, (tx_n s <= k < tx_n s')%nat -> faults k = false.

(** [db'] is [db] with rows appended: [F] to flight, [A] to aircraft,
    [S t] to the series table [t] and [M] to markers. *)
Record grows (db db' : DB) (F : list FlightRow) (A : list AircraftRow)
    (S : SeriesTable -> list SeriesRow) (M : list MarkerRow) : Prop := mkGrows {
  grows_flight : flight db' = flight db ++ F;
  grows_aircraft : aircraft db' = aircraft db ++ A;
  grows_series : forall t, series db' t = series db t ++ S t;
  grows_markers : markers db' = markers db ++ M
}.

Definition no_rows : SeriesTable -> list SeriesRow := fun _ => [].

Definition SeriesTable_eqb (a b : SeriesTable) : bool :=
  match a, b with
  | position, position | attitude, attitude | engine, engine
  | handle, handle | light, light
  | primary_flight_control, primary_flight_control
  | secondary_flight_control, secondary_flight_control
  | waypoint, waypoint => true
  | _, _ => false
  end.

(** Rows for one table only. *)
Definition only (t : SeriesTable) (rows : list SeriesRow) : SeriesTable -> list SeriesRow :=
  fun t' => if SeriesTable_eqb t' t then rows else [].

(** The rows an import reads from the foreign database, in the order of
    its loops. *)
Definition source_flights (sourceDB : DB) : list FlightRow :=
  order_by by_start_zulu_desc (flight sourceDB).

Definition source_aircraft (sourceDB : DB) (sourceFlightID : Z) : list AircraftRow :=
  select_aircraft sourceFlightID sourceDB.

Definition source_rows (sourceDB : DB) (t : SeriesTable) (acs : list AircraftRow)
    : list SeriesRow :=
  flat_map (fun a => select_series t (aircraft_id a) sourceDB) acs.

Definition imported_aircraft (sourceDB : DB) (sourceFlightIDs : list Z) : list AircraftRow :=
  flat_map (source_aircraft sourceDB) sourceFlightIDs.

(** The INSERTs of an import: one per flight, per aircraft of a flight and
    per position, attitude and engine row of such an aircraft. *)
Definition aircraft_statements (sourceDB : DB) (acs : list AircraftRow) : nat :=
  (length acs + length (source_rows sourceDB position acs)
   + length (source_rows sourceDB attitude acs)
   + length (source_rows sourceDB engine acs))%nat.

Definition import_statements (sourceDB : DB) : nat :=
  (length (flight sourceDB)
   + aircraft_statements sourceDB
       (imported_aircraft sourceDB (map flight_id (source_flights sourceDB))))%nat.

(** The rows [A] and [S] are what the import adds for the aircraft [acs]. *)
Definition imports_aircraft (sourceDB : DB) (acs : list AircraftRow)
    (A : list AircraftRow) (S : SeriesTable -> list SeriesRow) : Prop :=
  length A = length acs /\
  length (S position) = length (source_rows sourceDB position acs) /\
  length (S attitude) = length (source_rows sourceDB attitude acs) /\
  length (S engine) = length (source_rows sourceDB engine acs) /\
  S handle = [] /\ S light = [] /\ S primary_flight_control = [] /\
  S secondary_flight_control = [] /\ S waypoint = [].

(** The specification's test of atomicity: one flight with four aircraft,
    each with one position, attitude and engine row; the driver fails
    statement 14, the position INSERT of the fourth aircraft. *)
Definition example_source : DB :=
  let row (a : Z) := mkSeriesRow a 1000 [VReal 1; VReal 2; VReal 3; VNull; VNull; VNull] in
  let ac (a : Z) := mkAircraftRow a 7 a "C172" None None [] in
  mkDB [mkFlightRow 7 (Some "Pattern work") None "2024-05-01T10:00:00Z"
          "2024-05-01T11:00:00Z" "2024-05-01T12:00:00" "2024-05-01T13:00:00" []]
       [ac 1; ac 2; ac 3; ac 4]
       [row 1; row 2; row 3; row 4] [row 1; row 2; row 3; row 4]
       [row 1; row 2; row 3; row 4] [] [] [] [] [] [] 0 "".

Definition example_store : DB :=
  mkDB [mkFlightRow 1 (Some "F") None "2024-04-01T10:00:00Z" "2024-04-01T11:00:00Z"
          "2024-04-01T12:00:00" "2024-04-01T13:00:00" []]
       [mkAircraftRow 1 1 1 "C172" None None []]
       [] [] [] [] [] [] [] [] [] 0 "2024-06-01 00:00:00".

Definition fails_at (n : nat) : nat -> bool := fun k => Nat.eqb k n.

Definition aircraft_ids_of (flightID : Z) (db : DB) : list Z :=
  map aircraft_id (select_aircraft flightID db).

(** The rows that reference none of the aircraft [ids]. *)
Definition without_aircraft (ids : list Z) (rows : list SeriesRow) : list SeriesRow :=
  List.filter (fun r => negb (existsb (fun id => row_aircraft_id r =? id) ids)) rows.

(** [db'] is [db] without the series rows of the aircraft [ids]. *)
Record purged (ids : list Z) (db db' : DB) : Prop := mkPurged {
  purged_flight : flight db' = flight db;
  purged_aircraft : aircraft db' = aircraft db;
  purged_series : forall t, series db' t = without_aircraft ids (series db t);
  purged_markers : markers db' = markers db
}.

(** [db'] is [db] without flight [flightID] and everything below it. *)
Record deleted_flight (flightID : Z) (db db' : DB) : Prop := mkDeletedFlight {
  deleted_flight_row :
    flight db' = List.filter (fun f => negb (flight_id f =? flightID)) (flight db);
  deleted_aircraft :
    aircraft db' =
    List.filter (fun a => negb (aircraft_flight_id a =? flightID)) (aircraft db);
  deleted_series :
    forall t, series db' t = without_aircraft (aircraft_ids_of flightID db) (series db t);
  deleted_markers :
    markers db' =
    List.filter (fun m => negb (marker_flight_id m =? flightID)) (markers db)
}.

(** The tables one turn of the loop of [DeleteFlight] deletes from. *)
Definition aircraft_tables : list Table :=
  [TSeries position; TSeries attitude; TSeries engine; TSeries handle; TSeries light;
   TSeries primary_flight_control; TSeries secondary_flight_control; TSeries waypoint].

Definition flight_exists (flightID : Z) (db : DB) : bool :=
  existsb (fun f => flight_id f =? flightID) (flight db).

(** The statements of a fault-free [DeleteFlight], in order. *)
Definition delete_log (flightID : Z) (db : DB) : list Table :=
  flat_map (fun _ => aircraft_tables) (aircraft_ids_of flightID db)
  ++ [TMarkers; TAircraft; TFlight].

(** In a list of statements, every statement on [child] comes before every
    statement on [parent]. *)
Definition all_before (child parent : Table) (log : list Table) : Prop :=
  forall before after, log = before ++ parent :: after -> ~ In child after.

(** A step that leaves the flight and markers tables alone. *)
Definition keeps_markers (db db' : DB) : Prop :=
  markers db' = markers db /\ markers_seq db' = markers_seq db /\
  now db' = now db /\ flight db' = flight db.

Definition tx_keeps {A : Type} (m : Tx A) : Prop :=
  forall s a s', m s = Ok (a, s') -> keeps_markers (tx_db s) (tx_db s').

(** The markers of a flight, as [duplicateMarkers] reads them. *)
Definition markers_of (flightID : Z) (db : DB) : list MarkerRow :=
  order_by by_time_seconds
    (List.filter (fun m => marker_flight_id m =? flightID) (markers db)).

(** [new] is the copy that [duplicateMarkers] makes of [src]. *)
Definition regular_copy (newFlightID : Z) (src new : MarkerRow) : Prop :=
  marker_flight_id new = newFlightID /\
  time_seconds new = time_seconds src /\
  label new = label src /\
  marker_type new = "regular".

(** A telemetry row [offset] ms after the time base [base]. *)
Definition sample (aircraftID base offset : Z) : SeriesRow :=
  mkSeriesRow aircraftID (base + offset) [VInt offset].

(** A store with one flight of one aircraft: position samples every 10 s
    from 0 s to 100 s on the time base 1000 ms, attitude samples on the time
    base 5000 ms, engine samples on the time base 1000 ms, and a staged trim
    selection from 10 s to 40 s with a regular marker in between. *)
Definition example_flight_store : DB :=
  mkDB [mkFlightRow 1 (Some "F") None "2024-04-01T10:00:00Z" "2024-04-01T11:00:00Z"
          "2024-04-01T12:00:00" "2024-04-01T13:00:00" [VNull; VInt 1]]
       [mkAircraftRow 1 1 1 "C172" (Some "D-EABC") None [VInt 0]]
       (map (sample 1 1000)
          [0; 10000; 20000; 30000; 40000; 50000; 60000; 70000; 80000; 90000; 100000])
       (map (sample 1 5000) [0; 25000; 50000; 75000; 100000])
       (map (sample 1 1000) [0; 50000; 100000])
       [] [] [] [] []
       [mkMarkerRow 1 1 10 "start" "trim_start" "2024-06-01 00:00:00";
        mkMarkerRow 2 1 40 "end" "trim_end" "2024-06-01 00:00:01";
        mkMarkerRow 3 1 20 "turn" "regular" "2024-06-01 00:00:02"]
       3 "2024-06-02 00:00:00".

Definition count_markers (flightID : Z) (type : string) (db : DB) : nat :=
  length (List.filter
            (fun m => (marker_flight_id m =? flightID) && String.eqb (marker_type m) type)
            (markers db)).

Definition trim_markers_unique (db : DB) : Prop :=
  forall flightID,
    (count_markers flightID "trim_start" db <= 1)%nat /\
    (count_markers flightID "trim_end" db <= 1)%nat.

(** A request to the generic marker endpoint that names a trim type. *)
Definition second_trim_start : Marker := mkMarker 0 1 15 "second start" "trim_start" "".

(** A request to the generic marker endpoint for the flight id 2, which no
    flight of the example store has. *)
Definition stray_marker : Marker := mkMarker 0 2 5 "stray" "" "".

Definition retag (newAircraftID : Z) (r : SeriesRow) : SeriesRow :=
  mkSeriesRow newAircraftID (timestamp r) (row_cols r).

Definition rows_of (aircraftID : Z) (rows : list SeriesRow) : list SeriesRow :=
  List.filter (fun r => row_aircraft_id r =? aircraftID) rows.

(** The per-aircraft loop body of [duplicateFlight] and [trimFlight], over
    the way one series is copied. *)
Definition copy_aircraft_with (copy : SeriesTable -> Z -> Z -> Tx unit)
    (newFlightID : Z) (ac : Aircraft) : Tx unit :=
  let* newAircraftID :=
    tx_wrap "failed to duplicate aircraft"
      (duplicateAircraftRecord no_faults ac newFlightID) in
  tx_wrap "failed to duplicate position data for aircraft"
    (copy position (Aircraft_ID ac) newAircraftID) ;;
  tx_wrap "failed to duplicate attitude data for aircraft"
    (copy attitude (Aircraft_ID ac) newAircraftID) ;;
  tx_wrap "failed to duplicate engine data for aircraft"
    (copy engine (Aircraft_ID ac) newAircraftID).

(** [copy] inserts, for the aircraft [orig], the rows [sel t] chooses among
    the rows of [orig] in table [t], re-tagged with the new aircraft. *)
Definition copies_selection (copy : SeriesTable -> Z -> Z -> Tx unit)
    (sel : SeriesTable -> list SeriesRow -> option (list SeriesRow)) : Prop :=
  forall t orig new s chosen,
    sel t (rows_of orig (series (tx_db s) t)) = Some chosen ->
    exists s',
      copy t orig new s = Ok (tt, s') /\
      grows (tx_db s) (tx_db s') [] [] (only t (map (retag new) chosen)) [] /\
      markers_seq (tx_db s') = markers_seq (tx_db s) /\ now (tx_db s') = now (tx_db s).

Definition to_Aircraft (a : AircraftRow) : Aircraft :=
  mkAircraft (aircraft_id a) (aircraft_flight_id a) (seq_nr a) (aircraft_type a)
    (NullString_String (tail_number a)) (NullString_String (airline a)).

Definition copy_of_aircraft (newID newFlightID : Z) (a : AircraftRow) : AircraftRow :=
  mkAircraftRow newID newFlightID (seq_nr a) (aircraft_type a)
    (tail_number a) (airline a) (aircraft_cols a).

(** The aircraft rows the loop adds: copies numbered from [start]. *)
Fixpoint copied_aircraft (start newFlightID : Z) (acs : list AircraftRow) : list AircraftRow :=
  match acs with
  | [] => []
  | a :: rest =>
      copy_of_aircraft start newFlightID a :: copied_aircraft (start + 1) newFlightID rest
  end.

(** The series rows the loop adds to table [t], given what is chosen for
    each aircraft. *)
Fixpoint copied_rows (chosen : Z -> list SeriesRow) (start : Z) (acs : list AircraftRow)
    : list SeriesRow :=
  match acs with
  | [] => []
  | a :: rest =>
      map (retag start) (chosen (aircraft_id a)) ++ copied_rows chosen (start + 1) rest
  end.

Definition copied_series (chosen : SeriesTable -> Z -> list SeriesRow) (start : Z)
    (acs : list AircraftRow) : SeriesTable -> list SeriesRow :=
  fun t =>
    match t with
    | position | attitude | engine => copied_rows (chosen t) start acs
    | _ => []
    end.

Definition telemetry (t : SeriesTable) : Prop :=
  match t with
  | position | attitude | engine => True
  | _ => False
  end.

(** The store respects the keys of the schema: flight and aircraft ids are
    unique, and every aircraft, telemetry row and marker references a row
    that exists. *)
Record store_ok (db : DB) : Prop := mkStoreOk {
  ok_flight_ids : List.NoDup (map flight_id (flight db));
  ok_aircraft_ids : List.NoDup (map aircraft_id (aircraft db));
  ok_aircraft_flight :
    forall a, In a (aircraft db) -> In (aircraft_flight_id a) (map flight_id (flight db));
  ok_series_aircraft :
    forall t r, In r (series db t) -> In (row_aircraft_id r) (map aircraft_id (aircraft db));
  ok_marker_flight :
    forall m, In m (markers db) -> In (marker_flight_id m) (map flight_id (flight db))
}.

Definition select_all (t : SeriesTable) (rows : list SeriesRow) : option (list SeriesRow) :=
  Some (order_by by_timestamp rows).

(** The aircraft of a flight, in the order of seq_nr in which the program
    reads them. *)
Definition aircraft_of (flightID : Z) (db : DB) : list AircraftRow :=
  select_aircraft flightID db.

Definition all_rows (db : DB) (t : SeriesTable) (aircraftID : Z) : list SeriesRow :=
  order_by by_timestamp (rows_of aircraftID (series db t)).

(** The copy that [duplicateFlightRecord] makes of a flight row: the new
    title, the four times as the driver gave them, every other column
    kept. *)
Definition copy_of_flight (newID : Z) (newTitle : string) (r : FlightRow) : FlightRow :=
  mkFlightRow newID (Some newTitle) (flight_number r)
    (datetime_text (start_zulu_sim_time r)) (datetime_text (end_zulu_sim_time r))
    (datetime_text (start_local_sim_time r)) (datetime_text (end_local_sim_time r))
    (flight_cols r).

(** What a derived copy (full duplicate or trim) [db'] of flight [F] of
    [db] looks like, given the rows [chosen] for each aircraft and table and
    the relation [P] between a marker of [F] in [src_markers] and its copy. *)
Record derived_copy (chosen : SeriesTable -> Z -> list SeriesRow)
    (P : MarkerRow -> MarkerRow -> Prop) (src_markers : list MarkerRow)
    (db : DB) (F : Z) (newTitle : string) (db' : DB) (newID : Z) : Prop := mkDerivedCopy {
  dc_flight :
    exists f, In f (flight db) /\ flight_id f = F /\
              List.filter (fun x => flight_id x =? newID) (flight db')
              = [copy_of_flight newID newTitle f];
  dc_aircraft_count :
    length (aircraft_of newID db') = length (aircraft_of F db);
  dc_aircraft :
    Forall2
      (fun a c =>
         c = copy_of_aircraft (aircraft_id c) newID a /\
         forall t, telemetry t ->
           rows_of (aircraft_id c) (series db' t)
           = map (retag (aircraft_id c)) (chosen t (aircraft_id a)))
      (aircraft_of F db) (aircraft_of newID db');
  dc_markers :
    Forall2 P src_markers
      (List.filter (fun m => marker_flight_id m =? newID) (markers db'));
  dc_source_flight :
    List.filter (fun x => flight_id x =? F) (flight db')
    = List.filter (fun x => flight_id x =? F) (flight db);
  dc_source_aircraft : aircraft_of F db' = aircraft_of F db;
  dc_source_rows :
    forall a t, In a (aircraft_of F db) ->
      rows_of (aircraft_id a) (series db' t) = rows_of (aircraft_id a) (series db t);
  dc_source_markers :
    List.filter (fun m => marker_flight_id m =? F) (markers db')
    = List.filter (fun m => marker_flight_id m =? F) (markers db);
  dc_extends : exists F' A S M, grows db db' F' A S M
}.

(** A full duplicate [db'] of flight [F] of [db]: the copy agrees with [F]
    on counts, timestamps and marker data, and [F] is left as it was. *)
Record duplicate_of (db : DB) (F : Z) (newTitle : string) (db' : DB) (newID : Z)
    : Prop := mkDuplicateOf {
  dup_flight :
    exists f, In f (flight db) /\ flight_id f = F /\
              List.filter (fun x => flight_id x =? newID) (flight db')
              = [copy_of_flight newID newTitle f];
  dup_aircraft_count :
    length (aircraft_of newID db') = length (aircraft_of F db);
  dup_aircraft :
    Forall2
      (fun a c =>
         c = copy_of_aircraft (aircraft_id c) newID a /\
         forall t, telemetry t ->
           rows_of (aircraft_id c) (series db' t)
           = map (retag (aircraft_id c)) (all_rows db t (aircraft_id a)) /\
           length (rows_of (aircraft_id c) (series db' t))
           = length (rows_of (aircraft_id a) (series db t)) /\
           map timestamp (rows_of (aircraft_id c) (series db' t))
           = map timestamp (all_rows db t (aircraft_id a)))
      (aircraft_of F db) (aircraft_of newID db');
  dup_markers :
    Forall2 (regular_copy newID) (markers_of F db)
      (List.filter (fun m => marker_flight_id m =? newID) (markers db'));
  dup_marker_count :
    length (List.filter (fun m => marker_flight_id m =? newID) (markers db'))
    = length (List.filter (fun m => marker_flight_id m =? F) (markers db));
  dup_source_flight :
    List.filter (fun x => flight_id x =? F) (flight db')
    = List.filter (fun x => flight_id x =? F) (flight db);
  dup_source_aircraft : aircraft_of F db' = aircraft_of F db;
  dup_source_rows :
    forall a t, In a (aircraft_of F db) ->
      rows_of (aircraft_id a) (series db' t) = rows_of (aircraft_id a) (series db t);
  dup_source_markers :
    List.filter (fun m => marker_flight_id m =? F) (markers db')
    = List.filter (fun m => marker_flight_id m =? F) (markers db);
  dup_extends : exists F' A S M, grows db db' F' A S M
}.

(** [int64(seconds * 1000)] *)
Definition milliseconds (seconds : float) : Z :=
  Int64.of_float (PrimFloat.mul seconds 1000).

(** The rows a trim selects among the rows of one aircraft in one table,
    with the timestamps it gives them, as the code computes them. *)
Definition trimmed_rows (startTime endTime : float) (minTimestamp : Z)
    (rows : list SeriesRow) : list SeriesRow :=
  let startTimestamp := Int64.add minTimestamp (milliseconds startTime) in
  let endTimestamp := Int64.add minTimestamp (milliseconds endTime) in
  map (fun r =>
         mkSeriesRow (row_aircraft_id r)
           (Int64.add minTimestamp (Int64.sub (timestamp r) startTimestamp))
           (row_cols r))
    (order_by by_timestamp
       (List.filter (fun r => (startTimestamp <=? timestamp r)
                              && (timestamp r <=? endTimestamp)) rows)).

Definition select_window (startTime endTime : float) (t : SeriesTable)
    (rows : list SeriesRow) : option (list SeriesRow) :=
  match min_of (map timestamp rows) with
  | None => None
  | Some minTimestamp => Some (trimmed_rows startTime endTime minTimestamp rows)
  end.

(** The rows of [rows] inside the window [m + S, m + E], in timestamp
    order, moved by [- S] and given to the aircraft [new]. *)
Definition shifted_rows (new m S E : Z) (rows : list SeriesRow) : list SeriesRow :=
  map (fun r => mkSeriesRow new (m + (timestamp r - (m + S))) (row_cols r))
    (order_by by_timestamp
       (List.filter (fun r => (m + S <=? timestamp r) && (timestamp r <=? m + E)) rows)).

(** The example flight without its attitude rows. *)
Definition example_without_attitude : DB :=
  mkDB (flight example_flight_store) (aircraft example_flight_store)
    (position_rows example_flight_store) [] (engine_rows example_flight_store)
    [] [] [] [] [] (markers example_flight_store)
    (markers_seq example_flight_store) (now example_flight_store).

(** *** Sorting in place *)

(** Every element in the range of indices [low..high] of [arr'] has the
    property that all elements in that range of [arr] have. *)
Definition range_from (arr arr' : list float) (low high : Z) : Prop :=
  forall P : float -> Prop,
    (forall k, low <= k <= high -> P (at_index arr k)) ->
    forall k, low <= k <= high -> P (at_index arr' k).

Definition same_outside (arr arr' : list float) (low high : Z) : Prop :=
  forall k, 0 <= k -> k < low \/ high < k -> at_index arr' k = at_index arr k.

(** No element of the range [low..high] is smaller than one before it. *)
Definition sorted_range (arr : list float) (low high : Z) : Prop :=
  forall a b, low <= a -> a < b -> b <= high ->
    PrimFloat.ltb (at_index arr b) (at_index arr a) = false.

(** *** Variance over a sliding window *)

(** The variance of the window of [windowSize] values that starts at [i]. *)
Definition window_variance (data : list float) (windowSize i : Z) : float :=
  match calculateDataStatistics (slice data i (i + windowSize)) with
  | Some stats => Variance stats
  | None => 0%float
  end.

(** *** Stores compared table by table *)

(** [db'] holds the same rows as [db] in every table.  The AUTOINCREMENT
    counter of [markers] is not compared: it never goes back. *)
Record same_tables (db db' : DB) : Prop := mkSameTables {
  same_flight : flight db' = flight db;
  same_aircraft : aircraft db' = aircraft db;
  same_series : forall t, series db' t = series db t;
  same_markers : markers db' = markers db
}.

(** *** Trimmed copies *)

(** The rows a trim chooses for one aircraft in one table of [db], with the
    timestamps it gives them; none when the aircraft has no row there. *)
Definition window_rows (db : DB) (startTime endTime : float) (t : SeriesTable)
    (aircraftID : Z) : list SeriesRow :=
  match min_of (map timestamp (rows_of aircraftID (series db t))) with
  | Some m => trimmed_rows startTime endTime m (rows_of aircraftID (series db t))
  | None => []
  end.

(** The markers of a flight from [startTime] to [endTime], as
    [duplicateMarkersTrimmed] reads them. *)
Definition window_markers (flightID : Z) (startTime endTime : float) (db : DB)
    : list MarkerRow :=
  order_by by_time_seconds
    (List.filter (fun m => (marker_flight_id m =? flightID)
                           && PrimFloat.leb startTime (time_seconds m)
                           && PrimFloat.leb (time_seconds m) endTime)
       (markers db)).

(** [new] is the copy that [duplicateMarkersTrimmed] makes of [src]. *)
Definition trimmed_marker (newFlightID : Z) (startTime : float) (src new : MarkerRow)
    : Prop :=
  marker_flight_id new = newFlightID /\
  time_seconds new = real_column (PrimFloat.sub (time_seconds src) startTime) /\
  label new = label src /\
  marker_type new = marker_type src.

(** Every aircraft of the flight has a row in each of the three telemetry
    tables. *)
Definition complete_telemetry (flightID : Z) (db : DB) : Prop :=
  forall a t, In a (aircraft_of flightID db) -> telemetry t ->
    rows_of (aircraft_id a) (series db t) <> [].

(** *** Reading telemetry *)

(** The indicated airspeed stored with a position row, when there is one
    and it is positive. *)
Definition stored_airspeed (ParseFloat : string -> option float) (r : SeriesRow)
    : option float :=
  match scan_NullFloat64 ParseFloat (column r 6) with
  | Some n => if Valid n && PrimFloat.ltb 0 (Float64 n) then Some (Float64 n) else None
  | None => None
  end.

(** The aircraft has position data that can be read and is not empty. *)
Definition has_position_data (ParseFloat : string -> option float) (mainDB : DB)
    (ac : Aircraft) (points : list PositionPoint) : Prop :=
  getPositionDataWithAirspeedFromMainDB ParseFloat (Aircraft_ID ac) mainDB = Some points /\
  points <> [].

(** A store with one flight of two aircraft of the same type and without
    tail numbers; both have one position row. *)
Definition position_row (aircraftID ts : Z) (altitude airspeed : SqlValue) : SeriesRow :=
  mkSeriesRow aircraftID ts [VReal 54.5; VReal (-1.75); altitude; VNull; VNull; VNull; airspeed].

Definition example_twin_store : DB :=
  mkDB [mkFlightRow 1 None None "2024-04-01T10:00:00Z" "2024-04-01T11:00:00Z"
          "2024-04-01T12:00:00" "2024-04-01T13:00:00" []]
       [mkAircraftRow 1 1 1 "C172" None None []; mkAircraftRow 2 1 2 "C172" None None []]
       [position_row 1 1000 (VReal 100) (VReal 90); position_row 1 3000 (VReal 120) VNull;
        position_row 2 1000 (VReal 200) (VReal 80)]
       [] [] [] [] [] [] [] [] 0 "2024-06-02 00:00:00".

(** No TEXT value is read as a number. *)
Definition no_ParseFloat : string -> option float := fun _ => None.

(** *** File names *)

(** Every byte of the string is ASCII. *)
Definition ascii_only (s : string) : Prop :=
  Forall (fun c => (nat_of_ascii c < 128)%nat) (list_ascii_of_string s).

(** The string has no underscore. *)
Definition no_underscore (s : string) : Prop :=
  Forall (fun c => c <> "_"%char) (list_ascii_of_string s).

(** A stand-in for [strings.ToUpper] on a one-byte fragment: the Unicode
    replacement character, as UTF-8. *)
Definition replacement_character : ascii -> string :=
  fun _ => String (ascii_of_nat 239) (String (ascii_of_nat 191)
             (String (ascii_of_nat 189) EmptyString)).

(** *** The search for distance markers *)

(** Until a marker is found there is no marker time; once one is found
    there are one or two. *)
Definition search_invariant (st : MarkerSearch) : Prop :=
  (markerFound st = false /\ markerTimes st = []) \/
  (markerFound st = true /\ (1 <= length (markerTimes st) <= 2)%nat).

(** The telemetry rows a CSV import adds for aircraft [aircraftID]: one
    position, one attitude and one engine row per record. *)
Definition csv_series (aircraftID : Z) (records : list CSVFlightRecord)
    : SeriesTable -> list SeriesRow :=
  fun t =>
    match t with
    | position => map (csv_position_row aircraftID) records
    | attitude => map (csv_attitude_row aircraftID) records
    | engine => map (csv_engine_row aircraftID) records
    | _ => []
    end.

(** What a nullable REAL column gives back for a bound float64: NaN is
    stored as NULL and read as 0. *)
Definition read_back (f : float) : float :=
  if PrimFloat.is_nan f then 0%float else real_column f.

(** A point read from the store shows a CSV record. *)
Definition shows_record (record : CSVFlightRecord) (p : PositionPoint) : Prop :=
  Timestamp p = csv_timestamp record /\
  Latitude p = read_back (CSV_Latitude record) /\
  Longitude p = read_back (CSV_Longitude record) /\
  Altitude p = read_back (PrimFloat.mul (CSV_Altitude record) feet_to_meters) /\
  IndicatedAltitude p = read_back (CSV_Altitude record) /\
  PressureAltitude p = read_back (CSV_Altitude record) /\
  (PrimFloat.ltb 0 (AirspeedIndicated record) = true ->
   Airspeed p = AirspeedIndicated record).

(** Two records of a CSV flight, one second apart. *)
Definition example_csv_record (time : string) (seconds altitude airspeed : float)
    : CSVFlightRecord :=
  mkCSVFlightRecord time seconds airspeed airspeed airspeed altitude 0
    54.5 (-1.75) 0 0 0 90 15 0 0 0 0 false false 1 0 false false.

Definition example_csv_data : CSVFlightData :=
  mkCSVFlightData
    (mkCSVMetadata "FS-FlightControl" "7/30/2025 9:05:41 PM" "Circuit" "C172" 2)
    ["Time"; "Altitude (feet)"; "Latitude"; "Longitude"]
    [example_csv_record "2025-07-30T21:05:41+02:00" 0 1000 90;
     example_csv_record "2025-07-30T21:05:42+02:00" 1 1010 91].

(** *** Parsed CSV data *)

(** The column names of a CSV export: the csv tags of [CSVFlightRecord],
    in the order of its fields. *)
Definition documented_headers : list string :=
  ["Time"; "AirspeedIndicated (knots)"; "AirspeedTrue (knots)"; "GroundSpeed (knots)";
   "Altitude (feet)"; "GroundElevation (meters)"; "Latitude (degrees)";
   "Longitude (degrees)"; "BankAngle (degrees)"; "PitchAngle (degrees)";
   "HeadingMagnetic (degrees)"; "HeadingTrue (degrees)"; "AmbientTemperature (celsius)";
   "AmbientWindDirection (degrees)"; "AmbientWindVelocity (knots)";
   "FlapsHandlePosition"; "FuelTotalQuantity (gallons)"; "GearDown (bool)";
   "OnGround (bool)"; "GForce (gforce)"; "VerticalSpeed (feet per minute)";
   "OverspeedWarning (bool)"; "StallWarning (bool)"].

Section ParsedCSV.

Variable TrimSpace : string -> string.
Variable ParseFloat : string -> option float.
Variable time_Time : Type.
Variable time_Parse : string -> option time_Time.
Variable Sub_Seconds : time_Time -> time_Time -> float.

(** The number a cell stands for: 0 when it is blank or is not a number. *)
Definition cell_float (cell : string) : float :=
  if String.eqb (TrimSpace cell) "" then 0%float
  else match ParseFloat (TrimSpace cell) with
       | Some val => val
       | None => 0%float
       end.

(** The truth value a cell stands for: false when it is blank. *)
Definition cell_bool (cell : string) : bool :=
  if String.eqb (TrimSpace cell) "" then false else parseBool TrimSpace (TrimSpace cell).

(** [r] is the record of [row] under [headers], up to its
    [TimestampSeconds]. *)
Definition from_row (headers row : list string) (r : CSVFlightRecord) : Prop :=
  exists r0 seconds,
    parseCSVRecord TrimSpace ParseFloat headers row = Some r0 /\
    r = set_CSV_TimestampSeconds seconds r0.

(** The rows as wide as the header. *)
Definition as_wide_as (headers : list string) (rows : list (list string))
    : list (list string) :=
  List.filter (fun row => (length row =? length headers)%nat) rows.

(** The seconds since the first record whose [Time] parses: [start] is the
    time of that record once it has been seen. *)
Fixpoint relative_seconds (start : option time_Time) (records : list CSVFlightRecord)
    : list float :=
  match records with
  | [] => []
  | r :: rest =>
      match time_Parse (CSV_Time r), start with
      | None, _ => 0%float :: relative_seconds start rest
      | Some t, None => 0%float :: relative_seconds (Some t) rest
      | Some t, Some t0 => Sub_Seconds t t0 :: relative_seconds start rest
      end
  end.

End ParsedCSV.

(** A CSV export of three data rows, the second too short, as the reader
    gives it, and stand-ins for the libraries: no trimming, two known
    numbers, times as seconds of a day. *)
Definition example_csv_rows : list (list string) :=
  [["sep=,"];
   ["# FS-FlightControl"; "Recorded at: 7/30/2025 9:05:41 PM (more info: x)"];
   ["Time"; "Altitude (feet)"; "Latitude (degrees)"; "Longitude (degrees)"];
   ["21:05:41"; "1000"; "54.5"; "-1.75"];
   ["21:05:42"; "1010"; "54.5"];
   ["21:05:43"; "1010"; "54.5"; "-1.75"]].

Definition example_ParseFloat (s : string) : option float :=
  if String.eqb s "1000" then Some 1000%float
  else if String.eqb s "1010" then Some 1010%float
  else if String.eqb s "54.5" then Some 54.5%float
  else if String.eqb s "-1.75" then Some (-1.75)%float
  else None.

Definition example_time_Parse (s : string) : option Z :=
  if String.eqb s "21:05:41" then Some 75941
  else if String.eqb s "21:05:42" then Some 75942
  else if String.eqb s "21:05:43" then Some 75943
  else None.

Definition example_Sub_Seconds (t u : Z) : float := float64_of_int64 (t - u).

Definition example_csv_options : CSVImportOptions :=
  mkCSVImportOptions "Evening circuit" "Unknown" 2.

(** What [ParseCSVFlightData] makes of the example. *)
Definition example_parsed_csv : CSVFlightData :=
  Eval vm_compute in
    match ParseCSVFlightData (fun s => s) example_ParseFloat Z 0 (Z.eqb 0)
            example_time_Parse example_Sub_Seconds (Some example_csv_rows)
            example_csv_options with
    | inr csvData => csvData
    | inl _ => mkCSVFlightData (mkCSVMetadata "" "" "" "" 0) [] []
    end.

(* ===================================================================== *)
(** * Properties *)
(* ===================================================================== *)

(** ** CSV header detection *)

Lemma prefix_app (p s : string) :
  String.prefix p s = true <-> exists post, s = (p ++ post)%string.
Proof.
  revert s. induction p as [|c p IH]; intros s.
  - split; [intros _; exists s; reflexivity | intros _; destruct s; reflexivity].
  - destruct s as [|d s]; simpl.
    + split; [discriminate | intros [post H]; discriminate].
    + destruct (ascii_dec c d) as [->|Hne].
      * rewrite IH. split; intros [post H]; exists post.
        -- now rewrite H.
        -- now inversion H.
      * split; [discriminate | intros [post H]; inversion H; congruence].
Qed.

Lemma Contains_app (s substr : string) :
  Contains s substr = true <-> exists pre post, s = (pre ++ substr ++ post)%string.
Proof.
  induction s as [|c s IH].
  - cbn [Contains]. rewrite orb_false_r, prefix_app. split.
    + intros [post H]. exists EmptyString, post. exact H.
    + intros [pre [post H]]. destruct pre; simpl in H.
      * exists post. exact H.
      * discriminate.
  - cbn [Contains]. rewrite orb_true_iff, IH, prefix_app. split.
    + intros [[post H]|[pre [post H]]].
      * exists EmptyString, post. exact H.
      * exists (String c pre), post. simpl. now rewrite H.
    + intros [pre [post H]]. destruct pre as [|d pre]; simpl in H.
      * left. exists post. exact H.
      * right. inversion H. exists pre, post. reflexivity.
Qed.

Lemma found_count (record : list string) (n : Z) :
  fold_left (fun n header => if matches_expected header then n + 1 else n) record n
  = n + Z.of_nat (length (List.filter matches_expected record)).
Proof.
  revert n. induction record as [|h record IH]; intros n; simpl.
  - lia.
  - rewrite IH. destruct (matches_expected h); simpl length; lia.
Qed.

Lemma matches_expected_keyword (header : string) :
  matches_expected header = true <->
  exists keyword pre post,
    In keyword expectedHeaders /\
    ToLower header = (pre ++ ToLower keyword ++ post)%string.
Proof.
  unfold matches_expected. rewrite existsb_exists. split.
  - intros [k [Hin Hc]]. apply Contains_app in Hc as [pre [post H]].
    exists k, pre, post. split; assumption.
  - intros [k [pre [post [Hin H]]]]. exists k. split; [assumption|].
    apply Contains_app. exists pre, post. exact H.
Qed.

(** C8, as the code has it: a row is recognized as the header row exactly
    when at least 3 of its columns contain, as a case-insensitive substring,
    one of the keywords Time, Altitude, Latitude, Longitude (the count is of
    matching columns, each counted once, not of distinct keywords); the row
    Time, Altitude (feet), Latitude (degrees), Longitude (degrees), Custom
    is recognized. *)
Theorem header_row_counts_matching_columns :
  (forall record : list string,
      containsFlightDataHeaders record = true <->
      (3 <= length (List.filter matches_expected record))%nat) /\
  (forall header : string,
      matches_expected header = true <->
      exists keyword pre post,
        In keyword expectedHeaders /\
        ToLower header = (pre ++ ToLower keyword ++ post)%string) /\
  containsFlightDataHeaders example_header_row = true /\
  length (List.filter matches_expected example_header_row) = 4%nat.
Proof.
  split; [|split; [exact matches_expected_keyword | split; reflexivity]].
  intros record. unfold containsFlightDataHeaders.
  rewrite found_count, Z.leb_le. lia.
Qed.

(** ** Statistics *)

Lemma extract_series_from (positionData : list PositionPoint) (acc : Series) :
  fold_left extract_point positionData acc =
  mkSeries
    (airspeeds acc ++ List.filter positive (map Airspeed positionData))
    (indicatedAltitudes acc ++ List.filter nonzero (map IndicatedAltitude positionData))
    (altitudes acc ++ List.filter nonzero (map Altitude positionData))
    (pressureAltitudes acc ++ List.filter nonzero (map PressureAltitude positionData)).
Proof.
  revert acc. induction positionData as [|p pd IH]; intros acc.
  - destruct acc. simpl. now rewrite !app_nil_r.
  - cbn [fold_left]. rewrite IH. unfold extract_point, positive, nonzero.
    cbn [map List.filter airspeeds indicatedAltitudes altitudes pressureAltitudes].
    f_equal.
    + destruct (PrimFloat.ltb 0 (Airspeed p)); [rewrite <- app_assoc|]; reflexivity.
    + destruct (PrimFloat.eqb (IndicatedAltitude p) 0); cbn [negb];
        [|rewrite <- app_assoc]; reflexivity.
    + destruct (PrimFloat.eqb (Altitude p) 0); cbn [negb];
        [|rewrite <- app_assoc]; reflexivity.
    + destruct (PrimFloat.eqb (PressureAltitude p) 0); cbn [negb];
        [|rewrite <- app_assoc]; reflexivity.
Qed.

Lemma extract_series_filters (positionData : list PositionPoint) :
  extract_series positionData =
  mkSeries
    (List.filter positive (map Airspeed positionData))
    (List.filter nonzero (map IndicatedAltitude positionData))
    (List.filter nonzero (map Altitude positionData))
    (List.filter nonzero (map PressureAltitude positionData)).
Proof. unfold extract_series. now rewrite extract_series_from. Qed.

Lemma stats_if_any_eq (xs : list float) :
  stats_if_any xs = calculateDataStatistics xs.
Proof. destruct xs; reflexivity. Qed.

Lemma calculateDataStatistics_count (xs : list float) (ds : DataStatistics) :
  calculateDataStatistics xs = Some ds -> Count ds = Z.of_nat (length xs).
Proof.
  destruct xs as [|x xs]; [discriminate|].
  unfold calculateDataStatistics. intros H. inversion H. reflexivity.
Qed.

Lemma calculateDataStatistics_some (xs : list float) :
  xs <> [] -> exists ds, calculateDataStatistics xs = Some ds.
Proof.
  destruct xs as [|x xs]; [contradiction|]. intros _.
  unfold calculateDataStatistics. eexists. reflexivity.
Qed.

(** A strictly negative float64 is not equal to zero. *)
Lemma negative_nonzero (x : float) : PrimFloat.ltb x 0 = true -> nonzero x = true.
Proof.
  unfold nonzero. rewrite FloatAxioms.ltb_spec, FloatAxioms.eqb_spec.
  unfold SFltb, SFeqb.
  destruct (SFcompare (Prim2SF x) (Prim2SF 0)) as [[]|]; simpl; congruence.
Qed.

(** [quickSort] never runs out of fuel: [partition] returns an index
    inside the range, both recursive ranges are shorter, and the definition
    satisfies the recursive equation of the source. *)
Lemma partition_loop_index (n : nat) (pivot : float) (arr : list float) (i j : Z) :
  i <= snd (partition_loop n pivot arr i j) <= i + Z.of_nat n.
Proof.
  revert arr i j. induction n as [|n IH]; intros arr i j; cbn [partition_loop snd].
  - lia.
  - destruct (PrimFloat.ltb (at_index arr j) pivot).
    + specialize (IH (swap arr (i + 1) j) (i + 1) (j + 1)). lia.
    + specialize (IH arr i (j + 1)). lia.
Qed.

Lemma partition_index (arr : list float) (low high : Z) :
  low <= high -> low <= snd (partition arr low high) <= high.
Proof.
  intros Hle. unfold partition.
  pose proof (partition_loop_index (Z.to_nat (high - low)) (at_index arr high) arr
                (low - 1) low) as H.
  destruct (partition_loop _ _ arr (low - 1) low) as [arr' i]. cbn [snd] in *. lia.
Qed.

Lemma quickSort_rec_fuel (n m : nat) (arr : list float) (low high : Z) :
  (Z.to_nat (high - low + 1) <= n)%nat ->
  (Z.to_nat (high - low + 1) <= m)%nat ->
  quickSort_rec n arr low high = quickSort_rec m arr low high.
Proof.
  revert m arr low high. induction n as [|n IH]; intros m arr low high Hn Hm.
  - destruct m as [|m]; [reflexivity|]. cbn [quickSort_rec].
    destruct (Z.ltb_spec low high); [lia|reflexivity].
  - destruct m as [|m]; cbn [quickSort_rec].
    + destruct (Z.ltb_spec low high); [lia|reflexivity].
    + destruct (Z.ltb_spec low high) as [Hlt|]; [|reflexivity].
      pose proof (partition_index arr low high ltac:(lia)) as Hpi.
      destruct (partition arr low high) as [arr1 pi]. cbn [snd] in Hpi.
      rewrite (IH m arr1 low (pi - 1)) by lia.
      apply IH; lia.
Qed.

Lemma quickSort_unfold (arr : list float) (low high : Z) :
  quickSort arr low high =
  if low <? high
  then let (arr1, pi) := partition arr low high in
       quickSort (quickSort arr1 low (pi - 1)) (pi + 1) high
  else arr.
Proof.
  unfold quickSort at 1.
  destruct (Z.ltb_spec low high) as [Hlt|Hge].
  - destruct (Z.to_nat (high - low + 1)) as [|k] eqn:Ek; [lia|].
    cbn [quickSort_rec]. destruct (Z.ltb_spec low high); [|lia].
    pose proof (partition_index arr low high ltac:(lia)) as Hpi.
    destruct (partition arr low high) as [arr1 pi]. cbn [snd] in Hpi.
    unfold quickSort.
    rewrite (quickSort_rec_fuel k (Z.to_nat (pi - 1 - low + 1)) arr1 low (pi - 1)) by lia.
    apply quickSort_rec_fuel; lia.
  - destruct (Z.to_nat (high - low + 1)); cbn [quickSort_rec]; [reflexivity|].
    destruct (Z.ltb_spec low high); [lia|reflexivity].
Qed.

Lemma stats_if_any_computed_over (xs : list float) : computed_over xs (stats_if_any xs).
Proof.
  rewrite stats_if_any_eq. split; [reflexivity|split].
  - intros ->. reflexivity.
  - intros Hne. destruct (calculateDataStatistics_some xs Hne) as [ds Hds].
    exists ds. split; [exact Hds|]. now apply calculateDataStatistics_count.
Qed.

(** C9: the statistics of an aircraft are computed over its airspeed values
    that are strictly positive and over the values of each altitude series
    that are not equal to zero; strictly negative altitudes are kept. *)
Theorem statistics_exclude_sentinels
    (PositionData : gmap string (list PositionPoint)) (aircraftLabel : string)
    (positionData : list PositionPoint) :
  PositionData !! aircraftLabel = Some positionData ->
  positionData <> [] ->
  exists stats : FlightStatistics,
    CalculateFlightStatistics PositionData !! aircraftLabel = Some stats /\
    computed_over (List.filter positive (map Airspeed positionData))
      (AirspeedStats stats) /\
    computed_over (List.filter nonzero (map IndicatedAltitude positionData))
      (IndicatedAltitudeStats stats) /\
    computed_over (List.filter nonzero (map Altitude positionData))
      (AltitudeStats stats) /\
    computed_over (List.filter nonzero (map PressureAltitude positionData))
      (PressureAltitudeStats stats) /\
    (forall p, In p positionData -> PrimFloat.ltb (Altitude p) 0 = true ->
               In (Altitude p) (List.filter nonzero (map Altitude positionData))) /\
    (forall x, In x (List.filter positive (map Airspeed positionData)) ->
               PrimFloat.ltb 0 x = true) /\
    (forall x, In x (List.filter nonzero (map Altitude positionData)) ->
               PrimFloat.eqb x 0 = false).
Proof.
  intros Hlookup Hne.
  unfold CalculateFlightStatistics. rewrite lookup_omap, Hlookup. simpl.
  destruct positionData as [|p pd]; [contradiction|].
  unfold aircraft_statistics. rewrite extract_series_filters.
  eexists. split; [reflexivity|].
  cbn [AirspeedStats IndicatedAltitudeStats AltitudeStats PressureAltitudeStats
       airspeeds indicatedAltitudes altitudes pressureAltitudes].
  repeat split; try apply stats_if_any_computed_over.
  - intros q Hq Hneg. apply filter_In. split.
    + now apply in_map.
    + now apply negative_nonzero.
  - intros x Hx. apply filter_In in Hx. apply Hx.
  - intros x Hx. apply filter_In in Hx. destruct Hx as [_ Hx].
    unfold nonzero in Hx. now apply negb_true_iff in Hx.
Qed.

(** The specification's example, evaluated: of the altitudes 0, 100, -50
    the statistics see 100 and -50 only, and report a count of 2. *)
Lemma altitude_statistics_example :
  List.filter nonzero (map Altitude example_points) = [100; -50]%float /\
  CalculateFlightStatistics {[ "aircraft 1" := example_points ]} !! "aircraft 1" =
  Some (mkFlightStatistics None None
          (Some (mkDataStatistics 2 25 5625 75 (-50) 100 150 25)) None).
Proof. split; vm_compute; reflexivity. Qed.

(** ** Trim requests that are rejected *)

Lemma flightTitleExists_true (title : string) (mainDB : DB) :
  (exists f, In f (flight mainDB) /\ flight_title f = Some title) ->
  flightTitleExists title mainDB = Ok true.
Proof.
  intros [f [Hin Ht]]. unfold flightTitleExists. f_equal.
  apply Z.ltb_lt.
  assert (Hf : In f (List.filter
            (fun f => match flight_title f with
                      | Some t => String.eqb t title
                      | None => false
                      end) (flight mainDB))).
  { apply filter_In. split; [assumption|]. rewrite Ht. apply String.eqb_refl. }
  destruct (List.filter _ (flight mainDB)); [contradiction|]. simpl length. lia.
Qed.

(** C4: a trim request whose end is not after its start, whose span is
    below one second, or whose new title is the title of a flight in the
    store is answered with a client error (400, 405 or 409) whatever the
    driver would do, and the store is as before: no statement is run. *)
Theorem trim_request_rejected
    (faults : nat -> bool) (method : string) (request : TrimRequest) (mainDB : DB) :
  PrimFloat.leb (trim_EndTime request) (trim_StartTime request) = true \/
  PrimFloat.ltb (PrimFloat.sub (trim_EndTime request) (trim_StartTime request)) 1 = true \/
  (exists f, In f (flight mainDB) /\ flight_title f = Some (trim_NewTitle request)) ->
  exists status : Z,
    handleTrimFlight faults method (Some request) mainDB = (status, mainDB) /\
    (status = StatusBadRequest \/ status = StatusMethodNotAllowed \/
     status = StatusConflict) /\
    (method = "POST" -> trim_FlightID request <> 0 -> trim_NewTitle request <> "" ->
     status = if PrimFloat.leb (trim_EndTime request) (trim_StartTime request)
                 || PrimFloat.ltb
                      (PrimFloat.sub (trim_EndTime request) (trim_StartTime request)) 1
              then StatusBadRequest else StatusConflict).
Proof.
  intros H. unfold handleTrimFlight.
  destruct (String.eqb_spec method "POST") as [Hm|Hm]; cbn [negb].
  2: { eexists. split; [reflexivity|]. split; [auto|]. intros; contradiction. }
  destruct (Z.eqb_spec (trim_FlightID request) 0) as [Hid|Hid]; cbn [orb].
  { eexists. split; [reflexivity|]. split; [auto|]. intros; contradiction. }
  destruct (String.eqb_spec (trim_NewTitle request) "") as [Ht|Ht].
  { eexists. split; [reflexivity|]. split; [auto|]. intros; contradiction. }
  destruct (PrimFloat.leb (trim_EndTime request) (trim_StartTime request)) eqn:Hle.
  { eexists. split; [reflexivity|]. split; [auto|]. reflexivity. }
  destruct (PrimFloat.ltb _ 1) eqn:Hlt.
  { eexists. split; [reflexivity|]. split; [auto|]. reflexivity. }
  destruct H as [H|[H|H]]; try discriminate.
  rewrite (flightTitleExists_true _ _ H).
  eexists. split; [reflexivity|]. split; [auto|]. reflexivity.
Qed.

(** ** Transactions: general facts *)

Section FaultSound.

Variable faults : nat -> bool.

Lemma fault_sound_exec {A : Type} (table : Table) (stmt : DB -> A * DB) :
  fault_sound faults (tx_exec no_faults table stmt) (tx_exec faults table stmt).
Proof.
  intros s a s'. unfold tx_exec. cbn [no_faults].
  destruct (faults (tx_n s)) eqn:Hf; [discriminate|].
  destruct (stmt (tx_db s)) as [a0 db']. intros H. inversion H; subst.
  split; [reflexivity|]. cbn [tx_n]. split; [lia|].
  intros k Hk. assert (k = tx_n s) by lia. now subst.
Qed.

Lemma fault_sound_same {A : Type} (m : Tx A) :
  (forall s a s', m s = Ok (a, s') -> tx_n s' = tx_n s) ->
  fault_sound faults m m.
Proof.
  intros Hn s a s' H. split; [exact H|]. rewrite (Hn _ _ _ H). split; [lia|].
  intros k Hk. lia.
Qed.

Lemma fault_sound_ret {A : Type} (a : A) : fault_sound faults (tx_ret a) (tx_ret a).
Proof. apply fault_sound_same. intros s b s' H. now inversion H. Qed.

Lemma fault_sound_fail {A : Type} (e : error) :
  fault_sound faults (@tx_fail A e) (tx_fail e).
Proof. intros s a s' H. discriminate. Qed.

Lemma fault_sound_query {A : Type} (q : DB -> A) :
  fault_sound faults (tx_query q) (tx_query q).
Proof. apply fault_sound_same. intros s b s' H. now inversion H. Qed.

Lemma fault_sound_lift {A : Type} (r : result A) :
  fault_sound faults (tx_lift r) (tx_lift r).
Proof.
  apply fault_sound_same. intros s b s' H. unfold tx_lift in H.
  destruct r; now inversion H.
Qed.

Lemma fault_sound_bind {A B : Type} (m0 m : Tx A) (f0 f : A -> Tx B) :
  fault_sound faults m0 m ->
  (forall a, fault_sound faults (f0 a) (f a)) ->
  fault_sound faults (tx_bind m0 f0) (tx_bind m f).
Proof.
  intros Hm Hf s b s'. unfold tx_bind.
  destruct (m s) as [[a s1]|e] eqn:Em; [|discriminate].
  destruct (Hm _ _ _ Em) as [E0 [Hle Hk]]. rewrite E0.
  intros H. destruct (Hf a _ _ _ H) as [E1 [Hle1 Hk1]].
  split; [exact E1|]. split; [lia|].
  intros k Hr. destruct (Nat.lt_ge_cases k (tx_n s1)).
  - apply Hk. lia.
  - apply Hk1. lia.
Qed.

Lemma fault_sound_wrap {A : Type} (context : string) (m0 m : Tx A) :
  fault_sound faults m0 m ->
  fault_sound faults (tx_wrap context m0) (tx_wrap context m).
Proof.
  intros Hm s a s'. unfold tx_wrap.
  destruct (m s) as [[a1 s1]|e] eqn:Em; [|discriminate].
  intros H. inversion H; subst. destruct (Hm _ _ _ Em) as [E0 Hrest].
  rewrite E0. split; [reflexivity|exact Hrest].
Qed.

Lemma fault_sound_for {A : Type} (l : list A) (body0 body : A -> Tx unit) :
  (forall x, fault_sound faults (body0 x) (body x)) ->
  fault_sound faults (tx_for l body0) (tx_for l body).
Proof.
  intros Hb. induction l as [|x l IH]; cbn [tx_for].
  - apply fault_sound_ret.
  - apply fault_sound_bind; [apply Hb | intros _; exact IH].
Qed.

Lemma fault_sound_map {A B : Type} (l : list A) (body0 body : A -> Tx B) :
  (forall x, fault_sound faults (body0 x) (body x)) ->
  fault_sound faults (tx_map l body0) (tx_map l body).
Proof.
  intros Hb. induction l as [|x l IH]; cbn [tx_map].
  - apply fault_sound_ret.
  - apply fault_sound_bind; [apply Hb | intros y].
    apply fault_sound_bind; [exact IH | intros ys; apply fault_sound_ret].
Qed.

End FaultSound.

(** Decompose a step built from the combinators. *)
Ltac fault_sound_step :=
  first
    [ apply fault_sound_exec | apply fault_sound_ret | apply fault_sound_fail
    | apply fault_sound_query | apply fault_sound_lift
    | apply fault_sound_wrap
    | apply fault_sound_for; intros ?
    | apply fault_sound_map; intros ?
    | apply fault_sound_bind; [|intros ?] ].

Ltac fault_sound_auto :=
  repeat (fault_sound_step
          || match goal with
             | |- fault_sound _ (match ?x with _ => _ end) _ => destruct x
             | |- fault_sound _ (if ?b then _ else _) _ => destruct b
             end).

Section OperationsFaultSound.

Variable faults : nat -> bool.

Lemma import_body_sound (sourceDB : DB) :
  fault_sound faults (import_body no_faults sourceDB) (import_body faults sourceDB).
Proof.
  unfold import_body, importFlights, import_flight_row, importAircraftForFlight,
    import_aircraft_row, importPositionData, importAttitudeData, importEngineData.
  fault_sound_auto.
Qed.

Lemma delete_body_sound (flightID : Z) :
  fault_sound faults (delete_body no_faults flightID) (delete_body faults flightID).
Proof.
  unfold delete_body, delete_aircraft_data, getAircraftIDsForFlight. fault_sound_auto.
Qed.

Lemma duplicate_body_sound (mainDB : DB) (flightID : Z) (newTitle : string) :
  fault_sound faults (duplicate_body no_faults mainDB flightID newTitle)
    (duplicate_body faults mainDB flightID newTitle).
Proof.
  unfold duplicate_body, duplicate_aircraft, duplicateFlightRecord,
    duplicateAircraftRecord, duplicatePositionData, duplicateAttitudeData, duplicateEngineData,
    duplicateSeriesData, duplicateMarkers. fault_sound_auto.
Qed.

Lemma trim_body_sound (mainDB : DB) (flightID : Z) (newTitle : string)
    (startTime endTime : float) :
  fault_sound faults (trim_body no_faults mainDB flightID newTitle startTime endTime)
    (trim_body faults mainDB flightID newTitle startTime endTime).
Proof.
  unfold trim_body, trim_aircraft, duplicateFlightRecord, duplicateAircraftRecord,
    duplicatePositionDataTrimmed, duplicateAttitudeDataTrimmed,
    duplicateEngineDataTrimmed, duplicateSeriesDataTrimmed, duplicateMarkersTrimmed.
  fault_sound_auto.
Qed.

(** A transaction that succeeds is the fault-free one, and the driver failed
    none of its statements, nor the commit. *)
Lemma transaction_sound {A : Type} (context : string) (body0 body : Tx A)
    (mainDB : DB) (a : A) (db' : DB) :
  fault_sound faults body0 body ->
  transaction faults context body mainDB = (Ok a, db') ->
  exists s', body0 (tx_begin mainDB) = Ok (a, s') /\ tx_db s' = db' /\
             forall k, (k <= tx_n s')%nat -> faults k = false.
Proof.
  intros Hs. unfold transaction.
  destruct (body (tx_begin mainDB)) as [[a1 s1]|e] eqn:Eb; [|discriminate].
  destruct (faults (tx_n s1)) eqn:Hc; [discriminate|].
  intros H. inversion H; subst. destruct (Hs _ _ _ Eb) as [E0 [_ Hk]].
  exists s1. split; [exact E0|]. split; [reflexivity|].
  intros k Hle. destruct (Nat.eq_dec k (tx_n s1)) as [->|Hne]; [exact Hc|].
  apply Hk. cbn [tx_begin tx_n]. lia.
Qed.

(** Whatever fails, a transaction that reports an error leaves the store
    as it was. *)
Lemma transaction_rollback {A : Type} (context : string) (body : Tx A)
    (mainDB : DB) (e : error) (db' : DB) :
  transaction faults context body mainDB = (Err e, db') -> db' = mainDB.
Proof.
  unfold transaction.
  destruct (body (tx_begin mainDB)) as [[a1 s1]|e1].
  - destruct (faults (tx_n s1)); intros H; now inversion H.
  - intros H. now inversion H.
Qed.

End OperationsFaultSound.

(** ** How a fault-free transaction grows the store *)

Lemma grows_refl (db : DB) : grows db db [] [] no_rows [].
Proof. split; intros; unfold no_rows; now rewrite app_nil_r. Qed.

Lemma grows_trans (db db1 db2 : DB) F1 A1 S1 M1 F2 A2 S2 M2 :
  grows db db1 F1 A1 S1 M1 ->
  grows db1 db2 F2 A2 S2 M2 ->
  grows db db2 (F1 ++ F2) (A1 ++ A2) (fun t => S1 t ++ S2 t) (M1 ++ M2).
Proof.
  intros [Hf1 Ha1 Hs1 Hm1] [Hf2 Ha2 Hs2 Hm2]. split; intros.
  - now rewrite Hf2, Hf1, app_assoc.
  - now rewrite Ha2, Ha1, app_assoc.
  - now rewrite Hs2, Hs1, app_assoc.
  - now rewrite Hm2, Hm1, app_assoc.
Qed.

Lemma grows_insert_series (t : SeriesTable) (row : SeriesRow) (db : DB) :
  grows db (snd (insert_series t row db)) [] [] (only t [row]) [].
Proof.
  split; cbn [insert_series snd]; try (destruct t; simpl; now rewrite ?app_nil_r).
  intros t'. unfold only. destruct t, t'; simpl; now rewrite ?app_nil_r.
Qed.

Lemma grows_insert_aircraft (row : Z -> AircraftRow) (db : DB) :
  grows db (snd (insert_aircraft row db)) []
    [row (next_rowid (map aircraft_id (aircraft db)))] no_rows [].
Proof.
  split; cbn [insert_aircraft snd]; simpl; rewrite ?app_nil_r; try reflexivity.
  intros t. destruct t; simpl; now rewrite app_nil_r.
Qed.

Lemma grows_insert_flight (row : Z -> FlightRow) (db : DB) :
  grows db (snd (insert_flight row db))
    [row (next_rowid (map flight_id (flight db)))] [] no_rows [].
Proof.
  split; cbn [insert_flight snd]; simpl; rewrite ?app_nil_r; try reflexivity.
  intros t. destruct t; simpl; now rewrite app_nil_r.
Qed.

Lemma grows_insert_marker (row : Z -> string -> MarkerRow) (db : DB) :
  grows db (snd (insert_marker row db)) [] [] no_rows
    [row (next_autoincrement (markers_seq db) (map marker_id (markers db))) (now db)].
Proof.
  split; cbn [insert_marker snd]; simpl; rewrite ?app_nil_r; try reflexivity.
  intros t. destruct t; simpl; now rewrite app_nil_r.
Qed.

(** A loop of INSERTs into one series table, none failed. *)
Lemma insert_series_loop (t : SeriesTable) (g : SeriesRow -> SeriesRow)
    (rows : list SeriesRow) (s : TxState) :
  exists s',
    tx_for rows (fun r => tx_exec no_faults (TSeries t) (insert_series t (g r))) s
      = Ok (tt, s') /\
    tx_n s' = (tx_n s + length rows)%nat /\
    tx_log s' = tx_log s ++ repeat (TSeries t) (length rows) /\
    grows (tx_db s) (tx_db s') [] [] (only t (map g rows)) [] /\
    markers_seq (tx_db s') = markers_seq (tx_db s) /\ now (tx_db s') = now (tx_db s).
Proof.
  revert s. induction rows as [|r rows IH]; intros s.
  - exists s. cbn. repeat split; try (now rewrite ?app_nil_r); try lia.
    + intros t'. unfold only. destruct (SeriesTable_eqb t' t); now rewrite app_nil_r.
  - cbn [tx_for]. unfold tx_bind at 1. unfold tx_exec at 1. cbn [no_faults].
    pose proof (grows_insert_series t (g r) (tx_db s)) as Hg.
    destruct (insert_series t (g r) (tx_db s)) as [[] db1] eqn:E. cbn [snd] in Hg.
    destruct (IH (mkTxState db1 (S (tx_n s)) (tx_log s ++ [TSeries t])))
      as [s' [Hrun [Hn [Hlog [Hgrow [Hseq Hnow]]]]]].
    exists s'. split; [exact Hrun|]. cbn [tx_n tx_log tx_db] in *.
    split; [simpl length; lia|]. split.
    { rewrite Hlog. simpl. now rewrite <- app_assoc. }
    split.
    { pose proof (grows_trans _ _ _ _ _ _ _ _ _ _ _ Hg Hgrow) as H.
      destruct H as [Hf Ha Hs Hm]. split; try assumption.
      intros t'. rewrite Hs. unfold only. cbn [map].
      destruct (SeriesTable_eqb t' t); reflexivity. }
    unfold insert_series in E. inversion E; subst db1.
    split; [rewrite Hseq|rewrite Hnow]; destruct t; reflexivity.
Qed.

Lemma tx_bind_ok {A B : Type} (m : Tx A) (f : A -> Tx B) (s s1 : TxState) (a : A) :
  m s = Ok (a, s1) -> tx_bind m f s = f a s1.
Proof. intros H. unfold tx_bind. now rewrite H. Qed.

Lemma tx_bind_assoc {A B C : Type} (m : Tx A) (f : A -> Tx B) (g : B -> Tx C)
    (s : TxState) :
  tx_bind (tx_bind m f) g s = tx_bind m (fun x => tx_bind (f x) g) s.
Proof. unfold tx_bind. destruct (m s) as [[a s1]|e]; reflexivity. Qed.

(** Run the first step of a sequence, given that it succeeds. *)
Tactic Notation "tx_step" uconstr(H) :=
  rewrite ?tx_bind_assoc; rewrite (tx_bind_ok _ _ _ _ _ H); cbv beta.

Lemma tx_exec_ok {A : Type} (table : Table) (stmt : DB -> A * DB) (s : TxState) :
  tx_exec no_faults table stmt s =
  Ok (fst (stmt (tx_db s)),
      mkTxState (snd (stmt (tx_db s))) (S (tx_n s)) (tx_log s ++ [table])).
Proof. unfold tx_exec. cbn [no_faults]. now destruct (stmt (tx_db s)). Qed.

Lemma tx_wrap_ok {A : Type} (context : string) (m : Tx A) (s s1 : TxState) (a : A) :
  m s = Ok (a, s1) -> tx_wrap context m s = Ok (a, s1).
Proof. intros H. unfold tx_wrap. now rewrite H. Qed.

Lemma order_by_length {A : Type} (le : A -> A -> bool) (l : list A) :
  length (order_by le l) = length l.
Proof.
  assert (Hins : forall x l', length (insert_sorted le x l') = S (length l')).
  { intros x l'. induction l' as [|y l' IH]; simpl; [reflexivity|].
    destruct (le x y); simpl; [reflexivity | now rewrite IH]. }
  induction l as [|x l IH]; [reflexivity|].
  change (order_by le (x :: l)) with (insert_sorted le x (order_by le l)).
  rewrite Hins, IH. reflexivity.
Qed.

Lemma insert_sorted_perm {A : Type} (le : A -> A -> bool) (x : A) (l : list A) :
  Permutation (x :: l) (insert_sorted le x l).
Proof.
  induction l as [|y l IH]; cbn [insert_sorted]; [reflexivity|].
  destruct (le x y); [reflexivity|].
  etransitivity; [apply perm_swap|]. now constructor.
Qed.

Lemma order_by_perm {A : Type} (le : A -> A -> bool) (l : list A) :
  Permutation l (order_by le l).
Proof.
  induction l as [|x l IH]; [reflexivity|].
  change (order_by le (x :: l)) with (insert_sorted le x (order_by le l)).
  etransitivity; [|apply insert_sorted_perm]. now constructor.
Qed.

Lemma order_by_In {A : Type} (le : A -> A -> bool) (l : list A) (x : A) :
  In x (order_by le l) <-> In x l.
Proof.
  split; apply Permutation_in; [symmetry|]; apply order_by_perm.
Qed.

Lemma insert_sorted_Sorted {A : Type} (le : A -> A -> bool) (x : A) (l : list A) :
  (forall a b, le a b = true \/ le b a = true) ->
  Sorted (fun a b => le a b = true) l ->
  Sorted (fun a b => le a b = true) (insert_sorted le x l).
Proof.
  intros Htot. induction l as [|y l IH]; intros Hs; cbn [insert_sorted].
  - constructor; constructor.
  - destruct (le x y) eqn:E.
    + constructor; [exact Hs|]. constructor. exact E.
    + inversion Hs as [|? ? Hl Hhd]; subst. constructor; [now apply IH|].
      destruct l as [|z l]; cbn [insert_sorted].
      * constructor. destruct (Htot x y); congruence.
      * inversion Hhd; subst. destruct (le x z); constructor; try assumption.
        destruct (Htot x y); congruence.
Qed.

Lemma order_by_Sorted {A : Type} (le : A -> A -> bool) (l : list A) :
  (forall a b, le a b = true \/ le b a = true) ->
  Sorted (fun a b => le a b = true) (order_by le l).
Proof.
  intros Htot. induction l as [|x l IH]; [constructor|].
  change (order_by le (x :: l)) with (insert_sorted le x (order_by le l)).
  now apply insert_sorted_Sorted.
Qed.

(** A list that is in order is left as it is. *)
Lemma order_by_of_Sorted {A : Type} (le : A -> A -> bool) (l : list A) :
  Sorted (fun a b => le a b = true) l -> order_by le l = l.
Proof.
  induction 1 as [|x l Hl IH Hhd]; [reflexivity|].
  change (order_by le (x :: l)) with (insert_sorted le x (order_by le l)).
  rewrite IH. destruct Hhd as [|y l' Hxy]; cbn [insert_sorted]; [reflexivity|].
  now rewrite Hxy.
Qed.

Lemma by_seq_nr_total (a b : AircraftRow) : by_seq_nr a b = true \/ by_seq_nr b a = true.
Proof. unfold by_seq_nr. rewrite !Z.leb_le. lia. Qed.

Lemma select_aircraft_In (flightID : Z) (db : DB) (a : AircraftRow) :
  In a (select_aircraft flightID db)
  <-> In a (aircraft db) /\ aircraft_flight_id a = flightID.
Proof.
  unfold select_aircraft. rewrite order_by_In, filter_In, Z.eqb_eq. reflexivity.
Qed.

(** Two aircraft of a flight stored in the order of their ids, the second
    with the smaller seq_nr: the query gives the second first. *)
Lemma select_aircraft_example :
  map aircraft_id
    (select_aircraft 1
       (set_aircraft (fun _ => [mkAircraftRow 1 1 2 "C172" None None [];
                                mkAircraftRow 2 1 1 "C172" None None []])
          example_twin_store))
  = [2; 1].
Proof. reflexivity. Qed.

Lemma select_aircraft_Sorted (flightID : Z) (db : DB) :
  Sorted (fun a b => by_seq_nr a b = true) (select_aircraft flightID db).
Proof. apply order_by_Sorted, by_seq_nr_total. Qed.

(** ** Import atomicity *)

Lemma importFlights_loop (rows : list FlightRow) (s : TxState) :
  exists fl s' F,
    tx_map rows (import_flight_row no_faults) s
    = Ok (fl, s') /\
    tx_n s' = (tx_n s + length rows)%nat /\
    grows (tx_db s) (tx_db s') F [] no_rows [] /\
    length F = length rows /\
    map SourceID fl = map flight_id rows /\
    map ID fl = map flight_id F.
Proof.
  revert s. induction rows as [|r rows IH]; intros s.
  - exists [], s, []. split; [reflexivity|]. split; [cbn; lia|].
    split; [apply grows_refl|]. repeat split.
  - cbn [tx_map]. unfold import_flight_row at 1. cbv zeta.
    rewrite (tx_bind_ok _ _ _ _ _ (tx_bind_ok _ _ _ _ _ (tx_exec_ok _ _ _))).
    cbn [insert_flight fst snd]. unfold tx_ret at 1.
    pose proof (grows_insert_flight (fun id =>
        mkFlightRow id (flight_title r) (flight_number r)
          (datetime_text (start_zulu_sim_time r)) (datetime_text (end_zulu_sim_time r))
          (datetime_text (start_local_sim_time r)) (datetime_text (end_local_sim_time r))
          (flight_cols r)) (tx_db s)) as Hg.
    cbn [insert_flight snd] in Hg.
    match goal with
    | |- context [mkTxState ?db ?n ?lg] =>
        destruct (IH (mkTxState db n lg)) as [fl [s' [F [Hrun [Hn [Hgrow [HF [Hsrc Hid]]]]]]]]
    end.
    unfold tx_bind at 1. rewrite Hrun. unfold tx_ret.
    eexists _, s', _. split; [reflexivity|].
    cbn [tx_n tx_db] in *. split; [simpl length; lia|].
    split; [exact (grows_trans _ _ _ _ _ _ _ _ _ _ _ Hg Hgrow)|].
    cbn [app length map SourceID ID flight_id]. rewrite HF, Hsrc, Hid.
    repeat split.
Qed.

Lemma import_aircraft_loop (sourceDB : DB) (newFlightID : Z) (acs : list AircraftRow)
    (s : TxState) :
  exists s' A S,
    tx_for acs (import_aircraft_row no_faults sourceDB newFlightID) s
    = Ok (tt, s') /\
    tx_n s' = (tx_n s + aircraft_statements sourceDB acs)%nat /\
    grows (tx_db s) (tx_db s') [] A S [] /\
    imports_aircraft sourceDB acs A S /\
    Forall (fun a => aircraft_flight_id a = newFlightID) A.
Proof.
  revert s. induction acs as [|a acs IH]; intros s.
  - exists s, [], no_rows. split; [reflexivity|]. split; [cbn; lia|].
    split; [apply grows_refl|]. split; [repeat split|constructor].
  - cbn [tx_for]. unfold import_aircraft_row at 1.
    rewrite tx_bind_assoc, (tx_bind_ok _ _ _ _ _ (tx_exec_ok _ _ _)).
    cbn [insert_aircraft fst snd].
    pose proof (grows_insert_aircraft (fun id =>
        mkAircraftRow id newFlightID (seq_nr a) (aircraft_type a)
          (tail_number a) (airline a) (aircraft_cols a)) (tx_db s)) as Hg0.
    cbn [insert_aircraft snd] in Hg0.
    set (new := next_rowid (map aircraft_id (aircraft (tx_db s)))) in *.
    match goal with
    | |- context [mkTxState ?db ?n ?lg] => set (s0 := mkTxState db n lg) in *
    end.
    unfold importPositionData, importAttitudeData, importEngineData.
    destruct (insert_series_loop position
                (fun r => mkSeriesRow new (timestamp r) (firstn 6 (row_cols r) ++ [VNull]))
                (select_series position (aircraft_id a) sourceDB) s0)
      as [s1 [R1 [N1 [_ [G1 _]]]]].
    destruct (insert_series_loop attitude
                (fun r => mkSeriesRow new (timestamp r) (row_cols r))
                (select_series attitude (aircraft_id a) sourceDB) s1)
      as [s2 [R2 [N2 [_ [G2 _]]]]].
    destruct (insert_series_loop engine
                (fun r => mkSeriesRow new (timestamp r) (row_cols r))
                (select_series engine (aircraft_id a) sourceDB) s2)
      as [s3 [R3 [N3 [_ [G3 _]]]]].
    tx_step (tx_wrap_ok _ _ _ _ _ R1).
    tx_step (tx_wrap_ok _ _ _ _ _ R2).
    tx_step (tx_wrap_ok _ _ _ _ _ R3).
    destruct (IH s3) as [s' [A [S [Hrun [Hn [Hgrow [Hcount HA]]]]]]].
    exists s'. eexists. eexists. split; [exact Hrun|].
    split.
    { rewrite Hn, N3, N2, N1. unfold s0. cbn [tx_n]. unfold aircraft_statements, source_rows.
      cbn [flat_map length]. rewrite !length_app. lia. }
    split.
    { replace (tx_db s) with (tx_db s) by reflexivity.
      assert (Hs0 : grows (tx_db s) (tx_db s0) [] _ no_rows []) by exact Hg0.
      exact (grows_trans _ _ _ _ _ _ _ _ _ _ _
               (grows_trans _ _ _ _ _ _ _ _ _ _ _
                  (grows_trans _ _ _ _ _ _ _ _ _ _ _
                     (grows_trans _ _ _ _ _ _ _ _ _ _ _ Hs0 G1) G2) G3) Hgrow). }
    destruct Hcount as [HA1 [Hp [Ht [He [H1 [H2 [H3 [H4 H5]]]]]]]].
    split.
    { unfold imports_aircraft, source_rows, only, no_rows. cbn [SeriesTable_eqb app flat_map].
      rewrite ?app_nil_r, ?length_app, ?length_map. cbn [length].
      rewrite HA1, Hp, Ht, He, H1, H2, H3, H4, H5. unfold source_rows.
      repeat split. }
    cbn [app]. constructor; [reflexivity|exact HA].
Qed.

Lemma source_rows_app (sourceDB : DB) (t : SeriesTable) (acs1 acs2 : list AircraftRow) :
  source_rows sourceDB t (acs1 ++ acs2)
  = source_rows sourceDB t acs1 ++ source_rows sourceDB t acs2.
Proof. unfold source_rows. apply flat_map_app. Qed.

Lemma aircraft_statements_app (sourceDB : DB) (acs1 acs2 : list AircraftRow) :
  aircraft_statements sourceDB (acs1 ++ acs2)
  = (aircraft_statements sourceDB acs1 + aircraft_statements sourceDB acs2)%nat.
Proof.
  unfold aircraft_statements. rewrite !source_rows_app, !length_app. lia.
Qed.

Lemma imports_aircraft_app (sourceDB : DB) acs1 acs2 A1 A2 S1 S2 :
  imports_aircraft sourceDB acs1 A1 S1 ->
  imports_aircraft sourceDB acs2 A2 S2 ->
  imports_aircraft sourceDB (acs1 ++ acs2) (A1 ++ A2) (fun t => S1 t ++ S2 t).
Proof.
  intros [Ha1 [Hp1 [Ht1 [He1 [H11 [H12 [H13 [H14 H15]]]]]]]]
         [Ha2 [Hp2 [Ht2 [He2 [H21 [H22 [H23 [H24 H25]]]]]]]].
  unfold imports_aircraft. rewrite !source_rows_app, !length_app.
  rewrite Ha1, Ha2, Hp1, Hp2, Ht1, Ht2, He1, He2, H11, H12, H13, H14, H15,
    H21, H22, H23, H24, H25.
  repeat split.
Qed.

Lemma import_flights_aircraft_loop (sourceDB : DB) (flights : list Flight) (s : TxState) :
  exists s' A S,
    tx_for flights (fun f =>
      tx_wrap "failed to import aircraft for flight"
        (importAircraftForFlight no_faults sourceDB (SourceID f) (ID f))) s
    = Ok (tt, s') /\
    tx_n s' = (tx_n s + aircraft_statements sourceDB
                          (imported_aircraft sourceDB (map SourceID flights)))%nat /\
    grows (tx_db s) (tx_db s') [] A S [] /\
    imports_aircraft sourceDB (imported_aircraft sourceDB (map SourceID flights)) A S /\
    Forall (fun a => In (aircraft_flight_id a) (map ID flights)) A.
Proof.
  revert s. induction flights as [|f flights IH]; intros s.
  - exists s, [], no_rows. split; [reflexivity|]. split; [cbn; lia|].
    split; [apply grows_refl|]. split; [repeat split|constructor].
  - cbn [tx_for]. unfold importAircraftForFlight at 1.
    destruct (import_aircraft_loop sourceDB (ID f)
                (source_aircraft sourceDB (SourceID f)) s)
      as [s1 [A1 [S1 [R1 [N1 [G1 [C1 F1]]]]]]].
    unfold source_aircraft in R1. tx_step (tx_wrap_ok _ _ _ _ _ R1).
    destruct (IH s1) as [s' [A2 [S2 [R2 [N2 [G2 [C2 F2]]]]]]].
    exists s', (A1 ++ A2), (fun t => S1 t ++ S2 t). split; [exact R2|].
    cbn [map imported_aircraft flat_map]. fold (imported_aircraft sourceDB (map SourceID flights)).
    split; [rewrite aircraft_statements_app; lia|].
    split; [exact (grows_trans _ _ _ _ _ _ _ _ _ _ _ G1 G2)|].
    split; [now apply imports_aircraft_app|].
    apply Forall_app. split.
    + eapply List.Forall_impl; [|exact F1]. intros a Ha. left. now symmetry.
    + eapply List.Forall_impl; [|exact F2]. intros a Ha. now right.
Qed.

(** The fault-free import: it succeeds, runs [import_statements] INSERTs
    and grows the store by every flight of the source and every aircraft
    and telemetry row below them. *)
Lemma import_body_run (sourceDB : DB) (s : TxState) :
  exists flights s' F A S,
    import_body no_faults sourceDB s = Ok (flights, s') /\
    tx_n s' = (tx_n s + import_statements sourceDB)%nat /\
    grows (tx_db s) (tx_db s') F A S [] /\
    length F = length (flight sourceDB) /\
    length flights = length (flight sourceDB) /\
    map ID flights = map flight_id F /\
    imports_aircraft sourceDB
      (imported_aircraft sourceDB (map flight_id (source_flights sourceDB))) A S /\
    Forall (fun a => In (aircraft_flight_id a) (map flight_id F)) A.
Proof.
  unfold import_body, importFlights.
  destruct (importFlights_loop (source_flights sourceDB) s)
    as [fl [s1 [F [R1 [N1 [G1 [HF [Hsrc Hid]]]]]]]].
  unfold source_flights in R1. tx_step (tx_wrap_ok _ _ _ _ _ R1).
  destruct (import_flights_aircraft_loop sourceDB fl s1)
    as [s2 [A [S [R2 [N2 [G2 [C2 F2]]]]]]].
  tx_step R2. unfold tx_ret.
  exists fl, s2, F, A, S. split; [reflexivity|].
  unfold source_flights in HF. rewrite order_by_length in HF.
  rewrite Hsrc in N2, C2. fold (source_flights sourceDB) in N2, C2.
  split.
  { rewrite N2, N1. unfold import_statements, source_flights.
    rewrite order_by_length. fold (source_flights sourceDB). lia. }
  split.
  { pose proof (grows_trans _ _ _ _ _ _ _ _ _ _ _ G1 G2) as G.
    destruct G as [Gf Ga Gs Gm]. rewrite app_nil_r in Gf. cbn [app] in Ga, Gm.
    split; [exact Gf | exact Ga | intros t; rewrite Gs; reflexivity | exact Gm]. }
  split; [exact HF|].
  split.
  { rewrite <- (length_map ID), Hid, length_map. exact HF. }
  split; [exact Hid|]. split; [exact C2|].
  rewrite <- Hid. exact F2.
Qed.

(** C1: an import is one transaction.  Whatever the driver fails, an
    import that reports an error leaves the canonical store as it was (no
    new flight, no new aircraft); if the driver fails any of the import's
    INSERTs or its commit, the import reports an error; an import that
    reports success was failed nowhere and has appended one flight per flight
    of the source and every aircraft, position, attitude and engine row
    below them; and with a driver that never fails the import succeeds. *)
Theorem import_is_atomic (faults : nat -> bool) (sourceDB mainDB : DB) :
  (forall e db',
      ImportFlightsFromDatabase faults sourceDB mainDB = (Err e, db') ->
      db' = mainDB /\
      length (flight db') = length (flight mainDB) /\
      length (aircraft db') = length (aircraft mainDB)) /\
  ((exists k, (k <= import_statements sourceDB)%nat /\ faults k = true) ->
   exists e, ImportFlightsFromDatabase faults sourceDB mainDB = (Err e, mainDB)) /\
  (forall flights db',
      ImportFlightsFromDatabase faults sourceDB mainDB = (Ok flights, db') ->
      (forall k, (k <= import_statements sourceDB)%nat -> faults k = false) /\
      exists F A S,
        grows mainDB db' F A S [] /\
        length F = length (flight sourceDB) /\
        length flights = length (flight sourceDB) /\
        map ID flights = map flight_id F /\
        imports_aircraft sourceDB
          (imported_aircraft sourceDB (map flight_id (source_flights sourceDB))) A S /\
        Forall (fun a => In (aircraft_flight_id a) (map flight_id F)) A) /\
  (exists flights db',
      ImportFlightsFromDatabase no_faults sourceDB mainDB = (Ok flights, db')).
Proof.
  assert (Hok : forall flights db',
      ImportFlightsFromDatabase faults sourceDB mainDB = (Ok flights, db') ->
      (forall k, (k <= import_statements sourceDB)%nat -> faults k = false) /\
      exists F A S,
        grows mainDB db' F A S [] /\
        length F = length (flight sourceDB) /\
        length flights = length (flight sourceDB) /\
        map ID flights = map flight_id F /\
        imports_aircraft sourceDB
          (imported_aircraft sourceDB (map flight_id (source_flights sourceDB))) A S /\
        Forall (fun a => In (aircraft_flight_id a) (map flight_id F)) A).
  { intros flights db' H.
    destruct (transaction_sound faults _ _ _ _ _ _ (import_body_sound faults sourceDB) H)
      as [s' [R [Hdb Hk]]].
    destruct (import_body_run sourceDB (tx_begin mainDB))
      as [fl [s1 [F [A [S [R1 [N1 [G1 rest]]]]]]]].
    rewrite R in R1. inversion R1; subst fl s1. cbn [tx_begin tx_n tx_db] in N1, G1.
    split.
    - intros k Hle. apply Hk. lia.
    - exists F, A, S. rewrite <- Hdb. split; [exact G1|exact rest]. }
  split; [|split; [|split; [exact Hok|]]].
  - intros e db' H. apply transaction_rollback in H. subst db'. repeat split.
  - intros [k [Hle Hf]].
    destruct (ImportFlightsFromDatabase faults sourceDB mainDB) as [[flights|e] db'] eqn:E.
    + destruct (Hok _ _ eq_refl) as [Hnone _]. rewrite (Hnone k Hle) in Hf. discriminate.
    + exists e. apply transaction_rollback in E as ->. reflexivity.
  - unfold ImportFlightsFromDatabase, transaction.
    destruct (import_body_run sourceDB (tx_begin mainDB))
      as [fl [s1 [F [A [S [R1 _]]]]]].
    rewrite R1. cbn [no_faults]. eauto.
Qed.

Lemma import_example_runs :
  ImportFlightsFromDatabase (fails_at 14) example_source example_store
  = (Err (ErrWrap "failed to import aircraft for flight"
            (ErrWrap "failed to import position data" (ErrDriver 14))),
     example_store) /\
  import_statements example_source = 17%nat /\
  (exists flights db',
      ImportFlightsFromDatabase no_faults example_source example_store
      = (Ok flights, db') /\
      map flight_id (flight db') = [1; 2] /\
      map aircraft_id (aircraft db') = [1; 2; 3; 4; 5] /\
      length (position_rows db') = 4%nat).
Proof.
  split; [vm_compute; reflexivity|]. split; [vm_compute; reflexivity|].
  eexists. eexists. split; [vm_compute; reflexivity|].
  repeat split.
Qed.

(** ** DeleteFlight *)

Lemma filter_true {A : Type} (l : list A) : List.filter (fun _ => true) l = l.
Proof. induction l as [|x l IH]; simpl; [reflexivity | now rewrite IH]. Qed.

Lemma filter_filter {A : Type} (p q : A -> bool) (l : list A) :
  List.filter q (List.filter p l) = List.filter (fun x => p x && q x) l.
Proof.
  induction l as [|x l IH]; simpl; [reflexivity|].
  destruct (p x); simpl; [destruct (q x)|]; now rewrite IH.
Qed.

Lemma purged_nil (db : DB) : purged [] db db.
Proof.
  split; try reflexivity. intros t. unfold without_aircraft. simpl.
  now rewrite filter_true.
Qed.

Lemma purged_cons (id : Z) (ids : list Z) (db db1 db2 : DB) :
  purged [id] db db1 -> purged ids db1 db2 -> purged (id :: ids) db db2.
Proof.
  intros [Hf1 Ha1 Hs1 Hm1] [Hf2 Ha2 Hs2 Hm2]. split.
  - now rewrite Hf2.
  - now rewrite Ha2.
  - intros t. rewrite Hs2, Hs1. unfold without_aircraft. rewrite filter_filter.
    apply filter_ext. intros r. simpl. rewrite orb_false_r.
    now destruct (row_aircraft_id r =? id).
  - now rewrite Hm2.
Qed.

Lemma delete_aircraft_data_run (aircraftID : Z) (s : TxState) :
  exists s',
    delete_aircraft_data no_faults aircraftID s = Ok (tt, s') /\
    tx_n s' = (tx_n s + 8)%nat /\
    tx_log s' = tx_log s ++ aircraft_tables /\
    purged [aircraftID] (tx_db s) (tx_db s').
Proof.
  unfold delete_aircraft_data.
  repeat (tx_step (tx_wrap_ok _ _ _ _ _ (tx_exec_ok _ _ _))).
  unfold tx_ret. eexists. split; [reflexivity|].
  cbn [tx_n tx_log tx_db]. split; [lia|]. split.
  { rewrite <- !app_assoc. reflexivity. }
  destruct s as [db n lg]. cbn [tx_db]. split; try reflexivity.
  intros t. unfold without_aircraft. destruct t; cbn;
    apply filter_ext; intros r; now rewrite orb_false_r.
Qed.

Lemma delete_loop_run (ids : list Z) (s : TxState) :
  exists s',
    tx_for ids (delete_aircraft_data no_faults) s = Ok (tt, s') /\
    tx_n s' = (tx_n s + 8 * length ids)%nat /\
    tx_log s' = tx_log s ++ flat_map (fun _ => aircraft_tables) ids /\
    purged ids (tx_db s) (tx_db s').
Proof.
  revert s. induction ids as [|id ids IH]; intros s.
  - exists s. split; [reflexivity|]. split; [cbn; lia|].
    split; [cbn; now rewrite app_nil_r | apply purged_nil].
  - cbn [tx_for].
    destruct (delete_aircraft_data_run id s) as [s1 [R1 [N1 [L1 P1]]]].
    tx_step R1. destruct (IH s1) as [s' [R2 [N2 [L2 P2]]]].
    exists s'. split; [exact R2|]. split; [simpl length; lia|].
    split; [rewrite L2, L1; cbn [flat_map]; now rewrite <- app_assoc|].
    exact (purged_cons _ _ _ _ _ P1 P2).
Qed.

Lemma tx_query_ok {A : Type} (q : DB -> A) (s : TxState) :
  tx_query q s = Ok (q (tx_db s), s).
Proof. reflexivity. Qed.

Lemma no_rows_affected {A : Type} (p : A -> bool) (l : list A) :
  (Z.of_nat (length (List.filter p l)) =? 0) = negb (existsb p l).
Proof.
  induction l as [|x l IH]; [reflexivity|]. simpl.
  destruct (p x); simpl; [reflexivity|exact IH].
Qed.

Lemma delete_body_run (flightID : Z) (db : DB) :
  exists s',
    deleted_flight flightID db (tx_db s') /\
    tx_log s' = delete_log flightID db /\
    delete_body no_faults flightID (tx_begin db)
    = if flight_exists flightID db then Ok (tt, s')
      else Err (ErrFlightNotFound flightID).
Proof.
  unfold delete_body, getAircraftIDsForFlight.
  tx_step (tx_wrap_ok _ _ _ _ _ (tx_query_ok _ _)).
  fold (aircraft_ids_of flightID (tx_db (tx_begin db))). cbn [tx_begin tx_db].
  destruct (delete_loop_run (aircraft_ids_of flightID db) (tx_begin db))
    as [s1 [R1 [N1 [L1 [Pf Pa Ps Pm]]]]].
  tx_step R1.
  tx_step (tx_wrap_ok _ _ _ _ _ (tx_exec_ok _ _ _)).
  tx_step (tx_wrap_ok _ _ _ _ _ (tx_exec_ok _ _ _)).
  tx_step (tx_wrap_ok _ _ _ _ _ (tx_exec_ok _ _ _)).
  cbn [delete_markers delete_aircraft delete_flight delete_where fst snd tx_db tx_n tx_log].
  cbn [set_markers set_aircraft set_flight flight aircraft markers].
  cbn [tx_begin tx_db tx_log tx_n] in *.
  rewrite Pf, no_rows_affected. fold (flight_exists flightID db).
  match goal with
  | |- context [mkTxState ?d ?n ?l] => exists (mkTxState d n l)
  end.
  split; [|split]; [| |destruct (flight_exists flightID db); reflexivity].
  - cbn [tx_db]. split.
    + reflexivity.
    + simpl. now rewrite Pa.
    + intros t. rewrite <- Ps. destruct t; reflexivity.
    + simpl. now rewrite Pm.
  - cbn [tx_log]. rewrite L1. cbn [app]. unfold delete_log.
    rewrite <- !app_assoc. reflexivity.
Qed.

Lemma flight_exists_In (flightID : Z) (db : DB) :
  flight_exists flightID db = true <-> In flightID (map flight_id (flight db)).
Proof.
  unfold flight_exists. rewrite existsb_exists, in_map_iff. split.
  - intros [f [Hin Heq]]. exists f. split; [now apply Z.eqb_eq|assumption].
  - intros [f [Heq Hin]]. exists f. split; [assumption|now apply Z.eqb_eq].
Qed.

Lemma delete_log_order (flightID : Z) (db : DB) :
  let log := delete_log flightID db in
  (forall t, all_before (TSeries t) TAircraft log) /\
  (forall t, all_before (TSeries t) TFlight log) /\
  all_before TMarkers TFlight log /\
  all_before TAircraft TFlight log.
Proof.
  assert (Hshape : forall parent before after,
             parent = TAircraft \/ parent = TFlight ->
             delete_log flightID db = before ++ parent :: after ->
             after = [TFlight] \/ after = []).
  { intros parent before after Hp. unfold delete_log.
    generalize (aircraft_ids_of flightID db) as ids.
    intros ids. revert before. induction ids as [|id ids IH]; intros before H.
    - cbn in H. destruct before as [|b0 [|b1 [|b2 before]]]; cbn in H.
      + destruct Hp; subst; discriminate.
      + inversion H; subst. now left.
      + inversion H; subst. now right.
      + inversion H. destruct before; discriminate.
    - cbn [flat_map aircraft_tables] in H. rewrite <- app_assoc in H.
      cbn [app] in H.
      do 8 (destruct before as [|? before];
            [destruct Hp; subst; discriminate
            |cbn [app] in H; injection H as _ H]).
      exact (IH _ H). }
  cbn zeta. repeat split; intros; intros before after H Hin;
    (assert (Hs : after = [TFlight] \/ after = [])
       by (eapply Hshape; [|exact H]; auto);
     destruct Hs as [->| ->];
     [cbn in Hin; destruct Hin as [Hin|[]]; discriminate | contradiction]).
Qed.

Lemma deleted_flight_nothing_left (flightID : Z) (db db' : DB) :
  deleted_flight flightID db db' ->
  (forall f, In f (flight db') -> flight_id f <> flightID) /\
  (forall a, In a (aircraft db') -> aircraft_flight_id a <> flightID) /\
  (forall t r, In r (series db' t) ->
               ~ In (row_aircraft_id r) (aircraft_ids_of flightID db)) /\
  (forall m, In m (markers db') -> marker_flight_id m <> flightID).
Proof.
  intros [Hf Ha Hs Hm]. repeat split.
  - intros f Hin. rewrite Hf in Hin. apply filter_In in Hin as [_ Hne].
    apply negb_true_iff in Hne. now apply Z.eqb_neq.
  - intros a Hin. rewrite Ha in Hin. apply filter_In in Hin as [_ Hne].
    apply negb_true_iff in Hne. now apply Z.eqb_neq.
  - intros t r Hin Hid. rewrite Hs in Hin. unfold without_aircraft in Hin.
    apply filter_In in Hin as [_ Hne]. apply negb_true_iff in Hne.
    assert (Hex : existsb (fun id => row_aircraft_id r =? id)
                    (aircraft_ids_of flightID db) = true).
    { apply existsb_exists. exists (row_aircraft_id r). split; [assumption|].
      apply Z.eqb_refl. }
    congruence.
  - intros m Hin. rewrite Hm in Hin. apply filter_In in Hin as [_ Hne].
    apply negb_true_iff in Hne. now apply Z.eqb_neq.
Qed.

(** The result of [DeleteFlight] when the driver never fails. *)
Lemma DeleteFlight_run (flightID : Z) (db : DB) :
  exists db',
    deleted_flight flightID db db' /\
    DeleteFlight no_faults flightID db =
    if flightID <=? 0 then (Err (ErrInvalidFlightID flightID), db)
    else if flight_exists flightID db then (Ok tt, db')
    else (Err (ErrFlightNotFound flightID), db).
Proof.
  destruct (delete_body_run flightID db) as [s' [Hdel [_ Hrun]]].
  exists (tx_db s'). split; [exact Hdel|].
  unfold DeleteFlight, transaction. rewrite Hrun.
  destruct (flightID <=? 0); [reflexivity|].
  destruct (flight_exists flightID db); reflexivity.
Qed.

(** C6, as the code has it.  A [DeleteFlight] that succeeds has removed the
    flight, its aircraft, every row of the eight per-aircraft tables that
    references one of those aircraft and every marker of the flight, and
    the statements that its transaction has executed ([tx_log] of the state
    in which the body of [DeleteFlight] ends, the state that is committed)
    delete children before parents: every statement on a per-aircraft table
    comes before every statement on aircraft and on flight, and every
    statement on markers and on aircraft before every statement on flight.
    It succeeds for an existing flight with a positive id when the driver
    fails nothing.  For an id that no flight has it returns an error and
    leaves the store unchanged, whatever the driver does: the not-found
    error for a positive id, the invalid-id error of the guard for an id
    that is zero or negative. *)
Theorem delete_flight_cascade (faults : nat -> bool) (flightID : Z) (db : DB) :
  (forall db',
      DeleteFlight faults flightID db = (Ok tt, db') ->
      0 < flightID /\ In flightID (map flight_id (flight db)) /\
      deleted_flight flightID db db' /\
      (forall f, In f (flight db') -> flight_id f <> flightID) /\
      (forall a, In a (aircraft db') -> aircraft_flight_id a <> flightID) /\
      (forall t r, In r (series db' t) ->
                   ~ In (row_aircraft_id r) (aircraft_ids_of flightID db)) /\
      (forall m, In m (markers db') -> marker_flight_id m <> flightID) /\
      exists s',
        delete_body faults flightID (tx_begin db) = Ok (tt, s') /\
        tx_db s' = db' /\
        (forall t, all_before (TSeries t) TAircraft (tx_log s')) /\
        (forall t, all_before (TSeries t) TFlight (tx_log s')) /\
        all_before TMarkers TFlight (tx_log s') /\
        all_before TAircraft TFlight (tx_log s')) /\
  (0 < flightID -> In flightID (map flight_id (flight db)) ->
   exists db', DeleteFlight no_faults flightID db = (Ok tt, db')) /\
  (~ In flightID (map flight_id (flight db)) ->
   (exists e, DeleteFlight faults flightID db = (Err e, db)) /\
   DeleteFlight no_faults flightID db =
   (Err (if flightID <=? 0 then ErrInvalidFlightID flightID
         else ErrFlightNotFound flightID), db)).
Proof.
  assert (Hok : forall db',
      DeleteFlight faults flightID db = (Ok tt, db') ->
      0 < flightID /\ In flightID (map flight_id (flight db)) /\
      deleted_flight flightID db db').
  { intros db' H. unfold DeleteFlight in H.
    destruct (Z.leb_spec flightID 0) as [Hle|Hlt]; [discriminate|].
    destruct (transaction_sound faults _ _ _ _ _ _ (delete_body_sound faults flightID) H)
      as [s' [R [Hdb _]]].
    destruct (delete_body_run flightID db) as [s1 [Hdel [_ Hrun]]].
    rewrite R in Hrun.
    destruct (flight_exists flightID db) eqn:Hex; [|discriminate].
    inversion Hrun; subst s1. rewrite <- Hdb.
    split; [lia|]. split; [now apply flight_exists_In | exact Hdel]. }
  split; [|split].
  - intros db' H. destruct (Hok db' H) as [Hpos [Hin Hdel]].
    split; [exact Hpos|]. split; [exact Hin|]. split; [exact Hdel|].
    destruct (deleted_flight_nothing_left _ _ _ Hdel) as (Nf & Na & Ns & Nm).
    split; [exact Nf|]. split; [exact Na|]. split; [exact Ns|]. split; [exact Nm|].
    unfold DeleteFlight, transaction in H.
    destruct (flightID <=? 0); [discriminate|].
    destruct (delete_body faults flightID (tx_begin db)) as [[[] s1]|e] eqn:Eb;
      [|discriminate].
    destruct (faults (tx_n s1)); [discriminate|].
    exists s1. split; [reflexivity|]. split; [now inversion H|].
    destruct (delete_body_sound faults flightID _ _ _ Eb) as [E0 _].
    destruct (delete_body_run flightID db) as [s0 [_ [Hlog Hrun]]].
    rewrite E0 in Hrun. destruct (flight_exists flightID db); [|discriminate].
    inversion Hrun; subst s0. rewrite Hlog. apply delete_log_order.
  - intros Hpos Hin. destruct (DeleteFlight_run flightID db) as [db' [_ Hrun]].
    exists db'. rewrite Hrun.
    destruct (Z.leb_spec flightID 0) as [Hle|Hlt]; [lia|].
    apply flight_exists_In in Hin. now rewrite Hin.
  - intros Hnot. split.
    + destruct (DeleteFlight faults flightID db) as [[[]|e] db'] eqn:E.
      * destruct (Hok db' eq_refl) as [_ [Hin _]]. contradiction.
      * exists e. f_equal. unfold DeleteFlight in E.
        destruct (flightID <=? 0); [now inversion E|].
        now apply transaction_rollback in E.
    + destruct (DeleteFlight_run flightID db) as [db' [_ Hrun]]. rewrite Hrun.
      destruct (flightID <=? 0); [reflexivity|].
      destruct (flight_exists flightID db) eqn:Hex; [|reflexivity].
      apply flight_exists_In in Hex. contradiction.
Qed.

(** The example flight deleted: the call succeeds and leaves no flight, no
    aircraft, no telemetry row and no marker; the marker sequence keeps
    its value. *)
Lemma delete_example :
  DeleteFlight no_faults 1 example_flight_store
  = (Ok tt, mkDB [] [] [] [] [] [] [] [] [] [] [] 3 "2024-06-02 00:00:00").
Proof. vm_compute. reflexivity. Qed.

(** ** Markers under duplication *)

Lemma tx_bind_inv {A B : Type} (m : Tx A) (f : A -> Tx B) (s s' : TxState) (b : B) :
  tx_bind m f s = Ok (b, s') ->
  exists a s1, m s = Ok (a, s1) /\ f a s1 = Ok (b, s').
Proof.
  unfold tx_bind. destruct (m s) as [[a s1]|e]; [|discriminate].
  intros H. now exists a, s1.
Qed.

Lemma tx_wrap_inv {A : Type} (context : string) (m : Tx A) (s : TxState) (r : A * TxState) :
  tx_wrap context m s = Ok r -> m s = Ok r.
Proof. unfold tx_wrap. destruct (m s); [now intros [= ->] | discriminate]. Qed.

Lemma keeps_markers_trans (db1 db2 db3 : DB) :
  keeps_markers db1 db2 -> keeps_markers db2 db3 -> keeps_markers db1 db3.
Proof. unfold keeps_markers. intros [? [? [? ?]]] [? [? [? ?]]]. repeat split; congruence. Qed.

Lemma tx_keeps_bind {A B : Type} (m : Tx A) (f : A -> Tx B) :
  tx_keeps m -> (forall a, tx_keeps (f a)) -> tx_keeps (tx_bind m f).
Proof.
  intros Hm Hf s b s' H. apply tx_bind_inv in H as [a [s1 [H1 H2]]].
  eapply keeps_markers_trans; [exact (Hm _ _ _ H1) | exact (Hf _ _ _ _ H2)].
Qed.

Lemma tx_keeps_wrap {A : Type} (context : string) (m : Tx A) :
  tx_keeps m -> tx_keeps (tx_wrap context m).
Proof. intros Hm s a s' H. apply tx_wrap_inv in H. exact (Hm _ _ _ H). Qed.

Lemma tx_keeps_for {A : Type} (l : list A) (body : A -> Tx unit) :
  (forall x, tx_keeps (body x)) -> tx_keeps (tx_for l body).
Proof.
  intros Hb. induction l as [|x l IH]; cbn [tx_for].
  - intros s a s' H. inversion H; subst. repeat split.
  - apply tx_keeps_bind; [apply Hb | intros _; exact IH].
Qed.

Lemma tx_keeps_exec {A : Type} (faults : nat -> bool) (table : Table) (stmt : DB -> A * DB) :
  (forall db, keeps_markers db (snd (stmt db))) ->
  tx_keeps (tx_exec faults table stmt).
Proof.
  intros Hs s a s'. unfold tx_exec. destruct (faults (tx_n s)); [discriminate|].
  specialize (Hs (tx_db s)). destruct (stmt (tx_db s)) as [a0 db'].
  intros H. inversion H; subst. exact Hs.
Qed.

Lemma tx_keeps_pure {A : Type} (m : Tx A) :
  (forall s a s', m s = Ok (a, s') -> s' = s) -> tx_keeps m.
Proof. intros Hm s a s' H. rewrite (Hm _ _ _ H). repeat split. Qed.

(** Case analysis on the series table of a goal, if it mentions one. *)
Ltac destruct_series :=
  try match goal with
      | t : SeriesTable |- _ => destruct t
      end;
  reflexivity.

Lemma duplicate_aircraft_keeps (faults : nat -> bool) (newFlightID : Z) (ac : Aircraft) :
  tx_keeps (duplicate_aircraft faults newFlightID ac).
Proof.
  unfold duplicate_aircraft, duplicateAircraftRecord, duplicatePositionData,
    duplicateAttitudeData, duplicateEngineData, duplicateSeriesData.
  repeat first
    [ apply tx_keeps_bind; [|intros ?]
    | apply tx_keeps_wrap
    | apply tx_keeps_for; intros ?
    | apply tx_keeps_exec; intros ?; repeat split; destruct_series
    | apply tx_keeps_pure; intros ? ? ? [= _ ->]; reflexivity
    | match goal with
      | |- tx_keeps (match ?x with _ => _ end) => destruct x
      end
    | apply tx_keeps_pure; intros ? ? ? [=] ].
Qed.

(** A loop of INSERTs into markers, none failed. *)
Lemma insert_marker_loop (g : MarkerRow -> Z -> string -> MarkerRow)
    (rows : list MarkerRow) (s : TxState) :
  exists s' added,
    tx_for rows (fun m => tx_exec no_faults TMarkers (insert_marker (g m)) ;; tx_ret tt) s
      = Ok (tt, s') /\
    tx_n s' = (tx_n s + length rows)%nat /\
    grows (tx_db s) (tx_db s') [] [] no_rows added /\
    Forall2 (fun src new => exists id created, new = g src id created) rows added.
Proof.
  revert s. induction rows as [|m rows IH]; intros s.
  - exists s, []. split; [reflexivity|]. split; [cbn; lia|].
    split; [apply grows_refl|constructor].
  - cbn [tx_for]. tx_step (tx_exec_ok _ _ _). unfold tx_ret at 1.
    rewrite (tx_bind_ok _ _ _ _ _ eq_refl).
    pose proof (grows_insert_marker (g m) (tx_db s)) as Hg.
    match goal with
    | |- context [mkTxState ?d ?n ?l] =>
        destruct (IH (mkTxState d n l)) as [s' [added [R [N [G F]]]]]
    end.
    cbn [tx_db tx_n] in *.
    eexists s', (_ :: added). split; [exact R|]. split; [simpl length; lia|].
    split; [exact (grows_trans _ _ _ _ _ _ _ _ _ _ _ Hg G)|].
    constructor; [|exact F]. eexists _, _. reflexivity.
Qed.

(** C10: after a full duplicate that succeeds, the markers table is the old
    one followed by one copy per marker of the source flight, each with the
    source's time and label and with type 'regular', whatever the type of
    the source marker was. *)
Theorem duplicated_markers_are_regular (faults : nat -> bool) (originalFlightID : Z)
    (newTitle : string) (mainDB db' : DB) (newFlightID : Z) :
  duplicateFlight faults originalFlightID newTitle mainDB = (Ok newFlightID, db') ->
  exists added,
    markers db' = markers mainDB ++ added /\
    Forall2 (regular_copy newFlightID) (markers_of originalFlightID mainDB) added /\
    Forall (fun m => marker_type m = "regular") added.
Proof.
  intros H. unfold duplicateFlight in H.
  destruct (transaction_sound faults _ _ _ _ _ _
              (duplicate_body_sound faults mainDB originalFlightID newTitle) H)
    as [s' [R [Hdb _]]].
  subst db'. unfold duplicate_body in R.
  apply tx_bind_inv in R as [fid [s1 [R1 R]]].
  apply tx_wrap_inv in R1. unfold duplicateFlightRecord in R1.
  apply tx_bind_inv in R1 as [orig [s0 [R0 R1]]]. inversion R0; subst orig s0.
  destruct (List.find _ _) as [r|]; [|discriminate].
  rewrite tx_exec_ok in R1. inversion R1; subst fid s1. clear R0 R1.
  apply tx_bind_inv in R as [acs [s1 [R1 R]]].
  apply tx_wrap_inv in R1. inversion R1; subst acs s1. clear R1.
  apply tx_bind_inv in R as [[] [s2 [R2 R]]].
  apply (tx_keeps_for _ _ (duplicate_aircraft_keeps no_faults _)) in R2.
  destruct R2 as [Hm [Hseq [Hnow Hfl]]]. cbn [tx_db insert_flight snd] in *.
  apply tx_bind_inv in R as [[] [s3 [R3 R]]]. inversion R; subst s'. clear R.
  apply tx_wrap_inv in R3. unfold duplicateMarkers in R3.
  apply tx_bind_inv in R3 as [rows [s2' [Rq R3]]]. inversion Rq; subst rows s2'.
  clear Rq. rewrite Hm in R3. cbn [set_flight markers tx_begin tx_db] in R3.
  fold (markers_of originalFlightID mainDB) in R3.
  destruct (insert_marker_loop
              (fun m id created =>
                 mkMarkerRow id (next_rowid (map flight_id (flight mainDB)))
                   (time_seconds m) (label m) "regular" created)
              (markers_of originalFlightID mainDB) s2)
    as [s4 [added [R4 [_ [G F]]]]].
  cbn beta in R4. rewrite R3 in R4. inversion R4; subst s4.
  exists added. destruct G as [_ _ _ Gm]. rewrite Gm, Hm. cbn [set_flight markers tx_begin tx_db].
  split; [reflexivity|]. split.
  - eapply Forall2_impl; [exact F|]. intros src new [id [created ->]].
    repeat split.
  - clear -F. induction F as [|src new l l' [id [created ->]] _ IH]; constructor;
      [reflexivity|exact IH].
Qed.

(** The staged trim selection of the example does not survive duplication. *)
Lemma duplicated_trim_selection_example :
  map marker_type (markers_of 1 example_flight_store)
  = ["trim_start"; "regular"; "trim_end"] /\
  map marker_type
    (markers_of 2 (snd (duplicateFlight no_faults 1 "F2" example_flight_store)))
  = ["regular"; "regular"; "regular"] /\
  getTrimMarker 2 "trim_start" (snd (duplicateFlight no_faults 1 "F2" example_flight_store))
  = Err ErrNoRows.
Proof. repeat split; vm_compute; reflexivity. Qed.

(** ** Trim markers: at most one of each kind per flight *)

Lemma filter_map_length {A : Type} (p : A -> bool) (g : A -> A) (l : list A) :
  (forall x, p (g x) = p x) ->
  length (List.filter p (map g l)) = length (List.filter p l).
Proof.
  intros Hg. induction l as [|x l IH]; [reflexivity|].
  simpl. rewrite Hg. destruct (p x); simpl; now rewrite IH.
Qed.

Lemma createMarker_store (faults : nat -> bool) (marker : Marker) (db : DB) :
  snd (createMarker faults marker db) =
  if faults 0%nat then db
  else snd (insert_marker (fun id created =>
              mkMarkerRow id (Marker_FlightID marker) (real_column (Marker_Time marker))
                (Marker_Label marker)
                (if String.eqb (Marker_Type marker) "" then "regular"
                 else Marker_Type marker) created) db).
Proof.
  unfold createMarker, autocommit, tx_bind, tx_exec, tx_ret.
  cbn [tx_begin tx_n tx_db]. destruct (faults 0%nat); reflexivity.
Qed.

Lemma count_markers_insert (flightID fid : Z) (type ty : string)
    (row : Z -> string -> MarkerRow) (db : DB) :
  (forall id created, marker_flight_id (row id created) = flightID /\
                      marker_type (row id created) = type) ->
  count_markers fid ty (snd (insert_marker row db)) =
  (count_markers fid ty db
   + if (flightID =? fid)%Z && String.eqb type ty then 1 else 0)%nat.
Proof.
  intros Hrow. unfold count_markers. cbn [insert_marker snd set_markers markers].
  rewrite List.filter_app, length_app. f_equal. cbn [List.filter].
  destruct (Hrow (next_autoincrement (markers_seq db) (map marker_id (markers db)))
              (now db)) as [-> ->].
  destruct ((flightID =? fid) && String.eqb type ty); reflexivity.
Qed.

Lemma count_markers_update (fid : Z) (ty : string) (id : Z) (time : float)
    (lbl : string) (db : DB) :
  count_markers fid ty (snd (update_marker id time lbl db)) = count_markers fid ty db.
Proof.
  unfold count_markers. cbn [update_marker snd set_markers markers].
  apply filter_map_length. intros x. destruct (marker_id x =? id); reflexivity.
Qed.

(** The upsert of [createOrUpdateTrimMarker] keeps the bound, whatever the
    driver does. *)
Lemma createOrUpdateTrimMarker_keeps_unique (faults : nat -> bool) (flightID : Z)
    (markerType : string) (time : float) (lbl : string) (db : DB) :
  trim_markers_unique db ->
  trim_markers_unique (snd (createOrUpdateTrimMarker faults flightID markerType time lbl db)).
Proof.
  intros Hu. unfold createOrUpdateTrimMarker.
  destruct (negb (String.eqb markerType "trim_start")
            && negb (String.eqb markerType "trim_end")) eqn:Hty; [exact Hu|].
  unfold getTrimMarker.
  destruct (List.filter _ (markers db)) as [|m0 rest] eqn:Ef.
  - (* insert: no marker of this type on this flight yet *)
    rewrite createMarker_store. destruct (faults 0%nat); [exact Hu|].
    cbn [Marker_FlightID Marker_Time Marker_Label Marker_Type].
    assert (Hne : String.eqb markerType "" = false).
    { destruct (String.eqb_spec markerType "trim_start") as [->|];
        [reflexivity|].
      destruct (String.eqb_spec markerType "trim_end") as [->|];
        [reflexivity|discriminate]. }
    rewrite Hne. intros fid. specialize (Hu fid).
    assert (Hzero : forall ty, ty = markerType -> fid = flightID ->
                               count_markers fid ty db = 0%nat).
    { intros ty -> ->. unfold count_markers. now rewrite Ef. }
    split.
    + rewrite (count_markers_insert flightID fid markerType); [|now intros].
      destruct (Z.eqb_spec flightID fid) as [<-|]; cbn [andb]; [|lia].
      destruct (String.eqb_spec markerType "trim_start") as [Heq|]; [|lia].
      rewrite (Hzero _ (eq_sym Heq) eq_refl). lia.
    + rewrite (count_markers_insert flightID fid markerType); [|now intros].
      destruct (Z.eqb_spec flightID fid) as [<-|]; cbn [andb]; [|lia].
      destruct (String.eqb_spec markerType "trim_end") as [Heq|]; [|lia].
      rewrite (Hzero _ (eq_sym Heq) eq_refl). lia.
  - (* update: flight and type of every row are unchanged *)
    unfold autocommit, tx_bind, tx_exec, tx_ret. cbn [tx_begin tx_n tx_db].
    destruct (faults 0%nat); [exact Hu|].
    cbn [update_marker snd tx_db]. intros fid. specialize (Hu fid).
    pose proof (count_markers_update fid "trim_start" (Marker_ID (marker_of_row m0))
                  time lbl db) as H1.
    pose proof (count_markers_update fid "trim_end" (Marker_ID (marker_of_row m0))
                  time lbl db) as H2.
    cbn [update_marker snd] in H1, H2. rewrite H1, H2. exact Hu.
Qed.

(** C7 at a failing input: the example flight has one trim_start marker;
    POST /data-analysis/markers with type trim_start is answered 200 and
    inserts a second one, since [createMarker] does not upsert by type. *)
Theorem generic_marker_endpoint_adds_second_trim_start :
  trim_markers_unique example_flight_store /\
  fst (handleCreateMarker no_faults (Some second_trim_start) example_flight_store)
  = StatusOK /\
  count_markers 1 "trim_start"
    (snd (handleCreateMarker no_faults (Some second_trim_start) example_flight_store))
  = 2%nat /\
  ~ trim_markers_unique
      (snd (handleCreateMarker no_faults (Some second_trim_start) example_flight_store)).
Proof.
  split; [|split; [reflexivity|split; [reflexivity|]]].
  - intros fid. destruct (Z.eq_dec fid 1) as [->|Hne].
    + split; vm_compute; lia.
    + assert (E : (1 =? fid) = false) by (apply Z.eqb_neq; lia).
      unfold count_markers, example_flight_store.
      cbn [markers List.filter marker_flight_id]. rewrite E. cbn. lia.
  - intros H. destruct (H 1) as [H1 _].
    assert (E : count_markers 1 "trim_start"
                  (snd (handleCreateMarker no_faults (Some second_trim_start)
                          example_flight_store)) = 2%nat) by reflexivity.
    rewrite E in H1. lia.
Qed.

(** ** Row identifiers are fresh *)

Lemma fold_max_snoc (i v : Z) (rest : list Z) :
  fold_right Z.max i (rest ++ [v]) = Z.max (fold_right Z.max i rest) v.
Proof.
  induction rest as [|x rest IH]; cbn [app fold_right]; [lia|]. rewrite IH. lia.
Qed.

Lemma fold_max_upper (i : Z) (rest : list Z) (x : Z) :
  In x (i :: rest) -> x <= fold_right Z.max i rest.
Proof.
  induction rest as [|y rest IH]; cbn [fold_right].
  - intros [->|[]]. lia.
  - intros [->|[->|Hin]].
    + specialize (IH (or_introl eq_refl)). lia.
    + lia.
    + specialize (IH (or_intror Hin)). lia.
Qed.

Lemma next_rowid_fresh (ids : list Z) (x : Z) : In x ids -> x < next_rowid ids.
Proof.
  destruct ids as [|i rest]; [contradiction|]. intros Hin.
  pose proof (fold_max_upper i rest x Hin). cbn [next_rowid]. lia.
Qed.

Lemma next_rowid_snoc (ids : list Z) :
  next_rowid (ids ++ [next_rowid ids]) = next_rowid ids + 1.
Proof.
  destruct ids as [|i rest]; [reflexivity|].
  cbn [app next_rowid]. rewrite fold_max_snoc. lia.
Qed.

(** ** The loop over the aircraft of a flight, in duplicate and trim *)

Lemma rows_of_app (aircraftID : Z) (l1 l2 : list SeriesRow) :
  rows_of aircraftID (l1 ++ l2) = rows_of aircraftID l1 ++ rows_of aircraftID l2.
Proof. apply List.filter_app. Qed.

Lemma rows_of_retag_other (aircraftID new : Z) (rows : list SeriesRow) :
  aircraftID <> new -> rows_of aircraftID (map (retag new) rows) = [].
Proof.
  intros Hne. induction rows as [|r rows IH]; [reflexivity|].
  cbn [map rows_of List.filter retag row_aircraft_id].
  destruct (Z.eqb_spec new aircraftID); [congruence|exact IH].
Qed.

Lemma rows_of_retag_same (new : Z) (rows : list SeriesRow) :
  rows_of new (map (retag new) rows) = map (retag new) rows.
Proof.
  induction rows as [|r rows IH]; [reflexivity|].
  cbn [map rows_of List.filter retag row_aircraft_id]. rewrite Z.eqb_refl.
  f_equal. exact IH.
Qed.

Lemma find_app_some {A : Type} (p : A -> bool) (l1 l2 : list A) (x : A) :
  List.find p l1 = Some x -> List.find p (l1 ++ l2) = Some x.
Proof.
  induction l1 as [|y l1 IH]; [discriminate|]. cbn [app List.find].
  destruct (p y); [trivial|exact IH].
Qed.

Lemma duplicateAircraftRecord_run (a : AircraftRow) (newFlightID : Z) (s : TxState) :
  List.find (fun x => aircraft_id x =? aircraft_id a) (aircraft (tx_db s)) = Some a ->
  exists s',
    duplicateAircraftRecord no_faults (to_Aircraft a) newFlightID s
    = Ok (next_rowid (map aircraft_id (aircraft (tx_db s))), s') /\
    grows (tx_db s) (tx_db s') []
      [copy_of_aircraft (next_rowid (map aircraft_id (aircraft (tx_db s)))) newFlightID a]
      no_rows [] /\
    markers_seq (tx_db s') = markers_seq (tx_db s) /\ now (tx_db s') = now (tx_db s).
Proof.
  intros Hfind. unfold duplicateAircraftRecord.
  tx_step (tx_query_ok _ _). cbn [to_Aircraft Aircraft_ID]. rewrite Hfind.
  rewrite tx_exec_ok. eexists. split; [reflexivity|].
  cbn [tx_db]. split; [apply grows_insert_aircraft|]. split; reflexivity.
Qed.

Section CopyLoop.

Variable copy : SeriesTable -> Z -> Z -> Tx unit.
Variable sel : SeriesTable -> list SeriesRow -> option (list SeriesRow).
Variable chosen : SeriesTable -> Z -> list SeriesRow.
Variable newFlightID : Z.
Hypothesis copy_sel : copies_selection copy sel.

Lemma copy_loop_run (acs : list AircraftRow) (s : TxState) :
  (forall a, In a acs ->
     List.find (fun x => aircraft_id x =? aircraft_id a) (aircraft (tx_db s)) = Some a) ->
  (forall a, In a acs ->
     aircraft_id a < next_rowid (map aircraft_id (aircraft (tx_db s)))) ->
  (forall a t, In a acs -> telemetry t ->
     sel t (rows_of (aircraft_id a) (series (tx_db s) t))
     = Some (chosen t (aircraft_id a))) ->
  exists s',
    tx_for (map to_Aircraft acs) (copy_aircraft_with copy newFlightID) s = Ok (tt, s') /\
    grows (tx_db s) (tx_db s') []
      (copied_aircraft (next_rowid (map aircraft_id (aircraft (tx_db s)))) newFlightID acs)
      (copied_series chosen (next_rowid (map aircraft_id (aircraft (tx_db s)))) acs) [] /\
    markers_seq (tx_db s') = markers_seq (tx_db s) /\ now (tx_db s') = now (tx_db s).
Proof using copy_sel.
  revert s. induction acs as [|a acs IH]; intros s Hfind Hlt Hsel.
  - exists s. split; [reflexivity|]. split; [|split; reflexivity].
    split; try (now rewrite app_nil_r). intros t. destruct t; cbn; now rewrite app_nil_r.
  - cbn [map tx_for]. unfold copy_aircraft_with at 1.
    set (start := next_rowid (map aircraft_id (aircraft (tx_db s)))) in *.
    destruct (duplicateAircraftRecord_run a newFlightID s (Hfind a (or_introl eq_refl)))
      as [s0 [R0 [G0 [Q0 W0]]]]. fold start in R0, G0.
    tx_step (tx_wrap_ok _ _ _ _ _ R0). cbn [to_Aircraft Aircraft_ID].
    (* the three series of this aircraft *)
    assert (Hrows0 : forall t, series (tx_db s0) t = series (tx_db s) t).
    { intros t. rewrite (grows_series _ _ _ _ _ _ G0). apply app_nil_r. }
    destruct (copy_sel position (aircraft_id a) start s0 (chosen position (aircraft_id a)))
      as [s1 [R1 [G1 [Q1 W1]]]].
    { rewrite Hrows0. apply Hsel; [now left|exact I]. }
    tx_step (tx_wrap_ok _ _ _ _ _ R1).
    destruct (copy_sel attitude (aircraft_id a) start s1 (chosen attitude (aircraft_id a)))
      as [s2 [R2 [G2 [Q2 W2]]]].
    { rewrite (grows_series _ _ _ _ _ _ G1), Hrows0. cbn. rewrite app_nil_r.
      apply Hsel; [now left|exact I]. }
    tx_step (tx_wrap_ok _ _ _ _ _ R2).
    destruct (copy_sel engine (aircraft_id a) start s2 (chosen engine (aircraft_id a)))
      as [s3 [R3 [G3 [Q3 W3]]]].
    { rewrite (grows_series _ _ _ _ _ _ G2), (grows_series _ _ _ _ _ _ G1), Hrows0.
      cbn. rewrite !app_nil_r. apply Hsel; [now left|exact I]. }
    tx_step (tx_wrap_ok _ _ _ _ _ R3).
    pose proof (grows_trans _ _ _ _ _ _ _ _ _ _ _
                  (grows_trans _ _ _ _ _ _ _ _ _ _ _
                     (grows_trans _ _ _ _ _ _ _ _ _ _ _ G0 G1) G2) G3) as G.
    cbn [app] in G.
    assert (Hnext : next_rowid (map aircraft_id (aircraft (tx_db s3))) = start + 1).
    { rewrite (grows_aircraft _ _ _ _ _ _ G), map_app. cbn [map copy_of_aircraft aircraft_id].
      apply next_rowid_snoc. }
    assert (Hother : forall a', In a' acs -> aircraft_id a' <> start).
    { intros a' Hin. specialize (Hlt a' (or_intror Hin)). lia. }
    destruct (IH s3) as [s' [R [G' [Q W]]]].
    { intros a' Hin. rewrite (grows_aircraft _ _ _ _ _ _ G).
      apply find_app_some. apply Hfind. now right. }
    { intros a' Hin. rewrite Hnext. specialize (Hlt a' (or_intror Hin)). lia. }
    { intros a' t Hin Ht. rewrite (grows_series _ _ _ _ _ _ G), rows_of_app.
      assert (Hnone : rows_of (aircraft_id a')
                        (((no_rows t ++ only position
                             (map (retag start) (chosen position (aircraft_id a))) t)
                          ++ only attitude
                               (map (retag start) (chosen attitude (aircraft_id a))) t)
                         ++ only engine
                              (map (retag start) (chosen engine (aircraft_id a))) t) = []).
      { destruct t; cbn; rewrite ?app_nil_r;
          try reflexivity; apply rows_of_retag_other; now apply Hother. }
      rewrite Hnone, app_nil_r. apply Hsel; [now right|exact Ht]. }
    exists s'. split; [exact R|]. rewrite Hnext in G'.
    split; [|split; congruence].
    pose proof (grows_trans _ _ _ _ _ _ _ _ _ _ _ G G') as GG.
    destruct GG as [Gf Ga Gs Gm]. split.
    + exact Gf.
    + exact Ga.
    + intros t. rewrite Gs. f_equal. destruct t; cbn; rewrite ?app_nil_r; reflexivity.
    + exact Gm.
Qed.

End CopyLoop.

(** ** Full duplicate *)

Lemma find_by_id {A : Type} (id : A -> Z) (l : list A) (a : A) :
  List.NoDup (map id l) -> In a l -> List.find (fun x => id x =? id a) l = Some a.
Proof.
  induction l as [|x l IH]; [contradiction|].
  cbn [map List.find]. intros Hnd [->|Hin].
  - now rewrite Z.eqb_refl.
  - inversion Hnd as [|? ? Hx Hl]; subst.
    destruct (Z.eqb_spec (id x) (id a)) as [Heq|Hne]; [|now apply IH].
    exfalso. apply Hx. rewrite Heq. now apply in_map.
Qed.

Lemma duplicateSeriesData_copies :
  copies_selection (duplicateSeriesData no_faults) select_all.
Proof.
  intros t orig new s chosen Hsel. unfold select_all in Hsel. inversion Hsel; subst chosen.
  unfold duplicateSeriesData. tx_step (tx_query_ok _ _).
  unfold select_series. fold (rows_of orig (series (tx_db s) t)).
  destruct (insert_series_loop t (retag new)
              (order_by by_timestamp (rows_of orig (series (tx_db s) t))) s)
    as [s' [R [_ [_ [G [Q W]]]]]].
  exists s'. split; [exact R|]. split; [exact G|]. split; assumption.
Qed.

Lemma duplicate_aircraft_is_copy (newFlightID : Z) (ac : Aircraft) :
  duplicate_aircraft no_faults newFlightID ac
  = copy_aircraft_with (duplicateSeriesData no_faults) newFlightID ac.
Proof. reflexivity. Qed.

Lemma tx_for_ext {A : Type} (l : list A) (body1 body2 : A -> Tx unit) (s : TxState) :
  (forall x, body1 x = body2 x) -> tx_for l body1 s = tx_for l body2 s.
Proof.
  intros Hb. revert s. induction l as [|x l IH]; intros s; [reflexivity|].
  cbn [tx_for]. unfold tx_bind. rewrite Hb.
  destruct (body2 x s) as [[[] s1]|e]; [apply IH|reflexivity].
Qed.

(** The fault-free duplicate of an existing flight: it succeeds, and the
    store grows by a copy of the flight row, copies of its aircraft numbered
    consecutively, their telemetry rows re-tagged, and regular copies of the
    markers. *)
Lemma duplicate_body_run (db : DB) (originalFlightID : Z) (newTitle : string)
    (r : FlightRow) :
  List.NoDup (map aircraft_id (aircraft db)) ->
  List.find (fun f => flight_id f =? originalFlightID) (flight db) = Some r ->
  let newFlightID := next_rowid (map flight_id (flight db)) in
  let start := next_rowid (map aircraft_id (aircraft db)) in
  exists s' added,
    duplicate_body no_faults db originalFlightID newTitle (tx_begin db)
    = Ok (newFlightID, s') /\
    grows db (tx_db s') [copy_of_flight newFlightID newTitle r]
      (copied_aircraft start newFlightID (aircraft_of originalFlightID db))
      (copied_series (all_rows db) start (aircraft_of originalFlightID db))
      added /\
    Forall2 (regular_copy newFlightID) (markers_of originalFlightID db) added.
Proof.
  intros Hnd Hfind newFlightID start. unfold duplicate_body.
  (* the flight row *)
  assert (R0 : duplicateFlightRecord no_faults originalFlightID newTitle (tx_begin db)
               = Ok (newFlightID,
                     mkTxState (snd (insert_flight (fun id => copy_of_flight id newTitle r) db))
                       1 [TFlight])).
  { unfold duplicateFlightRecord. tx_step (tx_query_ok _ _).
    cbn [tx_begin tx_db]. rewrite Hfind. rewrite tx_exec_ok. reflexivity. }
  tx_step (tx_wrap_ok _ _ _ _ _ R0).
  pose proof (grows_insert_flight (fun id => copy_of_flight id newTitle r) db) as G0.
  cbn beta in G0. fold newFlightID in G0.
  set (s0 := mkTxState _ 1 [TFlight]) in *.
  (* the aircraft, read from the committed store *)
  unfold getAircraftByFlightIDFromMainDB.
  tx_step (tx_wrap_ok _ _ _ _ _ eq_refl). fold (aircraft_of originalFlightID db).
  change (map _ (aircraft_of originalFlightID db))
    with (map to_Aircraft (aircraft_of originalFlightID db)).
  destruct (copy_loop_run _ _ (all_rows db) newFlightID duplicateSeriesData_copies
              (aircraft_of originalFlightID db) s0) as [s1 [R1 [G1 [Q1 W1]]]].
  { intros a Hin. cbn [s0 tx_db insert_flight snd set_flight aircraft].
    apply (find_by_id aircraft_id); [exact Hnd|].
    apply select_aircraft_In in Hin. now destruct Hin. }
  { intros a Hin. cbn [s0 tx_db insert_flight snd set_flight aircraft].
    apply next_rowid_fresh, in_map. apply select_aircraft_In in Hin.
    now destruct Hin. }
  { intros a t Hin Ht. reflexivity. }
  rewrite <- (tx_for_ext _ _ _ _ (duplicate_aircraft_is_copy newFlightID)) in R1.
  tx_step R1.
  change (next_rowid (map aircraft_id (aircraft (tx_db s0)))) with start in G1.
  (* the markers *)
  unfold duplicateMarkers.
  assert (Hm1 : markers (tx_db s1) = markers db).
  { rewrite (grows_markers _ _ _ _ _ _ G1). cbn [s0 tx_db]. now rewrite app_nil_r. }
  destruct (insert_marker_loop
              (fun m id created =>
                 mkMarkerRow id newFlightID (time_seconds m) (label m) "regular" created)
              (markers_of originalFlightID db) s1)
    as [s2 [added [R2 [_ [G2 F2]]]]].
  cbn beta in R2.
  rewrite (tx_bind_ok _ _ s1 s2 tt).
  2: { apply tx_wrap_ok. tx_step (tx_query_ok _ _). rewrite Hm1.
       fold (markers_of originalFlightID db). exact R2. }
  unfold tx_ret. exists s2, added. split; [reflexivity|]. split.
  - pose proof (grows_trans _ _ _ _ _ _ _ _ _ _ _
                  (grows_trans _ _ _ _ _ _ _ _ _ _ _ G0 G1) G2) as G.
    destruct G as [Gf Ga Gs Gm]. cbn [app] in Gf, Ga, Gm.
    rewrite app_nil_r in Ga.
    split; [exact Gf | exact Ga | | exact Gm].
    intros t. rewrite Gs. unfold no_rows. now rewrite app_nil_r.
  - eapply Forall2_impl; [exact F2|]. intros src new [id [created ->]]. repeat split.
Qed.

Lemma copied_aircraft_length (start newFlightID : Z) (acs : list AircraftRow) :
  length (copied_aircraft start newFlightID acs) = length acs.
Proof.
  revert start. induction acs as [|a acs IH]; intros start; [reflexivity|].
  cbn [copied_aircraft length]. now rewrite IH.
Qed.

Lemma copied_aircraft_flight (start newFlightID : Z) (acs : list AircraftRow) :
  Forall (fun c => aircraft_flight_id c = newFlightID)
    (copied_aircraft start newFlightID acs).
Proof.
  revert start. induction acs as [|a acs IH]; intros start; constructor;
    [reflexivity|apply IH].
Qed.

(** The copies keep seq_nr, so they are in the order of seq_nr as the
    aircraft they copy. *)
Lemma copied_aircraft_Sorted (start newFlightID : Z) (acs : list AircraftRow) :
  Sorted (fun a b => by_seq_nr a b = true) acs ->
  Sorted (fun a b => by_seq_nr a b = true) (copied_aircraft start newFlightID acs).
Proof.
  intros H. revert start. induction H as [|a acs Hs IH Hhd]; intros start;
    cbn [copied_aircraft]; constructor; [apply IH|].
  destruct Hhd as [|b acs' Hab]; cbn [copied_aircraft]; constructor. exact Hab.
Qed.

Lemma copied_rows_below (chosen : Z -> list SeriesRow) (start k : Z)
    (acs : list AircraftRow) :
  k < start -> rows_of k (copied_rows chosen start acs) = [].
Proof.
  revert start. induction acs as [|a acs IH]; intros start Hlt; [reflexivity|].
  cbn [copied_rows]. rewrite rows_of_app, rows_of_retag_other by lia.
  apply IH. lia.
Qed.

(** Each copy of an aircraft owns exactly the re-tagged rows chosen for its
    original, in a table whose older rows reference older aircraft only. *)
Lemma copied_rows_owned (chosen : Z -> list SeriesRow) (newFlightID : Z)
    (acs : list AircraftRow) (start : Z) (rows0 : list SeriesRow) :
  (forall k, start <= k -> rows_of k rows0 = []) ->
  Forall2
    (fun a c =>
       c = copy_of_aircraft (aircraft_id c) newFlightID a /\
       start <= aircraft_id c /\
       rows_of (aircraft_id c) (rows0 ++ copied_rows chosen start acs)
       = map (retag (aircraft_id c)) (chosen (aircraft_id a)))
    acs (copied_aircraft start newFlightID acs).
Proof.
  revert start rows0. induction acs as [|a acs IH]; intros start rows0 Hold;
    [constructor|].
  cbn [copied_aircraft copied_rows]. constructor.
  - cbn [copy_of_aircraft aircraft_id]. split; [reflexivity|]. split; [lia|].
    rewrite !rows_of_app, (Hold start) by lia.
    rewrite rows_of_retag_same, copied_rows_below by lia.
    now rewrite app_nil_r.
  - specialize (IH (start + 1) (rows0 ++ map (retag start) (chosen (aircraft_id a)))).
    eapply Forall2_impl; [apply IH|].
    + intros k Hk. rewrite rows_of_app, Hold, rows_of_retag_other by lia. reflexivity.
    + intros a' c [Hc [Hle Hrows]]. split; [exact Hc|]. split; [lia|].
      rewrite <- app_assoc in Hrows. exact Hrows.
Qed.

Lemma filter_none {A : Type} (p : A -> bool) (l : list A) :
  (forall x, In x l -> p x = false) -> List.filter p l = [].
Proof.
  induction l as [|x l IH]; intros H; [reflexivity|]. cbn [List.filter].
  rewrite (H x (or_introl eq_refl)). apply IH. intros y Hy. apply H. now right.
Qed.

Lemma filter_all {A : Type} (p : A -> bool) (l : list A) :
  Forall (fun x => p x = true) l -> List.filter p l = l.
Proof.
  induction 1 as [|x l Hx _ IH]; [reflexivity|]. cbn [List.filter].
  now rewrite Hx, IH.
Qed.

Lemma Forall2_and {A B : Type} (P Q : A -> B -> Prop) (l : list A) (l' : list B) :
  List.Forall2 P l l' -> List.Forall2 Q l l' ->
  List.Forall2 (fun a b => P a b /\ Q a b) l l'.
Proof.
  intros HP. induction HP as [|a b l l' Hab _ IH]; intros HQ; inversion HQ; subst;
    constructor; [split; assumption | now apply IH].
Qed.

Lemma Forall2_length_eq {A B : Type} (P : A -> B -> Prop) (l : list A) (l' : list B) :
  List.Forall2 P l l' -> length l = length l'.
Proof. induction 1; cbn [length]; congruence. Qed.

Lemma store_ok_no_newer_rows (db : DB) (t : SeriesTable) (k : Z) :
  store_ok db -> next_rowid (map aircraft_id (aircraft db)) <= k ->
  rows_of k (series db t) = [].
Proof.
  intros Hok Hk. apply filter_none. intros r Hin.
  pose proof (next_rowid_fresh _ _ (ok_series_aircraft db Hok t r Hin)).
  apply Z.eqb_neq. lia.
Qed.

Section DerivedCopy.

Variable chosen : SeriesTable -> Z -> list SeriesRow.
Variable P : MarkerRow -> MarkerRow -> Prop.
Variable src_markers : list MarkerRow.

Lemma derived_copy_sound (db db' : DB) (F : Z) (newTitle : string)
    (r : FlightRow) (added : list MarkerRow) :
  store_ok db ->
  List.find (fun f => flight_id f =? F) (flight db) = Some r ->
  let newID := next_rowid (map flight_id (flight db)) in
  let start := next_rowid (map aircraft_id (aircraft db)) in
  grows db db' [copy_of_flight newID newTitle r]
    (copied_aircraft start newID (aircraft_of F db))
    (copied_series chosen start (aircraft_of F db)) added ->
  List.Forall2 P src_markers added ->
  Forall (fun m => marker_flight_id m = newID) added ->
  derived_copy chosen P src_markers db F newTitle db' newID.
Proof.
  intros Hok Hfind newID start G Hadded Hadded_flight.
  destruct G as [Gf Ga Gs Gm].
  apply find_some in Hfind as [Hr HrF]. apply Z.eqb_eq in HrF.
  assert (HF : F < newID).
  { rewrite <- HrF. apply next_rowid_fresh. now apply in_map. }
  assert (Hac : aircraft_of newID db'
                = copied_aircraft start newID (aircraft_of F db)).
  { unfold aircraft_of at 1. unfold select_aircraft at 1.
    rewrite Ga, List.filter_app, filter_none, filter_all.
    - cbn [app]. apply order_by_of_Sorted, copied_aircraft_Sorted, select_aircraft_Sorted.
    - eapply List.Forall_impl; [|apply copied_aircraft_flight].
      intros c ->. apply Z.eqb_refl.
    - intros a Hin. apply Z.eqb_neq.
      pose proof (next_rowid_fresh _ _ (ok_aircraft_flight db Hok a Hin)).
      fold newID in H. lia. }
  assert (Hmk : List.filter (fun m => marker_flight_id m =? newID) (markers db')
                = added).
  { rewrite Gm, List.filter_app, filter_none, filter_all.
    - reflexivity.
    - eapply List.Forall_impl; [|exact Hadded_flight]. intros m ->. apply Z.eqb_refl.
    - intros m Hin. apply Z.eqb_neq.
      pose proof (next_rowid_fresh _ _ (ok_marker_flight db Hok m Hin)).
      fold newID in H. lia. }
  split.
  - exists r. split; [exact Hr|]. split; [exact HrF|].
    rewrite Gf, List.filter_app, filter_none.
    + cbn [List.filter copy_of_flight flight_id app]. now rewrite Z.eqb_refl.
    + intros f Hin. apply Z.eqb_neq.
      pose proof (next_rowid_fresh _ _ (in_map flight_id _ _ Hin)).
      fold newID in H. lia.
  - rewrite Hac. apply copied_aircraft_length.
  - rewrite Hac.
    pose proof (fun t => copied_rows_owned (chosen t) newID (aircraft_of F db) start
                        (series db t)
                        (fun k Hk => store_ok_no_newer_rows db t k Hok Hk)) as Hown.
    pose proof (Forall2_and _ _ _ _ (Hown position)
                  (Forall2_and _ _ _ _ (Hown attitude) (Hown engine))) as H3.
    eapply Forall2_impl; [exact H3|].
    intros a c [[Hc [_ Hp]] [[_ [_ Ht]] [_ [_ He]]]]. split; [exact Hc|].
    intros t Htel.
    rewrite Gs. destruct t; try contradiction; cbn [copied_series]; assumption.
  - rewrite Hmk. exact Hadded.
  - rewrite Gf, List.filter_app. cbn [List.filter copy_of_flight flight_id].
    destruct (Z.eqb_spec newID F); [lia|]. apply app_nil_r.
  - unfold aircraft_of at 1. unfold select_aircraft at 1.
    rewrite Ga, List.filter_app, (filter_none _ (copied_aircraft _ _ _)).
    + rewrite app_nil_r. reflexivity.
    + intros c Hin. apply Z.eqb_neq.
      pose proof (copied_aircraft_flight start newID (aircraft_of F db)) as Hall.
      rewrite List.Forall_forall in Hall. rewrite (Hall c Hin). lia.
  - intros a t Hin. rewrite Gs, rows_of_app.
    assert (Hlt : aircraft_id a < start).
    { apply next_rowid_fresh, in_map. apply select_aircraft_In in Hin.
      now destruct Hin. }
    destruct t; cbn [copied_series]; rewrite ?copied_rows_below by exact Hlt;
      apply app_nil_r.
  - rewrite Gm, List.filter_app, (filter_none _ added).
    + apply app_nil_r.
    + intros m Hin. apply Z.eqb_neq. rewrite List.Forall_forall in Hadded_flight.
      rewrite (Hadded_flight m Hin). lia.
  - eexists _, _, _, _. split; eassumption.
Qed.

End DerivedCopy.

Lemma regular_copies_flight (newID : Z) (src added : list MarkerRow) :
  List.Forall2 (regular_copy newID) src added ->
  Forall (fun m => marker_flight_id m = newID) added.
Proof.
  induction 1 as [|s n l l' [Hn _] _ IH]; constructor; assumption.
Qed.

(** A derived copy made of all rows and regular markers is a duplicate. *)
Lemma duplicate_of_derived (db db' : DB) (F : Z) (newTitle : string) (newID : Z) :
  derived_copy (all_rows db) (regular_copy newID) (markers_of F db)
    db F newTitle db' newID ->
  duplicate_of db F newTitle db' newID.
Proof.
  intros [Hf Hc Ha Hm Hsf Hsa Hsr Hsm He]. split; try assumption.
  - eapply Forall2_impl; [exact Ha|]. intros a c [Hcopy Hrows].
    split; [exact Hcopy|]. intros t Ht. rewrite (Hrows t Ht).
    split; [reflexivity|]. split.
    + unfold all_rows. now rewrite length_map, order_by_length.
    + rewrite map_map. reflexivity.
  - rewrite <- (Forall2_length_eq _ _ _ Hm). unfold markers_of. apply order_by_length.
Qed.

(** C3, as the code has it: in a store that respects its keys (the ids of
    flights and of aircraft are unique, and every aircraft, telemetry row
    and marker references a row that exists, which the program does not
    enforce), the full duplicate of an existing flight F succeeds when the
    driver fails nothing, and a duplicate that succeeds has made a new
    flight with as many aircraft as F, each owning copies of the position,
    attitude and engine rows of its original with the timestamps unchanged,
    and as many markers as F with the time offsets unchanged; the rows of F
    are as they were.  The new flight row carries the new title, the four
    times of F as the driver renders them and every other column of F; the
    aircraft and their copies correspond in the order of seq_nr. *)
Theorem duplicate_round_trip (faults : nat -> bool) (db : DB) (F : Z)
    (newTitle : string) :
  store_ok db ->
  In F (map flight_id (flight db)) ->
  (exists newID db', duplicateFlight no_faults F newTitle db = (Ok newID, db')) /\
  (forall newID db',
      duplicateFlight faults F newTitle db = (Ok newID, db') ->
      duplicate_of db F newTitle db' newID).
Proof.
  intros Hok HF.
  assert (Hfind : exists r, List.find (fun f => flight_id f =? F) (flight db) = Some r).
  { destruct (List.find (fun f => flight_id f =? F) (flight db)) as [r|] eqn:E;
      [now exists r|].
    apply in_map_iff in HF as [f [Hid Hin]].
    pose proof (find_none _ _ E f Hin) as Hn. cbn beta in Hn.
    rewrite Hid, Z.eqb_refl in Hn. discriminate. }
  destruct Hfind as [r Hfind].
  destruct (duplicate_body_run db F newTitle r (ok_aircraft_ids db Hok) Hfind)
    as [s' [added [R [G Hadded]]]].
  split.
  - unfold duplicateFlight, transaction. rewrite R. cbn [no_faults]. eauto.
  - intros newID db' H. unfold duplicateFlight in H.
    destruct (transaction_sound faults _ _ _ _ _ _
                (duplicate_body_sound faults db F newTitle) H) as [s1 [R1 [Hdb _]]].
    rewrite R in R1. inversion R1; subst newID s1. subst db'.
    apply duplicate_of_derived.
    exact (derived_copy_sound _ _ _ db (tx_db s') F newTitle r added Hok Hfind G Hadded
             (regular_copies_flight _ _ _ Hadded)).
Qed.

Lemma example_flight_store_ok : store_ok example_flight_store.
Proof.
  split.
  - repeat constructor; cbn; tauto.
  - repeat constructor; cbn; tauto.
  - intros a [<-|[]]. now left.
  - intros t r Hin. left.
    destruct t; cbn in Hin; repeat (destruct Hin as [<-|Hin]; [reflexivity|]);
      contradiction.
  - intros m Hin. left. cbn in Hin.
    repeat (destruct Hin as [<-|Hin]; [reflexivity|]). contradiction.
Qed.

(** The duplicate of the example flight, evaluated. *)
Lemma duplicate_example :
  let db' := snd (duplicateFlight no_faults 1 "F2" example_flight_store) in
  fst (duplicateFlight no_faults 1 "F2" example_flight_store) = Ok 2 /\
  map flight_title (flight db') = [Some "F"; Some "F2"] /\
  map aircraft_flight_id (aircraft db') = [1; 2] /\
  map timestamp (rows_of 2 (position_rows db'))
  = map timestamp (rows_of 1 (position_rows example_flight_store)) /\
  map timestamp (rows_of 2 (attitude_rows db')) = [5000; 30000; 55000; 80000; 105000] /\
  length (rows_of 2 (engine_rows db')) = 3%nat /\
  map time_seconds (List.filter (fun m => marker_flight_id m =? 2) (markers db'))
  = [10; 20; 40]%float.
Proof. repeat split; vm_compute; reflexivity. Qed.

(** ** Trim *)

Lemma wrap_in_range (z : Z) : Int64.in_range z -> Int64.wrap z = z.
Proof.
  unfold Int64.in_range, Int64.wrap, Int64.modulus, Int64.min_signed, Int64.max_signed.
  intros H. rewrite Z.mod_small; lia.
Qed.

Lemma fold_min_spec (x : Z) (rest : list Z) :
  In (fold_right Z.min x rest) (x :: rest) /\
  forall y, In y (x :: rest) -> fold_right Z.min x rest <= y.
Proof.
  induction rest as [|z rest [IHin IHle]]; cbn [fold_right].
  - split; [now left|]. intros y [->|[]]. lia.
  - split.
    + destruct (Z.min_spec z (fold_right Z.min x rest)) as [[_ ->]|[_ ->]].
      * right. now left.
      * destruct IHin as [<-|Hin]; [now left|right; now right].
    + intros y [->|[->|Hin]].
      * specialize (IHle y (or_introl eq_refl)). lia.
      * lia.
      * specialize (IHle y (or_intror Hin)). lia.
Qed.

Lemma min_of_spec (l : list Z) (m : Z) :
  min_of l = Some m <-> In m l /\ forall y, In y l -> m <= y.
Proof.
  destruct l as [|x rest]; cbn [min_of].
  - split; [discriminate|intros [[] _]].
  - destruct (fold_min_spec x rest) as [Hin Hle]. split.
    + intros [= <-]. split; assumption.
    + intros [Hm Hlow]. f_equal. specialize (Hle m Hm). specialize (Hlow _ Hin). lia.
Qed.

Lemma of_float_in_range (f : float) : Int64.in_range (Int64.of_float f).
Proof.
  unfold Int64.of_float, Int64.in_range.
  destruct (Int64.trunc f) as [z|];
    [|unfold Int64.min_signed, Int64.max_signed; lia].
  destruct (Z.leb_spec Int64.min_signed z); cbn [andb];
    [|unfold Int64.min_signed, Int64.max_signed; lia].
  destruct (Z.leb_spec z Int64.max_signed);
    [lia | unfold Int64.min_signed, Int64.max_signed; lia].
Qed.

Lemma duplicateSeriesDataTrimmed_copies (startTime endTime : float) :
  copies_selection
    (fun t orig new => duplicateSeriesDataTrimmed no_faults t orig new startTime endTime)
    (select_window startTime endTime).
Proof.
  intros t orig new s chosen Hsel. unfold select_window in Hsel.
  unfold duplicateSeriesDataTrimmed. tx_step (tx_query_ok _ _).
  fold (rows_of orig (series (tx_db s) t)).
  destruct (min_of (map timestamp (rows_of orig (series (tx_db s) t)))) as [m|];
    [|discriminate].
  inversion Hsel; subst chosen. clear Hsel.
  tx_step (tx_query_ok _ _).
  fold (milliseconds startTime) (milliseconds endTime).
  set (startTs := Int64.add m (milliseconds startTime)).
  set (endTs := Int64.add m (milliseconds endTime)).
  assert (Hfilter :
    List.filter (fun r => (row_aircraft_id r =? orig) && (startTs <=? timestamp r)
                          && (timestamp r <=? endTs)) (series (tx_db s) t)
    = List.filter (fun r => (startTs <=? timestamp r) && (timestamp r <=? endTs))
        (rows_of orig (series (tx_db s) t))).
  { unfold rows_of. rewrite filter_filter. apply filter_ext. intros r.
    now rewrite andb_assoc. }
  rewrite Hfilter.
  destruct (insert_series_loop t
              (fun r => mkSeriesRow new
                          (Int64.add m (Int64.sub (timestamp r) startTs)) (row_cols r))
              (order_by by_timestamp
                 (List.filter (fun r => (startTs <=? timestamp r)
                                        && (timestamp r <=? endTs))
                    (rows_of orig (series (tx_db s) t)))) s)
    as [s' [R [_ [_ [G [Q W]]]]]].
  exists s'. split; [exact R|]. split; [|split; assumption].
  unfold trimmed_rows. fold startTs endTs. rewrite map_map. exact G.
Qed.

(** An empty series stops the trim: MIN over no rows is NULL. *)
Lemma duplicateSeriesDataTrimmed_empty (faults : nat -> bool) (t : SeriesTable)
    (orig new : Z) (startTime endTime : float) (s : TxState) :
  rows_of orig (series (tx_db s) t) = [] ->
  duplicateSeriesDataTrimmed faults t orig new startTime endTime s = Err ErrScanNull.
Proof.
  intros Hempty. unfold duplicateSeriesDataTrimmed, tx_bind, tx_query.
  fold (rows_of orig (series (tx_db s) t)). rewrite Hempty. reflexivity.
Qed.

Lemma wrap_add_wrap (a b : Z) : Int64.wrap (a + Int64.wrap b) = Int64.wrap (a + b).
Proof.
  unfold Int64.wrap, Int64.modulus.
  replace (a + ((b + 2 ^ 63) mod 2 ^ 64 - 2 ^ 63) + 2 ^ 63)
    with (a + (b + 2 ^ 63) mod 2 ^ 64) by lia.
  rewrite Zplus_mod_idemp_r. do 2 f_equal. lia.
Qed.

(** Without overflow the window is [min + start, min + end] and a selected
    row moves by the start offset. *)
Lemma trimmed_rows_exact (startTime endTime : float) (m : Z) (rows : list SeriesRow) :
  Int64.in_range m ->
  Int64.in_range (m + milliseconds startTime) ->
  Int64.in_range (m + milliseconds endTime) ->
  Int64.in_range (m + (milliseconds endTime - milliseconds startTime)) ->
  trimmed_rows startTime endTime m rows
  = map (fun r => mkSeriesRow (row_aircraft_id r)
                    (m + (timestamp r - (m + milliseconds startTime))) (row_cols r))
      (order_by by_timestamp
         (List.filter (fun r => (m + milliseconds startTime <=? timestamp r)
                                && (timestamp r <=? m + milliseconds endTime)) rows)).
Proof.
  intros Hm HS HE HES. unfold trimmed_rows, Int64.add.
  rewrite (wrap_in_range _ HS), (wrap_in_range _ HE).
  apply map_ext_in. intros r Hin. apply order_by_In in Hin.
  apply filter_In in Hin as [_ Hw]. apply andb_true_iff in Hw as [Hlo Hhi].
  apply Z.leb_le in Hlo, Hhi. f_equal. unfold Int64.sub.
  rewrite wrap_add_wrap. apply wrap_in_range.
  unfold Int64.in_range, Int64.min_signed, Int64.max_signed in *. lia.
Qed.

Lemma shifted_rows_range (new m S E : Z) (rows : list SeriesRow) :
  Forall (fun r => row_aircraft_id r = new /\ m <= timestamp r <= m + (E - S))
    (shifted_rows new m S E rows).
Proof.
  unfold shifted_rows. apply List.Forall_forall. intros r' Hin.
  apply in_map_iff in Hin as [r [<- Hin]]. apply order_by_In in Hin.
  apply filter_In in Hin as [_ Hw]. apply andb_true_iff in Hw as [Hlo Hhi].
  apply Z.leb_le in Hlo, Hhi. cbn [row_aircraft_id timestamp]. split; [reflexivity|lia].
Qed.

Lemma shifted_rows_length (new m S E : Z) (rows : list SeriesRow) :
  length (shifted_rows new m S E rows)
  = length (List.filter (fun r => (m + S <=? timestamp r) && (timestamp r <=? m + E)) rows).
Proof. unfold shifted_rows. now rewrite length_map, order_by_length. Qed.

Lemma shifted_rows_start_iff (new m S E : Z) (rows : list SeriesRow) :
  S <= E ->
  min_of (map timestamp (shifted_rows new m S E rows)) = Some m
  <-> In (m + S) (map timestamp rows).
Proof.
  intros HSE. split.
  - intros Hmin. apply min_of_spec in Hmin as [Hin _].
    apply in_map_iff in Hin as [r' [Hts Hr']]. unfold shifted_rows in Hr'.
    apply in_map_iff in Hr' as [r [<- Hr]]. cbn [timestamp] in Hts.
    apply order_by_In, filter_In in Hr as [Hr _].
    apply in_map_iff. exists r. split; [lia|exact Hr].
  - intros Hin. apply min_of_spec. split.
    + apply in_map_iff in Hin as [r [Hts Hr]].
      apply in_map_iff.
      exists (mkSeriesRow new (m + (timestamp r - (m + S))) (row_cols r)).
      split; [cbn [timestamp]; lia|].
      unfold shifted_rows. apply in_map_iff. exists r. split; [reflexivity|].
      apply order_by_In, filter_In. split; [exact Hr|].
      apply andb_true_iff. split; apply Z.leb_le; lia.
    + intros y Hy. apply in_map_iff in Hy as [r' [<- Hr']].
      pose proof (shifted_rows_range new m S E rows) as Hall.
      rewrite List.Forall_forall in Hall. destruct (Hall r' Hr') as [_ [Hlo _]].
      exact Hlo.
Qed.

(** The fault-free trim of one series that has a minimum: the rows added
    are the rows that [trimmed_rows] computes, given to the new aircraft. *)
Lemma trim_series_adds (t : SeriesTable) (orig new : Z) (startTime endTime : float)
    (s : TxState) (m : Z) :
  min_of (map timestamp (rows_of orig (series (tx_db s) t))) = Some m ->
  exists s',
    duplicateSeriesDataTrimmed no_faults t orig new startTime endTime s = Ok (tt, s') /\
    grows (tx_db s) (tx_db s') [] []
      (only t (map (retag new)
                 (trimmed_rows startTime endTime m (rows_of orig (series (tx_db s) t)))))
      [] /\
    markers_seq (tx_db s') = markers_seq (tx_db s) /\ now (tx_db s') = now (tx_db s).
Proof.
  intros Hmin.
  apply (duplicateSeriesDataTrimmed_copies startTime endTime t orig new s).
  unfold select_window. now rewrite Hmin.
Qed.

Lemma trimmed_rows_shifted (new : Z) (startTime endTime : float) (m : Z)
    (rows : list SeriesRow) :
  Int64.in_range m ->
  Int64.in_range (m + milliseconds startTime) ->
  Int64.in_range (m + milliseconds endTime) ->
  Int64.in_range (m + (milliseconds endTime - milliseconds startTime)) ->
  map (retag new) (trimmed_rows startTime endTime m rows)
  = shifted_rows new m (milliseconds startTime) (milliseconds endTime) rows.
Proof.
  intros Hm HS HE HES.
  rewrite (trimmed_rows_exact _ _ _ _ Hm HS HE HES), map_map. reflexivity.
Qed.

(** The fault-free trim of one series that has a minimum. *)
Lemma trim_series_run (t : SeriesTable) (orig new : Z) (startTime endTime : float)
    (s : TxState) (m : Z) :
  min_of (map timestamp (rows_of orig (series (tx_db s) t))) = Some m ->
  Int64.in_range m ->
  0 <= milliseconds startTime <= milliseconds endTime ->
  m + milliseconds endTime <= Int64.max_signed ->
  exists s',
    duplicateSeriesDataTrimmed no_faults t orig new startTime endTime s = Ok (tt, s') /\
    grows (tx_db s) (tx_db s') [] []
      (only t (shifted_rows new m (milliseconds startTime) (milliseconds endTime)
                 (rows_of orig (series (tx_db s) t)))) [] /\
    markers_seq (tx_db s') = markers_seq (tx_db s) /\ now (tx_db s') = now (tx_db s).
Proof.
  intros Hmin Hm HSE Hmax.
  destruct (duplicateSeriesDataTrimmed_copies startTime endTime t orig new s
              (trimmed_rows startTime endTime m (rows_of orig (series (tx_db s) t))))
    as [s' [R [G QW]]].
  { unfold select_window. now rewrite Hmin. }
  exists s'. split; [exact R|]. split; [|exact QW].
  rewrite trimmed_rows_shifted in G; [exact G|exact Hm|..];
    unfold Int64.in_range, Int64.min_signed, Int64.max_signed in *; lia.
Qed.

(** C5, as the code has it: each series is trimmed on its own.  For a
    series with minimum timestamp [m], the window is [m + S, m + E] and a
    selected row gets the timestamp m + (t - (m + S)), where S and E are
    the start and end offsets times 1000 as int64 milliseconds and the sums
    and the difference are those of int64, which wrap ([trimmed_rows]): the
    window start is moved onto the series' own minimum.  The rows added
    depend on the rows of that aircraft in that table only: any state with
    the same such rows gets the same rows added, whatever its other series
    hold.  When S is not after E and none of m + S, m + E and m + (E - S)
    leaves the range of int64, nothing wraps: the new timestamps lie in
    [m, m + (E - S)], and the new series starts at [m] exactly when a row
    lies on the window start. *)
Theorem trim_series_own_time_base (t : SeriesTable) (orig new : Z)
    (startTime endTime : float) (rows : list SeriesRow) (m : Z) :
  min_of (map timestamp rows) = Some m ->
  exists added,
    added = map (retag new) (trimmed_rows startTime endTime m rows) /\
    (forall s, rows_of orig (series (tx_db s) t) = rows ->
       exists s',
         duplicateSeriesDataTrimmed no_faults t orig new startTime endTime s
         = Ok (tt, s') /\
         grows (tx_db s) (tx_db s') [] [] (only t added) []) /\
    (Int64.in_range m ->
     milliseconds startTime <= milliseconds endTime ->
     Int64.in_range (m + milliseconds startTime) ->
     Int64.in_range (m + milliseconds endTime) ->
     Int64.in_range (m + (milliseconds endTime - milliseconds startTime)) ->
     added = shifted_rows new m (milliseconds startTime) (milliseconds endTime) rows /\
     Forall (fun r => row_aircraft_id r = new /\
                      m <= timestamp r
                        <= m + (milliseconds endTime - milliseconds startTime)) added /\
     (min_of (map timestamp added) = Some m
      <-> In (m + milliseconds startTime) (map timestamp rows))).
Proof.
  intros Hmin. eexists. split; [reflexivity|]. split.
  - intros s Hrows. subst rows.
    destruct (trim_series_adds t orig new startTime endTime s m Hmin) as [s' [R [G _]]].
    exists s'. split; assumption.
  - intros Hm HSE HS HE HES. rewrite (trimmed_rows_shifted _ _ _ _ _ Hm HS HE HES).
    split; [reflexivity|]. split.
    + apply shifted_rows_range.
    + apply shifted_rows_start_iff. exact HSE.
Qed.

(** The trim of the example flight to [10 s, 40 s], evaluated.  The position
    series (time base 1000) keeps the samples at 10, 20, 30 and 40 s; the
    attitude series (time base 5000) keeps its one sample in the window, at
    25 s, which lands 15 s after that series' minimum. *)
Lemma trim_example :
  let db' := snd (trimFlight no_faults 1 "F2" 10 40 example_flight_store) in
  fst (trimFlight no_faults 1 "F2" 10 40 example_flight_store) = Ok 2 /\
  map aircraft_flight_id (aircraft db') = [1; 2] /\
  map timestamp (rows_of 2 (position_rows db')) = [1000; 11000; 21000; 31000] /\
  map timestamp (rows_of 2 (attitude_rows db')) = [20000] /\
  map timestamp (rows_of 2 (engine_rows db')) = [] /\
  map (fun m => (time_seconds m, marker_type m))
    (List.filter (fun m => marker_flight_id m =? 2) (markers db'))
  = [(0, "trim_start"); (10, "regular"); (30, "trim_end")]%float /\
  rows_of 1 (position_rows db') = rows_of 1 (position_rows example_flight_store).
Proof. repeat split; vm_compute; reflexivity. Qed.

(** ** Trim to the window [10 s, 40 s] *)

(** The position part of C2, for one aircraft: when the position series has
    its minimum at [m] and reaches the offset 100 s, its trim to [10, 40]
    adds, for the new aircraft, as many rows as the original has with an
    offset between 10 s and 40 s; in the frame of the new series (timestamp
    minus its minimum) they lie between 0 and 30 s, and 0 is attained. *)
Lemma trim_position_window (orig new : Z) (s : TxState) (m : Z) :
  let rows := rows_of orig (position_rows (tx_db s)) in
  min_of (map timestamp rows) = Some m ->
  Forall (fun r => Int64.in_range (timestamp r)) rows ->
  In (m + 100000) (map timestamp rows) ->
  exists s' added,
    duplicatePositionDataTrimmed no_faults orig new 10 40 s = Ok (tt, s') /\
    position_rows (tx_db s') = position_rows (tx_db s) ++ added /\
    Forall (fun r => row_aircraft_id r = new) added /\
    length added
    = length (List.filter (fun r => (10000 <=? timestamp r - m)
                                    && (timestamp r - m <=? 40000)) rows) /\
    forall newmin,
      min_of (map timestamp added) = Some newmin ->
      In newmin (map timestamp added) /\
      Forall (fun r => 0 <= timestamp r - newmin <= 30000) added.
Proof.
  intros rows Hmin Hrange Hcover.
  assert (H10 : milliseconds 10 = 10000) by (vm_compute; reflexivity).
  assert (H40 : milliseconds 40 = 40000) by (vm_compute; reflexivity).
  rewrite List.Forall_forall in Hrange.
  assert (Hm : Int64.in_range m).
  { apply min_of_spec in Hmin as [Hin _]. apply in_map_iff in Hin as [r [<- Hr]].
    now apply Hrange. }
  assert (Hmax : m + 100000 <= Int64.max_signed).
  { apply in_map_iff in Hcover as [r [Hts Hr]]. specialize (Hrange r Hr).
    unfold Int64.in_range in Hrange. lia. }
  destruct (trim_series_run position orig new 10 40 s m Hmin Hm) as [s' [R [G _]]].
  { rewrite H10, H40. lia. }
  { rewrite H40. lia. }
  rewrite H10, H40 in G. fold rows in G.
  exists s', (shifted_rows new m 10000 40000 rows). split; [exact R|].
  split; [exact (grows_series _ _ _ _ _ _ G position)|].
  pose proof (shifted_rows_range new m 10000 40000 rows) as Hall.
  split; [|split].
  - eapply List.Forall_impl; [|exact Hall]. now intros r [Hr _].
  - rewrite shifted_rows_length. f_equal. apply filter_ext. intros r.
    f_equal; [destruct (Z.leb_spec (m + 10000) (timestamp r));
              destruct (Z.leb_spec 10000 (timestamp r - m))
             |destruct (Z.leb_spec (timestamp r) (m + 40000));
              destruct (Z.leb_spec (timestamp r - m) 40000)];
      try reflexivity; lia.
  - intros newmin Hnew. apply min_of_spec in Hnew as [Hin Hlow].
    split; [exact Hin|].
    assert (Hnm : m <= newmin <= m + 30000).
    { apply in_map_iff in Hin as [r [<- Hr]].
      rewrite List.Forall_forall in Hall. destruct (Hall r Hr) as [_ H]. lia. }
    apply List.Forall_forall. intros r Hr.
    specialize (Hlow (timestamp r) (in_map timestamp _ _ Hr)).
    rewrite List.Forall_forall in Hall. destruct (Hall r Hr) as [_ H]. lia.
Qed.

(** C2 at a failing input: the position series of the flight covers 0 s
    to 100 s, but its aircraft has no attitude rows; MIN over them is NULL,
    the scan into an int64 fails, and the trim returns that error with the
    store unchanged: no new flight. *)
Theorem trim_fails_on_an_empty_series :
  min_of (map timestamp (rows_of 1 (position_rows example_without_attitude)))
  = Some 1000 /\
  In (1000 + 100000)
     (map timestamp (rows_of 1 (position_rows example_without_attitude))) /\
  trimFlight no_faults 1 "F2" 10 40 example_without_attitude
  = (Err (ErrWrap "failed to duplicate attitude data for aircraft" ErrScanNull),
     example_without_attitude) /\
  map flight_id (flight (snd (trimFlight no_faults 1 "F2" 10 40 example_without_attitude)))
  = [1].
Proof.
  split; [reflexivity|]. split; [vm_compute; tauto|].
  split; vm_compute; reflexivity.
Qed.

(* ===================================================================== *)
(** * Further properties *)
(* ===================================================================== *)

(* --------------------------------------------------------------------- *)
(** ** The order of float64 [<] *)
(* --------------------------------------------------------------------- *)

Lemma SFcompare_lt_trans (x y z : spec_float) :
  SFcompare x y = Some Lt -> SFcompare y z = Some Lt -> SFcompare x z = Some Lt.
Proof.
  destruct x as [sx|sx| |sx mx ex], y as [sy|sy| |sy my ey], z as [sz|sz| |sz mz ez];
    cbn [SFcompare]; try discriminate; try reflexivity;
    try (destruct sx, sy, sz; cbn; congruence).
  destruct sx, sy, sz; try congruence;
    destruct (Z.compare_spec ex ey), (Z.compare_spec ey ez), (Z.compare_spec ex ez);
    subst; try lia; try congruence;
    rewrite ?Pos.compare_cont_spec; cbn [Pos.switch_Eq];
    destruct (Pos.compare_spec mx my), (Pos.compare_spec my mz), (Pos.compare_spec mx mz);
    cbn; subst; try lia; congruence.
Qed.

Lemma SFcompare_lt_asym (x y : spec_float) :
  SFcompare x y = Some Lt -> SFcompare y x <> Some Lt.
Proof.
  destruct x as [sx|sx| |sx mx ex], y as [sy|sy| |sy my ey];
    cbn [SFcompare]; try discriminate;
    try (destruct sx, sy; cbn; congruence).
  destruct sx, sy; try congruence;
    destruct (Z.compare_spec ex ey), (Z.compare_spec ey ex);
    subst; try lia; try congruence;
    rewrite ?Pos.compare_cont_spec; cbn [Pos.switch_Eq];
    destruct (Pos.compare_spec mx my), (Pos.compare_spec my mx);
    cbn; subst; try lia; congruence.
Qed.

Lemma ltb_SFcompare (x y : float) :
  PrimFloat.ltb x y = true <-> SFcompare (Prim2SF x) (Prim2SF y) = Some Lt.
Proof.
  rewrite FloatAxioms.ltb_spec. unfold SFltb.
  destruct (SFcompare (Prim2SF x) (Prim2SF y)) as [[]|]; split; congruence.
Qed.

Lemma ltb_trans (x y z : float) :
  PrimFloat.ltb x y = true -> PrimFloat.ltb y z = true -> PrimFloat.ltb x z = true.
Proof. rewrite !ltb_SFcompare. apply SFcompare_lt_trans. Qed.

Lemma ltb_asym (x y : float) : PrimFloat.ltb x y = true -> PrimFloat.ltb y x = false.
Proof.
  intros H. apply ltb_SFcompare in H. apply SFcompare_lt_asym in H.
  destruct (PrimFloat.ltb y x) eqn:E; [|reflexivity].
  apply ltb_SFcompare in E. contradiction.
Qed.

Lemma ltb_irrefl (x : float) : PrimFloat.ltb x x = false.
Proof.
  destruct (PrimFloat.ltb x x) eqn:E; [|reflexivity].
  pose proof (ltb_asym x x E). congruence.
Qed.

(* --------------------------------------------------------------------- *)
(** ** quickSort sorts *)
(* --------------------------------------------------------------------- *)

Lemma at_index_nth (arr : list float) (i : Z) :
  at_index arr i = nth (Z.to_nat i) arr 0%float.
Proof. reflexivity. Qed.

Lemma swap_length (arr : list float) (i j : Z) : length (swap arr i j) = length arr.
Proof. unfold swap, set_index. now rewrite !length_insert. Qed.

Lemma swap_at (arr : list float) (i j k : Z) :
  0 <= i < Z.of_nat (length arr) -> 0 <= j < Z.of_nat (length arr) -> 0 <= k ->
  at_index (swap arr i j) k =
  if k =? j then at_index arr i else if k =? i then at_index arr j else at_index arr k.
Proof.
  intros Hi Hj Hk. unfold swap, set_index, at_index.
  rewrite !nth_lookup, !list_lookup_insert, !length_insert.
  destruct (Z.eqb_spec k j) as [->|Hkj].
  - rewrite decide_True by (split; [reflexivity|lia]). reflexivity.
  - rewrite decide_False by lia.
    destruct (Z.eqb_spec k i) as [->|Hki].
    + rewrite decide_True by (split; [reflexivity|lia]). reflexivity.
    + rewrite decide_False by lia. reflexivity.
Qed.

Lemma swap_perm (arr : list float) (i j : Z) :
  0 <= i < Z.of_nat (length arr) -> 0 <= j < Z.of_nat (length arr) ->
  Permutation arr (swap arr i j).
Proof.
  intros Hi Hj. symmetry. unfold swap, set_index, at_index.
  destruct (lookup_lt_is_Some_2 arr (Z.to_nat i) ltac:(lia)) as [x Hx].
  destruct (lookup_lt_is_Some_2 arr (Z.to_nat j) ltac:(lia)) as [y Hy].
  rewrite (nth_lookup_Some _ _ _ _ Hx), (nth_lookup_Some _ _ _ _ Hy).
  now apply Permutation_insert_swap.
Qed.

Lemma partition_loop_spec (n : nat) (pivot : float) (low : Z) :
  forall (arr : list float) (i j : Z),
    0 <= low -> low - 1 <= i -> i < j -> j + Z.of_nat n <= Z.of_nat (length arr) ->
    (forall k, low <= k <= i -> PrimFloat.ltb (at_index arr k) pivot = true) ->
    (forall k, i < k < j -> PrimFloat.ltb (at_index arr k) pivot = false) ->
    let arr' := fst (partition_loop n pivot arr i j) in
    let i' := snd (partition_loop n pivot arr i j) in
    length arr' = length arr /\
    Permutation arr arr' /\
    same_outside arr arr' low (j + Z.of_nat n - 1) /\
    range_from arr arr' low (j + Z.of_nat n - 1) /\
    i <= i' < j + Z.of_nat n /\
    (forall k, low <= k <= i' -> PrimFloat.ltb (at_index arr' k) pivot = true) /\
    (forall k, i' < k < j + Z.of_nat n ->
               PrimFloat.ltb (at_index arr' k) pivot = false).
Proof.
  induction n as [|n IH]; intros arr i j Hlow Hi Hij Hlen Hlt Hge;
    cbn [partition_loop]; cbv zeta in *.
  - cbn [fst snd]. split; [reflexivity|]. split; [reflexivity|].
    split; [intros k _ _; reflexivity|]. split; [intros P HP; exact HP|].
    split; [lia|]. split; [exact Hlt|]. intros k Hk. apply Hge. lia.
  - rewrite Nat2Z.inj_succ in Hlen |- *.
    destruct (PrimFloat.ltb (at_index arr j) pivot) eqn:Ej.
    + assert (Hr1 : 0 <= i + 1 < Z.of_nat (length arr)) by lia.
      assert (Hr2 : 0 <= j < Z.of_nat (length arr)) by lia.
      assert (Ha : low - 1 <= i + 1) by lia.
      assert (Hb' : i + 1 < j + 1) by lia.
      assert (Hc : j + 1 + Z.of_nat n <= Z.of_nat (length (swap arr (i + 1) j)))
        by (rewrite swap_length; lia).
      specialize (IH (swap arr (i + 1) j) (i + 1) (j + 1) Hlow Ha Hb' Hc).
      rewrite swap_length in IH.
      destruct IH as (L & Pm & So & Rf & Hb & H1 & H2).
      * intros k Hk. rewrite swap_at by lia.
        destruct (Z.eqb_spec k j) as [->|Hkj].
        -- replace (i + 1) with j by lia. exact Ej.
        -- destruct (Z.eqb_spec k (i + 1)) as [->|Hki]; [exact Ej|].
           apply Hlt. lia.
      * intros k Hk. rewrite swap_at by lia.
        destruct (Z.eqb_spec k j) as [->|Hkj].
        -- apply Hge. lia.
        -- destruct (Z.eqb_spec k (i + 1)); [lia|]. apply Hge. lia.
      * replace (j + 1 + Z.of_nat n) with (j + Z.succ (Z.of_nat n)) in * by lia.
        split; [exact L|]. split; [transitivity (swap arr (i + 1) j); [apply swap_perm; lia|exact Pm]|].
        split.
        { intros k Hk0 Hk. rewrite So by lia. rewrite swap_at by lia.
          destruct (Z.eqb_spec k j); [lia|]. destruct (Z.eqb_spec k (i + 1)); [lia|].
          reflexivity. }
        split.
        { intros P HP. apply Rf. intros k Hk. rewrite swap_at by lia.
          destruct (Z.eqb_spec k j); [apply HP; lia|].
          destruct (Z.eqb_spec k (i + 1)); apply HP; lia. }
        split; [lia|]. split; [exact H1|exact H2].
    + assert (Hb' : i < j + 1) by lia.
      assert (Hc : j + 1 + Z.of_nat n <= Z.of_nat (length arr)) by lia.
      specialize (IH arr i (j + 1) Hlow Hi Hb' Hc Hlt).
      destruct IH as (L & Pm & So & Rf & Hb & H1 & H2).
      * intros k Hk. destruct (Z.eq_dec k j) as [->|]; [exact Ej|]. apply Hge. lia.
      * replace (j + 1 + Z.of_nat n) with (j + Z.succ (Z.of_nat n)) in * by lia.
        split; [exact L|]. split; [exact Pm|]. split; [exact So|].
        split; [exact Rf|]. split; [lia|]. split; [exact H1|exact H2].
Qed.

Lemma partition_spec (arr : list float) (low high : Z) :
  0 <= low -> low <= high -> high < Z.of_nat (length arr) ->
  let arr1 := fst (partition arr low high) in
  let pi := snd (partition arr low high) in
  length arr1 = length arr /\
  Permutation arr arr1 /\
  same_outside arr arr1 low high /\
  range_from arr arr1 low high /\
  low <= pi <= high /\
  (forall k, low <= k < pi ->
             PrimFloat.ltb (at_index arr1 k) (at_index arr1 pi) = true) /\
  (forall k, pi < k <= high ->
             PrimFloat.ltb (at_index arr1 k) (at_index arr1 pi) = false).
Proof.
  intros Hlow Hle Hlen. unfold partition.
  pose proof (partition_loop_spec (Z.to_nat (high - low)) (at_index arr high) low
                arr (low - 1) low Hlow ltac:(lia) ltac:(lia)) as H.
  rewrite Z2Nat.id in H by lia.
  replace (low + (high - low)) with high in H by lia.
  specialize (H ltac:(lia)).
  destruct H as (L & Pm & So & Rf & Hb & H1 & H2); [intros k Hk; lia..|].
  destruct (partition_loop _ _ arr (low - 1) low) as [arr' i]. cbn [fst snd] in *.
  assert (Hr1 : 0 <= i + 1 < Z.of_nat (length arr')) by lia.
  assert (Hr2 : 0 <= high < Z.of_nat (length arr')) by lia.
  assert (Hp : at_index (swap arr' (i + 1) high) (i + 1) = at_index arr high).
  { rewrite swap_at by lia. destruct (Z.eqb_spec (i + 1) high) as [E|E].
    - rewrite E. apply So; lia.
    - rewrite Z.eqb_refl. apply So; lia. }
  split; [rewrite swap_length; exact L|].
  split; [transitivity arr'; [exact Pm|apply swap_perm; lia]|].
  split.
  { intros k Hk0 Hk. rewrite swap_at by lia.
    destruct (Z.eqb_spec k high); [lia|]. destruct (Z.eqb_spec k (i + 1)); [lia|].
    apply So; lia. }
  split.
  { intros P HP k Hk.
    assert (HP' : forall k, low <= k <= high -> P (at_index arr' k)).
    { intros k' Hk'. destruct (Z.eq_dec k' high) as [->|].
      - rewrite So by lia. apply HP. lia.
      - apply (Rf P); [|lia]. intros k2 Hk2. apply HP. lia. }
    rewrite swap_at by lia.
    destruct (Z.eqb_spec k high); [apply HP'; lia|].
    destruct (Z.eqb_spec k (i + 1)); apply HP'; lia. }
  split; [lia|]. rewrite Hp. split.
  - intros k Hk. rewrite swap_at by lia.
    destruct (Z.eqb_spec k high); [lia|]. destruct (Z.eqb_spec k (i + 1)); [lia|].
    apply H1. lia.
  - intros k Hk. rewrite swap_at by lia.
    destruct (Z.eqb_spec k high) as [->|].
    + apply H2. lia.
    + destruct (Z.eqb_spec k (i + 1)); [lia|]. apply H2. lia.
Qed.

Lemma quickSort_spec (n : nat) :
  forall (arr : list float) (low high : Z),
    (Z.to_nat (high - low + 1) <= n)%nat ->
    0 <= low -> high < Z.of_nat (length arr) ->
    let arr' := quickSort arr low high in
    length arr' = length arr /\
    Permutation arr arr' /\
    same_outside arr arr' low high /\
    range_from arr arr' low high /\
    sorted_range arr' low high.
Proof.
  induction n as [|n IH]; intros arr low high Hn Hlow Hlen; cbv zeta;
    rewrite quickSort_unfold; destruct (Z.ltb_spec low high) as [Hlt|Hge];
    try lia;
    try (split; [reflexivity|]; split; [reflexivity|];
         split; [intros k _ _; reflexivity|]; split; [intros P HP; exact HP|];
         intros a b Ha Hab Hb; lia).
  pose proof (partition_spec arr low high Hlow ltac:(lia) Hlen) as Hp.
  destruct (partition arr low high) as [arr1 pi]. cbn [fst snd] in Hp.
  destruct Hp as (L1 & Pm1 & So1 & Rf1 & Hpi & Hlo & Hhi).
  assert (Hn1 : (Z.to_nat (pi - 1 - low + 1) <= n)%nat) by lia.
  assert (Hl1 : pi - 1 < Z.of_nat (length arr1)) by lia.
  destruct (IH arr1 low (pi - 1) Hn1 Hlow Hl1) as (L2 & Pm2 & So2 & Rf2 & St2).
  set (A1 := quickSort arr1 low (pi - 1)) in *.
  assert (Hn2 : (Z.to_nat (high - (pi + 1) + 1) <= n)%nat) by lia.
  assert (Hlow2 : 0 <= pi + 1) by lia.
  assert (Hl2 : high < Z.of_nat (length A1)) by lia.
  destruct (IH A1 (pi + 1) high Hn2 Hlow2 Hl2) as (L3 & Pm3 & So3 & Rf3 & St3).
  set (A2 := quickSort A1 (pi + 1) high) in *.
  assert (Hpivot : at_index A2 pi = at_index arr1 pi).
  { rewrite So3 by lia. apply So2; lia. }
  assert (Hleft : forall k, low <= k < pi ->
            PrimFloat.ltb (at_index A2 k) (at_index arr1 pi) = true).
  { intros k Hk. rewrite So3 by lia.
    apply (Rf2 (fun x => PrimFloat.ltb x (at_index arr1 pi) = true)); [|lia].
    intros k' Hk'. apply Hlo. lia. }
  assert (Hright : forall k, pi < k <= high ->
            PrimFloat.ltb (at_index A2 k) (at_index arr1 pi) = false).
  { intros k Hk.
    apply (Rf3 (fun x => PrimFloat.ltb x (at_index arr1 pi) = false)); [|lia].
    intros k' Hk'. rewrite So2 by lia. apply Hhi. lia. }
  split; [congruence|].
  split; [transitivity arr1; [exact Pm1|]; transitivity A1; assumption|].
  split.
  { intros k Hk0 Hk. rewrite So3 by lia. rewrite So2 by lia. apply So1; lia. }
  split.
  { intros P HP k Hk.
    assert (HP1 : forall k, low <= k <= high -> P (at_index arr1 k))
      by (apply Rf1; exact HP).
    assert (HP2 : forall k, low <= k <= high -> P (at_index A1 k)).
    { intros k' Hk'. destruct (Z_le_gt_dec k' (pi - 1)).
      - apply (Rf2 P); [|lia]. intros k2 Hk2. apply HP1. lia.
      - rewrite So2 by lia. apply HP1. lia. }
    destruct (Z_le_gt_dec (pi + 1) k).
    - apply (Rf3 P); [|lia]. intros k2 Hk2. apply HP2. lia.
    - rewrite So3 by lia. apply HP2. lia. }
  intros a b Ha Hab Hb.
  destruct (Z_lt_le_dec b pi) as [Hbp|Hbp].
  - rewrite (So3 a), (So3 b) by lia. apply St2; lia.
  - destruct (Z_lt_le_dec pi a) as [Hap|Hap]; [apply St3; lia|].
    destruct (Z.eq_dec a pi) as [->|Hane].
    + rewrite Hpivot. apply Hright. lia.
    + destruct (Z.eq_dec b pi) as [->|Hbne].
      * rewrite Hpivot. apply ltb_asym. apply Hleft. lia.
      * destruct (PrimFloat.ltb (at_index A2 b) (at_index A2 a)) eqn:E;
          [|reflexivity].
        pose proof (ltb_trans _ _ _ E (Hleft a ltac:(lia))) as Hc.
        rewrite Hright in Hc by lia. discriminate.
Qed.

Lemma sorted_range_StronglySorted (l : list float) :
  (forall a b, (a < b < length l)%nat ->
     PrimFloat.ltb (nth b l 0%float) (nth a l 0%float) = false) ->
  StronglySorted (fun x y => PrimFloat.ltb y x = false) l.
Proof.
  induction l as [|x l IH]; intros H; constructor.
  - apply IH. intros a b Hab. apply (H (S a) (S b)). cbn [length]. lia.
  - apply List.Forall_forall. intros y Hy.
    destruct (In_nth l y 0%float Hy) as (k & Hk & <-).
    apply (H O (S k)). cbn [length]. lia.
Qed.

(** X1: [quickSort] over a whole slice returns the same values in an order
    in which no value is smaller ([<] of float64) than one before it; this
    holds for every input, NaN and signed zeros included. *)
Theorem quickSort_sorts (data : list float) :
  let sortedData := quickSort data 0 (Z.of_nat (length data) - 1) in
  Permutation data sortedData /\
  StronglySorted (fun x y => PrimFloat.ltb y x = false) sortedData.
Proof.
  cbv zeta.
  destruct (quickSort_spec (length data) data 0 (Z.of_nat (length data) - 1)
              ltac:(lia) ltac:(lia) ltac:(lia)) as (L & Pm & _ & _ & St).
  split; [exact Pm|].
  apply sorted_range_StronglySorted. intros a b Hab. rewrite L in Hab.
  pose proof (St (Z.of_nat a) (Z.of_nat b) ltac:(lia) ltac:(lia) ltac:(lia)) as H.
  unfold at_index in H. now rewrite !Nat2Z.id in H.
Qed.

Lemma calculateDataStatistics_min_max (xs : list float) (ds : DataStatistics) :
  calculateDataStatistics xs = Some ds ->
  xs <> [] /\
  Min ds = at_index (quickSort xs 0 (Z.of_nat (length xs) - 1)) 0 /\
  Max ds = at_index (quickSort xs 0 (Z.of_nat (length xs) - 1))
             (Z.of_nat (length xs) - 1).
Proof.
  destruct xs as [|x xs]; [discriminate|]. unfold calculateDataStatistics.
  intros H. injection H as <-. split; [discriminate|]. split; reflexivity.
Qed.

(** X2: the [Min] and [Max] that [calculateDataStatistics] reports are
    values of the series, and no value of the series is smaller than [Min]
    or larger than [Max]. *)
Theorem statistics_min_max_bound (data : list float) (ds : DataStatistics) :
  calculateDataStatistics data = Some ds ->
  In (Min ds) data /\ In (Max ds) data /\
  forall x, In x data ->
    PrimFloat.ltb x (Min ds) = false /\ PrimFloat.ltb (Max ds) x = false.
Proof.
  intros H. apply calculateDataStatistics_min_max in H as (Hne & -> & ->).
  assert (Hlen : (0 < length data)%nat) by (destruct data; [congruence|cbn; lia]).
  destruct (quickSort_spec (length data) data 0 (Z.of_nat (length data) - 1)
              ltac:(lia) ltac:(lia) ltac:(lia)) as (L & Pm & _ & _ & St).
  set (sortedData := quickSort data 0 (Z.of_nat (length data) - 1)) in *.
  assert (Hin : forall k, 0 <= k < Z.of_nat (length data) ->
                          In (at_index sortedData k) data).
  { intros k Hk. apply (Permutation_in _ (Permutation_sym Pm)).
    unfold at_index. apply nth_In. lia. }
  split; [apply Hin; lia|]. split; [apply Hin; lia|].
  intros x Hx. apply (Permutation_in _ Pm) in Hx.
  destruct (In_nth _ _ 0%float Hx) as (k & Hk & <-).
  replace (nth k sortedData 0%float) with (at_index sortedData (Z.of_nat k))
    by (unfold at_index; now rewrite Nat2Z.id).
  split.
  - destruct (Nat.eq_dec k 0%nat) as [->|]; [apply ltb_irrefl|].
    apply St; lia.
  - destruct (Z.eq_dec (Z.of_nat k) (Z.of_nat (length data) - 1)) as [->|];
      [apply ltb_irrefl|].
    apply St; lia.
Qed.

(* --------------------------------------------------------------------- *)
(** ** Variance over a sliding window *)
(* --------------------------------------------------------------------- *)

Lemma slice_length (data : list float) (i j : Z) :
  0 <= i -> i <= j -> j <= Z.of_nat (length data) ->
  Z.of_nat (length (slice data i j)) = j - i.
Proof.
  intros Hi Hij Hj. unfold slice. rewrite length_firstn, length_skipn. lia.
Qed.

Lemma variance_loop_run (data : list float) (windowSize : Z) (n : nat) :
  forall (i : Z) (variances : list float),
    0 <= i -> 0 < windowSize ->
    i + Z.of_nat n - 1 + windowSize <= Z.of_nat (length data) ->
    variance_loop n data windowSize i variances
    = variances ++ map (fun k => window_variance data windowSize (i + Z.of_nat k))
                       (seq 0 n).
Proof.
  induction n as [|n IH]; intros i variances Hi Hw Hlen; cbn [variance_loop seq map].
  - now rewrite app_nil_r.
  - rewrite Nat2Z.inj_succ in Hlen.
    assert (Hn : Z.of_nat (length (slice data i (i + windowSize))) = windowSize)
      by (rewrite slice_length; lia).
    unfold window_variance at 1. rewrite Z.add_0_r.
    destruct (calculateDataStatistics (slice data i (i + windowSize))) as [stats|] eqn:E.
    + rewrite IH by lia. rewrite <- app_assoc. cbn [app]. f_equal. f_equal.
      rewrite <- seq_shift, map_map. apply map_ext. intros k. f_equal. lia.
    + destruct (slice data i (i + windowSize)); [cbn in Hn; lia|discriminate].
Qed.

(** X3: for a window size between 2 and the length of the data,
    [CalculateVarianceOverTime] returns one variance per position of the
    window, in order: entry [i] is the variance that
    [calculateDataStatistics] gives for [data[i : i+windowSize]]. *)
Theorem variance_over_time_windows (data : list float) (windowSize : Z) :
  1 < windowSize <= Z.of_nat (length data) ->
  let variances := CalculateVarianceOverTime data windowSize in
  Z.of_nat (length variances) = Z.of_nat (length data) - windowSize + 1 /\
  forall i, 0 <= i <= Z.of_nat (length data) - windowSize ->
    exists stats,
      calculateDataStatistics (slice data i (i + windowSize)) = Some stats /\
      Count stats = windowSize /\
      at_index variances i = Variance stats.
Proof.
  intros Hw. cbv zeta. unfold CalculateVarianceOverTime.
  destruct (Z.ltb_spec (Z.of_nat (length data)) windowSize); [lia|].
  destruct (Z.leb_spec windowSize 1); [lia|]. cbn [orb].
  rewrite variance_loop_run by lia. cbn [app].
  split; [rewrite length_map, length_seq; lia|].
  intros i Hi.
  assert (Hn : Z.of_nat (length (slice data i (i + windowSize))) = windowSize)
    by (rewrite slice_length; lia).
  destruct (calculateDataStatistics (slice data i (i + windowSize))) as [stats|] eqn:E.
  - exists stats. split; [reflexivity|].
    split; [rewrite (calculateDataStatistics_count _ _ E); exact Hn|].
    unfold at_index.
    rewrite (nth_indep _ 0%float
               (window_variance data windowSize (0 + Z.of_nat 0)))
      by (rewrite length_map, length_seq; lia).
    rewrite (map_nth (fun k => window_variance data windowSize (0 + Z.of_nat k))).
    rewrite seq_nth by lia. unfold window_variance.
    replace (0 + Z.of_nat (0 + Z.to_nat i)) with i by lia. now rewrite E.
  - destruct (slice data i (i + windowSize)); [cbn in Hn; lia|discriminate].
Qed.

(** A window of one value, or one longer than the data, gives no variance
    at all. *)
Lemma variance_over_time_degenerate (data : list float) (windowSize : Z) :
  windowSize <= 1 \/ Z.of_nat (length data) < windowSize ->
  CalculateVarianceOverTime data windowSize = [].
Proof.
  intros H. unfold CalculateVarianceOverTime.
  destruct (Z.ltb_spec (Z.of_nat (length data)) windowSize);
    destruct (Z.leb_spec windowSize 1); try reflexivity; lia.
Qed.

Lemma variance_over_time_example :
  CalculateVarianceOverTime [1; 3; 5; 5]%float 2 = [1; 1; 0]%float.
Proof. vm_compute. reflexivity. Qed.

(* --------------------------------------------------------------------- *)
(** ** Deleting keeps the keys of the store *)
(* --------------------------------------------------------------------- *)

(** A [DeleteFlight] that succeeds, whatever the driver did, is the
    fault-free deletion of an existing flight with a positive id. *)
Lemma DeleteFlight_ok (faults : nat -> bool) (flightID : Z) (db db' : DB) :
  DeleteFlight faults flightID db = (Ok tt, db') ->
  0 < flightID /\ In flightID (map flight_id (flight db)) /\
  deleted_flight flightID db db'.
Proof.
  intros H. unfold DeleteFlight in H.
  destruct (Z.leb_spec flightID 0) as [Hle|Hlt]; [discriminate|].
  destruct (transaction_sound faults _ _ _ _ _ _ (delete_body_sound faults flightID) H)
    as [s' [R [Hdb _]]].
  destruct (delete_body_run flightID db) as [s1 [Hdel [_ Hrun]]].
  rewrite R in Hrun.
  destruct (flight_exists flightID db) eqn:Hex; [|discriminate].
  inversion Hrun; subst s1. rewrite <- Hdb.
  split; [lia|]. split; [now apply flight_exists_In | exact Hdel].
Qed.

Lemma NoDup_map_filter {A : Type} (f : A -> Z) (p : A -> bool) (l : list A) :
  List.NoDup (map f l) -> List.NoDup (map f (List.filter p l)).
Proof.
  induction l as [|x l IH]; intros H; [constructor|].
  cbn [map] in H. inversion H as [|? ? Hx Hl]; subst.
  cbn [List.filter]. destruct (p x); [|now apply IH].
  cbn [map]. constructor; [|now apply IH].
  intros Hin. apply Hx. apply in_map_iff in Hin as [y [Hy Hin]].
  apply filter_In in Hin as [Hin _]. rewrite <- Hy. now apply in_map.
Qed.

Lemma deleted_flight_store_ok (flightID : Z) (db db' : DB) :
  store_ok db -> deleted_flight flightID db db' -> store_ok db'.
Proof.
  intros [Hf Ha Haf Hsa Hmf] [Df Da Ds Dm].
  assert (Hkeep : forall id, id <> flightID -> In id (map flight_id (flight db)) ->
                             In id (map flight_id (flight db'))).
  { intros id Hne Hin. rewrite Df. apply in_map_iff in Hin as [f [Hid Hin]].
    apply in_map_iff. exists f. split; [exact Hid|]. apply filter_In.
    split; [exact Hin|]. apply negb_true_iff, Z.eqb_neq. congruence. }
  split.
  - rewrite Df. now apply NoDup_map_filter.
  - rewrite Da. now apply NoDup_map_filter.
  - intros a Hin. rewrite Da in Hin. apply filter_In in Hin as [Hin Hne].
    apply negb_true_iff, Z.eqb_neq in Hne. apply Hkeep; [exact Hne|now apply Haf].
  - intros t r Hin. rewrite Ds in Hin. unfold without_aircraft in Hin.
    apply filter_In in Hin as [Hin Hne]. apply negb_true_iff in Hne.
    pose proof (Hsa t r Hin) as Hr. apply in_map_iff in Hr as [a [Hid Hain]].
    rewrite Da. apply in_map_iff. exists a. split; [exact Hid|].
    apply filter_In. split; [exact Hain|].
    apply negb_true_iff, Z.eqb_neq. intros Hfl.
    assert (Hex : existsb (fun id => row_aircraft_id r =? id)
                    (aircraft_ids_of flightID db) = true); [|congruence].
    apply existsb_exists. exists (aircraft_id a). split; [|apply Z.eqb_eq; congruence].
    unfold aircraft_ids_of. apply in_map, select_aircraft_In. now split.
  - intros m Hin. rewrite Dm in Hin. apply filter_In in Hin as [Hin Hne].
    apply negb_true_iff, Z.eqb_neq in Hne. apply Hkeep; [exact Hne|now apply Hmf].
Qed.

(** X4: [DeleteFlight] leaves no orphans.  In a store whose rows respect
    the keys of the schema, a deletion that succeeds gives a store that
    respects them again: every remaining aircraft, telemetry row and marker
    still references a row that exists, and ids stay unique. *)
Theorem delete_keeps_store_ok (faults : nat -> bool) (flightID : Z) (db db' : DB) :
  store_ok db ->
  DeleteFlight faults flightID db = (Ok tt, db') ->
  store_ok db'.
Proof.
  intros Hok H. apply DeleteFlight_ok in H as (_ & _ & Hdel).
  exact (deleted_flight_store_ok flightID db db' Hok Hdel).
Qed.

(* --------------------------------------------------------------------- *)
(** ** A derived flight and the keys of the store *)
(* --------------------------------------------------------------------- *)

Lemma copied_aircraft_from (start newFlightID : Z) (acs : list AircraftRow) :
  Forall (fun c => start <= aircraft_id c) (copied_aircraft start newFlightID acs).
Proof.
  revert start. induction acs as [|a acs IH]; intros start; constructor.
  - cbn [copy_of_aircraft aircraft_id]. lia.
  - eapply List.Forall_impl; [|apply (IH (start + 1))]. cbn beta. intros c Hc. lia.
Qed.

Lemma copied_aircraft_NoDup (start newFlightID : Z) (acs : list AircraftRow) :
  List.NoDup (map aircraft_id (copied_aircraft start newFlightID acs)).
Proof.
  revert start. induction acs as [|a acs IH]; intros start; [constructor|].
  cbn [copied_aircraft map copy_of_aircraft aircraft_id]. constructor; [|apply IH].
  intros Hin. apply in_map_iff in Hin as [c [Hid Hin]].
  pose proof (copied_aircraft_from (start + 1) newFlightID acs) as Hall.
  rewrite List.Forall_forall in Hall. specialize (Hall c Hin). lia.
Qed.

Lemma copied_rows_referenced (chosen : Z -> list SeriesRow) (start newFlightID : Z)
    (acs : list AircraftRow) (r : SeriesRow) :
  In r (copied_rows chosen start acs) ->
  In (row_aircraft_id r) (map aircraft_id (copied_aircraft start newFlightID acs)).
Proof.
  revert start. induction acs as [|a acs IH]; intros start Hin; [contradiction|].
  cbn [copied_rows] in Hin. cbn [copied_aircraft map copy_of_aircraft aircraft_id].
  apply in_app_or in Hin as [Hin|Hin].
  - left. apply in_map_iff in Hin as [r0 [<- _]]. reflexivity.
  - right. now apply IH.
Qed.

Lemma copied_series_referenced (chosen : SeriesTable -> Z -> list SeriesRow)
    (start newFlightID : Z) (acs : list AircraftRow) (t : SeriesTable) (r : SeriesRow) :
  In r (copied_series chosen start acs t) ->
  In (row_aircraft_id r) (map aircraft_id (copied_aircraft start newFlightID acs)).
Proof.
  destruct t; cbn [copied_series]; try contradiction; apply copied_rows_referenced.
Qed.

Section GrowsCopy.

Variables (db db' : DB) (f : FlightRow) (acs : list AircraftRow).
Variable chosen : SeriesTable -> Z -> list SeriesRow.
Variable added : list MarkerRow.

Let newID := next_rowid (map flight_id (flight db)).
Let start := next_rowid (map aircraft_id (aircraft db)).

Hypothesis Hok : store_ok db.
Hypothesis Hf : flight_id f = newID.
Hypothesis G :
  grows db db' [f] (copied_aircraft start newID acs) (copied_series chosen start acs) added.
Hypothesis Hadded : Forall (fun m => marker_flight_id m = newID) added.

Lemma grows_copy_old_flight (id : Z) :
  In id (map flight_id (flight db)) -> id < newID /\ In id (map flight_id (flight db')).
Proof.
  intros Hin. split; [now apply next_rowid_fresh|].
  rewrite (grows_flight _ _ _ _ _ _ G), map_app. apply in_or_app. now left.
Qed.

Lemma grows_copy_old_aircraft (id : Z) :
  In id (map aircraft_id (aircraft db)) ->
  id < start /\ In id (map aircraft_id (aircraft db')).
Proof.
  intros Hin. split; [now apply next_rowid_fresh|].
  rewrite (grows_aircraft _ _ _ _ _ _ G), map_app. apply in_or_app. now left.
Qed.

(** The store with the derived flight respects the keys. *)
Lemma grows_copy_store_ok : store_ok db'.
Proof.
  destruct Hok as [Hfi Hai Haf Hsa Hmf]. destruct G as [Gf Ga Gs Gm].
  assert (Hnew : In newID (map flight_id (flight db'))).
  { rewrite Gf, map_app. apply in_or_app. right. cbn [map]. left. exact Hf. }
  split.
  - rewrite Gf, map_app. cbn [map].
    apply List.NoDup_app; [exact Hfi|constructor; [intros []|constructor]|].
    intros id Hin [Heq|[]]. apply grows_copy_old_flight in Hin as [Hlt _]. lia.
  - rewrite Ga, map_app.
    apply List.NoDup_app; [exact Hai|apply copied_aircraft_NoDup|].
    intros id Hin Hin'. apply grows_copy_old_aircraft in Hin as [Hlt _].
    apply in_map_iff in Hin' as [c [Hid Hc]].
    pose proof (copied_aircraft_from start newID acs) as Hall.
    rewrite List.Forall_forall in Hall. specialize (Hall c Hc). lia.
  - intros a Hin. rewrite Ga in Hin. apply in_app_or in Hin as [Hin|Hin].
    + now apply grows_copy_old_flight, Haf.
    + pose proof (copied_aircraft_flight start newID acs) as Hall.
      rewrite List.Forall_forall in Hall. now rewrite (Hall a Hin).
  - intros t r Hin. rewrite Gs in Hin. apply in_app_or in Hin as [Hin|Hin].
    + eapply grows_copy_old_aircraft, Hsa, Hin.
    + rewrite Ga, map_app. apply in_or_app. right.
      eapply copied_series_referenced, Hin.
  - intros m Hin. rewrite Gm in Hin. apply in_app_or in Hin as [Hin|Hin].
    + now apply grows_copy_old_flight, Hmf.
    + rewrite List.Forall_forall in Hadded. now rewrite (Hadded m Hin).
Qed.

Lemma without_aircraft_ext (ids ids' : list Z) (rows : list SeriesRow) :
  (forall id, In id ids <-> In id ids') ->
  without_aircraft ids rows = without_aircraft ids' rows.
Proof.
  intros H. unfold without_aircraft. apply filter_ext. intros r. f_equal.
  apply eq_true_iff_eq. rewrite !existsb_exists.
  split; intros [id [Hin Heq]]; exists id; (split; [now apply H|exact Heq]).
Qed.

(** Deleting the derived flight gives back the tables of the store it was
    derived in. *)
Lemma grows_copy_deleted (db'' : DB) :
  deleted_flight newID db' db'' -> same_tables db db''.
Proof.
  intros [Df Da Ds Dm]. destruct G as [Gf Ga Gs Gm].
  assert (Hids : forall t,
             without_aircraft (aircraft_ids_of newID db') (series db' t)
             = without_aircraft (map aircraft_id (copied_aircraft start newID acs))
                 (series db' t)).
  { intros t. apply without_aircraft_ext. intros id. unfold aircraft_ids_of.
    rewrite !in_map_iff. split; intros [c [Hid Hin]]; exists c; (split; [exact Hid|]).
    - apply select_aircraft_In in Hin as [Hin Hfl]. rewrite Ga in Hin.
      apply in_app_or in Hin as [Hin|Hin]; [|exact Hin].
      pose proof (ok_aircraft_flight db Hok c Hin) as Hold.
      apply grows_copy_old_flight in Hold as [Hlt _]. lia.
    - apply select_aircraft_In. split; [rewrite Ga; apply in_or_app; now right|].
      pose proof (copied_aircraft_flight start newID acs) as Hall.
      rewrite List.Forall_forall in Hall. exact (Hall c Hin). }
  split.
  - rewrite Df, Gf, List.filter_app, filter_all.
    + cbn [List.filter]. rewrite Hf, Z.eqb_refl. apply app_nil_r.
    + apply List.Forall_forall. intros x Hin. apply negb_true_iff, Z.eqb_neq.
      pose proof (grows_copy_old_flight _ (in_map flight_id _ _ Hin)) as [Hlt _]. lia.
  - rewrite Da, Ga, List.filter_app, filter_all, filter_none.
    + apply app_nil_r.
    + intros c Hin. apply negb_false_iff, Z.eqb_eq.
      pose proof (copied_aircraft_flight start newID acs) as Hall.
      rewrite List.Forall_forall in Hall. exact (Hall c Hin).
    + apply List.Forall_forall. intros a Hin. apply negb_true_iff, Z.eqb_neq.
      pose proof (ok_aircraft_flight db Hok a Hin) as Hfl.
      apply grows_copy_old_flight in Hfl as [Hlt _]. lia.
  - intros t. rewrite Ds, Hids, Gs. unfold without_aircraft.
    rewrite List.filter_app, filter_all, filter_none.
    + apply app_nil_r.
    + intros r Hin. apply negb_false_iff, existsb_exists.
      exists (row_aircraft_id r). split; [|apply Z.eqb_refl].
      eapply copied_series_referenced, Hin.
    + apply List.Forall_forall. intros r Hin. apply negb_true_iff.
      destruct (existsb _ _) eqn:E; [|reflexivity].
      apply existsb_exists in E as [id [Hid Heq]]. apply Z.eqb_eq in Heq.
      apply in_map_iff in Hid as [c [Hc Hcin]].
      pose proof (copied_aircraft_from start newID acs) as Hall.
      rewrite List.Forall_forall in Hall. specialize (Hall c Hcin).
      pose proof (ok_series_aircraft db Hok t r Hin) as Hr.
      apply grows_copy_old_aircraft in Hr as [Hlt _]. lia.
  - rewrite Dm, Gm, List.filter_app, filter_all, filter_none.
    + apply app_nil_r.
    + intros m Hin. apply negb_false_iff, Z.eqb_eq.
      rewrite List.Forall_forall in Hadded. exact (Hadded m Hin).
    + apply List.Forall_forall. intros m Hin. apply negb_true_iff, Z.eqb_neq.
      pose proof (ok_marker_flight db Hok m Hin) as Hfl.
      apply grows_copy_old_flight in Hfl as [Hlt _]. lia.
Qed.

End GrowsCopy.

(* --------------------------------------------------------------------- *)
(** ** Duplicating, and deleting the duplicate *)
(* --------------------------------------------------------------------- *)

Lemma duplicate_body_missing (db : DB) (originalFlightID : Z) (newTitle : string) :
  List.find (fun f => flight_id f =? originalFlightID) (flight db) = None ->
  duplicate_body no_faults db originalFlightID newTitle (tx_begin db)
  = Err (ErrWrap "failed to duplicate flight record" ErrNoRows).
Proof.
  intros Hfind. unfold duplicate_body, duplicateFlightRecord, tx_bind, tx_wrap, tx_query.
  cbn [tx_begin tx_db]. rewrite Hfind. reflexivity.
Qed.

(** A [duplicateFlight] that succeeds, whatever the driver did, is the
    fault-free duplicate of an existing flight. *)
Lemma duplicateFlight_ok (faults : nat -> bool) (db db' : DB) (F : Z)
    (newTitle : string) (newID : Z) :
  List.NoDup (map aircraft_id (aircraft db)) ->
  duplicateFlight faults F newTitle db = (Ok newID, db') ->
  exists r added,
    List.find (fun f => flight_id f =? F) (flight db) = Some r /\
    newID = next_rowid (map flight_id (flight db)) /\
    grows db db' [copy_of_flight newID newTitle r]
      (copied_aircraft (next_rowid (map aircraft_id (aircraft db))) newID
         (aircraft_of F db))
      (copied_series (all_rows db) (next_rowid (map aircraft_id (aircraft db)))
         (aircraft_of F db))
      added /\
    Forall2 (regular_copy newID) (markers_of F db) added.
Proof.
  intros Hnd H. unfold duplicateFlight in H.
  destruct (transaction_sound faults _ _ _ _ _ _
              (duplicate_body_sound faults db F newTitle) H) as [s1 [R1 [Hdb _]]].
  destruct (List.find (fun f => flight_id f =? F) (flight db)) as [r|] eqn:Hfind.
  - destruct (duplicate_body_run db F newTitle r Hnd Hfind) as [s' [added [R [G Hadded]]]].
    rewrite R in R1. inversion R1; subst newID s1. subst db'.
    exists r, added. split; [reflexivity|]. split; [reflexivity|].
    split; [exact G|exact Hadded].
  - rewrite (duplicate_body_missing db F newTitle Hfind) in R1. discriminate.
Qed.

(** X5: a duplicate keeps the keys of the store.  In a store whose rows
    respect the keys of the schema, a [duplicateFlight] that succeeds gives
    a store that respects them again: the new flight and aircraft ids are
    fresh, and every copied aircraft, telemetry row and marker references a
    row that exists. *)
Theorem duplicate_keeps_store_ok (faults : nat -> bool) (db db' : DB) (F : Z)
    (newTitle : string) (newID : Z) :
  store_ok db ->
  duplicateFlight faults F newTitle db = (Ok newID, db') ->
  store_ok db'.
Proof.
  intros Hok H.
  destruct (duplicateFlight_ok faults db db' F newTitle newID (ok_aircraft_ids db Hok) H)
    as (r & added & _ & -> & G & Hadded).
  exact (grows_copy_store_ok db db'
           (copy_of_flight (next_rowid (map flight_id (flight db))) newTitle r)
           (aircraft_of F db) (all_rows db) added Hok eq_refl G
           (regular_copies_flight _ _ _ Hadded)).
Qed.

(** X6: a duplicate can be taken back.  In a store whose rows respect the
    keys of the schema, [duplicateFlight] followed by [DeleteFlight] of the
    new flight, both succeeding, leaves every table with exactly the rows
    it had before the duplicate. *)
Theorem duplicate_then_delete_restores (faults1 faults2 : nat -> bool) (db db' db'' : DB)
    (F : Z) (newTitle : string) (newID : Z) :
  store_ok db ->
  duplicateFlight faults1 F newTitle db = (Ok newID, db') ->
  DeleteFlight faults2 newID db' = (Ok tt, db'') ->
  same_tables db db''.
Proof.
  intros Hok H1 H2.
  destruct (duplicateFlight_ok faults1 db db' F newTitle newID (ok_aircraft_ids db Hok) H1)
    as (r & added & _ & -> & G & Hadded).
  apply DeleteFlight_ok in H2 as (_ & _ & Hdel).
  exact (grows_copy_deleted db db'
           (copy_of_flight (next_rowid (map flight_id (flight db))) newTitle r)
           (aircraft_of F db) (all_rows db) added Hok eq_refl G
           (regular_copies_flight _ _ _ Hadded) db'' Hdel).
Qed.

(* --------------------------------------------------------------------- *)
(** ** Trimming a whole flight *)
(* --------------------------------------------------------------------- *)

Lemma trim_aircraft_is_copy (startTime endTime : float) (newFlightID : Z) (ac : Aircraft) :
  trim_aircraft no_faults newFlightID startTime endTime ac
  = copy_aircraft_with
      (fun t orig new => duplicateSeriesDataTrimmed no_faults t orig new startTime endTime)
      newFlightID ac.
Proof. reflexivity. Qed.

Lemma trimmed_markers_flight (newID : Z) (startTime : float) (src added : list MarkerRow) :
  List.Forall2 (trimmed_marker newID startTime) src added ->
  Forall (fun m => marker_flight_id m = newID) added.
Proof.
  induction 1 as [|s n l l' [Hn _] _ IH]; constructor; assumption.
Qed.

(** The fault-free trim of an existing flight whose aircraft all have
    telemetry: it succeeds, and the store grows by a copy of the flight
    row, copies of its aircraft, the rows of each window re-tagged and
    re-based, and the markers of the window moved by the start offset. *)
Lemma trim_body_run (db : DB) (originalFlightID : Z) (newTitle : string)
    (startTime endTime : float) (r : FlightRow) :
  List.NoDup (map aircraft_id (aircraft db)) ->
  List.find (fun f => flight_id f =? originalFlightID) (flight db) = Some r ->
  complete_telemetry originalFlightID db ->
  let newFlightID := next_rowid (map flight_id (flight db)) in
  let start := next_rowid (map aircraft_id (aircraft db)) in
  exists s' added,
    trim_body no_faults db originalFlightID newTitle startTime endTime (tx_begin db)
    = Ok (newFlightID, s') /\
    grows db (tx_db s') [copy_of_flight newFlightID newTitle r]
      (copied_aircraft start newFlightID (aircraft_of originalFlightID db))
      (copied_series (window_rows db startTime endTime) start
         (aircraft_of originalFlightID db))
      added /\
    Forall2 (trimmed_marker newFlightID startTime)
      (window_markers originalFlightID startTime endTime db) added.
Proof.
  intros Hnd Hfind Hfull newFlightID start. unfold trim_body.
  assert (R0 : duplicateFlightRecord no_faults originalFlightID newTitle (tx_begin db)
               = Ok (newFlightID,
                     mkTxState (snd (insert_flight (fun id => copy_of_flight id newTitle r) db))
                       1 [TFlight])).
  { unfold duplicateFlightRecord. tx_step (tx_query_ok _ _).
    cbn [tx_begin tx_db]. rewrite Hfind. rewrite tx_exec_ok. reflexivity. }
  tx_step (tx_wrap_ok _ _ _ _ _ R0).
  pose proof (grows_insert_flight (fun id => copy_of_flight id newTitle r) db) as G0.
  cbn beta in G0. fold newFlightID in G0.
  set (s0 := mkTxState _ 1 [TFlight]) in *.
  unfold getAircraftByFlightIDFromMainDB.
  tx_step (tx_wrap_ok _ _ _ _ _ eq_refl). fold (aircraft_of originalFlightID db).
  change (map _ (aircraft_of originalFlightID db))
    with (map to_Aircraft (aircraft_of originalFlightID db)).
  destruct (copy_loop_run _ _ (window_rows db startTime endTime) newFlightID
              (duplicateSeriesDataTrimmed_copies startTime endTime)
              (aircraft_of originalFlightID db) s0) as [s1 [R1 [G1 [Q1 W1]]]].
  { intros a Hin. cbn [s0 tx_db insert_flight snd set_flight aircraft].
    apply (find_by_id aircraft_id); [exact Hnd|].
    apply select_aircraft_In in Hin. now destruct Hin. }
  { intros a Hin. cbn [s0 tx_db insert_flight snd set_flight aircraft].
    apply next_rowid_fresh, in_map. apply select_aircraft_In in Hin.
    now destruct Hin. }
  { intros a t Hin Ht. unfold select_window, window_rows.
    change (series (tx_db s0) t) with (series db t).
    specialize (Hfull a t Hin Ht).
    destruct (rows_of (aircraft_id a) (series db t)) as [|x rows]; [congruence|].
    reflexivity. }
  rewrite <- (tx_for_ext _ _ _ _ (trim_aircraft_is_copy startTime endTime newFlightID))
    in R1.
  tx_step R1.
  change (next_rowid (map aircraft_id (aircraft (tx_db s0)))) with start in G1.
  unfold duplicateMarkersTrimmed.
  assert (Hm1 : markers (tx_db s1) = markers db).
  { rewrite (grows_markers _ _ _ _ _ _ G1). cbn [s0 tx_db]. now rewrite app_nil_r. }
  destruct (insert_marker_loop
              (fun m id created =>
                 mkMarkerRow id newFlightID
                   (real_column (PrimFloat.sub (time_seconds m) startTime))
                   (label m) (marker_type m) created)
              (window_markers originalFlightID startTime endTime db) s1)
    as [s2 [added [R2 [_ [G2 F2]]]]].
  cbn beta in R2.
  rewrite (tx_bind_ok _ _ s1 s2 tt).
  2: { apply tx_wrap_ok. tx_step (tx_query_ok _ _). rewrite Hm1.
       fold (window_markers originalFlightID startTime endTime db). exact R2. }
  unfold tx_ret. exists s2, added. split; [reflexivity|]. split.
  - pose proof (grows_trans _ _ _ _ _ _ _ _ _ _ _
                  (grows_trans _ _ _ _ _ _ _ _ _ _ _ G0 G1) G2) as G.
    destruct G as [Gf Ga Gs Gm]. cbn [app] in Gf, Ga, Gm.
    rewrite app_nil_r in Ga.
    split; [exact Gf | exact Ga | | exact Gm].
    intros t. rewrite Gs. unfold no_rows. now rewrite app_nil_r.
  - eapply Forall2_impl; [exact F2|]. intros src new [id [created ->]]. repeat split.
Qed.

(** A [trimFlight] that succeeds on a flight whose aircraft all have
    telemetry, whatever the driver did, is the fault-free trim. *)
Lemma trimFlight_ok (faults : nat -> bool) (db db' : DB) (F : Z) (newTitle : string)
    (startTime endTime : float) (newID : Z) :
  List.NoDup (map aircraft_id (aircraft db)) ->
  complete_telemetry F db ->
  trimFlight faults F newTitle startTime endTime db = (Ok newID, db') ->
  exists r added,
    List.find (fun f => flight_id f =? F) (flight db) = Some r /\
    newID = next_rowid (map flight_id (flight db)) /\
    grows db db' [copy_of_flight newID newTitle r]
      (copied_aircraft (next_rowid (map aircraft_id (aircraft db))) newID
         (aircraft_of F db))
      (copied_series (window_rows db startTime endTime)
         (next_rowid (map aircraft_id (aircraft db))) (aircraft_of F db))
      added /\
    Forall2 (trimmed_marker newID startTime) (window_markers F startTime endTime db) added.
Proof.
  intros Hnd Hfull H. unfold trimFlight in H.
  destruct (transaction_sound faults _ _ _ _ _ _
              (trim_body_sound faults db F newTitle startTime endTime) H)
    as [s1 [R1 [Hdb _]]].
  destruct (List.find (fun f => flight_id f =? F) (flight db)) as [r|] eqn:Hfind.
  - destruct (trim_body_run db F newTitle startTime endTime r Hnd Hfind Hfull)
      as [s' [added [R [G Hadded]]]].
    rewrite R in R1. inversion R1; subst newID s1. subst db'.
    exists r, added. split; [reflexivity|]. split; [reflexivity|].
    split; [exact G|exact Hadded].
  - unfold trim_body, duplicateFlightRecord, tx_bind, tx_wrap, tx_query in R1.
    cbn [tx_begin tx_db] in R1. rewrite Hfind in R1. discriminate.
Qed.

Lemma find_flight_exists (db : DB) (F : Z) :
  In F (map flight_id (flight db)) ->
  exists r, List.find (fun f => flight_id f =? F) (flight db) = Some r.
Proof.
  intros HF.
  destruct (List.find (fun f => flight_id f =? F) (flight db)) as [r|] eqn:E;
    [now exists r|].
  apply in_map_iff in HF as [f [Hid Hin]].
  pose proof (find_none _ _ E f Hin) as Hn. cbn beta in Hn.
  rewrite Hid, Z.eqb_refl in Hn. discriminate.
Qed.

(** X7: in a store that respects its keys, the trim of an existing flight
    F whose aircraft all have position, attitude and engine rows succeeds
    when the driver fails nothing, and a trim that succeeds has made a new
    flight with the new title, the four times of F as the driver renders
    them ([datetime_text] of the stored texts) and every other column of F,
    and with as many aircraft as F; the aircraft of F and the new ones
    correspond in the order of seq_nr, in which the engine answers the
    query for the aircraft of a flight; each new aircraft owns, in each
    telemetry table, the rows of its original inside that series' own
    window, re-based as the code computes it; the new flight has the
    markers of F between the start and end offsets, each moved by the
    start offset (as the REAL column keeps the difference: a negative zero
    is stored as +0.0) with its label and its type kept; the rows of F are
    as they were. *)
Theorem trim_flight_derived_copy (faults : nat -> bool) (db : DB) (F : Z)
    (newTitle : string) (startTime endTime : float) :
  store_ok db ->
  In F (map flight_id (flight db)) ->
  complete_telemetry F db ->
  (exists newID db',
      trimFlight no_faults F newTitle startTime endTime db = (Ok newID, db')) /\
  (forall newID db',
      trimFlight faults F newTitle startTime endTime db = (Ok newID, db') ->
      derived_copy (window_rows db startTime endTime) (trimmed_marker newID startTime)
        (window_markers F startTime endTime db) db F newTitle db' newID).
Proof.
  intros Hok HF Hfull. destruct (find_flight_exists db F HF) as [r Hfind].
  split.
  - destruct (trim_body_run db F newTitle startTime endTime r
                (ok_aircraft_ids db Hok) Hfind Hfull) as [s' [added [R _]]].
    unfold trimFlight, transaction. rewrite R. cbn [no_faults]. eauto.
  - intros newID db' H.
    destruct (trimFlight_ok faults db db' F newTitle startTime endTime newID
                (ok_aircraft_ids db Hok) Hfull H)
      as (r' & added & Hfind' & -> & G & Hadded).
    exact (derived_copy_sound _ _ _ db db' F newTitle r' added Hok Hfind' G Hadded
             (trimmed_markers_flight _ _ _ _ Hadded)).
Qed.

Lemma example_complete_telemetry : complete_telemetry 1 example_flight_store.
Proof.
  intros a t Hin Ht. cbn in Hin. destruct Hin as [<-|[]].
  destruct t; try contradiction; discriminate.
Qed.

(** X8: a trim can be taken back.  In a store that respects its keys,
    [trimFlight] of a flight whose aircraft all have telemetry followed by
    [DeleteFlight] of the new flight, both succeeding, leaves every table
    with exactly the rows it had before the trim. *)
Theorem trim_then_delete_restores (faults1 faults2 : nat -> bool) (db db' db'' : DB)
    (F : Z) (newTitle : string) (startTime endTime : float) (newID : Z) :
  store_ok db ->
  complete_telemetry F db ->
  trimFlight faults1 F newTitle startTime endTime db = (Ok newID, db') ->
  DeleteFlight faults2 newID db' = (Ok tt, db'') ->
  store_ok db' /\ same_tables db db''.
Proof.
  intros Hok Hfull H1 H2.
  destruct (trimFlight_ok faults1 db db' F newTitle startTime endTime newID
              (ok_aircraft_ids db Hok) Hfull H1)
    as (r & added & _ & -> & G & Hadded).
  apply DeleteFlight_ok in H2 as (_ & _ & Hdel).
  split.
  - exact (grows_copy_store_ok db db'
             (copy_of_flight (next_rowid (map flight_id (flight db))) newTitle r)
             (aircraft_of F db) (window_rows db startTime endTime) added Hok eq_refl G
             (trimmed_markers_flight _ _ _ _ Hadded)).
  - exact (grows_copy_deleted db db'
             (copy_of_flight (next_rowid (map flight_id (flight db))) newTitle r)
             (aircraft_of F db) (window_rows db startTime endTime) added Hok eq_refl G
             (trimmed_markers_flight _ _ _ _ Hadded) db'' Hdel).
Qed.

(* --------------------------------------------------------------------- *)
(** ** Markers: insert, upsert, delete and look up *)
(* --------------------------------------------------------------------- *)

Lemma filter_map_comm {A : Type} (p : A -> bool) (g : A -> A) (l : list A) :
  (forall x, p (g x) = p x) -> List.filter p (map g l) = map g (List.filter p l).
Proof.
  intros Hg. induction l as [|x l IH]; [reflexivity|].
  cbn [map List.filter]. rewrite Hg. destruct (p x); cbn [map]; now rewrite IH.
Qed.

Lemma trim_type_not_empty (markerType : string) :
  negb (String.eqb markerType "trim_start") && negb (String.eqb markerType "trim_end")
  = false ->
  (markerType = "trim_start" \/ markerType = "trim_end") /\
  String.eqb markerType "" = false.
Proof.
  destruct (String.eqb_spec markerType "trim_start") as [->|];
    [intros _; split; [now left|reflexivity]|].
  destruct (String.eqb_spec markerType "trim_end") as [->|];
    [intros _; split; [now right|reflexivity]|discriminate].
Qed.

(** X9: what [createOrUpdateTrimMarker] stores can be read back.  After a
    call that succeeds, the returned marker carries the time and label of
    the call, and [getTrimMarker] for the same flight and type gives the
    marker with the id that the call returned, with the label of the call
    and with the time of the call as the REAL column time_seconds keeps it
    ([real_column]: a negative zero is read back as +0.0, every other time
    as it was given); the type was trim_start or trim_end. *)
Theorem trim_marker_upsert_lookup (faults : nat -> bool) (flightID : Z)
    (markerType : string) (time : float) (lbl : string) (db db' : DB) (m : Marker) :
  createOrUpdateTrimMarker faults flightID markerType time lbl db = (Ok m, db') ->
  (markerType = "trim_start" \/ markerType = "trim_end") /\
  Marker_Time m = time /\ Marker_Label m = lbl /\ Marker_Type m = markerType /\
  exists m',
    getTrimMarker flightID markerType db' = Ok m' /\
    Marker_ID m' = Marker_ID m /\ Marker_FlightID m' = flightID /\
    Marker_Time m' = real_column time /\ Marker_Label m' = lbl /\
    Marker_Type m' = markerType.
Proof.
  unfold createOrUpdateTrimMarker.
  destruct (negb (String.eqb markerType "trim_start")
            && negb (String.eqb markerType "trim_end")) eqn:Hty; [discriminate|].
  destruct (trim_type_not_empty markerType Hty) as [Htype Hne].
  unfold getTrimMarker at 1.
  set (p := fun m : MarkerRow =>
              (marker_flight_id m =? flightID) && String.eqb (marker_type m) markerType).
  destruct (List.filter p (markers db)) as [|m0 rest] eqn:Ef.
  - (* insert *)
    unfold createMarker, autocommit, tx_bind, tx_exec, tx_ret.
    cbn [tx_begin tx_n tx_db Marker_FlightID Marker_Time Marker_Label Marker_Type].
    rewrite Hne. destruct (faults 0%nat); [discriminate|].
    cbn [insert_marker tx_db]. intros H. inversion H; subst m db'. clear H.
    cbn [Marker_Time Marker_Label Marker_Type Marker_ID].
    split; [exact Htype|]. split; [reflexivity|]. split; [reflexivity|].
    split; [reflexivity|].
    unfold getTrimMarker. cbn [set_markers markers]. fold p.
    rewrite List.filter_app, Ef. cbn [app List.filter]. unfold p.
    cbn [marker_flight_id marker_type].
    rewrite Z.eqb_refl, String.eqb_refl. cbn [andb].
    eexists. split; [reflexivity|]. cbn. repeat split.
  - (* update *)
    assert (Hm0 : p m0 = true).
    { assert (Hin : In m0 (List.filter p (markers db))) by (rewrite Ef; now left).
      now apply filter_In in Hin. }
    unfold p in Hm0. apply andb_true_iff in Hm0 as [Hfl Hmt].
    apply Z.eqb_eq in Hfl. apply String.eqb_eq in Hmt.
    unfold autocommit, tx_bind, tx_exec, tx_ret. cbn [tx_begin tx_n tx_db].
    destruct (faults 0%nat); [discriminate|].
    cbn [update_marker tx_db]. intros H. inversion H; subst m db'. clear H.
    cbn [marker_of_row Marker_Time Marker_Label Marker_Type Marker_ID].
    split; [exact Htype|]. split; [reflexivity|]. split; [reflexivity|].
    split; [exact Hmt|].
    unfold getTrimMarker. cbn [set_markers markers]. fold p.
    rewrite filter_map_comm by (intros x; destruct (marker_id x =? marker_id m0); reflexivity).
    rewrite Ef. cbn [map]. rewrite Z.eqb_refl.
    eexists. split; [reflexivity|]. cbn. repeat split; assumption.
Qed.

(** X10: [deleteTrimMarkers] clears the staged trim of one flight and
    nothing else.  After a call that succeeds the flight has no trim_start
    and no trim_end marker, and the markers table holds exactly the other
    rows it held before, in the same order. *)
Theorem delete_trim_markers_clears (faults : nat -> bool) (flightID : Z) (db db' : DB) :
  deleteTrimMarkers faults flightID db = (Ok tt, db') ->
  getTrimMarker flightID "trim_start" db' = Err ErrNoRows /\
  getTrimMarker flightID "trim_end" db' = Err ErrNoRows /\
  markers db' =
    List.filter (fun m => negb ((marker_flight_id m =? flightID)
                                && (String.eqb (marker_type m) "trim_start"
                                    || String.eqb (marker_type m) "trim_end")))
      (markers db) /\
  flight db' = flight db /\ aircraft db' = aircraft db /\
  (forall t, series db' t = series db t).
Proof.
  unfold deleteTrimMarkers, autocommit, tx_exec. cbn [tx_begin tx_n tx_db].
  destruct (faults 0%nat); [discriminate|]. intros H. inversion H; subst db'. clear H.
  cbn [set_markers markers flight aircraft].
  assert (Hnone : forall ty, ty = "trim_start" \/ ty = "trim_end" ->
            List.filter (fun m => (marker_flight_id m =? flightID)
                                  && String.eqb (marker_type m) ty)
              (List.filter (fun m => negb ((marker_flight_id m =? flightID)
                                           && (String.eqb (marker_type m) "trim_start"
                                               || String.eqb (marker_type m) "trim_end")))
                 (markers db)) = []).
  { intros ty Hty. apply filter_none. intros m Hin. apply filter_In in Hin as [_ Hk].
    apply negb_true_iff in Hk.
    destruct (marker_flight_id m =? flightID); [|reflexivity]. cbn [andb] in *.
    apply orb_false_iff in Hk as [H1 H2]. destruct Hty as [-> | ->]; assumption. }
  unfold getTrimMarker. cbn [set_markers markers].
  rewrite (Hnone "trim_start") by now left. rewrite (Hnone "trim_end") by now right.
  repeat split. all: intros t; destruct t; reflexivity.
Qed.

Lemma next_autoincrement_fresh (seq : Z) (ids : list Z) (x : Z) :
  In x ids -> x < next_autoincrement seq ids.
Proof.
  unfold next_autoincrement, max_list. intros Hin.
  assert (H : x <= fold_right Z.max 0 ids).
  { induction ids as [|i ids IH]; [contradiction|]. cbn [fold_right].
    destruct Hin as [->|Hin]; [lia|]. specialize (IH Hin). lia. }
  lia.
Qed.

(** X11: a marker that [createMarker] has stored is listed.  After a call
    that succeeds, the returned marker has a fresh id and the type of the
    request, or 'regular' when the request names none; [getMarkersForFlight]
    for its flight lists it, with the time of the request as the REAL
    column keeps it ([real_column]: a negative zero comes back as +0.0) and
    with the creation time the engine gave it as the driver hands it to a
    Go string ([datetime_text] of the stored text), and lists one marker
    more than before. *)
Theorem created_marker_is_listed (faults : nat -> bool) (marker : Marker)
    (db db' : DB) (m : Marker) :
  createMarker faults marker db = (Ok m, db') ->
  Marker_Type m = (if String.eqb (Marker_Type marker) "" then "regular"
                   else Marker_Type marker) /\
  ~ In (Marker_ID m) (map marker_id (markers db)) /\
  exists before after,
    getMarkersForFlight (Marker_FlightID marker) db = Ok before /\
    getMarkersForFlight (Marker_FlightID marker) db' = Ok after /\
    In (mkMarker (Marker_ID m) (Marker_FlightID marker)
          (real_column (Marker_Time marker)) (Marker_Label marker) (Marker_Type m)
          (datetime_text (now db))) after /\
    length after = S (length before).
Proof.
  unfold createMarker, autocommit, tx_bind, tx_exec, tx_ret.
  cbn [tx_begin tx_n tx_db]. destruct (faults 0%nat); [discriminate|].
  cbn [insert_marker tx_db]. intros H. inversion H; subst m db'. clear H.
  cbn [Marker_Type Marker_ID]. split; [reflexivity|]. split.
  { intros Hin. apply (next_autoincrement_fresh (markers_seq db)) in Hin. lia. }
  unfold getMarkersForFlight. cbn [set_markers markers].
  eexists _, _. split; [reflexivity|]. split; [reflexivity|].
  rewrite List.filter_app. cbn [List.filter marker_flight_id]. rewrite Z.eqb_refl.
  split.
  - apply in_map_iff. eexists. split; [|apply order_by_In, in_or_app; right; now left].
    reflexivity.
  - rewrite !length_map, !order_by_length, length_app. cbn [length]. lia.
Qed.

Lemma createOrUpdateTrimMarker_ok_type (faults : nat -> bool) (flightID : Z)
    (markerType : string) (time : float) (lbl : string) (db db' : DB) (m : Marker) :
  createOrUpdateTrimMarker faults flightID markerType time lbl db = (Ok m, db') ->
  markerType = "trim_start" \/ markerType = "trim_end".
Proof.
  unfold createOrUpdateTrimMarker.
  destruct (negb (String.eqb markerType "trim_start")
            && negb (String.eqb markerType "trim_end")) eqn:Hty; [discriminate|].
  intros _. exact (proj1 (trim_type_not_empty markerType Hty)).
Qed.

(** X12: POST /data-analysis/trim-markers keeps at most one trim_start and
    one trim_end marker per flight, whatever the request and whatever the
    driver does; it changes the store only when it answers 200, and it
    answers 200 only to a request that names a flight and one of the two
    trim types. *)
Theorem trim_marker_endpoint_keeps_unique (faults : nat -> bool)
    (body : option TrimMarkerRequest) (db : DB) :
  let status := fst (handleCreateTrimMarker faults body db) in
  let db' := snd (handleCreateTrimMarker faults body db) in
  (trim_markers_unique db -> trim_markers_unique db') /\
  (status <> StatusOK -> db' = db) /\
  (status = StatusOK ->
   exists request, body = Some request /\ tm_FlightID request <> 0 /\
     (tm_Type request = "trim_start" \/ tm_Type request = "trim_end")).
Proof.
  cbv zeta. unfold handleCreateTrimMarker.
  destruct body as [request|]; cbn [fst snd];
    [|split; [auto|split; [auto|discriminate]]].
  destruct (Z.eqb_spec (tm_FlightID request) 0) as [Hz|Hnz]; cbn [orb fst snd];
    [split; [auto|split; [auto|discriminate]]|].
  destruct (String.eqb (tm_Type request) ""); cbn [fst snd];
    [split; [auto|split; [auto|discriminate]]|].
  pose proof (createOrUpdateTrimMarker_keeps_unique faults (tm_FlightID request)
                (tm_Type request) (tm_Time request) (tm_Label request) db) as Hu.
  pose proof (createOrUpdateTrimMarker_ok_type faults (tm_FlightID request)
                (tm_Type request) (tm_Time request) (tm_Label request) db) as Hl.
  assert (Herr : forall e db1,
            createOrUpdateTrimMarker faults (tm_FlightID request) (tm_Type request)
              (tm_Time request) (tm_Label request) db = (Err e, db1) -> db1 = db).
  { unfold createOrUpdateTrimMarker, getTrimMarker, createMarker, autocommit,
      tx_bind, tx_exec, tx_ret. cbn [tx_begin tx_n tx_db].
    intros e db1.
    destruct (negb _ && negb _); [intros H; now inversion H|].
    destruct (List.filter _ (markers db)); destruct (faults 0%nat);
      intros H; now inversion H. }
  destruct (createOrUpdateTrimMarker faults (tm_FlightID request) (tm_Type request)
              (tm_Time request) (tm_Label request) db) as [[m|e] db1] eqn:E;
    cbn [fst snd] in *.
  - split; [exact Hu|]. split; [congruence|]. intros _.
    exists request. split; [reflexivity|]. split; [exact Hnz|].
    exact (Hl db1 m eq_refl).
  - split; [exact Hu|]. split; [intros _; exact (Herr e db1 eq_refl)|discriminate].
Qed.

(* --------------------------------------------------------------------- *)
(** ** Listing and fetching flights *)
(* --------------------------------------------------------------------- *)

Lemma Sorted_map {A B : Type} (R : A -> A -> Prop) (R' : B -> B -> Prop) (f : A -> B)
    (l : list A) :
  (forall a b, R a b -> R' (f a) (f b)) -> Sorted R l -> Sorted R' (map f l).
Proof.
  intros HR. induction 1 as [|x l Hl IH Hhd]; cbn [map]; constructor; [exact IH|].
  destruct Hhd; cbn [map]; constructor. now apply HR.
Qed.



Lemma find_app_none {A : Type} (p : A -> bool) (l1 l2 : list A) :
  (forall x, In x l1 -> p x = false) -> List.find p (l1 ++ l2) = List.find p l2.
Proof.
  induction l1 as [|x l1 IH]; intros H; [reflexivity|]. cbn [app List.find].
  rewrite (H x (or_introl eq_refl)). apply IH. intros y Hy. apply H. now right.
Qed.



(* --------------------------------------------------------------------- *)
(** ** Reading the telemetry of an aircraft *)
(* --------------------------------------------------------------------- *)

Lemma scan_all_Forall2 {A B : Type} (scan : A -> option B) (rows : list A) (l : list B) :
  scan_all scan rows = Some l -> Forall2 (fun r p => scan r = Some p) rows l.
Proof.
  revert l. induction rows as [|r rows IH]; intros l H; cbn [scan_all] in H.
  - inversion H. constructor.
  - destruct (scan r) as [p|] eqn:E; [|discriminate].
    destruct (scan_all scan rows) as [ps|]; [|discriminate].
    inversion H; subst. constructor; [exact E|now apply IH].
Qed.

Lemma Forall2_map_r {A B C : Type} (P : A -> C -> Prop) (f : B -> C) (l : list A)
    (l' : list B) :
  Forall2 (fun a b => P a (f b)) l l' -> Forall2 P l (map f l').
Proof. induction 1; cbn [map]; constructor; assumption. Qed.

Lemma Forall2_timestamps (P : SeriesRow -> PositionPoint -> Prop) (rows : list SeriesRow)
    (points : list PositionPoint) :
  Forall2 P rows points -> (forall r p, P r p -> Timestamp p = timestamp r) ->
  map Timestamp points = map timestamp rows.
Proof.
  intros H HP. induction H as [|r p rows points Hrp _ IH]; [reflexivity|].
  cbn [map]. now rewrite IH, (HP r p Hrp).
Qed.

Lemma first_timestamp_seconds (t : Z) :
  PrimFloat.div (float64_of_int64 (Int64.sub t t)) 1000 = 0%float.
Proof.
  unfold Int64.sub. rewrite Z.sub_diag. vm_compute. reflexivity.
Qed.

(** X15: [getPositionDataWithAirspeedFromMainDB], when it succeeds, gives
    one point per position row of the aircraft, in the order of the
    timestamps; the first point is at 0 seconds; a row with a stored
    indicated airspeed that is positive is reported with exactly that
    airspeed, whatever the attitude data says, and without attitude rows
    every other point has airspeed 0. *)
Theorem position_points_follow_rows (ParseFloat : string -> option float)
    (aircraftID : Z) (mainDB : DB) (points : list PositionPoint) :
  getPositionDataWithAirspeedFromMainDB ParseFloat aircraftID mainDB = Some points ->
  map Timestamp points = map timestamp (select_series position aircraftID mainDB) /\
  (forall p, hd_error points = Some p -> TimestampSeconds p = 0%float) /\
  Forall2 (fun r p =>
             match stored_airspeed ParseFloat r with
             | Some v => Airspeed p = v
             | None => select_series attitude aircraftID mainDB = [] ->
                       Airspeed p = 0%float
             end)
    (select_series position aircraftID mainDB) points.
Proof.
  unfold getPositionDataWithAirspeedFromMainDB.
  destruct (select_series position aircraftID mainDB) as [|first rest] eqn:Erows.
  { intros H. inversion H. split; [reflexivity|]. split; [discriminate|constructor]. }
  set (minTimestamp := timestamp first).
  destruct (scan_all (scan_position ParseFloat minTimestamp) (first :: rest))
    as [positions|] eqn:Escan; [|discriminate].
  intros H. inversion H; subst points. clear H.
  apply scan_all_Forall2 in Escan.
  set (attitudes := omap (scan_attitude ParseFloat minTimestamp)
                      (select_series attitude aircraftID mainDB)).
  assert (Hpoint : forall r p0,
            scan_position ParseFloat minTimestamp r = Some p0 ->
            let p := match_airspeed attitudes p0 in
            Timestamp p = timestamp r /\
            TimestampSeconds p
            = PrimFloat.div (float64_of_int64 (Int64.sub (timestamp r) minTimestamp)) 1000 /\
            match stored_airspeed ParseFloat r with
            | Some v => Airspeed p = v
            | None => select_series attitude aircraftID mainDB = [] ->
                      Airspeed p = 0%float
            end).
  { intros r p0 Hscan. cbv zeta. unfold scan_position in Hscan. unfold stored_airspeed.
    destruct (scan_NullFloat64 ParseFloat (column r 2)); [|discriminate].
    destruct (scan_NullFloat64 ParseFloat (column r 0)); [|discriminate].
    destruct (scan_NullFloat64 ParseFloat (column r 1)); [|discriminate].
    destruct (scan_NullFloat64 ParseFloat (column r 3)); [|discriminate].
    destruct (scan_NullFloat64 ParseFloat (column r 5)); [|discriminate].
    destruct (scan_NullFloat64 ParseFloat (column r 6)) as [ias|]; [|discriminate].
    inversion Hscan; subst p0. clear Hscan. unfold match_airspeed.
    cbn [Airspeed Timestamp TimestampSeconds].
    destruct (Valid ias && PrimFloat.ltb 0 (Float64 ias)) eqn:Eias.
    - apply andb_true_iff in Eias as [_ Hpos]. rewrite Hpos.
      cbn [Airspeed Timestamp TimestampSeconds]. repeat split.
    - change (PrimFloat.ltb 0 0) with false. cbn [Airspeed Timestamp TimestampSeconds].
      split; [reflexivity|]. split; [reflexivity|].
      intros Hnone. unfold attitudes. rewrite Hnone. reflexivity. }
  split; [|split].
  - rewrite map_map. clear -Escan Hpoint.
    induction Escan as [|r p0 rows positions Hrp _ IH]; [reflexivity|].
    cbn [map]. rewrite IH. f_equal. exact (proj1 (Hpoint r p0 Hrp)).
  - inversion Escan as [|r p0 rows positions' Hrp _]; subst. cbn [map hd_error].
    intros p Hp. inversion Hp; subst p.
    rewrite (proj1 (proj2 (Hpoint first p0 Hrp))). apply first_timestamp_seconds.
  - apply Forall2_map_r. eapply Forall2_impl; [exact Escan|].
    intros r p0 Hrp. exact (proj2 (proj2 (Hpoint r p0 Hrp))).
Qed.

(* --------------------------------------------------------------------- *)
(** ** The data of a flight, by aircraft label *)
(* --------------------------------------------------------------------- *)

Section FlightDataFacts.

Variable ParseFloat : string -> option float.
Variable mainDB : DB.

Let add := add_aircraft_data ParseFloat mainDB.

Lemma add_aircraft_flight (fd : FlightData) (acs : list Aircraft) :
  FlightData_Flight (fold_left add acs fd) = FlightData_Flight fd.
Proof.
  revert fd. induction acs as [|ac acs IH]; intros fd; [reflexivity|].
  cbn [fold_left]. rewrite IH. unfold add, add_aircraft_data.
  destruct (getPositionDataWithAirspeedFromMainDB _ _ _); reflexivity.
Qed.

(** What one turn of the loop does to the entry of a label. *)
Lemma add_aircraft_lookup (fd : FlightData) (ac : Aircraft) (label : string) :
  PositionData (add fd ac) !! label =
  match getPositionDataWithAirspeedFromMainDB ParseFloat (Aircraft_ID ac) mainDB with
  | Some (p :: points) =>
      if String.eqb (aircraftLabel ac) label then Some (p :: points)
      else PositionData fd !! label
  | _ => PositionData fd !! label
  end.
Proof.
  unfold add, add_aircraft_data.
  destruct (getPositionDataWithAirspeedFromMainDB _ _ _) as [[|p points]|];
    cbn [PositionData length]; try reflexivity.
  destruct (Z.ltb_spec 0 (Z.of_nat (S (length points)))); [|lia].
  destruct (String.eqb_spec (aircraftLabel ac) label) as [->|Hne].
  - apply lookup_insert_eq.
  - now apply lookup_insert_ne.
Qed.

Lemma fold_entries_from (acs : list Aircraft) (fd : FlightData) (label : string)
    (points : list PositionPoint) :
  PositionData (fold_left add acs fd) !! label = Some points ->
  PositionData fd !! label = Some points \/
  exists ac, In ac acs /\ aircraftLabel ac = label /\
             has_position_data ParseFloat mainDB ac points.
Proof.
  revert fd. induction acs as [|ac acs IH]; intros fd H; [now left|].
  cbn [fold_left] in H. apply IH in H as [H|[ac' [Hin [Hl Hd]]]].
  - rewrite add_aircraft_lookup in H.
    destruct (getPositionDataWithAirspeedFromMainDB _ _ _) as [[|p pts]|] eqn:E;
      try (now left).
    destruct (String.eqb_spec (aircraftLabel ac) label) as [Heq|]; [|now left].
    right. exists ac. split; [now left|]. split; [exact Heq|].
    inversion H; subst. split; [exact E|discriminate].
  - right. exists ac'. split; [now right|]. split; assumption.
Qed.

Lemma fold_keeps_entry (acs : list Aircraft) (fd : FlightData) (label : string)
    (points : list PositionPoint) :
  PositionData fd !! label = Some points ->
  (forall b later, In b acs -> aircraftLabel b = label ->
                   ~ has_position_data ParseFloat mainDB b later) ->
  PositionData (fold_left add acs fd) !! label = Some points.
Proof.
  revert fd. induction acs as [|ac acs IH]; intros fd H Hlater; [exact H|].
  cbn [fold_left]. apply IH; [|intros b later Hb; apply Hlater; now right].
  rewrite add_aircraft_lookup.
  destruct (getPositionDataWithAirspeedFromMainDB _ _ _) as [[|p pts]|] eqn:E;
    try exact H.
  destruct (String.eqb_spec (aircraftLabel ac) label) as [Heq|]; [|exact H].
  exfalso. apply (Hlater ac (p :: pts) (or_introl eq_refl) Heq).
  split; [exact E|discriminate].
Qed.

Lemma fold_entry_exists (acs : list Aircraft) (fd : FlightData) (label : string) :
  is_Some (PositionData fd !! label) \/
  (exists ac points, In ac acs /\ aircraftLabel ac = label /\
                     has_position_data ParseFloat mainDB ac points) ->
  is_Some (PositionData (fold_left add acs fd) !! label).
Proof.
  revert fd. induction acs as [|ac acs IH]; intros fd H.
  - destruct H as [H|(ac & pts & [] & _)]. exact H.
  - cbn [fold_left]. apply IH.
    destruct H as [H|(ac' & pts & [->|Hin] & Hl & Hd & Hne)].
    + left. rewrite add_aircraft_lookup.
      destruct (getPositionDataWithAirspeedFromMainDB _ _ _) as [[|p points]|];
        try exact H.
      destruct (String.eqb (aircraftLabel ac) label); [eexists; reflexivity|exact H].
    + left. rewrite add_aircraft_lookup, Hd.
      destruct pts as [|p pts]; [congruence|].
      rewrite Hl, String.eqb_refl. eexists; reflexivity.
    + right. exists ac', pts. split; [exact Hin|]. split; [exact Hl|]. split; assumption.
Qed.

End FlightDataFacts.

Lemma getFlightDataFromMainDB_eq (ParseFloat : string -> option float) (flightID : Z)
    (mainDB : DB) :
  getFlightDataFromMainDB ParseFloat flightID mainDB =
  match List.find (fun f => flight_id f =? flightID) (flight mainDB) with
  | None => Err ErrNoRows
  | Some r =>
      Ok (fold_left (add_aircraft_data ParseFloat mainDB)
            (map to_Aircraft (aircraft_of flightID mainDB))
            (mkFlightData (flight_of_row r) ∅ ∅))
  end.
Proof.
  unfold getFlightDataFromMainDB, getFlightByIDFromMainDB.
  destruct (List.find _ (flight mainDB)); reflexivity.
Qed.

(** X16: the data of a flight is keyed by aircraft label.  In what
    [getFlightDataFromMainDB] returns, every position series is non-empty
    and is the one read for an aircraft of the flight with that label; of
    several aircraft with the same label (the same type and tail number)
    only the series of the last one that has data is kept, where the
    aircraft are taken in the order in which the engine answers the query,
    which is the order of seq_nr ([aircraft_of] is in that order) and not
    the order of the table. *)
Theorem flight_data_by_label (ParseFloat : string -> option float) (flightID : Z)
    (mainDB : DB) (flightData : FlightData) :
  getFlightDataFromMainDB ParseFloat flightID mainDB = Ok flightData ->
  (forall label points,
      PositionData flightData !! label = Some points ->
      exists a, In a (aircraft_of flightID mainDB) /\
                aircraftLabel (to_Aircraft a) = label /\
                has_position_data ParseFloat mainDB (to_Aircraft a) points) /\
  (forall before a after points,
      aircraft_of flightID mainDB = before ++ a :: after ->
      has_position_data ParseFloat mainDB (to_Aircraft a) points ->
      (forall b later, In b after ->
         aircraftLabel (to_Aircraft b) = aircraftLabel (to_Aircraft a) ->
         ~ has_position_data ParseFloat mainDB (to_Aircraft b) later) ->
      PositionData flightData !! aircraftLabel (to_Aircraft a) = Some points).
Proof.
  rewrite getFlightDataFromMainDB_eq.
  destruct (List.find _ (flight mainDB)) as [r|]; [|discriminate].
  intros H. inversion H; subst flightData. clear H. split.
  - intros label points Hl. apply fold_entries_from in Hl as [Hl|[ac [Hin [Hlab Hd]]]].
    + cbn [PositionData] in Hl. rewrite lookup_empty in Hl. discriminate.
    + apply in_map_iff in Hin as [a [<- Hin]]. exists a. repeat split; try assumption.
      all: apply Hd.
  - intros before a after points Hsplit [Hd Hne] Hafter.
    rewrite Hsplit, map_app, fold_left_app. cbn [map fold_left].
    apply fold_keeps_entry.
    + rewrite add_aircraft_lookup, Hd. destruct points as [|p points]; [congruence|].
      now rewrite String.eqb_refl.
    + intros b later Hb Hlab. apply in_map_iff in Hb as [b0 [<- Hb0]].
      now apply Hafter.
Qed.

(* --------------------------------------------------------------------- *)
(** ** Handlers: statistics and deletion *)
(* --------------------------------------------------------------------- *)

Lemma aircraft_statistics_some (points : list PositionPoint) :
  is_Some (aircraft_statistics points) <-> points <> [].
Proof.
  destruct points as [|p points]; cbn [aircraft_statistics]; split.
  - intros [x Hx]. discriminate.
  - congruence.
  - discriminate.
  - intros _. eexists; reflexivity.
Qed.

Lemma find_flight_none (mainDB : DB) (flightID : Z) :
  ~ In flightID (map flight_id (flight mainDB)) ->
  List.find (fun f => flight_id f =? flightID) (flight mainDB) = None.
Proof.
  intros Hnot. destruct (List.find _ (flight mainDB)) as [r|] eqn:E; [|reflexivity].
  apply find_some in E as [Hin Heq]. apply Z.eqb_eq in Heq.
  exfalso. apply Hnot. rewrite <- Heq. now apply in_map.
Qed.

(** X17: GET /data-analysis/statistics answers a request for a flight that
    does not exist with 500, and a request that it answers with 200 and a
    body gets statistics for exactly the aircraft labels of the flight
    under which some aircraft has position data.  (An answer 200 can also
    come without a body: the handler ignores the error of the JSON encoder,
    which refuses statistics that hold a NaN or an infinite value.) *)
Theorem statistics_endpoint_covers_labels (ParseFloat : string -> option float)
    (flightIdStr : string) (mainDB : DB) :
  (forall flightId,
      flightIdStr <> "" -> Atoi flightIdStr = Some flightId ->
      ~ In flightId (map flight_id (flight mainDB)) ->
      handleGetStatistics ParseFloat "GET" flightIdStr mainDB
      = (StatusInternalServerError, None)) /\
  (forall statistics,
      handleGetStatistics ParseFloat "GET" flightIdStr mainDB = (StatusOK, Some statistics) ->
      exists flightId,
        Atoi flightIdStr = Some flightId /\
        In flightId (map flight_id (flight mainDB)) /\
        forall label,
          is_Some (statistics !! label) <->
          exists a points,
            In a (aircraft_of flightId mainDB) /\
            aircraftLabel (to_Aircraft a) = label /\
            has_position_data ParseFloat mainDB (to_Aircraft a) points).
Proof.
  unfold handleGetStatistics. cbn [String.eqb Ascii.eqb Bool.eqb negb]. split.
  - intros flightId Hne Hatoi Hnot.
    destruct (String.eqb_spec flightIdStr ""); [contradiction|].
    rewrite Hatoi, getFlightDataFromMainDB_eq, (find_flight_none _ _ Hnot). reflexivity.
  - intros statistics H.
    destruct (String.eqb flightIdStr ""); [discriminate|].
    destruct (Atoi flightIdStr) as [flightId|]; [|discriminate].
    rewrite getFlightDataFromMainDB_eq in H.
    destruct (List.find (fun f => flight_id f =? flightId) (flight mainDB)) as [r|] eqn:Ef;
      [|discriminate].
    cbv zeta in H. unfold json_Encode in H.
    destruct (forallb _ _); [|discriminate].
    inversion H; subst statistics. clear H.
    exists flightId. split; [reflexivity|]. split.
    { apply find_some in Ef as [Hin Heq]. apply Z.eqb_eq in Heq. rewrite <- Heq.
      now apply in_map. }
    intros label. unfold CalculateFlightStatistics. rewrite lookup_omap.
    set (fd := fold_left _ _ _). split.
    + intros [st Hst].
      destruct (PositionData fd !! label) as [points|] eqn:El; [|discriminate].
      cbn in Hst.
      apply fold_entries_from in El as [El|[ac [Hin [Hlab Hd]]]].
      * cbn [PositionData] in El. rewrite lookup_empty in El. discriminate.
      * apply in_map_iff in Hin as [a [<- Hin]]. exists a, points.
        split; [exact Hin|]. split; [exact Hlab|exact Hd].
    + intros (a & points & Hin & Hlab & Hd).
      destruct (fold_entry_exists ParseFloat mainDB (map to_Aircraft (aircraft_of flightId mainDB))
                  (mkFlightData (flight_of_row r) ∅ ∅) label) as [pts Hpts].
      { right. exists (to_Aircraft a), points. split; [now apply in_map|].
        split; assumption. }
      fold fd in Hpts. rewrite Hpts. cbn.
      apply aircraft_statistics_some.
      apply fold_entries_from in Hpts as [Hp|[ac [_ [_ [_ Hne]]]]]; [|exact Hne].
      cbn [PositionData] in Hp. rewrite lookup_empty in Hp. discriminate.
Qed.

Lemma DeleteFlight_error (faults : nat -> bool) (flightID : Z) (db db' : DB) (e : error) :
  DeleteFlight faults flightID db = (Err e, db') -> db' = db.
Proof.
  unfold DeleteFlight. destruct (flightID <=? 0); [intros H; now inversion H|].
  intros H. symmetry. now apply transaction_rollback in H.
Qed.

(** X18: DELETE /data-analysis/delete-flight answers 404, with the store
    unchanged, for every well-formed id that no flight has, positive or
    not; it changes the store only when it answers 200, and then the flight
    named by the id existed and is deleted with everything below it; an
    existing flight with a positive id is deleted when the driver fails
    nothing. *)
Theorem delete_endpoint_statuses (faults : nat -> bool) (idStr : string) (mainDB : DB) :
  let status := fst (handleDeleteFlight faults "DELETE" idStr mainDB) in
  let db' := snd (handleDeleteFlight faults "DELETE" idStr mainDB) in
  (forall flightId,
      idStr <> "" -> Atoi idStr = Some flightId ->
      ~ In flightId (map flight_id (flight mainDB)) ->
      status = StatusNotFound) /\
  (status <> StatusOK -> db' = mainDB) /\
  (status = StatusOK ->
   exists flightId,
     Atoi idStr = Some flightId /\ In flightId (map flight_id (flight mainDB)) /\
     deleted_flight flightId mainDB db') /\
  (forall flightId,
      idStr <> "" -> Atoi idStr = Some flightId -> 0 < flightId ->
      In flightId (map flight_id (flight mainDB)) ->
      fst (handleDeleteFlight no_faults "DELETE" idStr mainDB) = StatusOK).
Proof.
  cbv zeta. unfold handleDeleteFlight, getFlightByIDFromMainDB.
  cbn [String.eqb Ascii.eqb Bool.eqb negb].
  split; [|split; [|split]].
  - intros flightId Hne Hatoi Hnot.
    destruct (String.eqb_spec idStr ""); [contradiction|].
    rewrite Hatoi, (find_flight_none _ _ Hnot). reflexivity.
  - destruct (String.eqb idStr ""); [reflexivity|].
    destruct (Atoi idStr) as [flightId|]; [|reflexivity].
    destruct (List.find _ (flight mainDB)); [|reflexivity].
    destruct (DeleteFlight faults flightId mainDB) as [[[]|e] db1] eqn:E; cbn [fst snd].
    + intros H. now contradiction H.
    + intros _. exact (DeleteFlight_error _ _ _ _ _ E).
  - destruct (String.eqb idStr ""); [discriminate|].
    destruct (Atoi idStr) as [flightId|]; [|discriminate].
    destruct (List.find _ (flight mainDB)); [|discriminate].
    destruct (DeleteFlight faults flightId mainDB) as [[[]|e] db1] eqn:E; cbn [fst snd];
      [|discriminate].
    intros _. exists flightId. split; [reflexivity|].
    apply DeleteFlight_ok in E as (_ & Hin & Hdel). split; assumption.
  - intros flightId Hne Hatoi Hpos Hin.
    destruct (String.eqb_spec idStr ""); [contradiction|]. rewrite Hatoi.
    destruct (find_flight_exists mainDB flightId Hin) as [r ->].
    destruct (DeleteFlight_run flightId mainDB) as [db1 [_ Hrun]]. rewrite Hrun.
    destruct (Z.leb_spec flightId 0); [lia|].
    apply flight_exists_In in Hin. rewrite Hin. reflexivity.
Qed.

Lemma delete_endpoint_example :
  handleDeleteFlight no_faults "DELETE" "-3" example_flight_store
  = (StatusNotFound, example_flight_store) /\
  fst (handleDeleteFlight no_faults "DELETE" "1" example_flight_store) = StatusOK /\
  fst (handleDeleteFlight no_faults "DELETE" "one" example_flight_store) = StatusBadRequest.
Proof. repeat split. Qed.

Lemma statistics_endpoint_example :
  exists statistics,
    handleGetStatistics no_ParseFloat "GET" "1" example_twin_store
    = (StatusOK, Some statistics) /\
    is_Some (statistics !! "C172") /\ size statistics = 1%nat.
Proof.
  eexists. split; [reflexivity|]. split; [|vm_compute; reflexivity].
  vm_compute. eexists; reflexivity.
Qed.

(* --------------------------------------------------------------------- *)
(** ** The airspeed of the closest attitude point *)
(* --------------------------------------------------------------------- *)

Lemma closest_fold (positionSeconds : float) (attitudes : list AttitudePoint) :
  forall (m a : float),
    let timeDiff att :=
      abs (PrimFloat.sub (Attitude_TimestampSeconds att) positionSeconds) in
    let r := fold_left (closest_step positionSeconds) attitudes (m, a) in
    (forall att, In att attitudes -> PrimFloat.ltb (timeDiff att) (fst r) = false) /\
    (forall x, PrimFloat.ltb x m = false -> PrimFloat.ltb x (fst r) = false) /\
    (r = (m, a) \/
     exists att, In att attitudes /\ timeDiff att = fst r /\ Attitude_Airspeed att = snd r /\
                 PrimFloat.ltb (fst r) m = true).
Proof.
  induction attitudes as [|att attitudes IH]; intros m a; cbv zeta; cbn [fold_left].
  - split; [intros att []|]. split; [intros x H; exact H|now left].
  - set (td := abs (PrimFloat.sub (Attitude_TimestampSeconds att) positionSeconds)).
    change (closest_step positionSeconds (m, a) att)
      with (if PrimFloat.ltb td m then (td, Attitude_Airspeed att) else (m, a)).
    destruct (PrimFloat.ltb td m) eqn:E.
    + destruct (IH td (Attitude_Airspeed att)) as (Hall & Hmono & Hsrc). cbv zeta in *.
      set (r := fold_left (closest_step positionSeconds) attitudes
                  (td, Attitude_Airspeed att)) in *.
      split; [|split].
      * intros att' [<-|Hin]; [|now apply Hall]. apply Hmono. apply ltb_irrefl.
      * intros x Hx. apply Hmono. destruct (PrimFloat.ltb x td) eqn:Ex; [|reflexivity].
        rewrite (ltb_trans _ _ _ Ex E) in Hx. discriminate.
      * right. destruct Hsrc as [Hr|(att' & Hin & Htd & Ha & Hlt)].
        -- exists att. rewrite Hr. cbn [fst snd]. repeat split; [now left|exact E].
        -- exists att'. split; [now right|]. split; [exact Htd|]. split; [exact Ha|].
           exact (ltb_trans _ _ _ Hlt E).
    + destruct (IH m a) as (Hall & Hmono & Hsrc). cbv zeta in *.
      set (r := fold_left (closest_step positionSeconds) attitudes (m, a)) in *.
      split; [|split].
      * intros att' [<-|Hin]; [|now apply Hall]. apply Hmono. exact E.
      * exact Hmono.
      * destruct Hsrc as [Hr|(att' & Hin & Htd & Ha & Hlt)]; [now left|].
        right. exists att'. split; [now right|]. repeat split; assumption.
Qed.

(** X19: the airspeed that [getPositionDataWithAirspeedFromMainDB] gives a
    position without stored airspeed is 0 when no attitude point lies
    within 2^63 seconds, and otherwise the airspeed of an attitude point
    than which none is closer in time. *)
Theorem closest_airspeed_is_nearest (attitudes : list AttitudePoint)
    (positionSeconds : float) :
  let timeDiff att :=
    abs (PrimFloat.sub (Attitude_TimestampSeconds att) positionSeconds) in
  (closestAirspeed attitudes positionSeconds = 0%float /\
   forall att, In att attitudes -> PrimFloat.ltb (timeDiff att) maxTimeDiff = false) \/
  (exists att,
      In att attitudes /\
      closestAirspeed attitudes positionSeconds = Attitude_Airspeed att /\
      PrimFloat.ltb (timeDiff att) maxTimeDiff = true /\
      forall other, In other attitudes ->
        PrimFloat.ltb (timeDiff other) (timeDiff att) = false).
Proof.
  cbv zeta. unfold closestAirspeed.
  destruct (closest_fold positionSeconds attitudes maxTimeDiff 0%float)
    as (Hall & _ & Hsrc). cbv zeta in *.
  set (r := fold_left (closest_step positionSeconds) attitudes (maxTimeDiff, 0%float)) in *.
  destruct Hsrc as [Hr|(att & Hin & Htd & Ha & Hlt)].
  - left. rewrite Hr in *. cbn [fst snd] in *. split; [reflexivity|exact Hall].
  - right. exists att. split; [exact Hin|]. split; [now rewrite Ha|].
    rewrite Htd. split; [exact Hlt|exact Hall].
Qed.

(* --------------------------------------------------------------------- *)
(** ** Flight titles from file names *)
(* --------------------------------------------------------------------- *)

Lemma Forall_drop (P : ascii -> Prop) (n : nat) (s : string) :
  Forall P (list_ascii_of_string s) -> Forall P (list_ascii_of_string (drop n s)).
Proof.
  revert s. induction n as [|n IH]; intros s H; [destruct s; exact H|].
  destruct s as [|c s]; [exact H|]. cbn [drop]. apply IH.
  cbn [list_ascii_of_string] in H. now inversion H.
Qed.

Lemma Forall_substring0 (P : ascii -> Prop) (n : nat) (s : string) :
  Forall P (list_ascii_of_string s) ->
  Forall P (list_ascii_of_string (String.substring 0 n s)).
Proof.
  revert s. induction n as [|n IH]; intros s H.
  - destruct s; constructor.
  - destruct s as [|c s]; [constructor|]. cbn [String.substring list_ascii_of_string] in *.
    inversion H; subst. constructor; [assumption|now apply IH].
Qed.

Lemma Forall_TrimSuffix (P : ascii -> Prop) (s suffix : string) :
  Forall P (list_ascii_of_string s) -> Forall P (list_ascii_of_string (TrimSuffix s suffix)).
Proof.
  intros H. unfold TrimSuffix. destruct (HasSuffix s suffix); [|exact H].
  now apply Forall_substring0.
Qed.

Lemma Forall_TrimPrefix (P : ascii -> Prop) (s prefix : string) :
  Forall P (list_ascii_of_string s) -> Forall P (list_ascii_of_string (TrimPrefix s prefix)).
Proof.
  intros H. unfold TrimPrefix. destruct (String.prefix prefix s); [|exact H].
  now apply Forall_drop.
Qed.

Lemma underscores_to_spaces_spec (s : string) :
  ascii_only s ->
  ascii_only (underscores_to_spaces s) /\ no_underscore (underscores_to_spaces s).
Proof.
  unfold ascii_only, no_underscore.
  induction s as [|c s IH]; intros H; cbn [underscores_to_spaces list_ascii_of_string];
    [split; constructor|].
  cbn [list_ascii_of_string] in H. inversion H as [|? ? Hc Hs]; subst.
  destruct (IH Hs) as [IH1 IH2]. split; constructor; try assumption.
  - destruct (Ascii.eqb c "_"); [vm_compute; lia|exact Hc].
  - destruct (Ascii.eqb_spec c "_"); [discriminate|assumption].
Qed.

Lemma upper_byte_not_underscore (c : ascii) : c <> "_"%char -> upper_byte c <> "_"%char.
Proof.
  intros Hc. unfold upper_byte.
  destruct ((97 <=? nat_of_ascii c)%nat && (nat_of_ascii c <=? 122)%nat) eqn:E;
    [|exact Hc].
  apply andb_true_iff in E as [H1 H2]. apply Nat.leb_le in H1, H2.
  intros Heq. apply (f_equal nat_of_ascii) in Heq.
  rewrite nat_ascii_embedding in Heq by lia.
  change (nat_of_ascii "_") with 95%nat in Heq. lia.
Qed.

(** X20: for a file name of ASCII bytes, [extractFlightTitle] gives a title
    that is not empty and has no underscore; when nothing is left of the
    name without its extension and without the prefix 'uploaded_', the
    title is 'CSV Flight Data'. *)
Theorem flight_title_is_presentable (ToUpper_fragment : ascii -> string)
    (filename : string) :
  ascii_only filename ->
  extractFlightTitle ToUpper_fragment filename <> "" /\
  no_underscore (extractFlightTitle ToUpper_fragment filename) /\
  (TrimPrefix (TrimSuffix filename (Ext filename)) "uploaded_" = "" ->
   extractFlightTitle ToUpper_fragment filename = "CSV Flight Data").
Proof.
  intros Hascii.
  assert (Hempty : TrimPrefix (TrimSuffix filename (Ext filename)) "uploaded_" = "" ->
                   extractFlightTitle ToUpper_fragment filename = "CSV Flight Data").
  { intros H. unfold extractFlightTitle. rewrite H. reflexivity. }
  cut (extractFlightTitle ToUpper_fragment filename <> "" /\
       no_underscore (extractFlightTitle ToUpper_fragment filename)).
  { intros [H1 H2]. split; [exact H1|]. split; [exact H2|exact Hempty]. }
  clear Hempty. unfold extractFlightTitle.
  pose proof (underscores_to_spaces_spec
                (TrimPrefix (TrimSuffix filename (Ext filename)) "uploaded_")
                (Forall_TrimPrefix _ _ _ (Forall_TrimSuffix _ _ _ Hascii))) as [Ha Hu].
  destruct (underscores_to_spaces _) as [|c rest]; cbv zeta.
  - cbn [String.eqb]. split; [discriminate|].
    unfold no_underscore. cbn. repeat constructor; discriminate.
  - unfold ascii_only, no_underscore in *. cbn [list_ascii_of_string] in Ha, Hu.
    inversion Ha as [|? ? Hc Har]; subst. inversion Hu as [|? ? Hcu Hur]; subst.
    unfold ToUpper_first. destruct (Nat.ltb_spec (nat_of_ascii c) 128); [|lia].
    cbn [String.append String.eqb]. split; [discriminate|].
    cbn [list_ascii_of_string]. constructor; [|exact Hur].
    now apply upper_byte_not_underscore.
Qed.

Lemma extractFlightTitle_examples :
  extractFlightTitle replacement_character "uploaded_night_circuit.v2.csv"
  = "Night circuit.v2" /\
  extractFlightTitle replacement_character ".csv" = "CSV Flight Data" /\
  extractFlightTitle replacement_character "logs/flight" = "Logs/flight" /\
  extractFlightTitle replacement_character "a.b/flight" = "A.b/flight".
Proof. repeat split. Qed.

(* --------------------------------------------------------------------- *)
(** ** Distance markers *)
(* --------------------------------------------------------------------- *)

Section DistanceFacts.

Variables Sin Cos : float -> float.
Variable Atan2 : float -> float -> float.

Lemma marker_step_invariant (i : Z) (st : MarkerSearch) (pos : PositionPoint) :
  search_invariant st ->
  search_invariant (marker_step Sin Cos Atan2 i st pos) /\
  (i = 0 -> markerTimes (marker_step Sin Cos Atan2 i st pos) = markerTimes st).
Proof.
  intros Hinv. unfold marker_step.
  destruct (PrimFloat.eqb (Latitude pos) 0 && PrimFloat.eqb (Longitude pos) 0);
    [split; [exact Hinv|reflexivity]|].
  cbv zeta. destruct (Z.ltb_spec 0 i) as [Hi|Hi]; cbn [andb].
  - split; [|lia]. destruct Hinv as [[Hf Ht]|[Hf Hl]]; rewrite Hf; cbn [negb].
    + destruct (_ && negb (PrimFloat.eqb (prevDistance st) _));
        destruct (PrimFloat.leb _ tolerance);
        cbn [markerTimes markerFound prevDistance prevTime];
        rewrite ?Ht, ?Hf; cbn [app]; unfold search_invariant;
        cbn [markerTimes markerFound length];
        first [right; split; [reflexivity|lia] | left; split; reflexivity].
    + right. cbn [markerTimes markerFound]. split; assumption.
  - split; [|reflexivity]. unfold search_invariant in *. cbn [markerTimes markerFound].
    exact Hinv.
Qed.

Lemma marker_loop_invariant (positionData : list PositionPoint) :
  forall i st, search_invariant st ->
               search_invariant (marker_loop Sin Cos Atan2 i st positionData).
Proof.
  induction positionData as [|pos rest IH]; intros i st Hinv; [exact Hinv|].
  cbn [marker_loop]. apply IH. now apply marker_step_invariant.
Qed.

(** X21: [findDistanceMarkers] returns at most two times for a series of
    positions, whatever the positions are, and none for a series of fewer
    than two positions. *)
Theorem distance_markers_at_most_two (positionData : list PositionPoint) :
  (length (findDistanceMarkers Sin Cos Atan2 positionData) <= 2)%nat /\
  ((length positionData <= 1)%nat -> findDistanceMarkers Sin Cos Atan2 positionData = []).
Proof.
  unfold findDistanceMarkers. split.
  - destruct (marker_loop_invariant positionData 0 (mkMarkerSearch [] 0 0 false))
      as [[_ Ht]|[_ Hl]]; [left; split; reflexivity|rewrite Ht; cbn; lia|lia].
  - destruct positionData as [|pos [|pos' rest]]; cbn [length]; [reflexivity| |lia].
    intros _. cbn [marker_loop].
    apply (marker_step_invariant 0 (mkMarkerSearch [] 0 0 false) pos); [|reflexivity].
    left; split; reflexivity.
Qed.

End DistanceFacts.

(* --------------------------------------------------------------------- *)
(** ** Importing a CSV flight *)
(* --------------------------------------------------------------------- *)

Lemma tx_for_map {A B : Type} (g : A -> B) (l : list A) (body : B -> Tx unit)
    (s : TxState) :
  tx_for l (fun x => body (g x)) s = tx_for (map g l) body s.
Proof.
  revert s. induction l as [|x l IH]; intros s; [reflexivity|].
  cbn [tx_for map]. unfold tx_bind. destruct (body (g x) s) as [[[] s1]|e]; [apply IH|reflexivity].
Qed.

Lemma csv_import_body_sound (faults : nat -> bool) (localtime : string)
    (csvData : CSVFlightData) :
  fault_sound faults (csv_import_body no_faults localtime csvData)
    (csv_import_body faults localtime csvData).
Proof.
  unfold csv_import_body, createFlightFromCSV, createAircraftFromCSV,
    importPositionDataFromCSV, importAttitudeDataFromCSV, importEngineDataFromCSV.
  fault_sound_auto.
Qed.

Lemma csv_rows_loop (t : SeriesTable) (row : CSVFlightRecord -> SeriesRow)
    (records : list CSVFlightRecord) (s : TxState) :
  exists s',
    tx_for records
      (fun record => tx_exec no_faults (TSeries t) (insert_series t (row record))) s
      = Ok (tt, s') /\
    grows (tx_db s) (tx_db s') [] [] (only t (map row records)) [].
Proof.
  destruct (insert_series_loop t (fun r => r) (map row records) s)
    as (s' & Hrun & _ & _ & G & _).
  exists s'. split.
  - rewrite <- Hrun. exact (tx_for_map row records
                              (fun r => tx_exec no_faults (TSeries t) (insert_series t r)) s).
  - now rewrite map_id in G.
Qed.

(** What the body of the import does when nothing fails. *)
Lemma csv_import_body_run (localtime : string) (csvData : CSVFlightData) (db : DB) :
  exists s',
    csv_import_body no_faults localtime csvData (tx_begin db)
    = Ok (next_rowid (map flight_id (flight db)), s') /\
    grows db (tx_db s')
      [csv_flight_row localtime csvData (next_rowid (map flight_id (flight db)))]
      [csv_aircraft_row (next_rowid (map flight_id (flight db))) csvData
         (next_rowid (map aircraft_id (aircraft db)))]
      (csv_series (next_rowid (map aircraft_id (aircraft db))) (Records csvData)) [].
Proof.
  set (newID := next_rowid (map flight_id (flight db))).
  set (aid := next_rowid (map aircraft_id (aircraft db))).
  unfold csv_import_body, createFlightFromCSV, createAircraftFromCSV,
    importPositionDataFromCSV, importAttitudeDataFromCSV, importEngineDataFromCSV.
  pose proof (grows_insert_flight (csv_flight_row localtime csvData) db) as G1.
  tx_step (tx_wrap_ok _ _ _ _ _ (tx_exec_ok TFlight _ (tx_begin db))).
  cbn [tx_begin tx_db tx_n tx_log] in *.
  set (db1 := snd (insert_flight (csv_flight_row localtime csvData) db)) in *.
  change (fst (insert_flight (csv_flight_row localtime csvData) db)) with newID.
  fold newID in G1.
  set (s1 := mkTxState db1 1 ([] ++ [TFlight])).
  pose proof (grows_insert_aircraft (csv_aircraft_row newID csvData) db1) as G2.
  tx_step (tx_wrap_ok _ _ _ _ _ (tx_exec_ok TAircraft _ s1)).
  cbn [s1 tx_db tx_n tx_log] in *.
  set (db2 := snd (insert_aircraft (csv_aircraft_row newID csvData) db1)) in *.
  assert (Ha1 : aircraft db1 = aircraft db).
  { rewrite (grows_aircraft _ _ _ _ _ _ G1). apply app_nil_r. }
  change (fst (insert_aircraft (csv_aircraft_row newID csvData) db1))
    with (next_rowid (map aircraft_id (aircraft db1))).
  rewrite Ha1 in G2 |- *. fold aid in G2 |- *.
  set (s2 := mkTxState db2 2 (([] ++ [TFlight]) ++ [TAircraft])).
  destruct (csv_rows_loop position (csv_position_row aid) (Records csvData) s2)
    as (s3 & R3 & G3).
  tx_step (tx_wrap_ok _ _ _ _ _ R3).
  destruct (csv_rows_loop attitude (csv_attitude_row aid) (Records csvData) s3)
    as (s4 & R4 & G4).
  tx_step (tx_wrap_ok _ _ _ _ _ R4).
  destruct (csv_rows_loop engine (csv_engine_row aid) (Records csvData) s4)
    as (s5 & R5 & G5).
  tx_step (tx_wrap_ok _ _ _ _ _ R5).
  exists s5. split; [reflexivity|].
  cbn [s2 tx_db] in G3.
  pose proof (grows_trans _ _ _ _ _ _ _ _ _ _ _
                (grows_trans _ _ _ _ _ _ _ _ _ _ _
                   (grows_trans _ _ _ _ _ _ _ _ _ _ _
                      (grows_trans _ _ _ _ _ _ _ _ _ _ _ G1 G2) G3) G4) G5) as G.
  destruct G as [Gf Ga Gs Gm]. split.
  - rewrite Gf. reflexivity.
  - rewrite Ga. reflexivity.
  - intros t. rewrite Gs. unfold only, no_rows, csv_series.
    destruct t; cbn [SeriesTable_eqb app]; rewrite ?app_nil_r; reflexivity.
  - rewrite Gm. reflexivity.
Qed.

(** A CSV import that reports a flight ran, in effect, against a driver
    that failed nothing. *)
Lemma ImportFlightFromCSV_ok (faults : nat -> bool) (localtime : string)
    (csvData : CSVFlightData) (db db' : DB) (fl : Flight) :
  ImportFlightFromCSV faults localtime csvData db = (inr fl, db') ->
  Records csvData <> [] /\
  fl = mkFlight (next_rowid (map flight_id (flight db))) 0
         (FlightTitle (Metadata csvData)) "CSV Import"
         (RecordedAt (Metadata csvData)) (RecordedAt (Metadata csvData)) /\
  grows db db'
    [csv_flight_row localtime csvData (next_rowid (map flight_id (flight db)))]
    [csv_aircraft_row (next_rowid (map flight_id (flight db))) csvData
       (next_rowid (map aircraft_id (aircraft db)))]
    (csv_series (next_rowid (map aircraft_id (aircraft db))) (Records csvData)) [].
Proof.
  unfold ImportFlightFromCSV. intros H.
  destruct (Records csvData) as [|first rest] eqn:Hrec; [discriminate|].
  split; [discriminate|]. rewrite <- Hrec.
  destruct (transaction faults "failed to commit transaction"
              (csv_import_body faults localtime csvData) db) as [[flightID|e] db1] eqn:Ht;
    [|discriminate].
  inversion H; subst fl db1. clear H.
  destruct (transaction_sound faults _ _ _ _ _ _
              (csv_import_body_sound faults localtime csvData) Ht) as (s1 & R1 & Hdb & _).
  destruct (csv_import_body_run localtime csvData db) as (s' & R & G).
  rewrite R in R1. inversion R1; subst flightID s1. subst db'.
  split; [reflexivity|exact G].
Qed.

(** Whatever fails, an import that reports an error leaves the store as it
    was. *)
Lemma ImportFlightFromCSV_error (faults : nat -> bool) (localtime : string)
    (csvData : CSVFlightData) (db db' : DB) (e : csv_error) :
  ImportFlightFromCSV faults localtime csvData db = (inl e, db') -> db' = db.
Proof.
  unfold ImportFlightFromCSV.
  destruct (Records csvData) as [|first rest]; [intros H; now inversion H|].
  destruct (transaction faults "failed to commit transaction"
              (csv_import_body faults localtime csvData) db) as [[flightID|e1] db1] eqn:Ht;
    [discriminate|].
  intros H. inversion H; subst. exact (transaction_rollback faults _ _ _ _ _ Ht).
Qed.

(** X22: a CSV import is all or nothing.  [ImportFlightFromCSV] refuses
    data without records, and whatever it reports as an error leaves the
    store as it was; when it reports a flight, the store has gained exactly
    one flight with the reported id, one aircraft of that flight, and one
    position, one attitude and one engine row of that aircraft per record,
    in the order of the records, and nothing else; with records and a driver
    that fails nothing it reports a flight. *)
Theorem csv_import_all_or_nothing (faults : nat -> bool) (localtime : string)
    (csvData : CSVFlightData) (mainDB : DB) :
  let outcome := ImportFlightFromCSV faults localtime csvData mainDB in
  (Records csvData = [] -> outcome = (inl ErrNoRecordsToImport, mainDB)) /\
  (forall e, fst outcome = inl e -> snd outcome = mainDB) /\
  (forall fl, fst outcome = inr fl ->
     exists f a,
       grows mainDB (snd outcome) [f] [a]
         (csv_series (aircraft_id a) (Records csvData)) [] /\
       flight_id f = ID fl /\ aircraft_flight_id a = ID fl) /\
  (Records csvData <> [] ->
   exists fl, fst (ImportFlightFromCSV no_faults localtime csvData mainDB) = inr fl).
Proof.
  cbv zeta. split; [|split; [|split]].
  - intros Hrec. unfold ImportFlightFromCSV. now rewrite Hrec.
  - intros e He.
    destruct (ImportFlightFromCSV faults localtime csvData mainDB) as [r db'] eqn:E.
    cbn [fst snd] in *. subst r. exact (ImportFlightFromCSV_error _ _ _ _ _ _ E).
  - intros fl Hfl.
    destruct (ImportFlightFromCSV faults localtime csvData mainDB) as [r db'] eqn:E.
    cbn [fst snd] in *. subst r.
    apply ImportFlightFromCSV_ok in E as (_ & -> & G).
    eexists _, _. split; [exact G|]. split; reflexivity.
  - intros Hrec. unfold ImportFlightFromCSV.
    destruct (Records csvData) as [|first rest] eqn:Hr; [contradiction|].
    destruct (csv_import_body_run localtime csvData mainDB) as (s' & R & _).
    unfold transaction. rewrite R. cbn [no_faults]. eexists. reflexivity.
Qed.

(** The rows of a CSV import have the shape of the rows of a derived
    flight with one aircraft. *)
Lemma csv_grows_as_copy (db db' : DB) (f : FlightRow) (csvData : CSVFlightData)
    (newID start : Z) :
  grows db db' [f] [csv_aircraft_row newID csvData start]
    (csv_series start (Records csvData)) [] ->
  grows db db' [f]
    (copied_aircraft start newID [csv_aircraft_row newID csvData 0])
    (copied_series (fun t _ => csv_series 0 (Records csvData) t) start
       [csv_aircraft_row newID csvData 0]) [].
Proof.
  intros [Gf Ga Gs Gm]. split; [exact Gf|exact Ga| |exact Gm].
  intros t. rewrite Gs. f_equal. unfold copied_series, csv_series.
  destruct t; cbn [copied_rows]; rewrite ?app_nil_r, ?map_map; reflexivity.
Qed.

(** X23: an imported CSV flight can be taken back.  In a store whose rows
    respect the keys of the schema, an [ImportFlightFromCSV] that reports a
    flight gives a store that respects them again, and a [DeleteFlight] of
    the reported flight that succeeds then leaves every table with exactly
    the rows it had before the import. *)
Theorem csv_import_then_delete_restores (faults1 faults2 : nat -> bool) (localtime : string)
    (csvData : CSVFlightData) (mainDB db' : DB) (fl : Flight) :
  store_ok mainDB ->
  ImportFlightFromCSV faults1 localtime csvData mainDB = (inr fl, db') ->
  store_ok db' /\
  forall db'', DeleteFlight faults2 (ID fl) db' = (Ok tt, db'') -> same_tables mainDB db''.
Proof.
  intros Hok H1. apply ImportFlightFromCSV_ok in H1 as (_ & -> & G).
  apply csv_grows_as_copy in G. split.
  - exact (grows_copy_store_ok mainDB db'
             (csv_flight_row localtime csvData (next_rowid (map flight_id (flight mainDB))))
             _ _ [] Hok eq_refl G (List.Forall_nil _)).
  - intros db'' H2. apply DeleteFlight_ok in H2 as (_ & _ & Hdel).
    exact (grows_copy_deleted mainDB db'
             (csv_flight_row localtime csvData (next_rowid (map flight_id (flight mainDB))))
             _ _ [] Hok eq_refl G (List.Forall_nil _) db'' Hdel).
Qed.

(** X24: what is stored for a CSV flight.  After an [ImportFlightFromCSV]
    that reports a flight, [getFlightByIDFromMainDB] finds it under the
    reported id with flight number 'CSV Import'; the [Time] texts of the
    first and of the last record are stored as start and end, and the fetch
    gives them as the driver renders them ([datetime_text] of the stored
    text, which is the zero time for a text the driver cannot read as a
    time), whereas the reported flight carries the recording time of the
    metadata as both; and
    [getAircraftByFlightIDFromMainDB] lists one aircraft for it, numbered
    1, of the type of the metadata, with tail number 'CSV-IMPORT'. *)
Theorem csv_import_flight_read_back (faults : nat -> bool) (localtime : string)
    (csvData : CSVFlightData) (mainDB db' : DB) (fl : Flight) :
  store_ok mainDB ->
  ImportFlightFromCSV faults localtime csvData mainDB = (inr fl, db') ->
  StartTime fl = RecordedAt (Metadata csvData) /\
  EndTime fl = RecordedAt (Metadata csvData) /\
  exists first,
    hd_error (Records csvData) = Some first /\
    getFlightByIDFromMainDB (ID fl) db'
    = Ok (mkFlight (ID fl) 0
            (if String.eqb (Title fl) "" then "Untitled" else Title fl) "CSV Import"
            (datetime_text (CSV_Time first))
            (datetime_text (CSV_Time (List.last (Records csvData) first)))) /\
    getAircraftByFlightIDFromMainDB (ID fl) db'
    = Ok [mkAircraft (next_rowid (map aircraft_id (aircraft mainDB))) (ID fl) 1
            (AircraftType (Metadata csvData)) "CSV-IMPORT" ""].
Proof.
  intros Hok H. apply ImportFlightFromCSV_ok in H as (Hrec & -> & [Gf Ga _ _]).
  cbn [StartTime EndTime ID Title]. split; [reflexivity|]. split; [reflexivity|].
  destruct (Records csvData) as [|first rest] eqn:Hr; [contradiction|].
  exists first. split; [reflexivity|]. split.
  - unfold getFlightByIDFromMainDB. rewrite Gf, find_app_none.
    + cbn [List.find csv_flight_row flight_id]. rewrite Z.eqb_refl.
      unfold flight_of_row, csv_flight_row. rewrite Hr. reflexivity.
    + intros x Hin. apply Z.eqb_neq.
      pose proof (next_rowid_fresh (map flight_id (flight mainDB)) (flight_id x)
                    (in_map flight_id _ _ Hin)). lia.
  - unfold getAircraftByFlightIDFromMainDB, select_aircraft.
    rewrite Ga, List.filter_app, filter_none.
    + cbn [List.filter csv_aircraft_row aircraft_flight_id]. rewrite Z.eqb_refl.
      reflexivity.
    + intros a Hin. apply Z.eqb_neq.
      pose proof (next_rowid_fresh _ _ (ok_aircraft_flight mainDB Hok a Hin)). lia.
Qed.

Lemma insert_sorted_map {A B : Type} (le : B -> B -> bool) (g : A -> B) (x : A)
    (l : list A) :
  insert_sorted le (g x) (map g l)
  = map g (insert_sorted (fun a b => le (g a) (g b)) x l).
Proof.
  induction l as [|y l IH]; [reflexivity|].
  cbn [map insert_sorted]. destruct (le (g x) (g y)); [reflexivity|].
  cbn [map]. now rewrite IH.
Qed.

Lemma order_by_map {A B : Type} (le : B -> B -> bool) (g : A -> B) (l : list A) :
  order_by le (map g l) = map g (order_by (fun a b => le (g a) (g b)) l).
Proof.
  induction l as [|x l IH]; [reflexivity|].
  change (order_by le (map g (x :: l)))
    with (insert_sorted le (g x) (order_by le (map g l))).
  rewrite IH. apply insert_sorted_map.
Qed.

Lemma SFcompare_refl_nan (x : spec_float) :
  SFcompare x x = Some Eq \/ x = S754_nan.
Proof.
  destruct x as [s|s| |s m e]; cbn; try destruct s; auto; left;
    rewrite Z.compare_refl; try rewrite Pos.compare_cont_refl;
    try rewrite Pos.compare_refl; reflexivity.
Qed.

(** NaN is below nothing. *)
Lemma ltb_not_nan (x f : float) : PrimFloat.ltb x f = true -> PrimFloat.is_nan f = false.
Proof.
  intros H. apply ltb_SFcompare in H. unfold PrimFloat.is_nan.
  rewrite FloatAxioms.eqb_spec. unfold SFeqb.
  destruct (SFcompare_refl_nan (Prim2SF f)) as [->|Hn]; [reflexivity|].
  rewrite Hn in H. destruct (Prim2SF x) as [s|s| |s m e]; discriminate.
Qed.

(** A positive float64 is kept by a REAL column as it is. *)
Lemma real_column_positive (f : float) :
  PrimFloat.ltb 0 f = true -> real_column f = f.
Proof.
  intros H. unfold real_column.
  rewrite FloatAxioms.ltb_spec in H. rewrite FloatAxioms.eqb_spec.
  change (Prim2SF 0) with (S754_zero false) in *.
  unfold SFltb, SFeqb in *.
  destruct (Prim2SF f) as [[|]|[|]| |[|] m e]; cbn in H |- *;
    try discriminate; reflexivity.
Qed.

Section CSVReads.

Variable ParseFloat : string -> option float.

Lemma scan_bound_float64 (f : float) :
  scan_NullFloat64 ParseFloat (bind_float64 f)
  = Some (mkNullFloat64 (read_back f) (negb (PrimFloat.is_nan f))).
Proof. unfold bind_float64, read_back. now destruct (PrimFloat.is_nan f). Qed.

(** The point scanned from the position row of a record. *)
Lemma scan_position_csv (minTimestamp aircraftID : Z) (record : CSVFlightRecord) :
  exists p,
    scan_position ParseFloat minTimestamp (csv_position_row aircraftID record) = Some p /\
    forall attitudes, shows_record record (match_airspeed attitudes p).
Proof.
  unfold scan_position, csv_position_row, column. cbn [row_cols nth timestamp].
  rewrite !scan_bound_float64. eexists. split; [reflexivity|].
  intros attitudes.
  assert (Hfields :
    forall p q, Timestamp q = Timestamp p -> Latitude q = Latitude p ->
      Longitude q = Longitude p -> Altitude q = Altitude p ->
      IndicatedAltitude q = IndicatedAltitude p ->
      PressureAltitude q = PressureAltitude p ->
      (PrimFloat.ltb 0 (Airspeed p) = true -> q = p) ->
      shows_record record p -> shows_record record q).
  { intros p q H1 H2 H3 H4 H5 H6 H7 (S1 & S2 & S3 & S4 & S5 & S6 & S7).
    repeat split; try congruence.
    intros Hpos. specialize (S7 Hpos). rewrite H7; [exact S7|].
    rewrite S7. exact Hpos. }
  eapply Hfields; try (unfold match_airspeed;
    match goal with |- context [if ?c then _ else _] => destruct c end; reflexivity).
  - unfold match_airspeed. intros Hpos. cbv beta in Hpos |- *. now rewrite Hpos.
  - repeat split. cbn [Airspeed Valid Float64]. intros Hpos.
    rewrite (ltb_not_nan _ _ Hpos). unfold read_back.
    rewrite (ltb_not_nan _ _ Hpos), (real_column_positive _ Hpos).
    cbn [negb andb]. now rewrite Hpos.
Qed.

Lemma scan_all_csv (minTimestamp aircraftID : Z) (attitudes : list AttitudePoint)
    (records : list CSVFlightRecord) :
  exists points,
    scan_all (scan_position ParseFloat minTimestamp)
      (map (csv_position_row aircraftID) records) = Some points /\
    Forall2 shows_record records (map (match_airspeed attitudes) points).
Proof.
  induction records as [|record records (points & Hscan & Hall)].
  - exists []. split; [reflexivity|constructor].
  - destruct (scan_position_csv minTimestamp aircraftID record) as (p & Hp & Hshow).
    exists (p :: points). cbn [map scan_all]. rewrite Hp, Hscan.
    split; [reflexivity|]. constructor; [apply Hshow|exact Hall].
Qed.

End CSVReads.

(** X25: the positions of an imported CSV flight can be read.  In a store
    whose rows respect the keys of the schema, after an
    [ImportFlightFromCSV] that reports a flight,
    [getPositionDataWithAirspeedFromMainDB] succeeds for the new aircraft
    and gives one point per record, in the order of the records' times;
    each point carries the record's latitude and longitude, its altitude in
    feet as indicated and pressure altitude and times 0.3048 as altitude,
    each as the REAL column gives it back ([read_back]: a NaN is stored as
    NULL and reads as 0, a negative zero is stored as the integer 0 and
    reads as +0.0, every other value reads as it was written), and the
    record's indicated airspeed when that is positive. *)
Theorem csv_import_positions_read_back (ParseFloat : string -> option float)
    (faults : nat -> bool) (localtime : string) (csvData : CSVFlightData)
    (mainDB db' : DB) (fl : Flight) :
  store_ok mainDB ->
  ImportFlightFromCSV faults localtime csvData mainDB = (inr fl, db') ->
  exists records points,
    Permutation (Records csvData) records /\
    Sorted (fun a b => csv_timestamp a <= csv_timestamp b) records /\
    getPositionDataWithAirspeedFromMainDB ParseFloat
      (next_rowid (map aircraft_id (aircraft mainDB))) db' = Some points /\
    Forall2 shows_record records points.
Proof.
  intros Hok H. apply ImportFlightFromCSV_ok in H as (_ & _ & [_ _ Gs _]).
  set (aid := next_rowid (map aircraft_id (aircraft mainDB))) in *.
  set (le := fun a b => by_timestamp (csv_position_row aid a) (csv_position_row aid b)).
  set (records := order_by le (Records csvData)).
  assert (Hrows : select_series position aid db'
                  = map (csv_position_row aid) records).
  { unfold select_series. rewrite (Gs position). cbn [csv_series].
    rewrite List.filter_app.
    change (List.filter (fun r => row_aircraft_id r =? aid) (series mainDB position))
      with (rows_of aid (series mainDB position)).
    rewrite (store_ok_no_newer_rows mainDB position aid Hok (Z.le_refl _)).
    cbn [app]. rewrite filter_all.
    - exact (order_by_map by_timestamp (csv_position_row aid) (Records csvData)).
    - apply List.Forall_forall. intros r Hin. apply in_map_iff in Hin as (x & <- & _).
      apply Z.eqb_refl. }
  assert (Hsorted : Sorted (fun a b => csv_timestamp a <= csv_timestamp b) records).
  { rewrite <- (map_id records).
    apply (Sorted_map (fun a b => le a b = true)); [|apply order_by_Sorted].
    - intros a b Hab. apply Z.leb_le. exact Hab.
    - intros a b. unfold le, by_timestamp. cbn [csv_position_row timestamp].
      destruct (Z.leb_spec (csv_timestamp a) (csv_timestamp b)); [now left|].
      right. apply Z.leb_le. lia. }
  unfold getPositionDataWithAirspeedFromMainDB. rewrite Hrows.
  destruct (map (csv_position_row aid) records) as [|first rest] eqn:Hmap.
  - exists records, []. split; [apply order_by_perm|]. split; [exact Hsorted|].
    split; [reflexivity|]. destruct records; [constructor|discriminate].
  - rewrite <- Hmap.
    destruct (scan_all_csv ParseFloat (timestamp first) aid
                (omap (scan_attitude ParseFloat (timestamp first))
                   (select_series attitude aid db')) records)
      as (points & Hscan & Hall).
    rewrite Hscan. eexists records, _. split; [apply order_by_perm|].
    split; [exact Hsorted|]. split; [reflexivity|exact Hall].
Qed.

(* --------------------------------------------------------------------- *)
(** ** Parsing a CSV export *)
(* --------------------------------------------------------------------- *)

Lemma find_header_spec (SkipRows : Z) (records : list (list string)) (i k : Z)
    (headers : list string) :
  find_header i SkipRows records = Some (k, headers) ->
  exists n : nat,
    k = i + Z.of_nat n /\ nth_error records n = Some headers /\ SkipRows <= k /\
    containsFlightDataHeaders headers = true /\
    forall (m : nat) row,
      (m < n)%nat -> nth_error records m = Some row -> SkipRows <= i + Z.of_nat m ->
      containsFlightDataHeaders row = false.
Proof.
  revert i. induction records as [|record rest IH]; intros i; [discriminate|].
  cbn [find_header].
  assert (Hnext : find_header (i + 1) SkipRows rest = Some (k, headers) ->
                  ((i <? SkipRows) = true \/ containsFlightDataHeaders record = false) ->
                  exists n : nat,
                    k = i + Z.of_nat n /\ nth_error (record :: rest) n = Some headers /\
                    SkipRows <= k /\ containsFlightDataHeaders headers = true /\
                    forall (m : nat) row,
                      (m < n)%nat -> nth_error (record :: rest) m = Some row ->
                      SkipRows <= i + Z.of_nat m ->
                      containsFlightDataHeaders row = false).
  { intros H Hskip. destruct (IH _ H) as (n & -> & Hn & Hk & Hh & Hbefore).
    exists (S n). split; [lia|]. split; [exact Hn|]. split; [exact Hk|].
    split; [exact Hh|]. intros [|m] row Hm Hrow Hge.
    - cbn in Hrow. injection Hrow as <-. destruct Hskip as [Hskip|Hno]; [|exact Hno].
      apply Z.ltb_lt in Hskip. lia.
    - apply (Hbefore m row); [lia|exact Hrow|lia]. }
  destruct (i <? SkipRows) eqn:Hi; [intros H; apply Hnext; auto|].
  destruct (containsFlightDataHeaders record) eqn:Hc; [|intros H; apply Hnext; auto].
  intros H. injection H as <- <-. exists 0%nat. split; [lia|]. split; [reflexivity|].
  apply Z.ltb_ge in Hi. split; [lia|]. split; [exact Hc|]. intros m row Hm. lia.
Qed.

Lemma find_header_none (SkipRows : Z) (records : list (list string)) (i : Z) :
  find_header i SkipRows records = None ->
  forall (m : nat) row,
    nth_error records m = Some row -> SkipRows <= i + Z.of_nat m ->
    containsFlightDataHeaders row = false.
Proof.
  revert i. induction records as [|record rest IH]; intros i H m row Hrow Hge.
  - destruct m; discriminate.
  - cbn [find_header] in H. destruct m as [|m].
    + cbn in Hrow. injection Hrow as <-.
      destruct (i <? SkipRows) eqn:Hi; [apply Z.ltb_lt in Hi; lia|].
      destruct (containsFlightDataHeaders record); [discriminate|reflexivity].
    + apply (IH (i + 1)) with (m := m); [|exact Hrow|lia].
      destruct (i <? SkipRows); [exact H|].
      destruct (containsFlightDataHeaders record); [discriminate|exact H].
Qed.

Lemma set_own_TimestampSeconds (r : CSVFlightRecord) :
  set_CSV_TimestampSeconds (CSV_TimestampSeconds r) r = r.
Proof. now destruct r. Qed.

Section ParseFacts.

Variable TrimSpace : string -> string.
Variable ParseFloat : string -> option float.
Variable time_Time : Type.
Variable zero_Time : time_Time.
Variable IsZero : time_Time -> bool.
Variable time_Parse : string -> option time_Time.
Variable Sub_Seconds : time_Time -> time_Time -> float.


Lemma parseCSVRecord_width (headers row : list string) :
  length row = length headers ->
  exists r0, parseCSVRecord TrimSpace ParseFloat headers row = Some r0.
Proof.
  intros Hlen. unfold parseCSVRecord. rewrite Hlen, Nat.eqb_refl. cbn [negb].
  eexists. reflexivity.
Qed.

(** A row as wide as the header adds one record, every other row none. *)
Lemma parse_row_step (headers row : list string)
    (state : list CSVFlightRecord * time_Time) :
  (length row =? length headers)%nat = false /\
  parse_row TrimSpace ParseFloat time_Time IsZero time_Parse Sub_Seconds headers state row
  = state \/
  (length row =? length headers)%nat = true /\
  exists r, from_row TrimSpace ParseFloat headers row r /\
            fst (parse_row TrimSpace ParseFloat time_Time IsZero time_Parse Sub_Seconds
                   headers state row) = fst state ++ [r].
Proof.
  unfold parse_row. destruct state as [flightRecords startTime].
  destruct (length row =? length headers)%nat eqn:Hw; cbn [negb]; [right|left; auto].
  split; [reflexivity|]. apply Nat.eqb_eq in Hw.
  destruct (parseCSVRecord_width headers row Hw) as (r0 & Hr0).
 rewrite Hr0.
  destruct (time_Parse (CSV_Time r0)) as [recordTime|].
  - destruct (IsZero startTime); eexists; (split; [exists r0; eexists; eauto|reflexivity]).
  - exists r0. split; [|reflexivity].
    exists r0, (CSV_TimestampSeconds r0). split; [exact Hr0|].
    symmetry. apply set_own_TimestampSeconds.
Qed.

Lemma parse_rows_spec (headers : list string) (rows : list (list string))
    (state : list CSVFlightRecord * time_Time) :
  exists added,
    fst (fold_left
           (parse_row TrimSpace ParseFloat time_Time IsZero time_Parse Sub_Seconds headers)
           rows state) = fst state ++ added /\
    Forall2 (from_row TrimSpace ParseFloat headers) (as_wide_as headers rows) added.
Proof.
  revert state. induction rows as [|row rows IH]; intros state.
  - exists []. split; [now rewrite app_nil_r|constructor].
  - cbn [fold_left]. unfold as_wide_as. cbn [List.filter].
    destruct (IH (parse_row TrimSpace ParseFloat time_Time IsZero time_Parse Sub_Seconds
                    headers state row)) as (added & Hfold & Hall).
    destruct (parse_row_step headers row state) as [[Hw Hsame]|[Hw (r & Hr & Hstep)]];
      rewrite Hw.
    + exists added. rewrite Hfold, Hsame. split; [reflexivity|exact Hall].
    + exists (r :: added). rewrite Hfold, Hstep, <- app_assoc.
      split; [reflexivity|]. constructor; [exact Hr|exact Hall].
Qed.

(** The shape of a successful parse. *)
Lemma ParseCSVFlightData_inr (ReadAll : option (list (list string)))
    (options : CSVImportOptions) (csvData : CSVFlightData) :
  ParseCSVFlightData TrimSpace ParseFloat time_Time zero_Time IsZero time_Parse Sub_Seconds
    ReadAll options = inr csvData ->
  exists records k headers,
    ReadAll = Some records /\ (3 <= length records)%nat /\
    find_header 0 (SkipRows options) records = Some (k, headers) /\
    Headers csvData = headers /\
    Records csvData
    = fst (fold_left
             (parse_row TrimSpace ParseFloat time_Time IsZero time_Parse Sub_Seconds headers)
             (skipn (Z.to_nat (k + 1)) records) ([], zero_Time)) /\
    Records csvData <> [] /\
    Metadata csvData
    = mkCSVMetadata (Source (parseCSVMetadata TrimSpace records options))
        (RecordedAt (parseCSVMetadata TrimSpace records options))
        (FlightTitle (parseCSVMetadata TrimSpace records options))
        (AircraftType (parseCSVMetadata TrimSpace records options))
        (Z.of_nat (length (Records csvData))).
Proof.
  unfold ParseCSVFlightData. destruct ReadAll as [records|]; [|discriminate].
  destruct (length records <? 3)%nat eqn:Hlen; [discriminate|].
  destruct (find_header 0 (SkipRows options) records) as [[k headers]|] eqn:Hfind;
    [|discriminate].
  destruct (fst (fold_left _ _ _)) as [|r flightRecords] eqn:Hfold; [discriminate|].
  intros H. injection H as <-. unfold Headers, Records, Metadata.
  exists records, k, headers. apply Nat.ltb_ge in Hlen.
  split; [reflexivity|]. split; [exact Hlen|]. split; [exact Hfind|].
  split; [reflexivity|]. split; [now rewrite Hfold|]. split; [discriminate|reflexivity].
Qed.

(** X26: what [ParseCSVFlightData] returns.  When it succeeds the file has
    at least three rows; the headers are the first row, at index [SkipRows]
    or later, that has the flight data headers; below it every row as wide
    as the header gives one record, in order, and every other row is
    skipped; there is at least one record, and [TotalRecords] is their
    number. *)
Theorem parsed_csv_rows_below_header (ReadAll : option (list (list string)))
    (options : CSVImportOptions) (csvData : CSVFlightData) :
  ParseCSVFlightData TrimSpace ParseFloat time_Time zero_Time IsZero time_Parse Sub_Seconds
    ReadAll options = inr csvData ->
  exists records (n : nat),
    ReadAll = Some records /\ (3 <= length records)%nat /\
    nth_error records n = Some (Headers csvData) /\
    SkipRows options <= Z.of_nat n /\
    containsFlightDataHeaders (Headers csvData) = true /\
    (forall (m : nat) row,
        (m < n)%nat -> nth_error records m = Some row -> SkipRows options <= Z.of_nat m ->
        containsFlightDataHeaders row = false) /\
    Forall2 (from_row TrimSpace ParseFloat (Headers csvData))
      (as_wide_as (Headers csvData) (skipn (S n) records)) (Records csvData) /\
    Records csvData <> [] /\
    TotalRecords (Metadata csvData) = Z.of_nat (length (Records csvData)).
Proof.
  intros H.
  apply ParseCSVFlightData_inr in H
    as (records & k & headers & -> & Hlen & Hfind & Hh & Hrec & Hne & Hmeta).
  apply find_header_spec in Hfind as (n & -> & Hn & Hk & Hc & Hbefore).
  destruct (parse_rows_spec headers (skipn (Z.to_nat (0 + Z.of_nat n + 1)) records)
              ([], zero_Time)) as (added & Hfold & Hall).
  rewrite <- Hrec in Hfold. cbn [fst app] in Hfold.
  replace (Z.to_nat (0 + Z.of_nat n + 1)) with (S n) in Hall by lia.
  exists records, n. rewrite Hh, Hfold, Hmeta. cbn [TotalRecords].
  split; [reflexivity|]. split; [exact Hlen|]. split; [exact Hn|]. split; [lia|].
  split; [exact Hc|]. split.
  - intros m row Hm Hrow Hge. apply (Hbefore m row Hm Hrow). lia.
  - split; [exact Hall|]. split; [now rewrite <- Hfold|now rewrite Hfold].
Qed.

Lemma parse_column_seconds (flightRecord : CSVFlightRecord) (column : string * string) :
  CSV_TimestampSeconds (parse_column TrimSpace ParseFloat flightRecord column)
  = CSV_TimestampSeconds flightRecord.
Proof.
  unfold parse_column. destruct column as [header cell].
  destruct (String.eqb (TrimSpace cell) ""); [reflexivity|].
  unfold parse_cell. cbv zeta.
  repeat match goal with
         | |- context [if ?b then _ else _] => destruct b
         end;
    try reflexivity; destruct (ParseFloat (TrimSpace cell)); reflexivity.
Qed.

(** [parseCSVRecord] never assigns [TimestampSeconds]. *)
Lemma parseCSVRecord_seconds (headers row : list string) (r0 : CSVFlightRecord) :
  parseCSVRecord TrimSpace ParseFloat headers row = Some r0 ->
  CSV_TimestampSeconds r0 = 0%float.
Proof.
  unfold parseCSVRecord. destruct (negb _); [discriminate|]. intros H. injection H as <-.
  assert (Hfold : forall columns r,
             CSV_TimestampSeconds (fold_left (parse_column TrimSpace ParseFloat) columns r)
             = CSV_TimestampSeconds r).
  { induction columns as [|column columns IH]; intros r; [reflexivity|].
    cbn [fold_left]. rewrite IH. apply parse_column_seconds. }
  rewrite Hfold. reflexivity.
Qed.

Hypothesis zero_Time_IsZero : IsZero zero_Time = true.
Hypothesis parsed_not_zero : forall s t, time_Parse s = Some t -> IsZero t = false.

Lemma parse_rows_seconds (headers : list string) (rows : list (list string))
    (flightRecords : list CSVFlightRecord) (startTime : time_Time) :
  exists added,
    fst (fold_left
           (parse_row TrimSpace ParseFloat time_Time IsZero time_Parse Sub_Seconds headers)
           rows (flightRecords, startTime)) = flightRecords ++ added /\
    map CSV_TimestampSeconds added
    = relative_seconds time_Time time_Parse Sub_Seconds
        (if IsZero startTime then None else Some startTime) added.
Proof.
  revert flightRecords startTime. induction rows as [|row rows IH];
    intros flightRecords startTime.
  - exists []. split; [now rewrite app_nil_r|reflexivity].
  - cbn [fold_left]. unfold parse_row at 2.
    destruct (negb (length row =? length headers)%nat); [apply IH|].
    destruct (parseCSVRecord TrimSpace ParseFloat headers row) as [r0|] eqn:Hr0; [|apply IH].
    pose proof (parseCSVRecord_seconds _ _ _ Hr0) as Hs.
    destruct (time_Parse (CSV_Time r0)) as [recordTime|] eqn:Ht.
    + destruct (IsZero startTime) eqn:Hz.
      * destruct (IH (flightRecords ++ [set_CSV_TimestampSeconds 0 r0]) recordTime)
          as (added & Hfold & Hsec).
        rewrite (parsed_not_zero _ _ Ht) in Hsec.
        exists (set_CSV_TimestampSeconds 0 r0 :: added).
        rewrite Hfold, <- app_assoc. split; [reflexivity|].
        cbn [map relative_seconds set_CSV_TimestampSeconds CSV_Time CSV_TimestampSeconds].
        rewrite Ht, Hsec. reflexivity.
      * destruct (IH (flightRecords
                        ++ [set_CSV_TimestampSeconds (Sub_Seconds recordTime startTime) r0])
                    startTime) as (added & Hfold & Hsec).
        rewrite Hz in Hsec.
        exists (set_CSV_TimestampSeconds (Sub_Seconds recordTime startTime) r0 :: added).
        rewrite Hfold, <- app_assoc. split; [reflexivity|].
        cbn [map relative_seconds set_CSV_TimestampSeconds CSV_Time CSV_TimestampSeconds].
        rewrite Ht, Hsec. reflexivity.
    + destruct (IH (flightRecords ++ [r0]) startTime) as (added & Hfold & Hsec).
      exists (r0 :: added). rewrite Hfold, <- app_assoc. split; [reflexivity|].
      cbn [map relative_seconds]. rewrite Ht, Hs, Hsec.
      destruct (IsZero startTime); reflexivity.
Qed.

(** X27: the seconds of parsed records count from the first time.  When
    the zero [time.Time] is what [IsZero] recognises and no [Time] of the
    file parses to it, the [TimestampSeconds] of the records that
    [ParseCSVFlightData] returns are: 0 for every record whose [Time] does
    not parse and for the first record whose [Time] parses, and for every
    later record the seconds from that first time to its own. *)
Theorem csv_seconds_since_first_time (ReadAll : option (list (list string)))
    (options : CSVImportOptions) (csvData : CSVFlightData) :
  ParseCSVFlightData TrimSpace ParseFloat time_Time zero_Time IsZero time_Parse Sub_Seconds
    ReadAll options = inr csvData ->
  map CSV_TimestampSeconds (Records csvData)
  = relative_seconds time_Time time_Parse Sub_Seconds None (Records csvData).
Proof.
  unfold ParseCSVFlightData. destruct ReadAll as [records|]; [|discriminate].
  destruct (length records <? 3)%nat; [discriminate|].
  destruct (find_header 0 (SkipRows options) records) as [[k headers]|]; [|discriminate].
  destruct (parse_rows_seconds headers (skipn (Z.to_nat (k + 1)) records) [] zero_Time)
    as (added & Hfold & Hsec).
  rewrite Hfold. cbn [app]. rewrite zero_Time_IsZero in Hsec.
  destruct added as [|r added]; [discriminate|].
  intros H. injection H as <-. exact Hsec.
Qed.

End ParseFacts.

Lemma example_time_not_zero (s : string) (t : Z) :
  example_time_Parse s = Some t -> (0 =? t) = false.
Proof.
  unfold example_time_Parse.
  repeat match goal with
         | |- context [if ?b then _ else _] => destruct b
         end; intros H; [injection H as <-; reflexivity ..|discriminate].
Qed.

Lemma existsb_nth_error {A : Type} (p : A -> bool) (l : list A) :
  existsb p l = true <-> exists (m : nat) x, nth_error l m = Some x /\ p x = true.
Proof.
  rewrite existsb_exists. split.
  - intros (x & Hin & Hp). apply In_nth_error in Hin as (m & Hm). eauto.
  - intros (m & x & Hm & Hp). exists x. split; [eapply nth_error_In, Hm|exact Hp].
Qed.

(** X28: validation and parsing agree but for the skipped rows.  A file
    that [ParseCSVFlightData] parses passes [ValidateCSVStructure]; a file
    that passes [ValidateCSVStructure] can fail to parse only for want of a
    header row or for want of a valid record, and it wants a header row
    only when every row that has the flight data headers is among the first
    [SkipRows] rows. *)
Theorem validated_csv_parses_but_for_skipped_rows (TrimSpace : string -> string)
    (ParseFloat : string -> option float) (time_Time : Type) (zero_Time : time_Time)
    (IsZero : time_Time -> bool) (time_Parse : string -> option time_Time)
    (Sub_Seconds : time_Time -> time_Time -> float)
    (ReadAll : option (list (list string))) (options : CSVImportOptions) :
  let parsed :=
    ParseCSVFlightData TrimSpace ParseFloat time_Time zero_Time IsZero time_Parse
      Sub_Seconds ReadAll options in
  (forall csvData, parsed = inr csvData -> ValidateCSVStructure ReadAll = None) /\
  (ValidateCSVStructure ReadAll = None ->
   forall e, parsed = inl e ->
     e = ErrNoValidRecords \/
     e = ErrNoHeaderRow /\
     exists records,
       ReadAll = Some records /\
       (exists (m : nat) row,
           nth_error records m = Some row /\ containsFlightDataHeaders row = true) /\
       forall (m : nat) row,
         nth_error records m = Some row -> containsFlightDataHeaders row = true ->
         Z.of_nat m < SkipRows options).
Proof.
  cbv zeta. unfold ParseCSVFlightData, ValidateCSVStructure.
  destruct ReadAll as [records|]; [|split; [discriminate|discriminate]].
  destruct (length records <? 3)%nat; [split; [discriminate|discriminate]|].
  destruct (find_header 0 (SkipRows options) records) as [[k headers]|] eqn:Hfind.
  - apply find_header_spec in Hfind as (n & _ & Hn & _ & Hc & _).
    assert (Hex : existsb containsFlightDataHeaders records = true).
    { apply existsb_nth_error. eauto. }
    rewrite Hex. split; [reflexivity|]. intros _ e.
    destruct (fst (fold_left _ _ _)); [|discriminate].
    intros H. injection H as <-. now left.
  - split; [discriminate|].
    destruct (existsb containsFlightDataHeaders records) eqn:Hex; [|discriminate].
    intros _ e H. injection H as <-. right. split; [reflexivity|].
    exists records. split; [reflexivity|]. split; [now apply existsb_nth_error|].
    intros m row Hrow Hc. destruct (Z.lt_ge_cases (Z.of_nat m) (SkipRows options)) as [|Hge];
      [assumption|].
    rewrite (find_header_none _ _ _ Hfind m row Hrow) in Hc; [discriminate|lia].
Qed.

(* --------------------------------------------------------------------- *)
(** ** The columns of a CSV export *)
(* --------------------------------------------------------------------- *)

(** Reduce an assignment to a record that is written out. *)
Ltac record_fields set :=
  cbv beta iota delta
    [set
     CSV_Time CSV_TimestampSeconds AirspeedIndicated AirspeedTrue GroundSpeed
     CSV_Altitude GroundElevation CSV_Latitude CSV_Longitude BankAngle
     PitchAngle HeadingMagnetic HeadingTrue AmbientTemperature AmbientWindDirection
     AmbientWindVelocity FlapsHandlePosition FuelTotalQuantity GearDown OnGround
     GForce VerticalSpeed OverspeedWarning StallWarning].

Section ColumnFacts.

Variable TrimSpace : string -> string.
Variable ParseFloat : string -> option float.

(** A column whose header selects the case of a float64 field. *)
Lemma parse_column_float (set : float -> CSVFlightRecord -> CSVFlightRecord)
    (r : CSVFlightRecord) (header cell : string) :
  (forall value,
      parse_cell TrimSpace ParseFloat header value r
      = match ParseFloat value with
        | Some val => set val r
        | None => r
        end) ->
  set 0%float r = r ->
  parse_column TrimSpace ParseFloat r (header, cell)
  = set (cell_float TrimSpace ParseFloat cell) r.
Proof.
  intros Hcase Hzero. unfold parse_column, cell_float.
  destruct (String.eqb (TrimSpace cell) ""); [now rewrite Hzero|].
  rewrite Hcase. destruct (ParseFloat (TrimSpace cell)); [reflexivity|now rewrite Hzero].
Qed.

(** A column whose header selects the case of a bool field. *)
Lemma parse_column_bool (set : bool -> CSVFlightRecord -> CSVFlightRecord)
    (r : CSVFlightRecord) (header cell : string) :
  (forall value,
      parse_cell TrimSpace ParseFloat header value r = set (parseBool TrimSpace value) r) ->
  set false r = r ->
  parse_column TrimSpace ParseFloat r (header, cell) = set (cell_bool TrimSpace cell) r.
Proof.
  intros Hcase Hzero. unfold parse_column, cell_bool.
  destruct (String.eqb (TrimSpace cell) ""); [now rewrite Hzero|apply Hcase].
Qed.

(** A column whose header has Time in it. *)
Lemma parse_column_time (r : CSVFlightRecord) (header cell : string) :
  (forall value, parse_cell TrimSpace ParseFloat header value r = set_CSV_Time value r) ->
  set_CSV_Time "" r = r ->
  parse_column TrimSpace ParseFloat r (header, cell) = set_CSV_Time (TrimSpace cell) r.
Proof.
  intros Hcase Hzero. unfold parse_column.
  destruct (String.eqb (TrimSpace cell) "") eqn:Hblank; [|apply Hcase].
  apply String.eqb_eq in Hblank. now rewrite Hblank, Hzero.
Qed.

(** Pass one column: its case of the switch is found by computation, and
    the assignment is carried out on the record written out. *)
Ltac float_column set cell :=
  rewrite (parse_column_float set _ _ cell) by (intros; reflexivity); record_fields set.

Ltac bool_column set cell :=
  rewrite (parse_column_bool set _ _ cell) by (intros; reflexivity); record_fields set.

(** X29: under the documented column names every column reaches its own
    field.  For a row of the 23 cells of the csv tags of [CSVFlightRecord],
    [parseCSVRecord] gives the record whose [Time] is the trimmed first
    cell, whose float64 fields are what [strconv.ParseFloat] gives for the
    trimmed cell of their column (0 for a blank cell or one that is not a
    number), and whose bool fields are [parseBool] of the trimmed cell of
    their column (false for a blank cell); [TimestampSeconds] is 0. *)
Theorem documented_columns_reach_their_fields
  (time airspeedIndicated airspeedTrue groundSpeed altitude groundElevation latitude
    longitude bankAngle pitchAngle headingMagnetic headingTrue ambientTemperature
    ambientWindDirection ambientWindVelocity flapsHandlePosition fuelTotalQuantity
    gearDown onGround gForce verticalSpeed overspeedWarning stallWarning : string) :
  parseCSVRecord TrimSpace ParseFloat documented_headers
    [time; airspeedIndicated; airspeedTrue; groundSpeed; altitude; groundElevation;
       latitude; longitude; bankAngle; pitchAngle; headingMagnetic; headingTrue;
       ambientTemperature; ambientWindDirection; ambientWindVelocity;
       flapsHandlePosition; fuelTotalQuantity; gearDown; onGround; gForce;
       verticalSpeed; overspeedWarning; stallWarning]
  = Some
         (mkCSVFlightRecord (TrimSpace time) 0
            (cell_float TrimSpace ParseFloat airspeedIndicated)
            (cell_float TrimSpace ParseFloat airspeedTrue)
            (cell_float TrimSpace ParseFloat groundSpeed)
            (cell_float TrimSpace ParseFloat altitude)
            (cell_float TrimSpace ParseFloat groundElevation)
            (cell_float TrimSpace ParseFloat latitude)
            (cell_float TrimSpace ParseFloat longitude)
            (cell_float TrimSpace ParseFloat bankAngle)
            (cell_float TrimSpace ParseFloat pitchAngle)
            (cell_float TrimSpace ParseFloat headingMagnetic)
            (cell_float TrimSpace ParseFloat headingTrue)
            (cell_float TrimSpace ParseFloat ambientTemperature)
            (cell_float TrimSpace ParseFloat ambientWindDirection)
            (cell_float TrimSpace ParseFloat ambientWindVelocity)
            (cell_float TrimSpace ParseFloat flapsHandlePosition)
            (cell_float TrimSpace ParseFloat fuelTotalQuantity)
            (cell_bool TrimSpace gearDown) (cell_bool TrimSpace onGround)
            (cell_float TrimSpace ParseFloat gForce)
            (cell_float TrimSpace ParseFloat verticalSpeed)
            (cell_bool TrimSpace overspeedWarning) (cell_bool TrimSpace stallWarning)).
Proof.
  unfold parseCSVRecord, documented_headers, zero_CSVFlightRecord.
  cbn [length Nat.eqb negb combine fold_left]. f_equal.
  rewrite (parse_column_time _ _ time) by (intros; reflexivity).
  record_fields set_CSV_Time.
  float_column set_AirspeedIndicated airspeedIndicated.
  float_column set_AirspeedTrue airspeedTrue.
  float_column set_GroundSpeed groundSpeed.
  float_column set_CSV_Altitude altitude.
  float_column set_GroundElevation groundElevation.
  float_column set_CSV_Latitude latitude.
  float_column set_CSV_Longitude longitude.
  float_column set_BankAngle bankAngle.
  float_column set_PitchAngle pitchAngle.
  float_column set_HeadingMagnetic headingMagnetic.
  float_column set_HeadingTrue headingTrue.
  float_column set_AmbientTemperature ambientTemperature.
  float_column set_AmbientWindDirection ambientWindDirection.
  float_column set_AmbientWindVelocity ambientWindVelocity.
  float_column set_FlapsHandlePosition flapsHandlePosition.
  float_column set_FuelTotalQuantity fuelTotalQuantity.
  bool_column set_GearDown gearDown.
  bool_column set_OnGround onGround.
  float_column set_GForce gForce.
  float_column set_VerticalSpeed verticalSpeed.
  bool_column set_OverspeedWarning overspeedWarning.
  bool_column set_StallWarning stallWarning.
  reflexivity.
Qed.

End ColumnFacts.

(* --------------------------------------------------------------------- *)
(** ** Uploading a CSV file *)
(* --------------------------------------------------------------------- *)

Lemma metadata_row_keeps (TrimSpace : string -> string) (metadata : CSVMetadata)
    (record : list string) :
  FlightTitle (metadata_row TrimSpace metadata record) = FlightTitle metadata /\
  AircraftType (metadata_row TrimSpace metadata record) = AircraftType metadata.
Proof.
  unfold metadata_row. destruct record as [|cell record]; [now split|].
  repeat match goal with
         | |- context [if ?b then _ else _] => destruct b
         end; now split.
Qed.

(** A title and an aircraft type given in the options are kept. *)
Lemma parseCSVMetadata_given (TrimSpace : string -> string) (records : list (list string))
    (options : CSVImportOptions) :
  (Options_FlightTitle options <> "" ->
   FlightTitle (parseCSVMetadata TrimSpace records options) = Options_FlightTitle options) /\
  (Options_AircraftType options <> "" ->
   AircraftType (parseCSVMetadata TrimSpace records options)
   = Options_AircraftType options).
Proof.
  unfold parseCSVMetadata.
  assert (Hfold : forall rows metadata,
             FlightTitle (fold_left (metadata_row TrimSpace) rows metadata)
             = FlightTitle metadata /\
             AircraftType (fold_left (metadata_row TrimSpace) rows metadata)
             = AircraftType metadata).
  { induction rows as [|row rows IH]; intros metadata; [now split|].
    cbn [fold_left]. destruct (IH (metadata_row TrimSpace metadata row)) as [-> ->].
    apply metadata_row_keeps. }
  destruct (Hfold (firstn 5 records)
              (mkCSVMetadata "" "" (Options_FlightTitle options)
                 (Options_AircraftType options) 0)) as [Ht Ha].
  cbn [FlightTitle AircraftType] in *. rewrite Ht, Ha. split; intros Hne.
  - destruct (String.eqb_spec (Options_FlightTitle options) ""); [contradiction|reflexivity].
  - destruct (String.eqb_spec (Options_AircraftType options) ""); [contradiction|reflexivity].
Qed.

Lemma extractFlightTitle_not_empty (ToUpper_fragment : ascii -> string) (filename : string) :
  ascii_only filename -> extractFlightTitle ToUpper_fragment filename <> "".
Proof.
  intros Hascii. unfold extractFlightTitle.
  pose proof (underscores_to_spaces_spec
                (TrimPrefix (TrimSuffix filename (Ext filename)) "uploaded_")
                (Forall_TrimPrefix _ _ _ (Forall_TrimSuffix _ _ _ Hascii))) as [Ha _].
  destruct (underscores_to_spaces _) as [|c rest]; cbv zeta; [discriminate|].
  unfold ascii_only in Ha. cbn [list_ascii_of_string] in Ha.
  inversion Ha as [|? ? Hc _]; subst.
  unfold ToUpper_first. destruct (Nat.ltb_spec (nat_of_ascii c) 128); [|lia].
  cbn [String.append String.eqb]. discriminate.
Qed.

(** X30: an uploaded CSV file becomes one flight or nothing.  For a file
    name of ASCII bytes, whatever [importCSVFile] reports as an error
    leaves the store as it was; when it reports a flight, the file passed
    [ValidateCSVStructure] and was parsed with two rows skipped, the
    reported title is the title that [extractFlightTitle] makes of the file
    name, and the store has gained exactly one flight with that title, one
    aircraft of type 'Unknown', and the telemetry rows of the parsed
    records. *)
Theorem uploaded_csv_is_one_flight (faults : nat -> bool) (localtime : string)
    (ToUpper_fragment : ascii -> string) (TrimSpace : string -> string)
    (ParseFloat : string -> option float) (time_Time : Type) (zero_Time : time_Time)
    (IsZero : time_Time -> bool) (time_Parse : string -> option time_Time)
    (Sub_Seconds : time_Time -> time_Time -> float)
    (ReadAll : option (list (list string))) (filename : string) (mainDB : DB) :
  ascii_only filename ->
  let outcome :=
    importCSVFile faults localtime ToUpper_fragment TrimSpace ParseFloat time_Time
      zero_Time IsZero time_Parse Sub_Seconds ReadAll filename mainDB in
  (forall e, fst outcome = inl e -> snd outcome = mainDB) /\
  (forall fl, fst outcome = inr fl ->
     ValidateCSVStructure ReadAll = None /\
     Title fl = extractFlightTitle ToUpper_fragment filename /\
     exists csvData f a,
       ParseCSVFlightData TrimSpace ParseFloat time_Time zero_Time IsZero time_Parse
         Sub_Seconds ReadAll
         (mkCSVImportOptions (extractFlightTitle ToUpper_fragment filename) "Unknown" 2)
       = inr csvData /\
       grows mainDB (snd outcome) [f] [a]
         (csv_series (aircraft_id a) (Records csvData)) [] /\
       flight_id f = ID fl /\ flight_title f = Some (Title fl) /\
       aircraft_flight_id a = ID fl /\ aircraft_type a = "Unknown").
Proof.
  intros Hascii. cbv zeta. unfold importCSVFile.
  destruct (ValidateCSVStructure ReadAll) as [e0|];
    [split; [reflexivity|discriminate]|].
  destruct (ParseCSVFlightData _ _ _ _ _ _ _ _ _) as [e1|csvData] eqn:Hparse;
    [split; [reflexivity|discriminate]|].
  destruct (ImportFlightFromCSV faults localtime csvData mainDB) as [[e2|flight] db']
    eqn:Himport; cbn [fst snd].
  - split; [|discriminate]. intros _ _. exact (ImportFlightFromCSV_error _ _ _ _ _ _ Himport).
  - split; [discriminate|]. intros fl Hfl. injection Hfl as <-.
    apply ImportFlightFromCSV_ok in Himport as (_ & -> & G).
    pose proof Hparse as Hshape.
    apply ParseCSVFlightData_inr in Hshape
      as (records & k & headers & _ & _ & _ & _ & _ & _ & Hmeta).
    destruct (parseCSVMetadata_given TrimSpace records
                (mkCSVImportOptions (extractFlightTitle ToUpper_fragment filename)
                   "Unknown" 2)) as [Htitle Htype].
    cbn [Options_FlightTitle Options_AircraftType] in Htitle, Htype.
    specialize (Htitle (extractFlightTitle_not_empty ToUpper_fragment filename Hascii)).
    assert (Ht : FlightTitle (Metadata csvData)
                 = extractFlightTitle ToUpper_fragment filename).
    { rewrite Hmeta. exact Htitle. }
    assert (Ha : AircraftType (Metadata csvData) = "Unknown").
    { rewrite Hmeta. apply Htype. discriminate. }
    cbn [Title ID]. split; [reflexivity|]. split; [exact Ht|].
    eexists csvData, _, _. split; [reflexivity|]. split; [exact G|].
    cbn [csv_flight_row csv_aircraft_row flight_id flight_title aircraft_flight_id
           aircraft_type].
    split; [reflexivity|]. split; [reflexivity|]. split; [reflexivity|exact Ha].
Qed.

(** The example file is imported: its two rows of four cells give two
    position rows, one second apart. *)
Lemma uploaded_csv_example :
  let outcome :=
    importCSVFile no_faults "2025-07-30T21:05:41.000" replacement_character (fun s => s)
      example_ParseFloat Z 0 (Z.eqb 0) example_time_Parse example_Sub_Seconds
      (Some example_csv_rows) "uploaded_evening_circuit.csv" example_flight_store in
  fst outcome
  = inr (mkFlight 2 0 "Evening circuit" "CSV Import" " 7/30/2025 9:05:41 PM"
           " 7/30/2025 9:05:41 PM") /\
  map timestamp (List.filter (fun r => row_aircraft_id r =? 2) (position_rows (snd outcome)))
  = [1690000000000; 1690000002000].
Proof. vm_compute. split; reflexivity. Qed.

End WithDriver.

(* ===================================================================== *)
(** * Worked examples *)
(* ===================================================================== *)

(** The theorems above hold for every driver.  The examples below run the
    program with [example_driver]. *)
#[local] Existing Instance example_driver.

(** C8, as stated, fails in both directions: three columns that all contain
    "time" are recognized although one keyword appears, and one column that
    contains three keywords is not. *)
Lemma header_rule_is_not_keyword_count :
  (containsFlightDataHeaders ["Time"; "Timestamp"; "Local time"] = true /\
   spec_header_rule ["Time"; "Timestamp"; "Local time"] = false) /\
  (containsFlightDataHeaders ["Time Altitude Latitude"] = false /\
   spec_header_rule ["Time Altitude Latitude"] = true).
Proof. repeat split; reflexivity. Qed.

Lemma statistics_exclude_sentinels_witness :
  exists stats : FlightStatistics,
    CalculateFlightStatistics {[ "aircraft 1" := example_points ]} !! "aircraft 1"
      = Some stats /\
    computed_over (List.filter positive (map Airspeed example_points))
      (AirspeedStats stats) /\
    computed_over (List.filter nonzero (map IndicatedAltitude example_points))
      (IndicatedAltitudeStats stats) /\
    computed_over (List.filter nonzero (map Altitude example_points))
      (AltitudeStats stats) /\
    computed_over (List.filter nonzero (map PressureAltitude example_points))
      (PressureAltitudeStats stats) /\
    (forall p, In p example_points -> PrimFloat.ltb (Altitude p) 0 = true ->
               In (Altitude p) (List.filter nonzero (map Altitude example_points))) /\
    (forall x, In x (List.filter positive (map Airspeed example_points)) ->
               PrimFloat.ltb 0 x = true) /\
    (forall x, In x (List.filter nonzero (map Altitude example_points)) ->
               PrimFloat.eqb x 0 = false).
Proof.
  apply (statistics_exclude_sentinels {[ "aircraft 1" := example_points ]}
           "aircraft 1" example_points).
  - reflexivity.
  - discriminate.
Defined.

Lemma trim_request_rejected_witness :
  exists status : Z,
    handleTrimFlight (fun _ => false) "POST" (Some example_trim_request) empty_store
      = (status, empty_store) /\
    (status = StatusBadRequest \/ status = StatusMethodNotAllowed \/
     status = StatusConflict) /\
    ("POST" = "POST" -> trim_FlightID example_trim_request <> 0 ->
     trim_NewTitle example_trim_request <> "" ->
     status = if PrimFloat.leb (trim_EndTime example_trim_request)
                   (trim_StartTime example_trim_request)
                 || PrimFloat.ltb
                      (PrimFloat.sub (trim_EndTime example_trim_request)
                         (trim_StartTime example_trim_request)) 1
              then StatusBadRequest else StatusConflict).
Proof.
  apply (trim_request_rejected (fun _ => false) "POST" example_trim_request empty_store).
  right. left. reflexivity.
Defined.

Lemma import_is_atomic_witness :
  exists e,
    ImportFlightsFromDatabase (fails_at 14) example_source example_store
    = (Err e, example_store).
Proof.
  apply (proj1 (proj2 (import_is_atomic (fails_at 14) example_source example_store))).
  exists 14%nat. split; [vm_compute; lia | reflexivity].
Defined.

(** C6 as stated fails for an id that is zero or negative: no flight has
    it, and the error is the guard's invalid-id error, not the not-found
    error. *)
Lemma delete_nonpositive_id_is_invalid_not_missing :
  ~ In 0 (map flight_id (flight example_store)) /\
  DeleteFlight no_faults 0 example_store = (Err (ErrInvalidFlightID 0), example_store) /\
  DeleteFlight no_faults 0 example_store <> (Err (ErrFlightNotFound 0), example_store) /\
  DeleteFlight no_faults 5 example_store = (Err (ErrFlightNotFound 5), example_store).
Proof.
  split; [|split; [reflexivity|split; [discriminate|reflexivity]]].
  cbn. intros [H|[]]. discriminate.
Qed.

Lemma duplicated_markers_are_regular_witness :
  exists added,
    markers (snd (duplicateFlight no_faults 1 "F2" example_flight_store))
    = markers example_flight_store ++ added /\
    Forall2 (regular_copy 2) (markers_of 1 example_flight_store) added /\
    Forall (fun m => marker_type m = "regular") added.
Proof.
  apply (duplicated_markers_are_regular no_faults 1 "F2" example_flight_store
           (snd (duplicateFlight no_faults 1 "F2" example_flight_store)) 2).
  vm_compute. reflexivity.
Defined.

(** C3 as stated fails in a store that the program itself reaches.  POST
    /data-analysis/markers accepts a marker for the flight id 2, which no
    flight has (no foreign key is enforced), and answers 200.  The
    duplicate of flight 1 under the fresh title F2 then gets the id 2, and
    has four markers where flight 1 has three. *)
Lemma duplicate_inherits_stray_marker :
  let db := snd (handleCreateMarker no_faults (Some stray_marker) example_flight_store) in
  let db' := snd (duplicateFlight no_faults 1 "F2" db) in
  fst (handleCreateMarker no_faults (Some stray_marker) example_flight_store) = StatusOK /\
  In 1 (map flight_id (flight db)) /\
  flightTitleExists "F2" db = Ok false /\
  fst (duplicateFlight no_faults 1 "F2" db) = Ok 2 /\
  length (List.filter (fun m => marker_flight_id m =? 1) (markers db)) = 3%nat /\
  length (List.filter (fun m => marker_flight_id m =? 1) (markers db')) = 3%nat /\
  length (List.filter (fun m => marker_flight_id m =? 2) (markers db')) = 4%nat /\
  length (List.filter (fun m => marker_flight_id m =? 2) (markers db'))
  <> length (List.filter (fun m => marker_flight_id m =? 1) (markers db)).
Proof.
  repeat split; try (vm_compute; reflexivity).
  - vm_compute. tauto.
  - vm_compute. discriminate.
Qed.

Lemma duplicate_round_trip_witness :
  (exists newID db',
      duplicateFlight no_faults 1 "F2" example_flight_store = (Ok newID, db')) /\
  (forall newID db',
      duplicateFlight no_faults 1 "F2" example_flight_store = (Ok newID, db') ->
      duplicate_of example_flight_store 1 "F2" db' newID).
Proof.
  apply (duplicate_round_trip no_faults example_flight_store 1 "F2").
  - exact example_flight_store_ok.
  - left. reflexivity.
Defined.

(** The position series of the example, trimmed to [10 s, 40 s]: its
    minimum is 1000, the window is [11000, 41000], on whose start a row
    lies, and the new series starts at 1000 and ends at 31000. *)
Lemma trim_series_own_time_base_witness :
  min_of (map timestamp (rows_of 1 (position_rows example_flight_store))) = Some 1000 /\
  In (1000 + milliseconds 10)
    (map timestamp (rows_of 1 (position_rows example_flight_store))) /\
  exists added,
    added = shifted_rows 2 1000 (milliseconds 10) (milliseconds 40)
              (rows_of 1 (position_rows example_flight_store)) /\
    map timestamp added = [1000; 11000; 21000; 31000] /\
    (forall s, rows_of 1 (series (tx_db s) position)
               = rows_of 1 (position_rows example_flight_store) ->
       exists s',
         duplicateSeriesDataTrimmed no_faults position 1 2 10 40 s = Ok (tt, s') /\
         grows (tx_db s) (tx_db s') [] [] (only position added) []) /\
    Forall (fun r => row_aircraft_id r = 2 /\
                     1000 <= timestamp r <= 1000 + (milliseconds 40 - milliseconds 10))
      added /\
    min_of (map timestamp added) = Some 1000.
Proof.
  assert (Hmin : min_of (map timestamp (rows_of 1 (position_rows example_flight_store)))
                 = Some 1000) by reflexivity.
  assert (Hin : In (1000 + milliseconds 10)
                  (map timestamp (rows_of 1 (position_rows example_flight_store))))
    by (vm_compute; tauto).
  split; [exact Hmin|]. split; [exact Hin|].
  destruct (trim_series_own_time_base position 1 2 10 40
              (rows_of 1 (position_rows example_flight_store)) 1000 Hmin)
    as [added [Hadded [Hrun Hexact]]].
  assert (Hfit : forall z, - 2 ^ 62 <= z <= 2 ^ 62 -> Int64.in_range z).
  { intros z Hz. unfold Int64.in_range, Int64.min_signed, Int64.max_signed. lia. }
  assert (HS : milliseconds 10 = 10000) by reflexivity.
  assert (HE : milliseconds 40 = 40000) by reflexivity.
  destruct Hexact as [Hshift [Hrange Hstart]];
    [apply Hfit; lia | rewrite HS, HE; lia | rewrite HS; apply Hfit; lia
    | rewrite HE; apply Hfit; lia | rewrite HS, HE; apply Hfit; lia |].
  exists added. split; [exact Hshift|]. split; [rewrite Hshift; reflexivity|].
  split; [exact Hrun|]. split; [exact Hrange|]. apply Hstart. exact Hin.
Defined.

(** C5 as stated fails where no row lies on the window start: the attitude
    series of the example has its minimum at 5000, and its trim to
    [10 s, 40 s] starts at 20000. *)
Lemma trimmed_series_can_start_after_its_minimum :
  let db' := snd (trimFlight no_faults 1 "F2" 10 40 example_flight_store) in
  fst (trimFlight no_faults 1 "F2" 10 40 example_flight_store) = Ok 2 /\
  min_of (map timestamp (rows_of 1 (attitude_rows example_flight_store))) = Some 5000 /\
  min_of (map timestamp (rows_of 2 (attitude_rows db'))) = Some 20000 /\
  min_of (map timestamp (rows_of 2 (attitude_rows db')))
  <> min_of (map timestamp (rows_of 1 (attitude_rows example_flight_store))).
Proof. repeat split; try (vm_compute; reflexivity). vm_compute. discriminate. Qed.

Lemma statistics_min_max_bound_witness :
  exists ds, calculateDataStatistics [3; 1; 2]%float = Some ds /\
    In (Min ds) [3; 1; 2]%float /\ In (Max ds) [3; 1; 2]%float /\
    forall x, In x [3; 1; 2]%float ->
      PrimFloat.ltb x (Min ds) = false /\ PrimFloat.ltb (Max ds) x = false.
Proof.
  eexists. split; [reflexivity|].
  apply (statistics_min_max_bound [3; 1; 2]%float). reflexivity.
Defined.

Lemma variance_over_time_windows_witness :
  let variances := CalculateVarianceOverTime [1; 3; 5; 5]%float 2 in
  Z.of_nat (length variances) = 3 /\
  forall i, 0 <= i <= 2 ->
    exists stats,
      calculateDataStatistics (slice [1; 3; 5; 5]%float i (i + 2)) = Some stats /\
      Count stats = 2 /\
      at_index variances i = Variance stats.
Proof.
  apply (variance_over_time_windows [1; 3; 5; 5]%float 2). cbn. lia.
Defined.

Lemma delete_keeps_store_ok_witness :
  store_ok (snd (DeleteFlight no_faults 1 example_flight_store)).
Proof.
  apply (delete_keeps_store_ok no_faults 1 example_flight_store).
  - exact example_flight_store_ok.
  - vm_compute. reflexivity.
Defined.

Lemma duplicate_keeps_store_ok_witness :
  store_ok (snd (duplicateFlight no_faults 1 "F2" example_flight_store)).
Proof.
  apply (duplicate_keeps_store_ok no_faults example_flight_store _ 1 "F2" 2).
  - exact example_flight_store_ok.
  - vm_compute. reflexivity.
Defined.

Lemma duplicate_then_delete_restores_witness :
  same_tables example_flight_store
    (snd (DeleteFlight no_faults 2
            (snd (duplicateFlight no_faults 1 "F2" example_flight_store)))).
Proof.
  apply (duplicate_then_delete_restores no_faults no_faults example_flight_store
           (snd (duplicateFlight no_faults 1 "F2" example_flight_store)) _ 1 "F2" 2).
  - exact example_flight_store_ok.
  - vm_compute. reflexivity.
  - vm_compute. reflexivity.
Defined.

Lemma trim_flight_derived_copy_witness :
  (exists newID db',
      trimFlight no_faults 1 "F2" 10 40 example_flight_store = (Ok newID, db')) /\
  (forall newID db',
      trimFlight no_faults 1 "F2" 10 40 example_flight_store = (Ok newID, db') ->
      derived_copy (window_rows example_flight_store 10 40) (trimmed_marker newID 10)
        (window_markers 1 10 40 example_flight_store) example_flight_store 1 "F2"
        db' newID).
Proof.
  apply (trim_flight_derived_copy no_faults example_flight_store 1 "F2" 10 40).
  - exact example_flight_store_ok.
  - cbn. lia.
  - exact example_complete_telemetry.
Defined.

Lemma trim_then_delete_restores_witness :
  store_ok (snd (trimFlight no_faults 1 "F2" 10 40 example_flight_store)) /\
  same_tables example_flight_store
    (snd (DeleteFlight no_faults 2
            (snd (trimFlight no_faults 1 "F2" 10 40 example_flight_store)))).
Proof.
  apply (trim_then_delete_restores no_faults no_faults example_flight_store
           (snd (trimFlight no_faults 1 "F2" 10 40 example_flight_store)) _
           1 "F2" 10 40 2).
  - exact example_flight_store_ok.
  - exact example_complete_telemetry.
  - vm_compute. reflexivity.
  - vm_compute. reflexivity.
Defined.

Lemma trim_marker_upsert_lookup_witness :
  exists m db',
    createOrUpdateTrimMarker no_faults 1 "trim_start" 12 "new start" example_flight_store
    = (Ok m, db') /\
    Marker_Time m = 12%float /\
    exists m', getTrimMarker 1 "trim_start" db' = Ok m' /\ Marker_ID m' = Marker_ID m /\
               Marker_Time m' = 12%float /\ Marker_Label m' = "new start".
Proof.
  eexists _, _. split; [vm_compute; reflexivity|].
  destruct (trim_marker_upsert_lookup no_faults 1 "trim_start" 12 "new start"
              example_flight_store _ _ eq_refl)
    as (_ & Ht & _ & _ & m' & Hget & Hid & _ & Ht' & Hl' & _).
  split; [exact Ht|]. exists m'. repeat split; assumption.
Defined.

Lemma delete_trim_markers_clears_witness :
  getTrimMarker 1 "trim_start" (snd (deleteTrimMarkers no_faults 1 example_flight_store))
  = Err ErrNoRows /\
  map marker_id (markers (snd (deleteTrimMarkers no_faults 1 example_flight_store))) = [3].
Proof.
  destruct (delete_trim_markers_clears no_faults 1 example_flight_store
              (snd (deleteTrimMarkers no_faults 1 example_flight_store)) eq_refl)
    as (H1 & _ & H3 & _).
  split; [exact H1|]. rewrite H3. reflexivity.
Defined.

Lemma created_marker_is_listed_witness :
  exists m db',
    createMarker no_faults (mkMarker 0 1 25 "gear up" "" "") example_flight_store
    = (Ok m, db') /\
    Marker_Type m = "regular" /\ Marker_ID m = 4.
Proof.
  eexists _, _. split; [vm_compute; reflexivity|].
  destruct (created_marker_is_listed no_faults (mkMarker 0 1 25 "gear up" "" "")
              example_flight_store _ _ eq_refl) as (Ht & _).
  split; [exact Ht|reflexivity].
Defined.


Lemma position_points_follow_rows_witness :
  exists points,
    getPositionDataWithAirspeedFromMainDB no_ParseFloat 1 example_twin_store = Some points /\
    map Timestamp points = [1000; 3000] /\
    map Airspeed points = [90; 0]%float.
Proof.
  eexists. split; [vm_compute; reflexivity|].
  destruct (position_points_follow_rows no_ParseFloat 1 example_twin_store _ eq_refl)
    as (Hts & _ & _).
  split; [exact Hts|reflexivity].
Defined.

Lemma flight_data_by_label_witness :
  exists flightData points,
    getFlightDataFromMainDB no_ParseFloat 1 example_twin_store = Ok flightData /\
    getPositionDataWithAirspeedFromMainDB no_ParseFloat 2 example_twin_store = Some points /\
    PositionData flightData !! "C172" = Some points /\
    size (PositionData flightData) = 1%nat.
Proof.
  eexists _, _. split; [reflexivity|]. split; [reflexivity|].
  destruct (flight_data_by_label no_ParseFloat 1 example_twin_store _ eq_refl)
    as [_ Hlast].
  split; [|vm_compute; reflexivity].
  apply (Hlast [mkAircraftRow 1 1 1 "C172" None None []]
               (mkAircraftRow 2 1 2 "C172" None None []) []).
  - reflexivity.
  - split; [reflexivity|discriminate].
  - intros b later [].
Defined.

Lemma flight_title_is_presentable_witness :
  extractFlightTitle replacement_character "uploaded_.csv" <> "" /\
  no_underscore (extractFlightTitle replacement_character "uploaded_.csv") /\
  extractFlightTitle replacement_character "uploaded_.csv" = "CSV Flight Data".
Proof.
  destruct (flight_title_is_presentable replacement_character "uploaded_.csv")
    as [Hne [Hno Hdefault]].
  - unfold ascii_only. cbn. repeat constructor.
  - split; [exact Hne|]. split; [exact Hno|]. apply Hdefault. reflexivity.
Defined.

Lemma csv_import_then_delete_restores_witness :
  store_ok (snd (ImportFlightFromCSV no_faults "2025-07-30T21:05:41.000" example_csv_data
                   example_flight_store)) /\
  same_tables example_flight_store
    (snd (DeleteFlight no_faults 2
            (snd (ImportFlightFromCSV no_faults "2025-07-30T21:05:41.000" example_csv_data
                    example_flight_store)))).
Proof.
  destruct (csv_import_then_delete_restores no_faults no_faults "2025-07-30T21:05:41.000"
              example_csv_data example_flight_store
              (snd (ImportFlightFromCSV no_faults "2025-07-30T21:05:41.000"
                      example_csv_data example_flight_store))
              (mkFlight 2 0 "Circuit" "CSV Import" "7/30/2025 9:05:41 PM"
                 "7/30/2025 9:05:41 PM") example_flight_store_ok eq_refl)
    as [Hok Hdel].
  split; [exact Hok|]. apply Hdel. vm_compute. reflexivity.
Defined.

Lemma csv_import_flight_read_back_witness :
  getFlightByIDFromMainDB 2
    (snd (ImportFlightFromCSV no_faults "2025-07-30T21:05:41.000" example_csv_data
            example_flight_store))
  = Ok (mkFlight 2 0 "Circuit" "CSV Import" "2025-07-30T21:05:41+02:00"
          "2025-07-30T21:05:42+02:00").
Proof.
  destruct (csv_import_flight_read_back no_faults "2025-07-30T21:05:41.000"
              example_csv_data example_flight_store
              (snd (ImportFlightFromCSV no_faults "2025-07-30T21:05:41.000"
                      example_csv_data example_flight_store))
              (mkFlight 2 0 "Circuit" "CSV Import" "7/30/2025 9:05:41 PM"
                 "7/30/2025 9:05:41 PM") example_flight_store_ok eq_refl)
    as (_ & _ & first & Hfirst & Hflight & _).
  injection Hfirst as <-. exact Hflight.
Defined.

Lemma csv_import_positions_read_back_witness :
  exists records points,
    Permutation (Records example_csv_data) records /\
    Sorted (fun a b => csv_timestamp a <= csv_timestamp b) records /\
    getPositionDataWithAirspeedFromMainDB (fun _ => None) 2
      (snd (ImportFlightFromCSV no_faults "2025-07-30T21:05:41.000" example_csv_data
              example_flight_store)) = Some points /\
    Forall2 shows_record records points.
Proof.
  apply (csv_import_positions_read_back (fun _ => None) no_faults
           "2025-07-30T21:05:41.000" example_csv_data example_flight_store _
           (mkFlight 2 0 "Circuit" "CSV Import" "7/30/2025 9:05:41 PM"
              "7/30/2025 9:05:41 PM")).
  - exact example_flight_store_ok.
  - vm_compute. reflexivity.
Defined.

Lemma parsed_csv_rows_below_header_witness :
  exists records (n : nat),
    Some example_csv_rows = Some records /\ (3 <= length records)%nat /\
    nth_error records n = Some (Headers example_parsed_csv) /\
    SkipRows example_csv_options <= Z.of_nat n /\
    containsFlightDataHeaders (Headers example_parsed_csv) = true /\
    (forall (m : nat) row,
        (m < n)%nat -> nth_error records m = Some row ->
        SkipRows example_csv_options <= Z.of_nat m ->
        containsFlightDataHeaders row = false) /\
    Forall2 (from_row (fun s => s) example_ParseFloat (Headers example_parsed_csv))
      (as_wide_as (Headers example_parsed_csv) (skipn (S n) records))
      (Records example_parsed_csv) /\
    Records example_parsed_csv <> [] /\
    TotalRecords (Metadata example_parsed_csv)
    = Z.of_nat (length (Records example_parsed_csv)).
Proof.
  apply (parsed_csv_rows_below_header (fun s => s) example_ParseFloat Z 0 (Z.eqb 0)
           example_time_Parse example_Sub_Seconds (Some example_csv_rows)
           example_csv_options example_parsed_csv).
  vm_compute. reflexivity.
Defined.

Lemma csv_seconds_since_first_time_witness :
  map CSV_TimestampSeconds (Records example_parsed_csv)
  = relative_seconds Z example_time_Parse example_Sub_Seconds None
      (Records example_parsed_csv).
Proof.
  apply (csv_seconds_since_first_time (fun s => s) example_ParseFloat Z 0 (Z.eqb 0)
           example_time_Parse example_Sub_Seconds eq_refl example_time_not_zero
           (Some example_csv_rows) example_csv_options example_parsed_csv).
  vm_compute. reflexivity.
Defined.

Lemma uploaded_csv_is_one_flight_witness :
  let outcome :=
    importCSVFile no_faults "2025-07-30T21:05:41.000" replacement_character (fun s => s)
      example_ParseFloat Z 0 (Z.eqb 0) example_time_Parse example_Sub_Seconds
      (Some example_csv_rows) "uploaded_evening_circuit.csv" example_flight_store in
  (forall e, fst outcome = inl e -> snd outcome = example_flight_store) /\
  (forall fl, fst outcome = inr fl ->
     ValidateCSVStructure (Some example_csv_rows) = None /\
     Title fl = extractFlightTitle replacement_character "uploaded_evening_circuit.csv" /\
     exists csvData f a,
       ParseCSVFlightData (fun s => s) example_ParseFloat Z 0 (Z.eqb 0) example_time_Parse
         example_Sub_Seconds (Some example_csv_rows)
         (mkCSVImportOptions
            (extractFlightTitle replacement_character "uploaded_evening_circuit.csv")
            "Unknown" 2)
       = inr csvData /\
       grows example_flight_store (snd outcome) [f] [a]
         (csv_series (aircraft_id a) (Records csvData)) [] /\
       flight_id f = ID fl /\ flight_title f = Some (Title fl) /\
       aircraft_flight_id a = ID fl /\ aircraft_type a = "Unknown").
Proof.
  apply (uploaded_csv_is_one_flight no_faults "2025-07-30T21:05:41.000"
           replacement_character (fun s => s) example_ParseFloat Z 0 (Z.eqb 0)
           example_time_Parse example_Sub_Seconds (Some example_csv_rows)
           "uploaded_evening_circuit.csv" example_flight_store).
  unfold ascii_only. cbn. repeat constructor.
Defined.
